(** * njs-modbus: framers, encoders, server dispatch and client requests

    A shallow embedding of the protocol engine of njs-modbus (TypeScript)
    and the properties its specification states about it.

    Conventions of the embedding.
    - A JS number that the code uses as an integer is a [Z]; a [Buffer] is a
      list of bytes, each a [Z] in 0..255.
    - A Node call that throws ([RangeError] of [writeUInt8],
      [writeUInt16BE], [readUInt16BE] ...) returns [None].
    - An [Error] is its [message].
    - A promise that settles is the value it settles with: [Resolved v] or
      [Rejected e]; callbacks of the host act on an explicit host state. *)

From Stdlib Require Import ZArith List String Ascii Bool Lia.
Import ListNotations.
Open Scope Z_scope.
Open Scope list_scope.

Set Implicit Arguments.

(* ================================================================= *)
(** * Part I: definitions                                             *)
(* ================================================================= *)

(** ** Option as the exception monad of the Node buffer calls *)

Definition obind {A B} (o : option A) (k : A -> option B) : option B :=
  match o with
  | Some a => k a
  | None => None
  end.

Notation "x <- e ;; k" := (obind e (fun x => k))
  (at level 61, e at next level, right associativity).

(** ** Errors and settled promises *)

Record Error := mkError { message : string }.

Inductive Result (A : Type) : Type :=
| Resolved (a : A)
| Rejected (e : Error).
Arguments Resolved {A} a.
Arguments Rejected {A} e.

(** ** Node's Buffer *)

Module Buffer.

Definition t := list Z.

Definition len (b : t) : Z := Z.of_nat (List.length b).

(** [Buffer.alloc(n)]: n zero bytes. *)
Definition alloc (n : Z) : t := repeat 0 (Z.to_nat n).

(** [buf[i]] read: [undefined] out of range, which the callers below
    never reach; such a read is 0 here. *)
Definition get (b : t) (i : Z) : Z :=
  if i <? 0 then 0 else nth (Z.to_nat i) b 0.

(** [buf[i] = v] on a typed array: the low 8 bits are stored, and a store
    out of range does nothing. *)
Definition put (b : t) (i : Z) (v : Z) : t :=
  if (0 <=? i) && (i <? len b)
  then firstn (Z.to_nat i) b ++ (v mod 256) :: skipn (S (Z.to_nat i)) b
  else b.

(** [Buffer.from(array)]: every element is taken modulo 256. *)
Definition from (l : list Z) : t := map (fun v => v mod 256) l.

(** Relative index of [subarray] and [slice]. *)
Definition rel_index (n i : Z) : Z :=
  if i <? 0 then Z.max (n + i) 0 else Z.min i n.

Definition subarray (b : t) (s e : Z) : t :=
  let s' := rel_index (len b) s in
  let e' := rel_index (len b) e in
  firstn (Z.to_nat (e' - s')) (skipn (Z.to_nat s') b).

(** [buf.subarray(s)] *)
Definition subarray_from (b : t) (s : Z) : t := subarray b s (len b).

Definition writeUInt8 (v off : Z) (b : t) : option t :=
  if (0 <=? v) && (v <=? 255) && (0 <=? off) && (off + 1 <=? len b)
  then Some (put b off v)
  else None.

Definition writeUInt16BE (v off : Z) (b : t) : option t :=
  if (0 <=? v) && (v <=? 65535) && (0 <=? off) && (off + 2 <=? len b)
  then Some (put (put b off (Z.shiftr v 8)) (off + 1) (Z.land v 255))
  else None.

Definition writeUInt16LE (v off : Z) (b : t) : option t :=
  if (0 <=? v) && (v <=? 65535) && (0 <=? off) && (off + 2 <=? len b)
  then Some (put (put b off (Z.land v 255)) (off + 1) (Z.shiftr v 8))
  else None.

Definition readUInt16BE (b : t) (off : Z) : option Z :=
  if (0 <=? off) && (off + 2 <=? len b)
  then Some (get b off * 256 + get b (off + 1))
  else None.

Definition readUInt16LE (b : t) (off : Z) : option Z :=
  if (0 <=? off) && (off + 2 <=? len b)
  then Some (get b off + get b (off + 1) * 256)
  else None.

(** [data.forEach((num, index) => buffer.writeUInt8(num, base + index))] *)
Fixpoint write_each (nums : list Z) (off : Z) (b : t) : option t :=
  match nums with
  | [] => Some b
  | n :: rest => b' <- writeUInt8 n off b ;; write_each rest (off + 1) b'
  end.

End Buffer.

(** ** The ADU and the decoded frame *)

Record ApplicationDataUnit := mkADU {
  transaction : option Z;
  unit : Z;
  fc : Z;
  data : list Z
}.

(** [ApplicationDataUnit & { buffer: Buffer }] *)
Record Frame := mkFrame {
  frame_adu :> ApplicationDataUnit;
  buffer : Buffer.t
}.

(** ** Shared utilities *)

(** [ToInt32], the operand conversion of the JS bitwise operators. *)
Definition toInt32 (x : Z) : Z := (x + 2 ^ 31) mod 2 ^ 32 - 2 ^ 31.

(** utils/lrc.ts: [(~data.reduce((sum, n) => sum + n, 0) + 1) & 0xff] *)
Definition lrc (data : Buffer.t) : Z :=
  Z.land (toInt32 (Z.lnot (toInt32 (fold_left Z.add data 0)) + 1)) 255.

(** Modelled from the spec: the function [crc] of utils, which the RTU layer
    imports and whose file is not among the source files.  The spec:
    CRC-16 (MODBUS), polynomial 0xA001, initial value 0xFFFF, reflected. *)
Definition crc_shift (c : Z) : Z :=
  if Z.testbit c 0 then Z.lxor (Z.shiftr c 1) 40961 else Z.shiftr c 1.

Definition crc_step (c byte : Z) : Z :=
  Nat.iter 8 crc_shift (Z.lxor c byte).

Definition crc (data : Buffer.t) : Z := fold_left crc_step data 65535.

(** ** Response-wait mode: the pre-check pipeline *)

(** What a pre-check returns: [boolean | number | undefined]. *)
Inductive CheckResult :=
| CBool (b : bool)
| CNumber (n : Z)
| CUndefined.

Definition PreCheck := Frame -> CheckResult.

(** What the callback of a wait did to the layer when it was called: the
    callback that ModbusMaster registers calls [stopWaitingResponse]. *)
Inductive Reaction := KeepWaiting | StopWaiting.

Record WaitingResponse := mkWaiting {
  preCheck : list PreCheck;
  callback : Result Frame -> Reaction
}.

(** What a layer hands over for one decode attempt: the arguments of
    [callback(error, frame)]. *)
Definition Decoded := Result Frame.

Definition fail (msg : string) : Decoded := Rejected (mkError msg).

(** What leaves a layer on a burst. *)
Inductive Delivery :=
| ToCallback (r : Decoded)      (* this._waitingResponse.callback(error, frame) *)
| EmitFraming (f : Frame).      (* this.emit('framing', frame, response) *)

(** JS truthiness of a pre-check result, for [if (!res)]. *)
Definition falsy (r : CheckResult) : bool :=
  match r with
  | CBool b => negb b
  | CNumber n => n =? 0
  | CUndefined => true
  end.

(** ** RTU application layer (layers/application/rtu-application-layer.ts) *)

Module RtuApplicationLayer.

Record State := mkState {
  _waitingResponse : option WaitingResponse;
  _bufferRx : Buffer.t;
  (** whether [_timerThreePointFive] is armed *)
  _timerThreePointFive : bool
}.

Definition initial : State := mkState None [] false.

(** The [for (const check of this._waitingResponse.preCheck)] loop;
    [Some r]: [callback(r); return]. *)
Fixpoint run_preCheck (checks : list PreCheck) (frame : Frame) : option Decoded :=
  match checks with
  | [] => None
  | check :: rest =>
      match check frame with
      | CUndefined => Some (fail "Insufficient data length")
      | CNumber res =>
          if res <? Buffer.len (data frame)
          then Some (fail "Insufficient data length")
          else if negb (res =? Buffer.len (data frame))
          then Some (fail "Invalid response")
          else if falsy (CNumber res)
          then Some (fail "Invalid response")
          else run_preCheck rest frame
      | CBool b =>
          if falsy (CBool b)
          then Some (fail "Invalid response")
          else run_preCheck rest frame
      end
  end.

Definition framing (w : option WaitingResponse) (buffer : Buffer.t) : Decoded :=
  if 4 <=? Buffer.len buffer then
    let frame :=
      mkFrame (mkADU None (Buffer.get buffer 0) (Buffer.get buffer 1)
                     (Buffer.subarray buffer 2 (Buffer.len buffer - 2)))
              buffer in
    match match w with
          | Some wr => run_preCheck (preCheck wr) frame
          | None => None
          end with
    | Some r => r
    | None =>
        let crcPassed :=
          match Buffer.readUInt16LE buffer (Buffer.len buffer - 2) with
          | Some v => v =? crc (Buffer.subarray buffer 0 (Buffer.len buffer - 2))
          | None => false
          end in
        if crcPassed then Resolved frame else fail "CRC check failed"
    end
  else fail "Insufficient data length".

Definition encode (d : ApplicationDataUnit) : option Buffer.t :=
  let buffer := Buffer.alloc (Buffer.len (data d) + 4) in
  b1 <- Buffer.writeUInt8 (unit d) 0 buffer ;;
  b2 <- Buffer.writeUInt8 (fc d) 1 b1 ;;
  b3 <- Buffer.write_each (data d) 2 b2 ;;
  Buffer.writeUInt16LE (crc (Buffer.subarray b3 0 (-2))) (Buffer.len b3 - 2) b3.

Definition startWaitingResponse (w : WaitingResponse) (s : State) : State :=
  mkState (Some w) [] false.

Definition stopWaitingResponse (s : State) : State :=
  mkState None (_bufferRx s) (_timerThreePointFive s).

Definition react (r : Reaction) (s : State) : State :=
  match r with
  | KeepWaiting => s
  | StopWaiting => stopWaitingResponse s
  end.

(** The inner [handleData] of the not-waiting branch: run at once when
    [threePointFiveT] is 0, else when the timer fires. *)
Definition flush (s : State) : State * list Delivery :=
  let out :=
    match framing (_waitingResponse s) (_bufferRx s) with
    | Resolved frame => [EmitFraming frame]
    | Rejected _ => []
    end in
  (mkState (_waitingResponse s) [] false, out).

(** The ['data'] listener. *)
Definition handleData (threePointFiveT : Z) (chunk : Buffer.t) (s : State)
  : State * list Delivery :=
  let s1 := mkState (_waitingResponse s) (_bufferRx s ++ chunk) (_timerThreePointFive s) in
  match _waitingResponse s1 with
  | Some wr =>
      match framing (_waitingResponse s1) (_bufferRx s1) with
      | Rejected (mkError "Insufficient data length") => (s1, [])
      | r =>
          let s2 := react (callback wr r) s1 in
          (mkState (_waitingResponse s2) [] (_timerThreePointFive s2), [ToCallback r])
      end
  | None =>
      if threePointFiveT =? 0
      then flush (mkState None (_bufferRx s1) false)
      else (mkState None (_bufferRx s1) true, [])
  end.

(** The timer fires. *)
Definition handleTimer (s : State) : State * list Delivery :=
  if _timerThreePointFive s then flush s else (s, []).

(** The ['close'] listener. *)
Definition handleClose (s : State) : State :=
  mkState (_waitingResponse s) [] false.

End RtuApplicationLayer.

(** ** MBAP/TCP application layer (layers/application/tcp-application-layer.ts) *)

Module TcpApplicationLayer.

Record State := mkState {
  _waitingResponse : option WaitingResponse;
  _transactionId : Z
}.

Definition initial : State := mkState None 1.

Fixpoint run_preCheck (checks : list PreCheck) (frame : Frame) : option Decoded :=
  match checks with
  | [] => None
  | check :: rest =>
      match check frame with
      | CUndefined => Some (fail "Insufficient data length")
      | CNumber res =>
          if res <? Buffer.len (data frame)
          then Some (fail "Insufficient data length")
          else if negb (res =? Buffer.len (data frame))
          then Some (fail "Invalid response")
          else if falsy (CNumber res)
          then Some (fail "Invalid response")
          else run_preCheck rest frame
      | CBool b =>
          if falsy (CBool b)
          then Some (fail "Invalid response")
          else run_preCheck rest frame
      end
  end.

Definition framing (w : option WaitingResponse) (buffer : Buffer.t) : Decoded :=
  if 8 <=? Buffer.len buffer then
    if (Buffer.get buffer 2 =? 0) && (Buffer.get buffer 3 =? 0)
       && match Buffer.readUInt16BE buffer 4 with
          | Some l => l =? Buffer.len buffer - 6
          | None => false
          end
    then
      let frame :=
        mkFrame (mkADU (Buffer.readUInt16BE buffer 0)
                       (Buffer.get buffer 6) (Buffer.get buffer 7)
                       (Buffer.subarray_from buffer 8))
                buffer in
      match match w with
            | Some wr => run_preCheck (preCheck wr) frame
            | None => None
            end with
      | Some r => r
      | None => Resolved frame
      end
    else fail "Invalid data"
  else fail "Insufficient data length".

(** [(this._transactionId + 1) % 256 || 1] *)
Definition next_transactionId (id : Z) : Z :=
  let n := Z.rem (id + 1) 256 in
  if n =? 0 then 1 else n.

(** [encode]: the buffer, or [None] when a write throws, and the layer
    after the call.  A throw leaves [_transactionId] as it was: the counter
    is advanced by the last statement. *)
Definition encode (d : ApplicationDataUnit) (s : State) : option Buffer.t * State :=
  let buffer := Buffer.alloc (Buffer.len (data d) + 8) in
  let written :=
    b1 <- Buffer.writeUInt16BE
            (match transaction d with Some t => t | None => _transactionId s end)
            0 buffer ;;
    b2 <- Buffer.writeUInt16BE 0 2 b1 ;;
    b3 <- Buffer.writeUInt16BE (Buffer.len (data d) + 2) 4 b2 ;;
    b4 <- Buffer.writeUInt8 (unit d) 6 b3 ;;
    b5 <- Buffer.writeUInt8 (fc d) 7 b4 ;;
    Buffer.write_each (data d) 8 b5 in
  match written with
  | Some b => (Some b, mkState (_waitingResponse s) (next_transactionId (_transactionId s)))
  | None => (None, s)
  end.

Definition startWaitingResponse (w : WaitingResponse) (s : State) : State :=
  mkState (Some w) (_transactionId s).

Definition stopWaitingResponse (s : State) : State :=
  mkState None (_transactionId s).

Definition react (r : Reaction) (s : State) : State :=
  match r with
  | KeepWaiting => s
  | StopWaiting => stopWaitingResponse s
  end.

(** The ['data'] listener. *)
Definition handleData (chunk : Buffer.t) (s : State) : State * list Delivery :=
  let r := framing (_waitingResponse s) chunk in
  match _waitingResponse s with
  | Some wr => (react (callback wr r) s, [ToCallback r])
  | None =>
      match r with
      | Resolved frame => (s, [EmitFraming frame])
      | Rejected _ => (s, [])
      end
  end.

(** A sequence of [encode] calls on one layer: for every call, the layer
    before it, its argument, what it returns and the layer after it. *)
Record Call := mkCall {
  before : State;
  argument : ApplicationDataUnit;
  returned : option Buffer.t;
  after : State
}.

Fixpoint calls (ds : list ApplicationDataUnit) (s : State) : list Call :=
  match ds with
  | [] => []
  | d :: rest =>
      let '(r, s') := encode d s in
      mkCall s d r s' :: calls rest s'
  end.

End TcpApplicationLayer.

(** ** ASCII application layer *)

Module AsciiApplicationLayer.

(** [CHAR_CODE] *)
Definition COLON : Z := 58.
Definition CR : Z := 13.
Definition LF : Z := 10.

Inductive Status := idle | reception | waiting_end.

Record State := mkState {
  _waitingResponse : option WaitingResponse;
  _status : Status;
  _frame : list Z
}.

Definition initial : State := mkState None idle [].

(** Value of a hexadecimal digit given by its character code. *)
Definition hex_value (c : Z) : option Z :=
  if (48 <=? c) && (c <=? 57) then Some (c - 48)
  else if (65 <=? c) && (c <=? 70) then Some (c - 55)
  else if (97 <=? c) && (c <=? 102) then Some (c - 87)
  else None.

(** The characters below U+0100 that [Number] strips from the ends of a
    string: TAB, LF, VT, FF, CR, SP and NBSP. *)
Definition is_white_space (c : Z) : bool :=
  ((9 <=? c) && (c <=? 13)) || (c =? 32) || (c =? 160).

(** [Number('0x' + num)] for the two characters of [num]; [None] is NaN.
    A trailing white space character is stripped by [Number], so that one
    hexadecimal digit followed by it is a number too. *)
Definition number_0x (c1 c2 : Z) : option Z :=
  match hex_value c1, hex_value c2 with
  | Some h1, Some h2 => Some (16 * h1 + h2)
  | Some h1, None => if is_white_space c2 then Some h1 else None
  | None, _ => None
  end.

(** The [for (const value of _buffer)] loop followed by
    [Buffer.from(ascii)], which stores NaN as 0. *)
Fixpoint unhex (chars : list Z) : Buffer.t :=
  match chars with
  | c1 :: c2 :: rest =>
      match number_0x c1 c2 with
      | Some n => n mod 256
      | None => 0
      end :: unhex rest
  | _ => []
  end.

(** The pre-check loop of this layer compares the other way round than
    the loops of the RTU and TCP layers. *)
Fixpoint run_preCheck (checks : list PreCheck) (frame : Frame) : option Decoded :=
  match checks with
  | [] => None
  | check :: rest =>
      match check frame with
      | CUndefined => Some (fail "Insufficient data length")
      | CNumber res =>
          if Buffer.len (data frame) <? res
          then Some (fail "Insufficient data length")
          else if negb (Buffer.len (data frame) =? res)
          then Some (fail "Invalid response")
          else if falsy (CNumber res)
          then Some (fail "Invalid response")
          else run_preCheck rest frame
      | CBool b =>
          if falsy (CBool b)
          then Some (fail "Invalid response")
          else run_preCheck rest frame
      end
  end.

Definition framing (w : option WaitingResponse) (_buffer : Buffer.t) : Decoded :=
  if 6 <=? Buffer.len _buffer then
    if Z.rem (Buffer.len _buffer) 2 =? 0 then
      let buffer := unhex _buffer in
      let frame :=
        mkFrame (mkADU None (Buffer.get buffer 0) (Buffer.get buffer 1)
                       (Buffer.subarray buffer 2 (Buffer.len buffer - 1)))
                _buffer in
      match match w with
            | Some wr => run_preCheck (preCheck wr) frame
            | None => None
            end with
      | Some r => r
      | None =>
          let lrcPassed :=
            Buffer.get buffer (Buffer.len buffer - 1)
            =? lrc (Buffer.subarray buffer 0 (Buffer.len buffer - 1)) in
          if lrcPassed then Resolved frame else fail "LRC check failed"
      end
    else fail "Invalid data"
  else fail "Insufficient data length".

(** Character code of the upper-case hexadecimal digit [n], 0 <= n < 16. *)
Definition hex_digit (n : Z) : Z := if n <? 10 then 48 + n else 55 + n.

(** [value.toString(16).toUpperCase().padStart(2, '0')] for a byte. *)
Definition hex2 (value : Z) : list Z :=
  [hex_digit (value / 16); hex_digit (value mod 16)].

Definition encode (d : ApplicationDataUnit) : option Buffer.t :=
  let buffer := Buffer.alloc (Buffer.len (data d) + 3) in
  b1 <- Buffer.writeUInt8 (unit d) 0 buffer ;;
  b2 <- Buffer.writeUInt8 (fc d) 1 b1 ;;
  b3 <- Buffer.write_each (data d) 2 b2 ;;
  b4 <- Buffer.writeUInt8 (lrc (Buffer.subarray b3 0 (-1))) (Buffer.len b3 - 1) b3 ;;
  Some (COLON :: flat_map hex2 b4 ++ [CR; LF]).

Definition startWaitingResponse (w : WaitingResponse) (s : State) : State :=
  mkState (Some w) idle [].

Definition stopWaitingResponse (s : State) : State :=
  mkState None (_status s) (_frame s).

Definition react (r : Reaction) (s : State) : State :=
  match r with
  | KeepWaiting => s
  | StopWaiting => stopWaitingResponse s
  end.

(** One iteration of [data.forEach((value) => { switch (this._status) ... })]. *)
Definition step (value : Z) (s : State) : State * list Delivery :=
  match _status s with
  | idle =>
      if value =? COLON
      then (mkState (_waitingResponse s) reception [], [])
      else (s, [])
  | reception =>
      if value =? COLON
      then (mkState (_waitingResponse s) reception [], [])
      else if value =? CR
      then (mkState (_waitingResponse s) waiting_end (_frame s), [])
      else (mkState (_waitingResponse s) reception (_frame s ++ [value]), [])
  | waiting_end =>
      if value =? COLON
      then (mkState (_waitingResponse s) reception [], [])
      else
        let s1 := mkState (_waitingResponse s) idle (_frame s) in
        if value =? LF then
          let r := framing (_waitingResponse s1) (Buffer.from (_frame s1)) in
          match _waitingResponse s1 with
          | Some wr => (react (callback wr r) s1, [ToCallback r])
          | None =>
              match r with
              | Resolved frame => (s1, [EmitFraming frame])
              | Rejected _ => (s1, [])
              end
          end
        else (s1, [])
  end.

(** The ['data'] listener. *)
Fixpoint handleData (chunk : Buffer.t) (s : State) : State * list Delivery :=
  match chunk with
  | [] => (s, [])
  | value :: rest =>
      let '(s1, out1) := step value s in
      let '(s2, out2) := handleData rest s1 in
      (s2, out1 ++ out2)
  end.

(** The ['close'] listener. *)
Definition handleClose (s : State) : State :=
  mkState (_waitingResponse s) idle [].

End AsciiApplicationLayer.

(** The ASCII layer in the variant without the response-wait mode: its
    scanner is the same, its ['close'] listener is not. *)

Module AsciiApplicationLayerNoWait.

Import AsciiApplicationLayer.

Definition framing (_buffer : Buffer.t) : option Frame :=
  if (6 <=? Buffer.len _buffer) && (Z.rem (Buffer.len _buffer) 2 =? 0) then
    let buffer := unhex _buffer in
    let lrcPassed :=
      Buffer.get buffer (Buffer.len buffer - 1)
      =? lrc (Buffer.subarray buffer 0 (Buffer.len buffer - 1)) in
    if lrcPassed
    then Some (mkFrame (mkADU None (Buffer.get buffer 0) (Buffer.get buffer 1)
                              (Buffer.subarray buffer 2 (Buffer.len buffer - 1)))
                       _buffer)
    else None
  else None.

Record State := mkState {
  _status : Status;
  _frame : list Z
}.

Definition initial : State := mkState idle [].

Definition step (value : Z) (s : State) : State * list Frame :=
  match _status s with
  | idle =>
      if value =? COLON then (mkState reception [], []) else (s, [])
  | reception =>
      if value =? COLON then (mkState reception [], [])
      else if value =? CR then (mkState waiting_end (_frame s), [])
      else (mkState reception (_frame s ++ [value]), [])
  | waiting_end =>
      if value =? COLON then (mkState reception [], [])
      else
        let s1 := mkState idle (_frame s) in
        if value =? LF then
          match framing (Buffer.from (_frame s1)) with
          | Some frame => (s1, [frame])
          | None => (s1, [])
          end
        else (s1, [])
  end.

Fixpoint handleData (chunk : Buffer.t) (s : State) : State * list Frame :=
  match chunk with
  | [] => (s, [])
  | value :: rest =>
      let '(s1, out1) := step value s in
      let '(s2, out2) := handleData rest s1 in
      (s2, out1 ++ out2)
  end.

(** The ['close'] listener of this variant. *)
Definition handleClose (s : State) : State :=
  mkState reception [].

End AsciiApplicationLayerNoWait.

(** ** Exception codes (error-code.ts) *)

Module ErrorCode.

Definition ILLEGAL_FUNCTION : Z := 1.
Definition ILLEGAL_DATA_ADDRESS : Z := 2.
Definition ILLEGAL_DATA_VALUE : Z := 3.
Definition SERVER_DEVICE_FAILURE : Z := 4.
Definition SERVER_DEVICE_BUSY : Z := 6.



Definition PREFIX : string := "MODBUS_ERROR_CODE_".

(** Character code of a character of a string. *)
Definition char_code (a : ascii) : Z := Z.of_nat (nat_of_ascii a).

(** String of a number that is a non-negative integer, as [PREFIX + code]
    converts it: its decimal digits. *)
Fixpoint digits_fuel (fuel : nat) (n : Z) (acc : string) : string :=
  match fuel with
  | O => acc
  | Datatypes.S fuel' =>
      let acc' := String (ascii_of_nat (Z.to_nat (48 + n mod 10))) acc in
      if n <? 10 then acc' else digits_fuel fuel' (n / 10) acc'
  end.

Definition number_to_string (n : Z) : string :=
  if n <? 0
  then String "-" (digits_fuel (Datatypes.S (Z.to_nat (Z.log2 (- n)))) (- n) EmptyString)
  else digits_fuel (Datatypes.S (Z.to_nat (Z.log2 n))) n EmptyString.

Definition getErrorByCode (code : Z) : Error :=
  mkError (PREFIX ++ number_to_string code).

(** Value of a string made of decimal digits only ([Some 0] for the empty
    string, as [Number('')] is 0); [None] for every other string. *)
Fixpoint decimal_value (s : string) (acc : Z) : option Z :=
  match s with
  | EmptyString => Some acc
  | String a rest =>
      let c := char_code a in
      if (48 <=? c) && (c <=? 57)
      then decimal_value rest (10 * acc + (c - 48))
      else None
  end.

Section WithNumber.

(** [Number(s)] of JS is computed here for the strings of decimal
    digits.  What it yields for the other strings (signs, white space,
    fractions, exponents, other radices, and NaN for what is no number)
    is left to this parameter. *)
Variable Number_other : string -> Z.

Definition Number (s : string) : Z :=
  match decimal_value s 0 with
  | Some n => n
  | None => Number_other s
  end.

Definition getCodeByError (err : Error) : Z :=
  if String.prefix PREFIX (message err)
  then Number (String.substring (String.length PREFIX)
                 (String.length (message err) - String.length PREFIX)
                 (message err))
  else SERVER_DEVICE_FAILURE.

End WithNumber.

End ErrorCode.

(** ** Address ranges (utils/checkRange.ts) *)

(** [[number, number] | [number, number][]] *)
Inductive Range :=
| Interval (lo hi : Z)
| Intervals (rs : list (Z * Z)).

(** [number | number[]] *)
Inductive Queried :=
| One (n : Z)
| Several (ns : list Z).

(** [Array.isArray(value) ? value : [value]] *)
Definition as_array (value : Queried) : list Z :=
  match value with
  | One n => [n]
  | Several ns => ns
  end.

Definition within (lo hi : Z) (value : Queried) : bool :=
  forallb (fun n => (n >=? lo) && (n <=? hi)) (as_array value).

(** The [for (const r of range)] loop with its [return true] and the
    [return false] after it. *)
Fixpoint some_interval (value : Queried) (rs : list (Z * Z)) : bool :=
  match rs with
  | [] => false
  | (lo, hi) :: rest =>
      if (lo <? hi) && within lo hi value then true else some_interval value rest
  end.

Definition checkRange (value : Queried) (range : option Range) : bool :=
  match range with
  | Some (Interval lo hi) => if lo <? hi then within lo hi value else true
  | Some (Intervals rs) =>
      if 0 <? Z.of_nat (List.length rs) then some_interval value rs else true
  | None => true
  end.

(** ** The unit model of the server ([ModbusSlaveModel]) *)

(** A callback of the host, called on the host state; it settles with a
    value or with a rejection. *)
Definition Async (S A : Type) : Type := S -> Result A * S.

(** [ServerId] *)
Record ServerId := mkServerId {
  serverId : option Z;
  runIndicatorStatus : option bool;
  additionalData : option (list Z)
}.

Module ModbusSlaveModel.

Record AddressRange := mkAddressRange {
  discreteInputs : option Range;
  coils : option Range;
  inputRegisters : option Range;
  holdingRegisters : option Range
}.

Section WithHost.

Variable S : Type.

Record t := mk {
  unit : option Z;
  interceptor : option (Z -> list Z -> Async S (option (list Z)));
  readDiscreteInputs : option (Z -> Z -> Async S (list bool));
  readCoils : option (Z -> Z -> Async S (list bool));
  writeSingleCoil : option (Z -> bool -> Async S Datatypes.unit);
  writeMultipleCoils : option (Z -> list bool -> Async S Datatypes.unit);
  readInputRegisters : option (Z -> Z -> Async S (list Z));
  readHoldingRegisters : option (Z -> Z -> Async S (list Z));
  writeSingleRegister : option (Z -> Z -> Async S Datatypes.unit);
  writeMultipleRegisters : option (Z -> list Z -> Async S Datatypes.unit);
  maskWriteRegister : option (Z -> Z -> Z -> Async S Datatypes.unit);
  reportServerId : option (Async S ServerId);
  (** the entries of the object that the callback yields, each key read
      with [parseInt] (an entry whose key is no number is left out) *)
  readDeviceIdentification : option (Async S (list (Z * string)));
  getAddressRange : option (S -> AddressRange)
}.

End WithHost.

Arguments mk {S}.

End ModbusSlaveModel.

(** ** The server (ModbusSlave) *)

Module ModbusSlave.

(** The error of a Node call that throws; its message does not start with
    [ErrorCode.PREFIX]. *)
Definition RangeError : Error := mkError "ERR_OUT_OF_RANGE".

(** [{ ...frame, data }] *)
Definition with_data (frame : ApplicationDataUnit) (d : list Z) : ApplicationDataUnit :=
  mkADU (transaction frame) (unit frame) (fc frame) d.

(** [{ ...frame, fc: frame.fc | 0x80, data: [code] }] *)
Definition exception (frame : ApplicationDataUnit) (code : Z) : ApplicationDataUnit :=
  mkADU (transaction frame) (unit frame) (Z.lor (fc frame) 128) [code].

(** [Math.ceil(n / 8)] for n >= 0. *)
Definition ceil8 (n : Z) : Z := (n + 7) / 8.

(** [coils.forEach((coil, index) => { if (coil) bufferTx[~~(index / 8)] |= 1 << index % 8 })] *)
Fixpoint pack_bits (coils : list bool) (index : Z) (bufferTx : Buffer.t) : Buffer.t :=
  match coils with
  | [] => bufferTx
  | coil :: rest =>
      pack_bits rest (index + 1)
        (if coil
         then Buffer.put bufferTx (index / 8)
                (Z.lor (Buffer.get bufferTx (index / 8)) (Z.shiftl 1 (index mod 8)))
         else bufferTx)
  end.

(** [registers.forEach((register, index) => bufferTx.writeUInt16BE(register, index * 2))] *)
Fixpoint write_registers (registers : list Z) (index : Z) (bufferTx : Buffer.t)
  : option Buffer.t :=
  match registers with
  | [] => Some bufferTx
  | register :: rest =>
      b <- Buffer.writeUInt16BE register (index * 2) bufferTx ;;
      write_registers rest (index + 1) b
  end.

(** [Array.from({ length }).map((_, index) => f index)] *)
Definition tabulate {A} (length : Z) (f : Z -> A) : list A :=
  map (fun i => f (Z.of_nat i)) (seq 0 (Z.to_nat length)).

(** [Array.from(bufferRx).slice(0, 4)] *)
Definition slice4 (b : Buffer.t) : list Z := firstn 4 b.

(** [[value]] of the array that [readHoldingRegisters] yields; an absent
    element is [undefined], 0 under the bitwise operators. *)
Definition first_register (registers : list Z) : Z :=
  match registers with
  | value :: _ => value
  | [] => 0
  end.

(** The value that the fallback of function code 22 writes back:
    [(value & andMask) | (orMask & (~andMask & 0xff))] *)
Definition masked (value andMask orMask : Z) : Z :=
  Z.lor (Z.land value andMask) (Z.land orMask (Z.land (Z.lnot andMask) 255)).

(** Insertion sort for [ids.sort((a, b) => a - b)]. *)
Fixpoint insert_sorted (x : Z) (l : list Z) : list Z :=
  match l with
  | [] => [x]
  | y :: rest => if x <=? y then x :: l else y :: insert_sorted x rest
  end.

Definition sort (l : list Z) : list Z := fold_right insert_sorted [] l.

(** A [Map] in insertion order: [set] keeps the place of a key that is
    present. *)
Fixpoint map_set {A} (k : Z) (v : A) (m : list (Z * A)) : list (Z * A) :=
  match m with
  | [] => [(k, v)]
  | (k', v') :: rest =>
      if k' =? k then (k, v) :: rest else (k', v') :: map_set k v rest
  end.

Fixpoint map_get {A} (k : Z) (m : list (Z * A)) : option A :=
  match m with
  | [] => None
  | (k', v) :: rest => if k' =? k then Some v else map_get k rest
  end.

Definition map_has {A} (k : Z) (m : list (Z * A)) : bool :=
  match map_get k m with
  | Some _ => true
  | None => false
  end.

Definition map_delete {A} (k : Z) (m : list (Z * A)) : list (Z * A) :=
  filter (fun kv => negb (fst kv =? k)) m.

(** Bytes of a string ([Buffer.from(value)]); a string is taken as a
    sequence of one-byte characters, so that its length is their number. *)
Definition string_bytes (s : string) : list Z :=
  map ErrorCode.char_code (list_ascii_of_string s).

Definition string_length (s : string) : Z := Z.of_nat (String.length s).

(** *** Read Device Identification: the walk over the objects *)

Record Walk := mkWalk {
  ids : list Z;
  totalLength : Z;
  lastID : Z;
  conformityLevel : Z
}.

(** The [for (const [id, value] of objects.entries())] loop; [None] is
    its [responseError(SERVER_DEVICE_FAILURE); return]. *)
Fixpoint walk (readDeviceIDCode objectID : Z) (objects : list (Z * string)) (st : Walk)
  : option Walk :=
  match objects with
  | [] => Some st
  | (id, value) :: rest =>
      if (id <? 0) || ((id >=? 7) && (id <=? 127)) || (id >? 255) then None
      else
        let c1 := if id >? 2 then 130 else conformityLevel st in
        let c2 := if id >? 128 then 131 else c1 in
        let st1 := mkWalk (ids st) (totalLength st) (lastID st) c2 in
        if objectID >? id then walk readDeviceIDCode objectID rest st1
        else if string_length value >? 245 then None
        else if negb (lastID st1 =? 0) then walk readDeviceIDCode objectID rest st1
        else if string_length value + 2 >? 253 - totalLength st1 then
          walk readDeviceIDCode objectID rest
            (mkWalk (ids st1) (totalLength st1)
                    (if lastID st1 =? 0 then id else lastID st1) (conformityLevel st1))
        else
          let st2 := mkWalk (ids st1 ++ [id]) (totalLength st1 + (string_length value + 2))
                            (lastID st1) (conformityLevel st1) in
          if readDeviceIDCode =? 4 then Some st2
          else walk readDeviceIDCode objectID rest st2
  end.

(** The [Map] seeded with the three mandatory objects and filled with the
    entries of the identification whose id is in 0..255. *)
Definition device_objects (identification : list (Z * string)) : list (Z * string) :=
  fold_left
    (fun objects kv =>
       if (fst kv >=? 0) && (fst kv <=? 255)
       then map_set (fst kv) (snd kv) objects
       else objects)
    identification
    [(0, "null"%string); (1, "null"%string); (2, "null"%string)].

(** [ids.map((id) => [id, value.length].concat(bytes of value)).flat()] *)
Definition object_bytes (objects : list (Z * string)) (chosen : list Z) : list Z :=
  flat_map
    (fun id =>
       match map_get id objects with
       | Some value => [id; string_length value] ++ string_bytes value
       | None => []
       end)
    chosen.

(** The [switch (readDeviceIDCode)] that adjusts [objectID]; [inl code]
    is its [responseError(code); return]. *)
Definition adjust_objectID (readDeviceIDCode objectID : Z) : Z + Z :=
  let reserved := (objectID >? 6) && (objectID <? 128) in
  if readDeviceIDCode =? 1 then
    inr (if (objectID >? 2) || reserved then 0 else objectID)
  else if readDeviceIDCode =? 2 then
    inr (if (objectID >=? 128) || reserved then 0 else objectID)
  else if readDeviceIDCode =? 3 then
    inr (if reserved then 0 else objectID)
  else if readDeviceIDCode =? 4 then
    if reserved then inl ErrorCode.ILLEGAL_DATA_ADDRESS else inr objectID
  else inl ErrorCode.ILLEGAL_DATA_VALUE.

Section Server.

(** The state of the host behind the model callbacks, and the state of
    the application layer that the server encodes with. *)
Variables S L : Type.

(** [this.applicationLayer.encode] *)
Variable encode : ApplicationDataUnit -> L -> option Buffer.t * L.

Variable Number_other : string -> Z.

Record World := mkWorld {
  host : S;
  layer : L;
  (** what was handed to the transport's reply closure, in order *)
  wire : list Buffer.t
}.

(** A computation of the server: it settles with a value, or with the
    error thrown or rejected, and leaves a world. *)
Definition M (A : Type) : Type := World -> Result A * World.

Definition ret {A} (a : A) : M A := fun w => (Resolved a, w).

Definition throw {A} (e : Error) : M A := fun w => (Rejected e, w).

Definition bind {A B} (m : M A) (k : A -> M B) : M B :=
  fun w =>
    match m w with
    | (Resolved a, w') => k a w'
    | (Rejected e, w') => (Rejected e, w')
    end.

(** [try { m } catch (error) { h(error) }], and [p.catch(h)] *)
Definition catch {A} (m : M A) (h : Error -> M A) : M A :=
  fun w =>
    match m w with
    | (Resolved a, w') => (Resolved a, w')
    | (Rejected e, w') => h e w'
    end.

Notation "'let*' x ':=' m 'in' k" := (bind m (fun x => k))
  (at level 10, x name, m at level 100, k at level 200).

Definition done : M Datatypes.unit := ret tt.

(** [Promise.resolve(callback(...))] *)
Definition call {A} (c : Async S A) : M A :=
  fun w =>
    let '(r, s') := c (host w) in
    (r, mkWorld s' (layer w) (wire w)).

(** A Node call that may throw. *)
Definition node {A} (o : option A) : M A :=
  match o with
  | Some a => ret a
  | None => throw RangeError
  end.

(** [_response(data)]: the reply closure of the transport. *)
Definition _response (bytes : Buffer.t) : M Datatypes.unit :=
  fun w => (Resolved tt, mkWorld (host w) (layer w) (wire w ++ [bytes])).

(** The closure [response] that the framing listener builds:
    [if (frame.unit === 0x00) return; try { await _response(data) } catch (error) {}] *)
Definition response (frame : ApplicationDataUnit) (bytes : Buffer.t) : M Datatypes.unit :=
  if unit frame =? 0 then done
  else catch (_response bytes) (fun _ => done).

Definition Reply := Buffer.t -> M Datatypes.unit.

(** [response(this.applicationLayer.encode(adu))] *)
Definition respond (reply : Reply) (adu : ApplicationDataUnit) : M Datatypes.unit :=
  fun w =>
    match encode adu (layer w) with
    | (Some bytes, l') => reply bytes (mkWorld (host w) l' (wire w))
    | (None, l') => (Rejected RangeError, mkWorld (host w) l' (wire w))
    end.

Definition getCodeByError := ErrorCode.getCodeByError Number_other.

Definition responseError (frame : ApplicationDataUnit) (reply : Reply) (error : Error)
  : M Datatypes.unit :=
  respond reply (exception frame (getCodeByError error)).

(** [model.getAddressRange?.()] followed by the selection of a field *)
Definition addressRange (model : ModbusSlaveModel.t S)
           (field : ModbusSlaveModel.AddressRange -> option Range)
  : M (option Range) :=
  fun w =>
    (Resolved match ModbusSlaveModel.getAddressRange model with
              | Some f => field (f (host w))
              | None => None
              end, w).

(** [Promise.all(value.map((v, i) => single(address + i, v)))]: every
    call is made, in order; the first rejection is the rejection of the
    whole. *)
Fixpoint all {A} (single : Z -> A -> Async S Datatypes.unit) (address : Z) (value : list A)
  : M Datatypes.unit :=
  match value with
  | [] => done
  | v :: rest =>
      fun w =>
        match call (single address v) w with
        | (Resolved _, w1) => all single (address + 1) rest w1
        | (Rejected e, w1) => (Rejected e, snd (all single (address + 1) rest w1))
        end
  end.

Definition handleFC1 (model : ModbusSlaveModel.t S) (frame : ApplicationDataUnit) (reply : Reply)
  : M Datatypes.unit :=
  if Buffer.len (data frame) =? 4 then
    match ModbusSlaveModel.readCoils model with
    | Some readCoils =>
        let bufferRx := Buffer.from (data frame) in
        let* address := node (Buffer.readUInt16BE bufferRx 0) in
        let* length := node (Buffer.readUInt16BE bufferRx 2) in
        if (length >=? 1) && (length <=? 2000) then
          let* range := addressRange model ModbusSlaveModel.coils in
          if checkRange (Several [address; address + length]) range then
            catch
              (let* coils := call (readCoils address length) in
               let bufferTx := pack_bits coils 0 (Buffer.alloc (ceil8 length)) in
               respond reply (with_data frame (Buffer.len bufferTx :: bufferTx)))
              (fun error => responseError frame reply error)
          else responseError frame reply (ErrorCode.getErrorByCode ErrorCode.ILLEGAL_DATA_ADDRESS)
        else responseError frame reply (ErrorCode.getErrorByCode ErrorCode.ILLEGAL_DATA_VALUE)
    | None => responseError frame reply (ErrorCode.getErrorByCode ErrorCode.ILLEGAL_FUNCTION)
    end
  else done.

Definition handleFC2 (model : ModbusSlaveModel.t S) (frame : ApplicationDataUnit) (reply : Reply)
  : M Datatypes.unit :=
  if Buffer.len (data frame) =? 4 then
    match ModbusSlaveModel.readDiscreteInputs model with
    | Some readDiscreteInputs =>
        let bufferRx := Buffer.from (data frame) in
        let* address := node (Buffer.readUInt16BE bufferRx 0) in
        let* length := node (Buffer.readUInt16BE bufferRx 2) in
        if (length >=? 1) && (length <=? 2000) then
          let* range := addressRange model ModbusSlaveModel.discreteInputs in
          if checkRange (Several [address; address + length]) range then
            catch
              (let* discreteInputs := call (readDiscreteInputs address length) in
               let bufferTx := pack_bits discreteInputs 0 (Buffer.alloc (ceil8 length)) in
               respond reply (with_data frame (Buffer.len bufferTx :: bufferTx)))
              (fun error => responseError frame reply error)
          else responseError frame reply (ErrorCode.getErrorByCode ErrorCode.ILLEGAL_DATA_ADDRESS)
        else responseError frame reply (ErrorCode.getErrorByCode ErrorCode.ILLEGAL_DATA_VALUE)
    | None => responseError frame reply (ErrorCode.getErrorByCode ErrorCode.ILLEGAL_FUNCTION)
    end
  else done.

(** The [.then] of the register reads: fill [bufferTx] and respond. *)
Definition respond_registers (frame : ApplicationDataUnit) (reply : Reply)
           (length : Z) (registers : list Z) : M Datatypes.unit :=
  let* bufferTx := node (write_registers registers 0 (Buffer.alloc (length * 2))) in
  respond reply (with_data frame (Buffer.len bufferTx :: bufferTx)).

Definition handleFC3 (model : ModbusSlaveModel.t S) (frame : ApplicationDataUnit) (reply : Reply)
  : M Datatypes.unit :=
  if Buffer.len (data frame) =? 4 then
    match ModbusSlaveModel.readHoldingRegisters model with
    | Some readHoldingRegisters =>
        let bufferRx := Buffer.from (data frame) in
        let* address := node (Buffer.readUInt16BE bufferRx 0) in
        let* length := node (Buffer.readUInt16BE bufferRx 2) in
        if (length >=? 1) && (length <=? 125) then
          let* range := addressRange model ModbusSlaveModel.holdingRegisters in
          if checkRange (Several [address; address + length]) range then
            catch
              (let* registers := call (readHoldingRegisters address length) in
               respond_registers frame reply length registers)
              (fun error => responseError frame reply error)
          else responseError frame reply (ErrorCode.getErrorByCode ErrorCode.ILLEGAL_DATA_ADDRESS)
        else responseError frame reply (ErrorCode.getErrorByCode ErrorCode.ILLEGAL_DATA_VALUE)
    | None => responseError frame reply (ErrorCode.getErrorByCode ErrorCode.ILLEGAL_FUNCTION)
    end
  else done.

Definition handleFC4 (model : ModbusSlaveModel.t S) (frame : ApplicationDataUnit) (reply : Reply)
  : M Datatypes.unit :=
  if Buffer.len (data frame) =? 4 then
    match ModbusSlaveModel.readInputRegisters model with
    | Some readInputRegisters =>
        let bufferRx := Buffer.from (data frame) in
        let* address := node (Buffer.readUInt16BE bufferRx 0) in
        let* length := node (Buffer.readUInt16BE bufferRx 2) in
        if (length >=? 1) && (length <=? 125) then
          let* range := addressRange model ModbusSlaveModel.inputRegisters in
          if checkRange (Several [address; address + length]) range then
            catch
              (let* registers := call (readInputRegisters address length) in
               respond_registers frame reply length registers)
              (fun error => responseError frame reply error)
          else responseError frame reply (ErrorCode.getErrorByCode ErrorCode.ILLEGAL_DATA_ADDRESS)
        else responseError frame reply (ErrorCode.getErrorByCode ErrorCode.ILLEGAL_DATA_VALUE)
    | None => responseError frame reply (ErrorCode.getErrorByCode ErrorCode.ILLEGAL_FUNCTION)
    end
  else done.

Definition handleFC5 (model : ModbusSlaveModel.t S) (frame : ApplicationDataUnit) (reply : Reply)
  : M Datatypes.unit :=
  if Buffer.len (data frame) =? 4 then
    match ModbusSlaveModel.writeSingleCoil model with
    | Some writeSingleCoil =>
        let bufferRx := Buffer.from (data frame) in
        let* address := node (Buffer.readUInt16BE bufferRx 0) in
        let* value := node (Buffer.readUInt16BE bufferRx 2) in
        if (value =? 0) || (value =? 65280) then
          let* range := addressRange model ModbusSlaveModel.coils in
          if checkRange (One address) range then
            catch
              (let* _ := call (writeSingleCoil address (value =? 65280)) in
               respond reply frame)
              (fun error => responseError frame reply error)
          else responseError frame reply (ErrorCode.getErrorByCode ErrorCode.ILLEGAL_DATA_ADDRESS)
        else responseError frame reply (ErrorCode.getErrorByCode ErrorCode.ILLEGAL_DATA_VALUE)
    | None => responseError frame reply (ErrorCode.getErrorByCode ErrorCode.ILLEGAL_FUNCTION)
    end
  else done.

Definition handleFC6 (model : ModbusSlaveModel.t S) (frame : ApplicationDataUnit) (reply : Reply)
  : M Datatypes.unit :=
  if Buffer.len (data frame) =? 4 then
    match ModbusSlaveModel.writeSingleRegister model with
    | Some writeSingleRegister =>
        let bufferRx := Buffer.from (data frame) in
        let* address := node (Buffer.readUInt16BE bufferRx 0) in
        let* value := node (Buffer.readUInt16BE bufferRx 2) in
        if (value >=? 0) && (value <=? 65535) then
          let* range := addressRange model ModbusSlaveModel.holdingRegisters in
          if checkRange (One address) range then
            catch
              (let* _ := call (writeSingleRegister address value) in
               respond reply frame)
              (fun error => responseError frame reply error)
          else responseError frame reply (ErrorCode.getErrorByCode ErrorCode.ILLEGAL_DATA_ADDRESS)
        else responseError frame reply (ErrorCode.getErrorByCode ErrorCode.ILLEGAL_DATA_VALUE)
    | None => responseError frame reply (ErrorCode.getErrorByCode ErrorCode.ILLEGAL_FUNCTION)
    end
  else done.

Definition handleFC15 (model : ModbusSlaveModel.t S) (frame : ApplicationDataUnit) (reply : Reply)
  : M Datatypes.unit :=
  if (Buffer.len (data frame) >? 5)
     && (Buffer.len (data frame) =? 5 + Buffer.get (data frame) 4) then
    match ModbusSlaveModel.writeMultipleCoils model, ModbusSlaveModel.writeSingleCoil model with
    | None, None =>
        responseError frame reply (ErrorCode.getErrorByCode ErrorCode.ILLEGAL_FUNCTION)
    | writeMultipleCoils, writeSingleCoil =>
        let bufferRx := Buffer.from (data frame) in
        let* address := node (Buffer.readUInt16BE bufferRx 0) in
        let* length := node (Buffer.readUInt16BE bufferRx 2) in
        let byteCount := Buffer.get bufferRx 4 in
        if (length >=? 1) && (length <=? 1968) && (byteCount =? ceil8 length) then
          let* range := addressRange model ModbusSlaveModel.coils in
          if checkRange (Several [address; address + length]) range then
            let value :=
              tabulate length
                (fun index =>
                   Z.land (Buffer.get bufferRx (5 + index / 8))
                          (Z.shiftl 1 (index mod 8)) >? 0) in
            catch
              (let* _ :=
                 match writeMultipleCoils, writeSingleCoil with
                 | Some multiple, _ => call (multiple address value)
                 | None, Some single => all single address value
                 | None, None => done
                 end in
               respond reply (with_data frame (slice4 bufferRx)))
              (fun error => responseError frame reply error)
          else responseError frame reply (ErrorCode.getErrorByCode ErrorCode.ILLEGAL_DATA_ADDRESS)
        else responseError frame reply (ErrorCode.getErrorByCode ErrorCode.ILLEGAL_DATA_VALUE)
    end
  else done.

(** [Array.from({ length }).map((_, index) => bufferRx.readUInt16BE(base + index * 2))] *)
Fixpoint read_registers (bufferRx : Buffer.t) (base : Z) (count : nat) : option (list Z) :=
  match count with
  | O => Some []
  | Datatypes.S count' =>
      v <- Buffer.readUInt16BE bufferRx base ;;
      rest <- read_registers bufferRx (base + 2) count' ;;
      Some (v :: rest)
  end.

Definition handleFC16 (model : ModbusSlaveModel.t S) (frame : ApplicationDataUnit) (reply : Reply)
  : M Datatypes.unit :=
  if (Buffer.len (data frame) >? 5)
     && (Buffer.len (data frame) =? 5 + Buffer.get (data frame) 4) then
    match ModbusSlaveModel.writeMultipleRegisters model, ModbusSlaveModel.writeSingleRegister model with
    | None, None =>
        responseError frame reply (ErrorCode.getErrorByCode ErrorCode.ILLEGAL_FUNCTION)
    | writeMultipleRegisters, writeSingleRegister =>
        let bufferRx := Buffer.from (data frame) in
        let* address := node (Buffer.readUInt16BE bufferRx 0) in
        let* length := node (Buffer.readUInt16BE bufferRx 2) in
        let byteCount := Buffer.get bufferRx 4 in
        if (length >=? 1) && (length <=? 123) && (byteCount =? length * 2) then
          let* range := addressRange model ModbusSlaveModel.holdingRegisters in
          if checkRange (Several [address; address + length]) range then
            let* value := node (read_registers bufferRx 5 (Z.to_nat length)) in
            catch
              (let* _ :=
                 match writeMultipleRegisters, writeSingleRegister with
                 | Some multiple, _ => call (multiple address value)
                 | None, Some single => all single address value
                 | None, None => done
                 end in
               respond reply (with_data frame (slice4 bufferRx)))
              (fun error => responseError frame reply error)
          else responseError frame reply (ErrorCode.getErrorByCode ErrorCode.ILLEGAL_DATA_ADDRESS)
        else responseError frame reply (ErrorCode.getErrorByCode ErrorCode.ILLEGAL_DATA_VALUE)
    end
  else done.

Definition handleFC17 (model : ModbusSlaveModel.t S) (frame : ApplicationDataUnit) (reply : Reply)
  : M Datatypes.unit :=
  if Buffer.len (data frame) =? 0 then
    match ModbusSlaveModel.reportServerId model with
    | Some reportServerId =>
        catch
          (let* id := call reportServerId in
           let serverId' :=
             match serverId id with
             | Some v => v
             | None => match ModbusSlaveModel.unit model with Some u => u | None => 1 end
             end in
           let runIndicatorStatus' :=
             match runIndicatorStatus id with Some b => b | None => true end in
           let additionalData' :=
             match additionalData id with Some l => l | None => [] end in
           respond reply
             (with_data frame
                ([2 + Buffer.len additionalData'; serverId';
                  if runIndicatorStatus' then 255 else 0] ++ additionalData')))
          (fun error => responseError frame reply error)
    | None => responseError frame reply (ErrorCode.getErrorByCode ErrorCode.ILLEGAL_FUNCTION)
    end
  else done.

Definition handleFC22 (model : ModbusSlaveModel.t S) (frame : ApplicationDataUnit) (reply : Reply)
  : M Datatypes.unit :=
  if Buffer.len (data frame) =? 6 then
    let fallback :=
      match ModbusSlaveModel.readHoldingRegisters model, ModbusSlaveModel.writeSingleRegister model with
      | Some readHoldingRegisters, Some writeSingleRegister =>
          Some (readHoldingRegisters, writeSingleRegister)
      | _, _ => None
      end in
    match ModbusSlaveModel.maskWriteRegister model, fallback with
    | None, None =>
        responseError frame reply (ErrorCode.getErrorByCode ErrorCode.ILLEGAL_FUNCTION)
    | maskWriteRegister, _ =>
        let bufferRx := Buffer.from (data frame) in
        let* address := node (Buffer.readUInt16BE bufferRx 0) in
        let* andMask := node (Buffer.readUInt16BE bufferRx 2) in
        let* orMask := node (Buffer.readUInt16BE bufferRx 4) in
        let* range := addressRange model ModbusSlaveModel.holdingRegisters in
        if checkRange (One address) range then
          catch
            (let* _ :=
               match maskWriteRegister, fallback with
               | Some maskWrite, _ => call (maskWrite address andMask orMask)
               | None, Some (readHoldingRegisters, writeSingleRegister) =>
                   let* registers := call (readHoldingRegisters address 1) in
                   call (writeSingleRegister address
                           (masked (first_register registers) andMask orMask))
               | None, None => done
               end in
             respond reply frame)
            (fun error => responseError frame reply error)
        else responseError frame reply (ErrorCode.getErrorByCode ErrorCode.ILLEGAL_DATA_ADDRESS)
    end
  else done.

Definition handleFC23 (model : ModbusSlaveModel.t S) (frame : ApplicationDataUnit) (reply : Reply)
  : M Datatypes.unit :=
  if (Buffer.len (data frame) >? 9)
     && (Buffer.len (data frame) =? 9 + Buffer.get (data frame) 8) then
    match ModbusSlaveModel.readHoldingRegisters model,
          ModbusSlaveModel.writeMultipleRegisters model, ModbusSlaveModel.writeSingleRegister model with
    | None, _, _ | Some _, None, None =>
        responseError frame reply (ErrorCode.getErrorByCode ErrorCode.ILLEGAL_FUNCTION)
    | Some readHoldingRegisters, writeMultipleRegisters, writeSingleRegister =>
        let bufferRx := Buffer.from (data frame) in
        let* address_read := node (Buffer.readUInt16BE bufferRx 0) in
        let* address_write := node (Buffer.readUInt16BE bufferRx 4) in
        let* length_read := node (Buffer.readUInt16BE bufferRx 2) in
        let* length_write := node (Buffer.readUInt16BE bufferRx 6) in
        let byteCount := Buffer.get bufferRx 8 in
        if (length_read >=? 1) && (length_read <=? 125)
           && (length_write >=? 1) && (length_write <=? 121)
           && (byteCount =? length_write * 2) then
          let* range := addressRange model ModbusSlaveModel.holdingRegisters in
          if checkRange
               (Several [address_read; address_read + length_read;
                         address_write; address_write + length_write]) range then
            let* value := node (read_registers bufferRx 9 (Z.to_nat length_write)) in
            catch
              (let* _ :=
                 match writeMultipleRegisters, writeSingleRegister with
                 | Some multiple, _ => call (multiple address_write value)
                 | None, Some single => all single address_write value
                 | None, None => done
                 end in
               let* registers := call (readHoldingRegisters address_read length_read) in
               respond_registers frame reply length_read registers)
              (fun error => responseError frame reply error)
          else responseError frame reply (ErrorCode.getErrorByCode ErrorCode.ILLEGAL_DATA_ADDRESS)
        else responseError frame reply (ErrorCode.getErrorByCode ErrorCode.ILLEGAL_DATA_VALUE)
    end
  else done.

Definition handleFC43_14 (model : ModbusSlaveModel.t S) (frame : ApplicationDataUnit) (reply : Reply)
  : M Datatypes.unit :=
  if Buffer.len (data frame) =? 3 then
    match (if Buffer.get (data frame) 0 =? 14
           then ModbusSlaveModel.readDeviceIdentification model else None) with
    | Some readDeviceIdentification =>
        let readDeviceIDCode := Buffer.get (data frame) 1 in
        match adjust_objectID readDeviceIDCode (Buffer.get (data frame) 2) with
        | inl code => responseError frame reply (ErrorCode.getErrorByCode code)
        | inr objectID0 =>
            catch
              (let* identification := call readDeviceIdentification in
               let objects := device_objects identification in
               if negb (map_has objectID0 objects) && (readDeviceIDCode =? 4) then
                 responseError frame reply
                   (ErrorCode.getErrorByCode ErrorCode.ILLEGAL_DATA_ADDRESS)
               else
                 let objectID := if map_has objectID0 objects then objectID0 else 0 in
                 match walk readDeviceIDCode objectID objects (mkWalk [] 10 0 129) with
                 | None =>
                     responseError frame reply
                       (ErrorCode.getErrorByCode ErrorCode.SERVER_DEVICE_FAILURE)
                 | Some st =>
                     let chosen := sort (ids st) in
                     respond reply
                       (with_data frame
                          ([14; readDeviceIDCode; conformityLevel st;
                            if lastID st =? 0 then 0 else 255;
                            lastID st; Buffer.len chosen]
                           ++ object_bytes objects chosen))
                 end)
              (fun error => responseError frame reply error)
        end
    | None => responseError frame reply (ErrorCode.getErrorByCode ErrorCode.ILLEGAL_FUNCTION)
    end
  else done.

(** The closure [intercept]; [true] is its ['break']. *)
Definition intercept (model : ModbusSlaveModel.t S) (frame : ApplicationDataUnit) (reply : Reply)
  : M bool :=
  match ModbusSlaveModel.interceptor model with
  | Some interceptor =>
      catch
        (let* d := call (interceptor (fc frame) (data frame)) in
         match d with
         | Some payload =>
             let* _ := respond reply (with_data frame payload) in
             ret true
         | None => ret false
         end)
        (fun error =>
           let* _ := responseError frame reply error in
           ret true)
  | None => ret false
  end.

(** The closure [handleFC]: the [switch (frame.fc)]. *)
Definition handleFC (model : ModbusSlaveModel.t S) (frame : ApplicationDataUnit) (reply : Reply)
  : M Datatypes.unit :=
  if fc frame =? 1 then handleFC1 model frame reply
  else if fc frame =? 2 then handleFC2 model frame reply
  else if fc frame =? 3 then handleFC3 model frame reply
  else if fc frame =? 4 then handleFC4 model frame reply
  else if fc frame =? 5 then handleFC5 model frame reply
  else if fc frame =? 6 then handleFC6 model frame reply
  else if fc frame =? 15 then handleFC15 model frame reply
  else if fc frame =? 16 then handleFC16 model frame reply
  else if fc frame =? 17 then handleFC17 model frame reply
  else if fc frame =? 22 then handleFC22 model frame reply
  else if fc frame =? 23 then handleFC23 model frame reply
  else if fc frame =? 43 then handleFC43_14 model frame reply
  else responseError frame reply (ErrorCode.getErrorByCode ErrorCode.ILLEGAL_FUNCTION).

(** [intercept(model).then((res) => { if (res !== 'break') handleFC(model) })] *)
Definition serve (model : ModbusSlaveModel.t S) (frame : ApplicationDataUnit) (reply : Reply)
  : M Datatypes.unit :=
  let* res := intercept model frame reply in
  if res then done else handleFC model frame reply.

(** The [for (const model of ...)] loop of the listener.  The promise
    chain of a model is run to its end before the next one starts; an
    error that escapes a chain is an unhandled rejection and does not
    stop the others. *)
Fixpoint serve_each (models : list (ModbusSlaveModel.t S)) (frame : ApplicationDataUnit) (reply : Reply)
  : M Datatypes.unit :=
  match models with
  | [] => done
  | model :: rest =>
      let* _ := catch (serve model frame reply) (fun _ => done) in
      serve_each rest frame reply
  end.

(** [this.models]: a [Map<number, ModbusSlaveModel>] *)
Definition Models := list (Z * ModbusSlaveModel.t S).

(** The ['framing'] listener of the constructor. *)
Definition onFraming (models : Models) (frame : Frame) : M Datatypes.unit :=
  if negb ((unit frame =? 0) || map_has (unit frame) models) then done
  else
    serve_each
      (if unit frame =? 0 then map snd models
       else match map_get (unit frame) models with
            | Some model => [model]
            | None => []
            end)
      frame (response frame).

Definition add (model : ModbusSlaveModel.t S) (models : Models) : Models :=
  map_set (match ModbusSlaveModel.unit model with Some u => u | None => 1 end) model models.

Definition remove (unit : Z) (models : Models) : Models :=
  map_delete unit models.

End Server.

End ModbusSlave.

(** ** The application layers behind their abstract class *)

(** [AbstractApplicationLayer]: what the client and the server use of a
    layer. *)
Record AbstractApplicationLayer := mkLayer {
  layer_state : Type;
  layer_encode : ApplicationDataUnit -> layer_state -> option Buffer.t * layer_state;
  layer_startWaitingResponse : WaitingResponse -> layer_state -> layer_state;
  layer_stopWaitingResponse : layer_state -> layer_state;
  (** the field [_waitingResponse] *)
  layer_waiting : layer_state -> option WaitingResponse
}.

Definition RtuLayer : AbstractApplicationLayer :=
  mkLayer (fun d s => (RtuApplicationLayer.encode d, s))
          RtuApplicationLayer.startWaitingResponse
          RtuApplicationLayer.stopWaitingResponse
          RtuApplicationLayer._waitingResponse.

Definition AsciiLayer : AbstractApplicationLayer :=
  mkLayer (fun d s => (AsciiApplicationLayer.encode d, s))
          AsciiApplicationLayer.startWaitingResponse
          AsciiApplicationLayer.stopWaitingResponse
          AsciiApplicationLayer._waitingResponse.

Definition TcpLayer : AbstractApplicationLayer :=
  mkLayer TcpApplicationLayer.encode
          TcpApplicationLayer.startWaitingResponse
          TcpApplicationLayer.stopWaitingResponse
          TcpApplicationLayer._waitingResponse.

(** ** The client (ModbusMaster) *)

Module ModbusMaster.

(** The promise that a request returns. *)
Inductive Promise :=
| Pending
| Fulfilled (frame : option Frame)     (* [resolve()] is [Fulfilled None] *)
| Failed (e : Error).

(** What a call of a request method does: it throws, or it returns its
    promise. *)
Inductive Issued :=
| Threw
| Returned (p : Promise).

(** [frame.data[i] === v] *)
Definition index_is (l : list Z) (i : nat) (v : Z) : bool :=
  match nth_error l i with
  | Some x => x =? v
  | None => false
  end.

(** [frame.data.every((v, i) => v === bufferTx[i])] *)
Fixpoint every_equal (l bufferTx : list Z) (i : nat) : bool :=
  match l with
  | [] => true
  | v :: rest => index_is bufferTx i v && every_equal rest bufferTx (Datatypes.S i)
  end.

(** [value.forEach((v, i) => { if (v) bufferTx[base + ~~(i / 8)] |= 1 << i % 8 })] *)
Fixpoint set_bits (value : list bool) (base i : Z) (bufferTx : Buffer.t) : Buffer.t :=
  match value with
  | [] => bufferTx
  | v :: rest =>
      set_bits rest base (i + 1)
        (if v
         then Buffer.put bufferTx (base + i / 8)
                (Z.lor (Buffer.get bufferTx (base + i / 8)) (Z.shiftl 1 (i mod 8)))
         else bufferTx)
  end.

(** [value.forEach((v, i) => bufferTx.writeUInt16BE(v, base + i * 2))] *)
Fixpoint write_values (value : list Z) (off : Z) (bufferTx : Buffer.t) : option Buffer.t :=
  match value with
  | [] => Some bufferTx
  | v :: rest =>
      b <- Buffer.writeUInt16BE v off bufferTx ;;
      write_values rest (off + 2) b
  end.

(** The object scanner of the pre-check of Read Device Identification:
    the array [object] is empty, holds an id, an id and a length, or an id,
    a length and the bytes read so far. *)
Inductive Partial :=
| P0
| P1 (id : Z)
| P2 (id size : Z)
| P3 (id size : Z) (bytes : list Z).

Fixpoint scan_objects (l : list Z) (object : Partial) (objects : list Z) : list Z :=
  match l with
  | [] => objects
  | v :: rest =>
      match object with
      | P0 => scan_objects rest (P1 v) objects
      | P1 id => scan_objects rest (P2 id v) objects
      | P2 id size => scan_objects rest (P3 id size [v]) objects
      | P3 id size bytes =>
          if size =? Buffer.len (bytes ++ [v])
          then scan_objects rest P0 (objects ++ [2 + size])
          else scan_objects rest (P3 id size (bytes ++ [v])) objects
      end
  end.

(** *** What the promise of a read request is resolved with

    The [.then] of a request method resolves its promise with
    [{ ...frame, data }]; the [data] of the read requests are these. *)

(** [Array.from({ length }).map((_, index) =>
      (frame.data[1 + ~~(index / 8)] & (1 << index % 8)) > 0)];
    an absent element of [frame.data] is [undefined], 0 under [&]. *)
Definition coils_of (length : Z) (frame : Frame) : list bool :=
  ModbusSlave.tabulate length
    (fun index =>
       Z.land (Buffer.get (data frame) (1 + index / 8)) (Z.shiftl 1 (index mod 8)) >? 0).

(** [Array.from({ length }).map((_, index) => bufferRx.readUInt16BE(index * 2))]
    for [bufferRx = Buffer.from(frame.data.slice(1))]: the expression of
    the server at the base 0; [None] when a read throws. *)
Definition registers_of (length : Z) (frame : Frame) : option (list Z) :=
  ModbusSlave.read_registers (Buffer.from (skipn 1 (data frame))) 0 (Z.to_nat length).

(** [{ serverId: frame.data[1], runIndicatorStatus: frame.data[2] === 0xff,
       additionalData: frame.data.slice(3) }] *)
Record ReportedServerId := mkReportedServerId {
  serverId : option Z;
  runIndicatorStatus : bool;
  additionalData : list Z
}.

Definition serverId_of (frame : Frame) : ReportedServerId :=
  mkReportedServerId (nth_error (data frame) 1) (index_is (data frame) 2 255)
                     (skipn 3 (data frame)).

Section Client.

Variable A : AbstractApplicationLayer.

Record Client := mkClient {
  layer : layer_state A;
  (** what [physicalLayer.write] was called with, in order *)
  written : list Buffer.t;
  (** the timeout of the armed timer *)
  timer : option Z;
  (** how many times [startWaitingResponse] was called *)
  waits : nat
}.

(** [waitResponse]; [flushed] is what the promise of
    [physicalLayer.write] settles with. *)
Definition waitResponse (bytes : Buffer.t) (broadcast : bool)
           (checks : list PreCheck) (timeout : Z)
           (flushed : Result Datatypes.unit) (c : Client) : Client * Promise :=
  let c1 := mkClient (layer c) (written c ++ [bytes]) (timer c) (waits c) in
  match flushed with
  | Resolved _ =>
      if broadcast then (c1, Fulfilled None)
      else
        (mkClient
           (layer_startWaitingResponse A
              (mkWaiting checks (fun _ => StopWaiting)) (layer c1))
           (written c1) (Some timeout) (Datatypes.S (waits c1)),
         Pending)
  | Rejected error => (c1, Failed error)
  end.

(** The callback that [waitResponse] registers, when the layer calls it. *)
Definition onResponse (r : Decoded) (c : Client) : Client * Promise :=
  (mkClient (layer_stopWaitingResponse A (layer c)) (written c) None (waits c),
   match r with
   | Rejected error => Failed error
   | Resolved frame => Fulfilled (Some frame)
   end).

(** The timer of [waitResponse], when it fires. *)
Definition onTimeout (c : Client) : Client * Promise :=
  (mkClient (layer_stopWaitingResponse A (layer c)) (written c) None (waits c),
   Failed (mkError "Timeout")).

(** The request PDU [bufferTx] once its writes are done, then
    [this.applicationLayer.encode({ unit, fc, data: Array.from(bufferTx) })],
    then the rest of the method; a write or [encode] may throw. *)
Definition encoded (unit fc : Z) (pdu : option Buffer.t)
           (k : Buffer.t -> Buffer.t -> Client -> Client * Promise) (c : Client)
  : Client * Issued :=
  match pdu with
  | None => (c, Threw)
  | Some d =>
      match layer_encode A (mkADU None unit fc d) (layer c) with
      | (Some bytes, l') =>
          let '(c', p) := k d bytes (mkClient l' (written c) (timer c) (waits c)) in
          (c', Returned p)
      | (None, l') => (mkClient l' (written c) (timer c) (waits c), Threw)
      end
  end.

(** [(frame) => frame.unit === unit && frame.fc === fc] *)
Definition same_unit_fc (u f : Z) : PreCheck :=
  fun frame => CBool ((unit frame =? u) && (fc frame =? f)).

(** [(frame) => frame.data[0] === byteCount] *)
Definition first_is (byteCount : Z) : PreCheck :=
  fun frame => CBool (index_is (data frame) 0 byteCount).

(** [(frame) => frame.data.every((v, i) => v === bufferTx[i])] *)
Definition echoes (bufferTx : Buffer.t) : PreCheck :=
  fun frame => CBool (every_equal (data frame) bufferTx 0).

(** [() => n] *)
Definition exactly (n : Z) : PreCheck := fun _ => CNumber n.

Definition writeFC1Or2 (unit fc address length timeout : Z)
           (flushed : Result Datatypes.unit) : Client -> Client * Issued :=
  let byteCount := ModbusSlave.ceil8 length in
  let pdu :=
    b1 <- Buffer.writeUInt16BE address 0 (Buffer.alloc 4) ;;
    Buffer.writeUInt16BE length 2 b1 in
  encoded unit fc pdu
    (fun bufferTx bytes =>
       waitResponse bytes (unit =? 0)
         [same_unit_fc unit fc; exactly (1 + byteCount); first_is byteCount]
         timeout flushed).

Definition readCoils (unit address length timeout : Z) :=
  writeFC1Or2 unit 1 address length timeout.

Definition readDiscreteInputs (unit address length timeout : Z) :=
  writeFC1Or2 unit 2 address length timeout.

Definition writeFC3Or4 (unit fc address length timeout : Z)
           (flushed : Result Datatypes.unit) : Client -> Client * Issued :=
  let byteCount := length * 2 in
  let pdu :=
    b1 <- Buffer.writeUInt16BE address 0 (Buffer.alloc 4) ;;
    Buffer.writeUInt16BE length 2 b1 in
  encoded unit fc pdu
    (fun bufferTx bytes =>
       waitResponse bytes (unit =? 0)
         [same_unit_fc unit fc; exactly (1 + byteCount); first_is byteCount]
         timeout flushed).

Definition readHoldingRegisters (unit address length timeout : Z) :=
  writeFC3Or4 unit 3 address length timeout.

Definition readInputRegisters (unit address length timeout : Z) :=
  writeFC3Or4 unit 4 address length timeout.

Definition writeSingleCoil (unit address : Z) (value : bool) (timeout : Z)
           (flushed : Result Datatypes.unit) : Client -> Client * Issued :=
  let fc := 5 in
  let pdu :=
    b1 <- Buffer.writeUInt16BE address 0 (Buffer.alloc 4) ;;
    Buffer.writeUInt16BE (if value then 65280 else 0) 2 b1 in
  encoded unit fc pdu
    (fun bufferTx bytes =>
       waitResponse bytes (unit =? 0)
         [same_unit_fc unit fc;
          exactly (Buffer.len bufferTx);
          echoes bufferTx]
         timeout flushed).

Definition writeSingleRegister (unit address value timeout : Z)
           (flushed : Result Datatypes.unit) : Client -> Client * Issued :=
  let fc := 6 in
  let pdu :=
    b1 <- Buffer.writeUInt16BE address 0 (Buffer.alloc 4) ;;
    Buffer.writeUInt16BE value 2 b1 in
  encoded unit fc pdu
    (fun bufferTx bytes =>
       waitResponse bytes (unit =? 0)
         [same_unit_fc unit fc;
          exactly (Buffer.len bufferTx);
          echoes bufferTx]
         timeout flushed).

Definition writeMultipleCoils (unit address : Z) (value : list bool) (timeout : Z)
           (flushed : Result Datatypes.unit) : Client -> Client * Issued :=
  let fc := 15 in
  let byteCount := ModbusSlave.ceil8 (Z.of_nat (List.length value)) in
  let pdu :=
    b1 <- Buffer.writeUInt16BE address 0 (Buffer.alloc (5 + byteCount)) ;;
    b2 <- Buffer.writeUInt16BE (Z.of_nat (List.length value)) 2 b1 ;;
    b3 <- Buffer.writeUInt8 byteCount 4 b2 ;;
    Some (set_bits value 5 0 b3) in
  encoded unit fc pdu
    (fun bufferTx bytes =>
       waitResponse bytes (unit =? 0)
         [same_unit_fc unit fc; exactly 4;
          echoes bufferTx]
         timeout flushed).

Definition writeMultipleRegisters (unit address : Z) (value : list Z) (timeout : Z)
           (flushed : Result Datatypes.unit) : Client -> Client * Issued :=
  let fc := 16 in
  let byteCount := Buffer.len value * 2 in
  let pdu :=
    b1 <- Buffer.writeUInt16BE address 0 (Buffer.alloc (5 + byteCount)) ;;
    b2 <- Buffer.writeUInt16BE (Buffer.len value) 2 b1 ;;
    b3 <- Buffer.writeUInt8 byteCount 4 b2 ;;
    write_values value 5 b3 in
  encoded unit fc pdu
    (fun bufferTx bytes =>
       waitResponse bytes (unit =? 0)
         [same_unit_fc unit fc; exactly 4;
          echoes bufferTx]
         timeout flushed).

Definition reportServerId (unit timeout : Z)
           (flushed : Result Datatypes.unit) : Client -> Client * Issued :=
  let fc := 17 in
  encoded unit fc (Some [])
    (fun bufferTx bytes =>
       waitResponse bytes (unit =? 0)
         [same_unit_fc unit fc;
          fun frame : Frame =>
            if Buffer.len (data frame) >=? 3
            then CNumber (1 + Buffer.get (data frame) 0)
            else CUndefined]
         timeout flushed).

Definition maskWriteRegister (unit address andMask orMask timeout : Z)
           (flushed : Result Datatypes.unit) : Client -> Client * Issued :=
  let fc := 22 in
  let pdu :=
    b1 <- Buffer.writeUInt16BE address 0 (Buffer.alloc 6) ;;
    b2 <- Buffer.writeUInt16BE andMask 2 b1 ;;
    Buffer.writeUInt16BE orMask 4 b2 in
  encoded unit fc pdu
    (fun bufferTx bytes =>
       waitResponse bytes (unit =? 0)
         [same_unit_fc unit fc; exactly 6;
          echoes bufferTx]
         timeout flushed).

Definition readAndWriteMultipleRegisters (unit read_address read_length write_address : Z)
           (write_value : list Z) (timeout : Z)
           (flushed : Result Datatypes.unit) : Client -> Client * Issued :=
  let fc := 23 in
  let byteCount := Buffer.len write_value * 2 in
  let pdu :=
    b1 <- Buffer.writeUInt16BE read_address 0 (Buffer.alloc (9 + byteCount)) ;;
    b2 <- Buffer.writeUInt16BE read_length 2 b1 ;;
    b3 <- Buffer.writeUInt16BE write_address 4 b2 ;;
    b4 <- Buffer.writeUInt16BE (Buffer.len write_value) 6 b3 ;;
    b5 <- Buffer.writeUInt8 byteCount 8 b4 ;;
    write_values write_value 9 b5 in
  encoded unit fc pdu
    (fun bufferTx bytes =>
       waitResponse bytes (unit =? 0)
         [same_unit_fc unit fc; exactly (1 + byteCount); first_is byteCount]
         timeout flushed).

Definition readDeviceIdentification (unit readDeviceIDCode objectId timeout : Z)
           (flushed : Result Datatypes.unit) : Client -> Client * Issued :=
  let fc := 43 in
  encoded unit fc (Some [14; readDeviceIDCode; objectId])
    (fun bufferTx bytes =>
       waitResponse bytes (unit =? 0)
         [same_unit_fc unit fc;
          fun frame : Frame =>
            if Buffer.len (data frame) >=? 6 then
              if (Buffer.get (data frame) 0 =? 14)
                 && (Buffer.get (data frame) 1 =? readDeviceIDCode)
              then
                let objects := scan_objects (skipn 6 (data frame)) P0 [] in
                if Buffer.len objects =? Buffer.get (data frame) 5
                then CNumber (6 + fold_left Z.add objects 0)
                else CUndefined
              else CBool false
            else CUndefined]
         timeout flushed).

(** The public request methods, as a value. *)
Inductive Request :=
| ReadCoils (unit address length : Z)
| ReadDiscreteInputs (unit address length : Z)
| ReadHoldingRegisters (unit address length : Z)
| ReadInputRegisters (unit address length : Z)
| WriteSingleCoil (unit address : Z) (value : bool)
| WriteSingleRegister (unit address value : Z)
| WriteMultipleCoils (unit address : Z) (value : list bool)
| WriteMultipleRegisters (unit address : Z) (value : list Z)
| ReportServerId (unit : Z)
| MaskWriteRegister (unit address andMask orMask : Z)
| ReadAndWriteMultipleRegisters (unit read_address read_length write_address : Z)
                                (write_value : list Z)
| ReadDeviceIdentification (unit readDeviceIDCode objectId : Z).

Definition request_unit (r : Request) : Z :=
  match r with
  | ReadCoils u _ _ | ReadDiscreteInputs u _ _ | ReadHoldingRegisters u _ _
  | ReadInputRegisters u _ _ | WriteSingleCoil u _ _ | WriteSingleRegister u _ _
  | WriteMultipleCoils u _ _ | WriteMultipleRegisters u _ _ | ReportServerId u
  | MaskWriteRegister u _ _ _ | ReadAndWriteMultipleRegisters u _ _ _ _
  | ReadDeviceIdentification u _ _ => u
  end.

(** The call of the method that a request names. *)
Definition issue (r : Request) (timeout : Z) (flushed : Result Datatypes.unit)
  : Client -> Client * Issued :=
  match r with
  | ReadCoils u a l => readCoils u a l timeout flushed
  | ReadDiscreteInputs u a l => readDiscreteInputs u a l timeout flushed
  | ReadHoldingRegisters u a l => readHoldingRegisters u a l timeout flushed
  | ReadInputRegisters u a l => readInputRegisters u a l timeout flushed
  | WriteSingleCoil u a v => writeSingleCoil u a v timeout flushed
  | WriteSingleRegister u a v => writeSingleRegister u a v timeout flushed
  | WriteMultipleCoils u a v => writeMultipleCoils u a v timeout flushed
  | WriteMultipleRegisters u a v => writeMultipleRegisters u a v timeout flushed
  | ReportServerId u => reportServerId u timeout flushed
  | MaskWriteRegister u a am om => maskWriteRegister u a am om timeout flushed
  | ReadAndWriteMultipleRegisters u ra rl wa wv =>
      readAndWriteMultipleRegisters u ra rl wa wv timeout flushed
  | ReadDeviceIdentification u code id => readDeviceIdentification u code id timeout flushed
  end.

End Client.

End ModbusMaster.

(** ** Predicates and values that the statements below use *)

Definition byte (v : Z) : Prop := 0 <= v <= 255.

Definition word (v : Z) : Prop := 0 <= v <= 65535.

(** An ADU whose unit, function code and data are bytes. *)
Definition well_formed (d : ApplicationDataUnit) : Prop :=
  byte (unit d) /\ byte (fc d) /\ Forall byte (data d).

(** An upper-case hexadecimal digit, by its character code. *)
Definition hex_char (c : Z) : Prop := 48 <= c <= 57 \/ 65 <= c <= 70.

(** The six bytes of the MBAP header before the unit, for a transaction id
    and [n] bytes of data. *)
Definition header (id n : Z) : list Z :=
  [id / 256; id mod 256; 0; 0; (n + 2) / 256; (n + 2) mod 256].

(** An ADU that fits an MBAP frame: its unit, function code and data are
    bytes, its transaction id, when it has one, is a 16-bit number, and
    its data has at most 65533 bytes. *)
Definition encodable (d : ApplicationDataUnit) : Prop :=
  well_formed d
  /\ (forall t, transaction d = Some t -> word t)
  /\ Buffer.len (data d) <= 65533.

(** What holds of one [encode] call of the MBAP layer: the counter is in
    1..255 before and after it; the call returns exactly when its ADU fits
    the frame; a call that throws leaves the layer as it was; a call that
    returns wrote the id of the ADU, or else the counter, into the header,
    an id taken from the counter is in 1..255, and the counter moved on by
    [(id + 1) mod 256] with 0 replaced by 1. *)
Definition assigns (c : TcpApplicationLayer.Call) : Prop :=
  1 <= TcpApplicationLayer._transactionId (TcpApplicationLayer.before c) <= 255
  /\ 1 <= TcpApplicationLayer._transactionId (TcpApplicationLayer.after c) <= 255
  /\ (encodable (TcpApplicationLayer.argument c)
      <-> exists bytes, TcpApplicationLayer.returned c = Some bytes)
  /\ (TcpApplicationLayer.returned c = None
      -> TcpApplicationLayer.after c = TcpApplicationLayer.before c)
  /\ forall bytes,
      TcpApplicationLayer.returned c = Some bytes ->
      Buffer.readUInt16BE bytes 0
      = Some (match transaction (TcpApplicationLayer.argument c) with
              | Some t => t
              | None => TcpApplicationLayer._transactionId (TcpApplicationLayer.before c)
              end)
      /\ (transaction (TcpApplicationLayer.argument c) = None ->
          exists id, Buffer.readUInt16BE bytes 0 = Some id /\ 1 <= id <= 255)
      /\ TcpApplicationLayer._transactionId (TcpApplicationLayer.after c)
         = (if (TcpApplicationLayer._transactionId (TcpApplicationLayer.before c) + 1) mod 256 =? 0 then 1
            else (TcpApplicationLayer._transactionId (TcpApplicationLayer.before c) + 1) mod 256).

(** A computation of the server that hands nothing to the transport. *)
Definition quiet {S L A : Type} (m : ModbusSlave.M S L A) : Prop :=
  forall w, ModbusSlave.wire (snd (m w)) = ModbusSlave.wire w.

Definition present {A} (o : option A) : bool :=
  match o with
  | Some _ => true
  | None => false
  end.



(** Bit [i] of what a read callback yields; an absent element is no bit. *)
Definition bit_of (coils : list bool) (i : Z) : bool :=
  if i <? 0 then false else nth (Z.to_nat i) coils false.

(** The range that [model.getAddressRange?.()] yields in a world, under a
    field. *)
Definition range_in {S L} (model : ModbusSlaveModel.t S)
           (field : ModbusSlaveModel.AddressRange -> option Range)
           (w : ModbusSlave.World S L) : option Range :=
  match ModbusSlaveModel.getAddressRange model with
  | Some f => field (f (ModbusSlave.host w))
  | None => None
  end.

(** Mask Write Register as the specification of the fallback states it:
    [(v AND andMask) OR (orMask AND NOT andMask)] on 16 bits. *)
Definition mask_write (v andMask orMask : Z) : Z :=
  Z.lor (Z.land v andMask) (Z.land orMask (Z.lxor andMask 65535)).



(** A layer whose [encode] leaves its wait as it is. *)
Definition keeps_wait (A : AbstractApplicationLayer) : Prop :=
  forall d s, layer_waiting A (snd (layer_encode A d s)) = layer_waiting A s.

(** What a request method did when it registered no wait: no call of
    [startWaitingResponse], no timer, the wait of the layer as it was; and
    either it threw before any write, or it wrote once and returned a
    promise that is resolved with no frame. *)
Definition silent_request {A} (c : ModbusMaster.Client A)
           (done : ModbusMaster.Client A * ModbusMaster.Issued)
  : Prop :=
  ModbusMaster.waits (fst done) = ModbusMaster.waits c
  /\ ModbusMaster.timer (fst done) = ModbusMaster.timer c
  /\ (keeps_wait A ->
      layer_waiting A (ModbusMaster.layer (fst done)) = layer_waiting A (ModbusMaster.layer c))
  /\ ((snd done = ModbusMaster.Threw /\ ModbusMaster.written (fst done) = ModbusMaster.written c)
      \/ (snd done = ModbusMaster.Returned (ModbusMaster.Fulfilled None)
          /\ exists bytes, ModbusMaster.written (fst done) = ModbusMaster.written c ++ [bytes])).

(** ** Predicates and values of the further properties *)

(** The two bytes of a 16-bit number, the high one first. *)
Definition big_endian (v : Z) : list Z := [v / 256; v mod 256].

(** Whether a pre-check lets the loop of a framer go on to the next
    pre-check: a boolean that is true, or a number that is the data length
    and is not 0. *)
Definition passes (frame : Frame) (check : PreCheck) : bool :=
  match check frame with
  | CBool b => b
  | CNumber n => (n =? Buffer.len (data frame)) && negb (n =? 0)
  | CUndefined => false
  end.

(** A frame of the ASCII layer whose characters decode to bytes of which
    the last one is the LRC of the others, and whose unit, function code
    and data are those bytes. *)
Definition lrc_checked (f : Frame) : Prop :=
  let bytes := AsciiApplicationLayer.unhex (buffer f) in
  6 <= Buffer.len (buffer f)
  /\ Buffer.get bytes (Buffer.len bytes - 1)
     = lrc (Buffer.subarray bytes 0 (Buffer.len bytes - 1))
  /\ unit f = Buffer.get bytes 0
  /\ fc f = Buffer.get bytes 1
  /\ data f = Buffer.subarray bytes 2 (Buffer.len bytes - 1).

(** Successive ['data'] events on the ASCII layer. *)
Fixpoint ascii_feed (bursts : list Buffer.t) (s : AsciiApplicationLayer.State)
  : AsciiApplicationLayer.State * list Delivery :=
  match bursts with
  | [] => (s, [])
  | chunk :: rest =>
      let '(s1, out1) := AsciiApplicationLayer.handleData chunk s in
      let '(s2, out2) := ascii_feed rest s1 in
      (s2, out1 ++ out2)
  end.

(** Successive ['data'] events on the RTU layer, none of them separated
    from the next by the silent interval. *)
Fixpoint rtu_feed (threePointFiveT : Z) (bursts : list Buffer.t)
         (s : RtuApplicationLayer.State) : RtuApplicationLayer.State * list Delivery :=
  match bursts with
  | [] => (s, [])
  | chunk :: rest =>
      let '(s1, out1) := RtuApplicationLayer.handleData threePointFiveT chunk s in
      let '(s2, out2) := rtu_feed threePointFiveT rest s1 in
      (s2, out1 ++ out2)
  end.

(** An ADU that answers a request: its transaction and unit are those of
    the request, and its function code is the one of the request, or that
    one with bit 7 set and then its data is one byte. *)
Definition mirrors (frame adu : ApplicationDataUnit) : Prop :=
  transaction adu = transaction frame
  /\ unit adu = unit frame
  /\ (fc adu = fc frame \/ (fc adu = Z.lor (fc frame) 128 /\ exists code, data adu = [code])).

(** Bytes that [encode] returned for an ADU that answers a request. *)
Definition answer {L : Type} (encode : ApplicationDataUnit -> L -> option Buffer.t * L)
           (frame : ApplicationDataUnit) (bytes : Buffer.t) : Prop :=
  exists adu l, fst (encode adu l) = Some bytes /\ mirrors frame adu.

(** A computation of the server that hands at most one buffer to the
    transport, and then one that satisfies [P], and that does not end in an
    error once it has handed it over. *)
Definition replies_once {S L A : Type} (P : Buffer.t -> Prop) (m : ModbusSlave.M S L A) : Prop :=
  forall w,
    ModbusSlave.wire (snd (m w)) = ModbusSlave.wire w
    \/ exists bytes,
        ModbusSlave.wire (snd (m w)) = ModbusSlave.wire w ++ [bytes]
        /\ P bytes /\ exists a, fst (m w) = Resolved a.

(** A computation of the server that leaves the host as it is. *)
Definition keeps_host {S L A : Type} (m : ModbusSlave.M S L A) : Prop :=
  forall w, ModbusSlave.host (snd (m w)) = ModbusSlave.host w.

(** Two computations, of servers on two application layers, that leave
    the same host when they start from the same host. *)
Definition same_host {S L1 L2 A : Type}
           (m1 : ModbusSlave.M S L1 A) (m2 : ModbusSlave.M S L2 A) : Prop :=
  forall w1 w2,
    ModbusSlave.host w1 = ModbusSlave.host w2 ->
    ModbusSlave.host (snd (m1 w1)) = ModbusSlave.host (snd (m2 w2)).

(** Two such computations that settle alike too. *)
Definition in_step {S L1 L2 A : Type}
           (m1 : ModbusSlave.M S L1 A) (m2 : ModbusSlave.M S L2 A) : Prop :=
  forall w1 w2,
    ModbusSlave.host w1 = ModbusSlave.host w2 ->
    fst (m1 w1) = fst (m2 w2)
    /\ ModbusSlave.host (snd (m1 w1)) = ModbusSlave.host (snd (m2 w2)).

(** [model.unit ?? 1] *)
Definition unit_of {S} (model : ModbusSlaveModel.t S) : Z :=
  match ModbusSlaveModel.unit model with Some u => u | None => 1 end.

(** The bytes that [writeMultipleRegisters] has written to [bufferTx]
    when it calls [encode]. *)
Definition registers_pdu (address : Z) (values : list Z) : list Z :=
  [address / 256; address mod 256;
   Buffer.len values / 256; Buffer.len values mod 256;
   Buffer.len values * 2] ++ flat_map big_endian values.

(** The PDU of Read/Write Multiple Registers for [values] written at
    [write_address]. *)
Definition read_write_pdu (read_address read_length write_address : Z) (values : list Z)
  : Buffer.t :=
  [read_address / 256; read_address mod 256; read_length / 256; read_length mod 256;
   write_address / 256; write_address mod 256;
   Buffer.len values / 256; Buffer.len values mod 256;
   Buffer.len values * 2] ++ flat_map big_endian values.

(** The bytes that a request method has written to [bufferTx] when it
    calls [encode], for arguments that fit. *)
Definition request_pdu (r : ModbusMaster.Request) : Buffer.t :=
  match r with
  | ModbusMaster.ReadCoils _ address length
  | ModbusMaster.ReadDiscreteInputs _ address length
  | ModbusMaster.ReadHoldingRegisters _ address length
  | ModbusMaster.ReadInputRegisters _ address length =>
      big_endian address ++ big_endian length
  | ModbusMaster.WriteSingleCoil _ address value =>
      big_endian address ++ big_endian (if value then 65280 else 0)
  | ModbusMaster.WriteSingleRegister _ address value =>
      big_endian address ++ big_endian value
  | ModbusMaster.WriteMultipleCoils _ address value =>
      let n := Z.of_nat (List.length value) in
      big_endian address ++ big_endian n
        ++ ModbusSlave.ceil8 n
        :: ModbusSlave.pack_bits value 0 (Buffer.alloc (ModbusSlave.ceil8 n))
  | ModbusMaster.WriteMultipleRegisters _ address value => registers_pdu address value
  | ModbusMaster.ReportServerId _ => []
  | ModbusMaster.MaskWriteRegister _ address andMask orMask =>
      big_endian address ++ big_endian andMask ++ big_endian orMask
  | ModbusMaster.ReadAndWriteMultipleRegisters _ read_address read_length write_address value =>
      read_write_pdu read_address read_length write_address value
  | ModbusMaster.ReadDeviceIdentification _ code id => [14; code; id]
  end.

(** The arguments of a request fit the fields that its method writes
    them to: [writeUInt16BE] takes a 16-bit number, [writeUInt8] and the
    elements of [data] a byte. *)
Definition fits (r : ModbusMaster.Request) : Prop :=
  match r with
  | ModbusMaster.ReadCoils _ address length
  | ModbusMaster.ReadDiscreteInputs _ address length
  | ModbusMaster.ReadHoldingRegisters _ address length
  | ModbusMaster.ReadInputRegisters _ address length => word address /\ word length
  | ModbusMaster.WriteSingleCoil _ address _ => word address
  | ModbusMaster.WriteSingleRegister _ address value => word address /\ word value
  | ModbusMaster.WriteMultipleCoils _ address value =>
      word address /\ byte (ModbusSlave.ceil8 (Z.of_nat (List.length value)))
  | ModbusMaster.WriteMultipleRegisters _ address value =>
      word address /\ Forall word value /\ byte (Buffer.len value * 2)
  | ModbusMaster.ReportServerId _ => True
  | ModbusMaster.MaskWriteRegister _ address andMask orMask =>
      word address /\ word andMask /\ word orMask
  | ModbusMaster.ReadAndWriteMultipleRegisters _ read_address read_length write_address value =>
      word read_address /\ word read_length /\ word write_address
      /\ Forall word value /\ byte (Buffer.len value * 2)
  | ModbusMaster.ReadDeviceIdentification _ code id => byte code /\ byte id
  end.

(** The function code that a request method of the client sends. *)
Definition request_fc (r : ModbusMaster.Request) : Z :=
  match r with
  | ModbusMaster.ReadCoils _ _ _ => 1
  | ModbusMaster.ReadDiscreteInputs _ _ _ => 2
  | ModbusMaster.ReadHoldingRegisters _ _ _ => 3
  | ModbusMaster.ReadInputRegisters _ _ _ => 4
  | ModbusMaster.WriteSingleCoil _ _ _ => 5
  | ModbusMaster.WriteSingleRegister _ _ _ => 6
  | ModbusMaster.WriteMultipleCoils _ _ _ => 15
  | ModbusMaster.WriteMultipleRegisters _ _ _ => 16
  | ModbusMaster.ReportServerId _ => 17
  | ModbusMaster.MaskWriteRegister _ _ _ _ => 22
  | ModbusMaster.ReadAndWriteMultipleRegisters _ _ _ _ _ => 23
  | ModbusMaster.ReadDeviceIdentification _ _ _ => 43
  end.

(** A frame that the pre-check loop of each of the three framers refuses
    with 'Invalid response'. *)
Definition invalid_response (checks : list PreCheck) (frame : Frame) : Prop :=
  RtuApplicationLayer.run_preCheck checks frame = Some (fail "Invalid response")
  /\ TcpApplicationLayer.run_preCheck checks frame = Some (fail "Invalid response")
  /\ AsciiApplicationLayer.run_preCheck checks frame = Some (fail "Invalid response").

(** A client on the layer [A] refuses what is no normal response to its
    request: once a request method has returned for a unit other than 0,
    the layer holds a wait whose pre-checks refuse with 'Invalid response'
    every frame of another unit or of another function code, and so the
    exception response to the request, whose function code has bit 7 set. *)
Definition refuses_other_responses (A : AbstractApplicationLayer) : Prop :=
  forall (r : ModbusMaster.Request) (timeout : Z) (c c' : ModbusMaster.Client A)
         (p : ModbusMaster.Promise),
    ModbusMaster.request_unit r <> 0 ->
    ModbusMaster.issue r timeout (Resolved tt) c = (c', ModbusMaster.Returned p) ->
    exists wr,
      layer_waiting A (ModbusMaster.layer c') = Some wr
      /\ forall frame : Frame,
          unit frame <> ModbusMaster.request_unit r
          \/ fc frame <> request_fc r
          \/ fc frame = Z.lor (request_fc r) 128 ->
          invalid_response (preCheck wr) frame.

(** The wait of a request on the layer [A]: once a request method has
    returned for a unit other than 0 and the transport has written, the
    promise is pending, the bytes were written once, one wait was
    registered and the timer runs with the timeout of the request; and
    both the callback of the wait, whatever it is called with, and the
    timer, when it fires, leave the layer without a wait and the client
    without a timer, the timer rejecting with 'Timeout'. *)
Definition waits_for_its_response (A : AbstractApplicationLayer) : Prop :=
  forall (r : ModbusMaster.Request) (timeout : Z) (c c' : ModbusMaster.Client A)
         (p : ModbusMaster.Promise),
    ModbusMaster.request_unit r <> 0 ->
    ModbusMaster.issue r timeout (Resolved tt) c = (c', ModbusMaster.Returned p) ->
    p = ModbusMaster.Pending
    /\ ModbusMaster.timer c' = Some timeout
    /\ ModbusMaster.waits c' = Datatypes.S (ModbusMaster.waits c)
    /\ (exists bytes, ModbusMaster.written c' = ModbusMaster.written c ++ [bytes])
    /\ (exists wr, layer_waiting A (ModbusMaster.layer c') = Some wr)
    /\ (forall d : Decoded,
          layer_waiting A (ModbusMaster.layer (fst (ModbusMaster.onResponse d c'))) = None
          /\ ModbusMaster.timer (fst (ModbusMaster.onResponse d c')) = None
          /\ ModbusMaster.written (fst (ModbusMaster.onResponse d c')) = ModbusMaster.written c')
    /\ layer_waiting A (ModbusMaster.layer (fst (ModbusMaster.onTimeout c'))) = None
    /\ ModbusMaster.timer (fst (ModbusMaster.onTimeout c')) = None
    /\ snd (ModbusMaster.onTimeout c') = ModbusMaster.Failed (mkError "Timeout").

(** The host after the calls [single(address + i, value[i])], made one
    after the other. *)
Fixpoint written_one_by_one {S A : Type} (single : Z -> A -> Async S Datatypes.unit)
         (address : Z) (value : list A) (s : S) : S :=
  match value with
  | [] => s
  | v :: rest => written_one_by_one single (address + 1) rest (snd (single address v s))
  end.

(** The error of the first of these calls that rejects. *)
Fixpoint first_rejection {S A : Type} (single : Z -> A -> Async S Datatypes.unit)
         (address : Z) (value : list A) (s : S) : option Error :=
  match value with
  | [] => None
  | v :: rest =>
      match single address v s with
      | (Rejected e, _) => Some e
      | (Resolved _, s') => first_rejection single (address + 1) rest s'
      end
  end.

(** ** A host for the examples *)

(** A server that encodes with the RTU layer, whose host keeps the log of
    the single-register writes, and for which [Number] of a string that is
    no decimal number is 0. *)
Module Example.

Definition Host := list (Z * Z).

Definition encode
  : ApplicationDataUnit -> RtuApplicationLayer.State -> option Buffer.t * RtuApplicationLayer.State :=
  layer_encode RtuLayer.

Definition Number_other : string -> Z := fun _ => 0.

Definition world : ModbusSlave.World Host RtuApplicationLayer.State :=
  ModbusSlave.mkWorld [] RtuApplicationLayer.initial [].

(** A model with [readCoils] only; every coil reads as its address being
    odd. *)
Definition coils_only : ModbusSlaveModel.t Host :=
  ModbusSlaveModel.mk None None None
    (Some (fun address length s =>
             (Resolved (ModbusSlave.tabulate length (fun i => Z.odd (address + i))), s)))
    None None None None None None None None None None.

(** A model with [readHoldingRegisters] and [writeSingleRegister] and no
    [maskWriteRegister]: every register reads as 0, a write is logged. *)
Definition registers_only : ModbusSlaveModel.t Host :=
  ModbusSlaveModel.mk None None None None None None None
    (Some (fun address length s => (Resolved (ModbusSlave.tabulate length (fun _ => 0)), s)))
    (Some (fun address value s => (Resolved tt, s ++ [(address, value)])))
    None None None None None.

(** A model whose [readHoldingRegisters] rejects with [error]. *)
Definition rejecting (error : Error) : ModbusSlaveModel.t Host :=
  ModbusSlaveModel.mk None None None None None None None
    (Some (fun address length s => (Rejected error, s)))
    None None None None None None.

Definition client : ModbusMaster.Client RtuLayer :=
  ModbusMaster.mkClient RtuLayer RtuApplicationLayer.initial [] None 0.

(** A model whose [readHoldingRegisters] yields [registers], whatever is
    asked, and logs the address of the read. *)
Definition fixed_registers (registers : list Z) : ModbusSlaveModel.t Host :=
  ModbusSlaveModel.mk None None None None None None None
    (Some (fun address length s => (Resolved registers, s ++ [(address, length)])))
    None None None None None None.

(** A model whose [readCoils] yields [coils], whatever is asked. *)
Definition fixed_coils (coils : list bool) : ModbusSlaveModel.t Host :=
  ModbusSlaveModel.mk None None None
    (Some (fun address length s => (Resolved coils, s ++ [(address, length)])))
    None None None None None None None None None None.

(** A model with [writeMultipleRegisters] and [writeMultipleCoils], which
    log every value under the address of the block. *)
Definition block_writes : ModbusSlaveModel.t Host :=
  ModbusSlaveModel.mk None None None None None
    (Some (fun address value s =>
             (Resolved tt, s ++ map (fun v : bool => (address, if v then 1 else 0)) value)))
    None None None
    (Some (fun address value s => (Resolved tt, s ++ map (fun v => (address, v)) value)))
    None None None None.

(** A model with [writeSingleRegister] only, which logs the writes but
    rejects the ones at [bad]. *)
Definition single_writes (bad : Z) : ModbusSlaveModel.t Host :=
  ModbusSlaveModel.mk None None None None None None None None
    (Some (fun address value s =>
             (if address =? bad then Rejected (ErrorCode.getErrorByCode ErrorCode.SERVER_DEVICE_BUSY)
              else Resolved tt,
              s ++ [(address, value)])))
    None None None None None.

(** A model with [reportServerId]. *)
Definition identified (id : ServerId) : ModbusSlaveModel.t Host :=
  ModbusSlaveModel.mk (Some 17) None None None None None None None None None None
    (Some (fun s => (Resolved id, s)))
    None None.


(** A model with [writeSingleCoil], which logs the writes. *)
Definition coil_writes : ModbusSlaveModel.t Host :=
  ModbusSlaveModel.mk None None None None
    (Some (fun address (value : bool) s =>
             (Resolved tt, s ++ [(address, if value then 1 else 0)])))
    None None None None None None None None None.

(** A model whose [writeMultipleRegisters] logs every value under the
    address of the block and whose [readHoldingRegisters] yields the values
    logged so far. *)
Definition write_then_read : ModbusSlaveModel.t Host :=
  ModbusSlaveModel.mk None None None None None None None
    (Some (fun address length s => (Resolved (map snd s), s)))
    None
    (Some (fun address value s => (Resolved tt, s ++ map (fun v => (address, v)) value)))
    None None None None.




End Example.

(* ================================================================= *)
(** * Part II: lemmas and theorems                                    *)
(* ================================================================= *)

Unset Implicit Arguments.


Lemma len_app (a b : Buffer.t) : Buffer.len (a ++ b) = Buffer.len a + Buffer.len b.
Proof. unfold Buffer.len. rewrite length_app. lia. Qed.

Lemma len_cons (x : Z) (b : Buffer.t) : Buffer.len (x :: b) = 1 + Buffer.len b.
Proof. unfold Buffer.len. simpl List.length. lia. Qed.

Lemma len_nonneg (b : Buffer.t) : 0 <= Buffer.len b.
Proof. unfold Buffer.len. lia. Qed.

Lemma len_repeat (n : nat) : Buffer.len (repeat 0 n) = Z.of_nat n.
Proof. unfold Buffer.len. now rewrite repeat_length. Qed.

Lemma alloc_add (a b : Z) :
  0 <= a -> 0 <= b -> Buffer.alloc (a + b) = Buffer.alloc a ++ Buffer.alloc b.
Proof.
  intros Ha Hb. unfold Buffer.alloc.
  rewrite Z2Nat.inj_add by lia. apply repeat_app.
Qed.

Lemma alloc_len (l : Buffer.t) : Buffer.alloc (Buffer.len l) = repeat 0 (List.length l).
Proof. unfold Buffer.alloc, Buffer.len. now rewrite Nat2Z.id. Qed.

(** Reading and writing at the end of a known prefix. *)
Lemma get_at (pre : Buffer.t) (x : Z) (post : Buffer.t) :
  Buffer.get (pre ++ x :: post) (Buffer.len pre) = x.
Proof.
  unfold Buffer.get, Buffer.len.
  destruct (Z.ltb_spec (Z.of_nat (List.length pre)) 0); [lia|].
  rewrite Nat2Z.id, app_nth2, Nat.sub_diag by lia. reflexivity.
Qed.

Lemma put_at (pre : Buffer.t) (x v : Z) (post : Buffer.t) :
  Buffer.put (pre ++ x :: post) (Buffer.len pre) v = pre ++ (v mod 256) :: post.
Proof.
  unfold Buffer.put. rewrite len_app, len_cons.
  pose proof (len_nonneg pre). pose proof (len_nonneg post).
  destruct (Z.leb_spec 0 (Buffer.len pre)); [|lia].
  destruct (Z.ltb_spec (Buffer.len pre) (Buffer.len pre + (1 + Buffer.len post))); [|lia].
  cbn [andb]. unfold Buffer.len. rewrite Nat2Z.id.
  rewrite firstn_app, firstn_all, Nat.sub_diag, firstn_O, app_nil_r.
  f_equal. f_equal.
  rewrite skipn_app, skipn_all2 by lia.
  replace (S (List.length pre) - List.length pre)%nat with 1%nat by lia.
  reflexivity.
Qed.

Lemma writeUInt8_at (pre : Buffer.t) (x v : Z) (post : Buffer.t) :
  byte v ->
  Buffer.writeUInt8 v (Buffer.len pre) (pre ++ x :: post) = Some (pre ++ v :: post).
Proof.
  intros Hv. unfold Buffer.writeUInt8, byte in *.
  rewrite len_app, len_cons. pose proof (len_nonneg pre). pose proof (len_nonneg post).
  replace ((0 <=? v) && (v <=? 255) && (0 <=? Buffer.len pre)
           && (Buffer.len pre + 1 <=? Buffer.len pre + (1 + Buffer.len post))) with true
    by (symmetry; repeat (apply andb_true_intro; split); apply Z.leb_le; lia).
  rewrite put_at, Z.mod_small by lia. reflexivity.
Qed.

Lemma put_at_eq (pre : Buffer.t) (x v i : Z) (post : Buffer.t) :
  i = Buffer.len pre ->
  Buffer.put (pre ++ x :: post) i v = pre ++ (v mod 256) :: post.
Proof. intros ->. apply put_at. Qed.

Lemma get_at_eq (pre : Buffer.t) (x i : Z) (post : Buffer.t) :
  i = Buffer.len pre -> Buffer.get (pre ++ x :: post) i = x.
Proof. intros ->. apply get_at. Qed.

Lemma shiftr8 (v : Z) : Z.shiftr v 8 = v / 256.
Proof. now rewrite Z.shiftr_div_pow2 by lia. Qed.

Lemma land255 (v : Z) : Z.land v 255 = v mod 256.
Proof. change 255 with (Z.ones 8). now rewrite Z.land_ones by lia. Qed.

Lemma writeUInt16BE_at (pre : Buffer.t) (x y v : Z) (post : Buffer.t) :
  0 <= v <= 65535 ->
  Buffer.writeUInt16BE v (Buffer.len pre) (pre ++ x :: y :: post)
  = Some (pre ++ (v / 256) :: (v mod 256) :: post).
Proof.
  intros Hv. unfold Buffer.writeUInt16BE.
  rewrite len_app, !len_cons. pose proof (len_nonneg pre). pose proof (len_nonneg post).
  replace ((0 <=? v) && (v <=? 65535) && (0 <=? Buffer.len pre)
           && (Buffer.len pre + 2 <=? Buffer.len pre + (1 + (1 + Buffer.len post)))) with true
    by (symmetry; repeat (apply andb_true_intro; split); apply Z.leb_le; lia).
  rewrite put_at.
  replace (pre ++ Z.shiftr v 8 mod 256 :: y :: post)
    with ((pre ++ [Z.shiftr v 8 mod 256]) ++ y :: post) by now rewrite <- app_assoc.
  rewrite put_at_eq by (rewrite len_app, len_cons; unfold Buffer.len; cbn [List.length]; lia).
  rewrite <- app_assoc. simpl.
  rewrite shiftr8, land255, Z.mod_mod by lia.
  rewrite (Z.mod_small (v / 256)) by (split; [apply Z.div_pos; lia | apply Z.div_lt_upper_bound; lia]).
  reflexivity.
Qed.

Lemma writeUInt16LE_at (pre : Buffer.t) (x y v : Z) (post : Buffer.t) :
  0 <= v <= 65535 ->
  Buffer.writeUInt16LE v (Buffer.len pre) (pre ++ x :: y :: post)
  = Some (pre ++ (v mod 256) :: (v / 256) :: post).
Proof.
  intros Hv. unfold Buffer.writeUInt16LE.
  rewrite len_app, !len_cons. pose proof (len_nonneg pre). pose proof (len_nonneg post).
  replace ((0 <=? v) && (v <=? 65535) && (0 <=? Buffer.len pre)
           && (Buffer.len pre + 2 <=? Buffer.len pre + (1 + (1 + Buffer.len post)))) with true
    by (symmetry; repeat (apply andb_true_intro; split); apply Z.leb_le; lia).
  rewrite put_at.
  replace (pre ++ Z.land v 255 mod 256 :: y :: post)
    with ((pre ++ [Z.land v 255 mod 256]) ++ y :: post) by now rewrite <- app_assoc.
  rewrite put_at_eq by (rewrite len_app, len_cons; unfold Buffer.len; cbn [List.length]; lia).
  rewrite <- app_assoc. simpl.
  rewrite shiftr8, land255, Z.mod_mod by lia.
  rewrite (Z.mod_small (v / 256)) by (split; [apply Z.div_pos; lia | apply Z.div_lt_upper_bound; lia]).
  reflexivity.
Qed.

Lemma readUInt16BE_at (pre : Buffer.t) (x y : Z) (post : Buffer.t) :
  Buffer.readUInt16BE (pre ++ x :: y :: post) (Buffer.len pre) = Some (x * 256 + y).
Proof.
  unfold Buffer.readUInt16BE.
  rewrite len_app, !len_cons. pose proof (len_nonneg pre). pose proof (len_nonneg post).
  replace ((0 <=? Buffer.len pre)
           && (Buffer.len pre + 2 <=? Buffer.len pre + (1 + (1 + Buffer.len post)))) with true
    by (symmetry; repeat (apply andb_true_intro; split); apply Z.leb_le; lia).
  rewrite get_at.
  replace (pre ++ x :: y :: post) with ((pre ++ [x]) ++ y :: post) by now rewrite <- app_assoc.
  rewrite get_at_eq by (rewrite len_app, len_cons; unfold Buffer.len; cbn [List.length]; lia).
  reflexivity.
Qed.

Lemma readUInt16LE_at (pre : Buffer.t) (x y : Z) (post : Buffer.t) :
  Buffer.readUInt16LE (pre ++ x :: y :: post) (Buffer.len pre) = Some (x + y * 256).
Proof.
  unfold Buffer.readUInt16LE.
  rewrite len_app, !len_cons. pose proof (len_nonneg pre). pose proof (len_nonneg post).
  replace ((0 <=? Buffer.len pre)
           && (Buffer.len pre + 2 <=? Buffer.len pre + (1 + (1 + Buffer.len post)))) with true
    by (symmetry; repeat (apply andb_true_intro; split); apply Z.leb_le; lia).
  rewrite get_at.
  replace (pre ++ x :: y :: post) with ((pre ++ [x]) ++ y :: post) by now rewrite <- app_assoc.
  rewrite get_at_eq by (rewrite len_app, len_cons; unfold Buffer.len; cbn [List.length]; lia).
  reflexivity.
Qed.

(** [forEach] of [writeUInt8] over a region of the right size fills it. *)
Lemma write_each_at (nums : list Z) :
  Forall byte nums ->
  forall (pre mid post : Buffer.t),
    List.length mid = List.length nums ->
    Buffer.write_each nums (Buffer.len pre) (pre ++ mid ++ post)
    = Some (pre ++ nums ++ post).
Proof.
  induction 1 as [|n nums Hn _ IH]; intros pre mid post Hlen.
  - destruct mid; [reflexivity | discriminate].
  - destruct mid as [|m mid]; [discriminate|]. injection Hlen as Hlen.
    cbn [Buffer.write_each]. change ((m :: mid) ++ post) with (m :: mid ++ post).
    rewrite writeUInt8_at by assumption. cbn [obind].
    replace (pre ++ n :: mid ++ post) with ((pre ++ [n]) ++ mid ++ post)
      by now rewrite <- app_assoc.
    replace (Buffer.len pre + 1) with (Buffer.len (pre ++ [n]))
      by (rewrite len_app; reflexivity).
    rewrite IH by assumption. now rewrite <- app_assoc.
Qed.

Lemma subarray_middle (pre mid post : Buffer.t) (s e : Z) :
  s = Buffer.len pre -> e = Buffer.len pre + Buffer.len mid ->
  Buffer.subarray (pre ++ mid ++ post) s e = mid.
Proof.
  intros -> ->. unfold Buffer.subarray, Buffer.rel_index.
  rewrite !len_app.
  pose proof (len_nonneg pre). pose proof (len_nonneg mid). pose proof (len_nonneg post).
  destruct (Z.ltb_spec (Buffer.len pre) 0); [lia|].
  destruct (Z.ltb_spec (Buffer.len pre + Buffer.len mid) 0); [lia|].
  rewrite !Z.min_l by lia.
  replace (Buffer.len pre + Buffer.len mid - Buffer.len pre) with (Buffer.len mid) by lia.
  unfold Buffer.len. rewrite !Nat2Z.id.
  rewrite skipn_app, skipn_all, Nat.sub_diag. cbn [app skipn].
  rewrite firstn_app, firstn_all, Nat.sub_diag, firstn_O, app_nil_r. reflexivity.
Qed.

Lemma subarray_drop_last (l post : Buffer.t) (k : Z) :
  post <> [] -> k = - Buffer.len post ->
  Buffer.subarray (l ++ post) 0 k = l.
Proof.
  intros Hne ->. unfold Buffer.subarray, Buffer.rel_index.
  rewrite len_app.
  pose proof (len_nonneg l).
  assert (0 < Buffer.len post) by (destruct post; [congruence | rewrite len_cons; pose proof (len_nonneg post); lia]).
  destruct (Z.ltb_spec (- Buffer.len post) 0); [|lia].
  cbn [Z.ltb Z.compare]. rewrite Z.max_l, Z.min_l by lia.
  replace (Buffer.len l + Buffer.len post + - Buffer.len post - 0) with (Buffer.len l) by lia.
  unfold Buffer.len. rewrite Nat2Z.id. cbn [Z.to_nat skipn].
  rewrite firstn_app, firstn_all, Nat.sub_diag, firstn_O, app_nil_r. reflexivity.
Qed.

(** ** Checksums stay in range *)

Lemma lxor_below (n a b : Z) :
  0 <= n -> 0 <= a < 2 ^ n -> 0 <= b < 2 ^ n -> 0 <= Z.lxor a b < 2 ^ n.
Proof.
  intros Hn Ha Hb.
  assert (Hnn : 0 <= Z.lxor a b) by (apply Z.lxor_nonneg; lia).
  split; [assumption|].
  destruct (Z.eq_dec (Z.lxor a b) 0) as [-> | Hne]; [lia|].
  assert (Hpos : 0 < n).
  { destruct (Z.eq_dec n 0) as [-> | ?]; [|lia].
    change (2 ^ 0) with 1 in *.
    assert (a = 0) by lia. assert (b = 0) by lia. subst. now elim Hne. }
  apply Z.log2_lt_pow2; [lia|].
  eapply Z.le_lt_trans; [apply Z.log2_lxor; lia|].
  apply Z.max_lub_lt.
  - destruct (Z.eq_dec a 0) as [-> | ?]; [exact Hpos|].
    apply Z.log2_lt_pow2; lia.
  - destruct (Z.eq_dec b 0) as [-> | ?]; [exact Hpos|].
    apply Z.log2_lt_pow2; lia.
Qed.

Lemma crc_shift_word (c : Z) : word c -> word (crc_shift c).
Proof.
  unfold word, crc_shift. intros Hc.
  assert (Hs : 0 <= Z.shiftr c 1 < 2 ^ 16).
  { rewrite Z.shiftr_div_pow2 by lia. change (2 ^ 1) with 2. change (2 ^ 16) with 65536.
    split; [apply Z.div_pos; lia | apply Z.div_lt_upper_bound; lia]. }
  destruct (Z.testbit c 0).
  - pose proof (lxor_below 16 (Z.shiftr c 1) 40961) as H.
    change (2 ^ 16) with 65536 in *. lia.
  - change (2 ^ 16) with 65536 in *. lia.
Qed.

Lemma crc_step_word (c b : Z) : word c -> byte b -> word (crc_step c b).
Proof.
  intros Hc Hb. unfold crc_step.
  assert (H0 : word (Z.lxor c b)).
  { unfold word, byte in *.
    pose proof (lxor_below 16 c b) as H.
    change (2 ^ 16) with 65536 in *. lia. }
  generalize dependent (Z.lxor c b). intros z Hz.
  cbn [Nat.iter nat_rect]. auto 10 using crc_shift_word.
Qed.

Lemma crc_word (l : Buffer.t) : Forall byte l -> word (crc l).
Proof.
  unfold crc. assert (H : word 65535) by (unfold word; lia).
  generalize dependent 65535. intros c Hc Hl. revert c Hc.
  induction Hl as [|b l Hb _ IH]; intros c Hc; cbn [fold_left]; auto using crc_step_word.
Qed.

Lemma lrc_byte (l : Buffer.t) : byte (lrc l).
Proof.
  unfold lrc, byte. rewrite land255.
  pose proof (Z.mod_pos_bound (toInt32 (Z.lnot (toInt32 (fold_left Z.add l 0)) + 1)) 256). lia.
Qed.

(** ** Closed forms of the encoders *)

Lemma alloc_frame (l : Buffer.t) (a b : nat) :
  Buffer.alloc (Buffer.len l + Z.of_nat (a + b))
  = repeat 0 a ++ repeat 0 (List.length l) ++ repeat 0 b.
Proof.
  unfold Buffer.alloc, Buffer.len.
  rewrite <- Nat2Z.inj_add, Nat2Z.id, <- !repeat_app. f_equal. lia.
Qed.

Lemma div256_byte (v : Z) : word v -> byte (v / 256).
Proof.
  unfold word, byte. intros H.
  split; [apply Z.div_pos; lia | apply Z.lt_succ_r, Z.div_lt_upper_bound; lia].
Qed.

Lemma mod256_byte (v : Z) : byte (v mod 256).
Proof. unfold byte. pose proof (Z.mod_pos_bound v 256). lia. Qed.

Lemma join256 (v : Z) : v mod 256 + v / 256 * 256 = v.
Proof. pose proof (Z.div_mod v 256). lia. Qed.

(** Rewrite with a lemma about a literal prefix, after computing the
    prefix length and the appends. *)
Ltac rewrite_at lem :=
  let E := fresh "E" in
  pose proof lem as E;
  cbn [app Buffer.len List.length Z.of_nat Pos.of_succ_nat Pos.succ] in E;
  rewrite E; clear E.

Lemma Rtu_encode_bytes (d : ApplicationDataUnit) :
  well_formed d ->
  RtuApplicationLayer.encode d
  = Some (unit d :: fc d :: data d
            ++ [crc (unit d :: fc d :: data d) mod 256;
                crc (unit d :: fc d :: data d) / 256]).
Proof.
  intros (Hu & Hf & Hd). unfold RtuApplicationLayer.encode.
  change (Buffer.len (data d) + 4) with (Buffer.len (data d) + Z.of_nat (2 + 2)).
  rewrite (alloc_frame (data d) 2 2). cbn [repeat app].
  rewrite_at (writeUInt8_at [] 0 (unit d) (0 :: repeat 0 (List.length (data d)) ++ [0; 0]) Hu).
  cbn [obind].
  rewrite_at (writeUInt8_at [unit d] 0 (fc d) (repeat 0 (List.length (data d)) ++ [0; 0]) Hf).
  cbn [obind].
  rewrite_at (write_each_at (data d) Hd [unit d; fc d] (repeat 0 (List.length (data d))) [0; 0]
                (repeat_length _ _)).
  cbn [obind].
  rewrite (subarray_drop_last (unit d :: fc d :: data d) [0; 0]) by (discriminate || reflexivity).
  assert (Hw : word (crc (unit d :: fc d :: data d))) by (apply crc_word; auto).
  replace (Buffer.len (unit d :: fc d :: data d ++ [0; 0]) - 2)
    with (Buffer.len (unit d :: fc d :: data d))
    by (rewrite !len_cons, len_app, !len_cons; unfold Buffer.len; cbn [List.length]; lia).
  change (unit d :: fc d :: data d ++ [0; 0]) with ((unit d :: fc d :: data d) ++ [0; 0]).
  rewrite (writeUInt16LE_at (unit d :: fc d :: data d) 0 0 _ [] Hw).
  reflexivity.
Qed.

Lemma Rtu_framing_encoded (u f : Z) (payload : list Z) (c : Z) :
  word c -> c = crc (u :: f :: payload) ->
  RtuApplicationLayer.framing None (u :: f :: payload ++ [c mod 256; c / 256])
  = Resolved (mkFrame (mkADU None u f payload) (u :: f :: payload ++ [c mod 256; c / 256])).
Proof.
  intros Hw Hc. unfold RtuApplicationLayer.framing.
  set (buffer := u :: f :: payload ++ [c mod 256; c / 256]).
  assert (Hlen : Buffer.len buffer = Buffer.len payload + 4).
  { unfold buffer. rewrite !len_cons, len_app, !len_cons. unfold Buffer.len; cbn [List.length]; lia. }
  pose proof (len_nonneg payload).
  destruct (Z.leb_spec 4 (Buffer.len buffer)); [|lia].
  replace (Buffer.get buffer 0) with u by reflexivity.
  replace (Buffer.get buffer 1) with f by reflexivity.
  replace (Buffer.subarray buffer 2 (Buffer.len buffer - 2)) with payload
    by (symmetry; apply (subarray_middle [u; f] payload [c mod 256; c / 256]);
        [reflexivity | rewrite Hlen; unfold Buffer.len; cbn [List.length]; lia]).
  replace (Buffer.len buffer - 2) with (Buffer.len (u :: f :: payload))
    by (rewrite Hlen, !len_cons; lia).
  change buffer with ((u :: f :: payload) ++ [c mod 256; c / 256]) at 1.
  rewrite readUInt16LE_at, join256.
  change buffer with ((u :: f :: payload) ++ [c mod 256; c / 256]) at 1.
  rewrite (subarray_middle [] (u :: f :: payload) [c mod 256; c / 256])
    by reflexivity.
  rewrite <- Hc, Z.eqb_refl. reflexivity.
Qed.

Lemma join256_be (v : Z) : v / 256 * 256 + v mod 256 = v.
Proof. pose proof (Z.div_mod v 256). lia. Qed.

Lemma Tcp_encode_bytes (d : ApplicationDataUnit) (s : TcpApplicationLayer.State) :
  well_formed d ->
  word (match transaction d with Some t => t | None => TcpApplicationLayer._transactionId s end) ->
  Buffer.len (data d) + 2 <= 65535 ->
  TcpApplicationLayer.encode d s
  = (Some (header (match transaction d with Some t => t | None => TcpApplicationLayer._transactionId s end)
                  (Buffer.len (data d))
           ++ unit d :: fc d :: data d),
     TcpApplicationLayer.mkState
       (TcpApplicationLayer._waitingResponse s)
       (TcpApplicationLayer.next_transactionId (TcpApplicationLayer._transactionId s))).
Proof.
  intros (Hu & Hf & Hd) Hid Hn. unfold TcpApplicationLayer.encode, header.
  set (id := match transaction d with Some t => t | None => TcpApplicationLayer._transactionId s end) in *.
  set (n := Buffer.len (data d)) in *.
  assert (Hn2 : word (n + 2)) by (unfold word, n; pose proof (len_nonneg (data d)); lia).
  assert (H0 : word 0) by (unfold word; lia).
  unfold n at 1.
  change (Buffer.len (data d) + 8) with (Buffer.len (data d) + Z.of_nat (8 + 0)).
  rewrite (alloc_frame (data d) 8 0). cbn [repeat app]. rewrite app_nil_r.
  rewrite_at (writeUInt16BE_at [] 0 0 id
                (0 :: 0 :: 0 :: 0 :: 0 :: 0 :: repeat 0 (List.length (data d))) Hid).
  cbn [obind].
  rewrite_at (writeUInt16BE_at [id / 256; id mod 256] 0 0 0
                (0 :: 0 :: 0 :: 0 :: repeat 0 (List.length (data d))) H0).
  cbn [obind]. change (0 / 256) with 0. change (0 mod 256) with 0.
  rewrite_at (writeUInt16BE_at [id / 256; id mod 256; 0; 0] 0 0 (n + 2)
                (0 :: 0 :: repeat 0 (List.length (data d))) Hn2).
  cbn [obind].
  rewrite_at (writeUInt8_at [id / 256; id mod 256; 0; 0; (n + 2) / 256; (n + 2) mod 256]
                0 (unit d) (0 :: repeat 0 (List.length (data d))) Hu).
  cbn [obind].
  rewrite_at (writeUInt8_at
                [id / 256; id mod 256; 0; 0; (n + 2) / 256; (n + 2) mod 256; unit d]
                0 (fc d) (repeat 0 (List.length (data d))) Hf).
  cbn [obind].
  pose proof (write_each_at (data d) Hd
                [id / 256; id mod 256; 0; 0; (n + 2) / 256; (n + 2) mod 256; unit d; fc d]
                (repeat 0 (List.length (data d))) [] (repeat_length _ _)) as E.
  rewrite !app_nil_r in E.
  cbn [app Buffer.len List.length Z.of_nat Pos.of_succ_nat Pos.succ] in E.
  rewrite E. reflexivity.
Qed.

Lemma Tcp_framing_encoded (id u f : Z) (payload : list Z) :
  word id -> Buffer.len payload + 2 <= 65535 ->
  TcpApplicationLayer.framing None (header id (Buffer.len payload) ++ u :: f :: payload)
  = Resolved (mkFrame (mkADU (Some id) u f payload)
                      (header id (Buffer.len payload) ++ u :: f :: payload)).
Proof.
  intros Hid Hn. unfold TcpApplicationLayer.framing, header.
  set (n := Buffer.len payload).
  set (buffer := [id / 256; id mod 256; 0; 0; (n + 2) / 256; (n + 2) mod 256] ++ u :: f :: payload).
  assert (Hlen : Buffer.len buffer = n + 8).
  { unfold buffer, n. rewrite len_app, !len_cons. unfold Buffer.len; cbn [List.length]; lia. }
  pose proof (len_nonneg payload). fold n in H.
  destruct (Z.leb_spec 8 (Buffer.len buffer)); [|lia].
  replace (Buffer.get buffer 2) with 0 by reflexivity.
  replace (Buffer.get buffer 3) with 0 by reflexivity.
  replace (Buffer.get buffer 6) with u by reflexivity.
  replace (Buffer.get buffer 7) with f by reflexivity.
  replace (Buffer.readUInt16BE buffer 4) with (Some (n + 2)).
  2:{ symmetry.
      pose proof (readUInt16BE_at [id / 256; id mod 256; 0; 0] ((n + 2) / 256) ((n + 2) mod 256)
                    (u :: f :: payload)) as E.
      rewrite join256_be in E. exact E. }
  replace (Buffer.readUInt16BE buffer 0) with (Some id).
  2:{ symmetry.
      pose proof (readUInt16BE_at [] (id / 256) (id mod 256)
                    (0 :: 0 :: (n + 2) / 256 :: (n + 2) mod 256 :: u :: f :: payload)) as E.
      rewrite join256_be in E. exact E. }
  replace (Buffer.subarray_from buffer 8) with payload.
  2:{ symmetry. unfold Buffer.subarray_from.
      pose proof (subarray_middle
                    [id / 256; id mod 256; 0; 0; (n + 2) / 256; (n + 2) mod 256; u; f]
                    payload [] 8 (Buffer.len buffer)) as E.
      rewrite app_nil_r in E. apply E; [reflexivity|].
      rewrite Hlen. unfold n, Buffer.len; cbn [List.length]; lia. }
  cbn [Z.eqb andb].
  replace (n + 2 =? Buffer.len buffer - 6) with true by (symmetry; apply Z.eqb_eq; lia).
  reflexivity.
Qed.

(** ** ASCII: hexadecimal digits *)

Lemma hex_value_digit (n : Z) :
  0 <= n < 16 -> AsciiApplicationLayer.hex_value (AsciiApplicationLayer.hex_digit n) = Some n.
Proof.
  intros Hn. unfold AsciiApplicationLayer.hex_digit, AsciiApplicationLayer.hex_value.
  destruct (Z.ltb_spec n 10).
  - replace ((48 <=? 48 + n) && (48 + n <=? 57)) with true
      by (symmetry; apply andb_true_intro; split; apply Z.leb_le; lia).
    f_equal. lia.
  - replace ((48 <=? 55 + n) && (55 + n <=? 57)) with false
      by (symmetry; apply andb_false_intro2; apply Z.leb_gt; lia).
    replace ((65 <=? 55 + n) && (55 + n <=? 70)) with true
      by (symmetry; apply andb_true_intro; split; apply Z.leb_le; lia).
    f_equal. lia.
Qed.

Lemma number_0x_hex2 (v : Z) :
  byte v ->
  AsciiApplicationLayer.number_0x (AsciiApplicationLayer.hex_digit (v / 16))
                                  (AsciiApplicationLayer.hex_digit (v mod 16))
  = Some v.
Proof.
  intros Hv. unfold AsciiApplicationLayer.number_0x, byte in *.
  rewrite !hex_value_digit.
  - f_equal. pose proof (Z.div_mod v 16). lia.
  - apply Z.mod_pos_bound. lia.
  - split; [apply Z.div_pos; lia | apply Z.div_lt_upper_bound; lia].
Qed.

Lemma unhex_hex2 (l : Buffer.t) :
  Forall byte l -> AsciiApplicationLayer.unhex (flat_map AsciiApplicationLayer.hex2 l) = l.
Proof.
  induction 1 as [|v l Hv _ IH]; [reflexivity|].
  cbn [flat_map AsciiApplicationLayer.hex2 app AsciiApplicationLayer.unhex].
  rewrite number_0x_hex2, IH by assumption.
  unfold byte in Hv. now rewrite Z.mod_small by lia.
Qed.

Lemma hex_digit_char (n : Z) : 0 <= n < 16 -> hex_char (AsciiApplicationLayer.hex_digit n).
Proof.
  intros Hn. unfold hex_char, AsciiApplicationLayer.hex_digit.
  destruct (Z.ltb_spec n 10); lia.
Qed.

Lemma hex2_chars (l : Buffer.t) :
  Forall byte l -> Forall hex_char (flat_map AsciiApplicationLayer.hex2 l).
Proof.
  induction 1 as [|v l Hv _ IH]; [constructor|].
  cbn [flat_map AsciiApplicationLayer.hex2 app]. unfold byte in Hv.
  constructor; [|constructor; [|exact IH]]; apply hex_digit_char.
  - split; [apply Z.div_pos; lia | apply Z.div_lt_upper_bound; lia].
  - apply Z.mod_pos_bound. lia.
Qed.

Lemma len_hex2 (l : Buffer.t) : Buffer.len (flat_map AsciiApplicationLayer.hex2 l) = 2 * Buffer.len l.
Proof.
  induction l as [|v l IH]; [reflexivity|].
  cbn [flat_map AsciiApplicationLayer.hex2 app]. rewrite !len_cons, IH. lia.
Qed.

Lemma from_bytes (l : list Z) : Forall byte l -> Buffer.from l = l.
Proof.
  unfold Buffer.from. induction 1 as [|v l Hv _ IH]; [reflexivity|].
  cbn [map]. unfold byte in Hv. now rewrite IH, Z.mod_small by lia.
Qed.

Lemma hex_char_byte (c : Z) : hex_char c -> byte c.
Proof. unfold hex_char, byte. lia. Qed.

(** ** ASCII: the scanner in RECEPTION *)

Lemma Ascii_reception (chars : list Z) :
  Forall hex_char chars ->
  forall (w : option WaitingResponse) (acc rest : list Z),
    AsciiApplicationLayer.handleData (chars ++ rest)
      (AsciiApplicationLayer.mkState w AsciiApplicationLayer.reception acc)
    = AsciiApplicationLayer.handleData rest
        (AsciiApplicationLayer.mkState w AsciiApplicationLayer.reception (acc ++ chars)).
Proof.
  induction 1 as [|c chars Hc _ IH]; intros w acc rest.
  - now rewrite app_nil_r.
  - cbn [app AsciiApplicationLayer.handleData]. unfold AsciiApplicationLayer.step at 1.
    cbn [AsciiApplicationLayer._status AsciiApplicationLayer._waitingResponse AsciiApplicationLayer._frame].
    unfold AsciiApplicationLayer.COLON, AsciiApplicationLayer.CR. unfold hex_char in Hc.
    destruct (Z.eqb_spec c 58); [lia|]. destruct (Z.eqb_spec c 13); [lia|].
    rewrite IH, <- app_assoc. cbn [app].
    destruct (AsciiApplicationLayer.handleData rest _). reflexivity.
Qed.

Lemma Ascii_encode_bytes (d : ApplicationDataUnit) :
  well_formed d ->
  AsciiApplicationLayer.encode d
  = Some (58 :: flat_map AsciiApplicationLayer.hex2
                  (unit d :: fc d :: data d ++ [lrc (unit d :: fc d :: data d)])
             ++ [13; 10]).
Proof.
  intros (Hu & Hf & Hd). unfold AsciiApplicationLayer.encode.
  change (Buffer.len (data d) + 3) with (Buffer.len (data d) + Z.of_nat (2 + 1)).
  rewrite (alloc_frame (data d) 2 1). cbn [repeat app].
  rewrite_at (writeUInt8_at [] 0 (unit d) (0 :: repeat 0 (List.length (data d)) ++ [0]) Hu).
  cbn [obind].
  rewrite_at (writeUInt8_at [unit d] 0 (fc d) (repeat 0 (List.length (data d)) ++ [0]) Hf).
  cbn [obind].
  rewrite_at (write_each_at (data d) Hd [unit d; fc d] (repeat 0 (List.length (data d))) [0]
                (repeat_length _ _)).
  cbn [obind].
  rewrite (subarray_drop_last (unit d :: fc d :: data d) [0]) by (discriminate || reflexivity).
  replace (Buffer.len (unit d :: fc d :: data d ++ [0]) - 1)
    with (Buffer.len (unit d :: fc d :: data d))
    by (rewrite !len_cons, len_app, !len_cons; unfold Buffer.len; cbn [List.length]; lia).
  change (unit d :: fc d :: data d ++ [0]) with ((unit d :: fc d :: data d) ++ [0]).
  rewrite (writeUInt8_at (unit d :: fc d :: data d) 0 _ [] (lrc_byte _)).
  reflexivity.
Qed.

Lemma Ascii_framing_hex (u f : Z) (payload : list Z) :
  byte u -> byte f -> Forall byte payload ->
  AsciiApplicationLayer.framing None
    (flat_map AsciiApplicationLayer.hex2 (u :: f :: payload ++ [lrc (u :: f :: payload)]))
  = Resolved (mkFrame (mkADU None u f payload)
                (flat_map AsciiApplicationLayer.hex2 (u :: f :: payload ++ [lrc (u :: f :: payload)]))).
Proof.
  intros Hu Hf Hp. unfold AsciiApplicationLayer.framing.
  set (bytes := u :: f :: payload ++ [lrc (u :: f :: payload)]).
  assert (Hb : Forall byte bytes).
  { unfold bytes. constructor; [assumption|]. constructor; [assumption|].
    apply Forall_app. split; [assumption|].
    constructor; [apply lrc_byte | constructor]. }
  assert (Hlen : Buffer.len bytes = Buffer.len payload + 3).
  { unfold bytes. rewrite !len_cons, len_app, !len_cons. unfold Buffer.len; cbn [List.length]; lia. }
  pose proof (len_nonneg payload).
  rewrite len_hex2, unhex_hex2 by assumption.
  destruct (Z.leb_spec 6 (2 * Buffer.len bytes)); [|lia].
  replace (Z.rem (2 * Buffer.len bytes) 2) with 0
    by (symmetry; rewrite Z.mul_comm; apply Z.rem_mul; lia).
  cbn [Z.eqb].
  replace (Buffer.get bytes 0) with u by reflexivity.
  replace (Buffer.get bytes 1) with f by reflexivity.
  replace (Buffer.subarray bytes 2 (Buffer.len bytes - 1)) with payload
    by (symmetry; apply (subarray_middle [u; f] payload [lrc (u :: f :: payload)]);
        [reflexivity | rewrite Hlen; unfold Buffer.len; cbn [List.length]; lia]).
  replace (Buffer.get bytes (Buffer.len bytes - 1)) with (lrc (u :: f :: payload))
    by (symmetry; apply (get_at_eq (u :: f :: payload) (lrc (u :: f :: payload)) _ []);
        rewrite Hlen, !len_cons; lia).
  replace (Buffer.subarray bytes 0 (Buffer.len bytes - 1)) with (u :: f :: payload)
    by (symmetry; apply (subarray_middle [] (u :: f :: payload) [lrc (u :: f :: payload)]);
        [reflexivity | rewrite Hlen, !len_cons; unfold Buffer.len; cbn [List.length]; lia]).
  rewrite Z.eqb_refl. reflexivity.
Qed.

(** A burst that is one encoded frame, scanned from IDLE. *)
Lemma Ascii_scan_frame (body : list Z) (s : AsciiApplicationLayer.State) :
  Forall hex_char body ->
  AsciiApplicationLayer._status s = AsciiApplicationLayer.idle ->
  AsciiApplicationLayer._waitingResponse s = None ->
  AsciiApplicationLayer.handleData (58 :: body ++ [13; 10]) s
  = (AsciiApplicationLayer.mkState None AsciiApplicationLayer.idle body,
     match AsciiApplicationLayer.framing None body with
     | Resolved frame => [EmitFraming frame]
     | Rejected _ => []
     end).
Proof.
  intros Hb Hs Hw. destruct s as [w st fr]. cbn in Hs, Hw. subst.
  cbn [AsciiApplicationLayer.handleData]. unfold AsciiApplicationLayer.step at 1.
  cbn [AsciiApplicationLayer._status AsciiApplicationLayer._waitingResponse AsciiApplicationLayer._frame].
  change (58 =? AsciiApplicationLayer.COLON) with true. cbn iota.
  rewrite Ascii_reception by assumption. cbn [app AsciiApplicationLayer.handleData].
  unfold AsciiApplicationLayer.step. cbn [AsciiApplicationLayer._status AsciiApplicationLayer._waitingResponse AsciiApplicationLayer._frame].
  change (13 =? AsciiApplicationLayer.COLON) with false. change (13 =? AsciiApplicationLayer.CR) with true.
  change (10 =? AsciiApplicationLayer.COLON) with false. change (10 =? AsciiApplicationLayer.LF) with true.
  cbn iota. cbn [AsciiApplicationLayer._status AsciiApplicationLayer._waitingResponse AsciiApplicationLayer._frame].
  rewrite from_bytes by (eapply Forall_impl; [apply hex_char_byte | exact Hb]).
  destruct (AsciiApplicationLayer.framing None body); reflexivity.
Qed.

(** ** Round trip of the three framings *)

Lemma Forall_repeat (P : Z -> Prop) (x : Z) (n : nat) : P x -> Forall P (repeat x n).
Proof. intros H. induction n; cbn [repeat]; constructor; auto. Qed.

(** C1, as stated, fails: an ADU whose unit, function code and data bytes
    are in 0..255 and whose transaction id is given, but whose data has
    65534 bytes, is not encoded by the MBAP layer at all: the length
    [data.length + 2] does not fit [writeUInt16BE], which throws. *)
Lemma roundtrip_mbap_too_long :
  let d := mkADU (Some 1) 1 3 (repeat 0 (Z.to_nat 65534)) in
  byte (unit d) /\ byte (fc d) /\ Forall byte (data d)
  /\ transaction d = Some 1
  /\ fst (TcpApplicationLayer.encode d TcpApplicationLayer.initial) = None.
Proof.
  cbv zeta. cbn [unit fc data transaction].
  split; [unfold byte; lia|]. split; [unfold byte; lia|].
  split; [apply Forall_repeat; unfold byte; lia|].
  split; [reflexivity|].
  vm_compute. reflexivity.
Qed.

(** C1 (amended): for every ADU whose unit, function code and data bytes
    are in 0..255, [encode] of the RTU layer returns bytes that [framing]
    decodes (the CRC passes) to a frame with the same unit, function code
    and data; [encode] of the ASCII layer returns a colon, a body and CR LF,
    [framing] decodes the body (the LRC passes) to that frame, and the
    ['data'] listener, fed the bytes from IDLE, emits exactly that frame;
    and when the ADU carries a 16-bit transaction id and has at most 65533
    data bytes, [encode] of the MBAP layer returns bytes that [framing]
    decodes (the header checks pass) to a frame with the same transaction
    id, unit, function code and data. *)
Theorem roundtrip (d : ApplicationDataUnit) :
  byte (unit d) -> byte (fc d) -> Forall byte (data d) ->
  (exists bytes,
      RtuApplicationLayer.encode d = Some bytes
      /\ RtuApplicationLayer.framing None bytes
         = Resolved (mkFrame (mkADU None (unit d) (fc d) (data d)) bytes))
  /\ (exists bytes body,
         AsciiApplicationLayer.encode d = Some bytes
         /\ bytes
            = AsciiApplicationLayer.COLON :: body
                ++ [AsciiApplicationLayer.CR; AsciiApplicationLayer.LF]
         /\ AsciiApplicationLayer.framing None body
            = Resolved (mkFrame (mkADU None (unit d) (fc d) (data d)) body)
         /\ snd (AsciiApplicationLayer.handleData bytes AsciiApplicationLayer.initial)
            = [EmitFraming (mkFrame (mkADU None (unit d) (fc d) (data d)) body)])
  /\ (forall (t : Z) (s : TcpApplicationLayer.State),
         transaction d = Some t -> 0 <= t <= 65535 ->
         Buffer.len (data d) <= 65533 ->
         exists bytes,
           fst (TcpApplicationLayer.encode d s) = Some bytes
           /\ TcpApplicationLayer.framing None bytes
              = Resolved (mkFrame (mkADU (Some t) (unit d) (fc d) (data d)) bytes)).
Proof.
  intros Hu Hf Hd.
  assert (Hwf : well_formed d) by (unfold well_formed; auto).
  split; [|split].
  - eexists. split; [apply Rtu_encode_bytes; exact Hwf|].
    apply Rtu_framing_encoded; [|reflexivity].
    apply crc_word. auto.
  - eexists. exists (flat_map AsciiApplicationLayer.hex2
                       (unit d :: fc d :: data d ++ [lrc (unit d :: fc d :: data d)])).
    assert (Hb : Forall byte (unit d :: fc d :: data d ++ [lrc (unit d :: fc d :: data d)])).
    { constructor; [assumption|]. constructor; [assumption|].
      apply Forall_app. split; [assumption|].
      constructor; [apply lrc_byte | constructor]. }
    split; [apply Ascii_encode_bytes; exact Hwf|].
    split; [reflexivity|].
    split; [apply Ascii_framing_hex; assumption|].
    unfold AsciiApplicationLayer.COLON, AsciiApplicationLayer.CR, AsciiApplicationLayer.LF.
    rewrite Ascii_scan_frame by (try reflexivity; apply hex2_chars; exact Hb).
    cbn [snd]. rewrite Ascii_framing_hex by assumption. reflexivity.
  - intros t s Ht Hrange Hlen.
    eexists. split.
    + rewrite Tcp_encode_bytes; [reflexivity | exact Hwf | |]; rewrite ?Ht; unfold word; lia.
    + rewrite Ht. apply Tcp_framing_encoded; unfold word; lia.
Qed.

(** The round trip at the request of scenario 1 of the specification. *)
Lemma roundtrip_witness :
  let d := mkADU (Some 7) 17 3 [0; 107; 0; 3] in
  (exists bytes,
      RtuApplicationLayer.encode d = Some bytes
      /\ RtuApplicationLayer.framing None bytes
         = Resolved (mkFrame (mkADU None 17 3 [0; 107; 0; 3]) bytes))
  /\ (exists bytes,
         fst (TcpApplicationLayer.encode d TcpApplicationLayer.initial) = Some bytes
         /\ TcpApplicationLayer.framing None bytes = Resolved (mkFrame d bytes)).
Proof.
  cbv zeta.
  assert (H1 : byte 17) by (unfold byte; lia).
  assert (H2 : byte 3) by (unfold byte; lia).
  assert (H3 : Forall byte [0; 107; 0; 3]) by (repeat constructor; unfold byte; lia).
  destruct (roundtrip (mkADU (Some 7) 17 3 [0; 107; 0; 3]) H1 H2 H3) as (Hr & _ & Ht).
  split; [exact Hr|].
  apply (Ht 7 TcpApplicationLayer.initial eq_refl); [lia | vm_compute; discriminate].
Defined.

(** ** The pre-check pipeline on a number *)

(** The comparison of the RTU and TCP loops. *)
Lemma Rtu_preCheck_number (check : PreCheck) (rest : list PreCheck) (frame : Frame) (n : Z) :
  check frame = CNumber n ->
  RtuApplicationLayer.run_preCheck (check :: rest) frame
  = if n <? Buffer.len (data frame) then Some (fail "Insufficient data length")
    else if Buffer.len (data frame) <? n then Some (fail "Invalid response")
    else if n =? 0 then Some (fail "Invalid response")
    else RtuApplicationLayer.run_preCheck rest frame.
Proof.
  intros E. cbn [RtuApplicationLayer.run_preCheck]. rewrite E. cbn [falsy].
  destruct (Z.ltb_spec n (Buffer.len (data frame))); [reflexivity|].
  destruct (Z.eqb_spec n (Buffer.len (data frame))), (Z.ltb_spec (Buffer.len (data frame)) n);
    try lia; reflexivity.
Qed.

Lemma Tcp_preCheck_number (check : PreCheck) (rest : list PreCheck) (frame : Frame) (n : Z) :
  check frame = CNumber n ->
  TcpApplicationLayer.run_preCheck (check :: rest) frame
  = if n <? Buffer.len (data frame) then Some (fail "Insufficient data length")
    else if Buffer.len (data frame) <? n then Some (fail "Invalid response")
    else if n =? 0 then Some (fail "Invalid response")
    else TcpApplicationLayer.run_preCheck rest frame.
Proof.
  intros E. cbn [TcpApplicationLayer.run_preCheck]. rewrite E. cbn [falsy].
  destruct (Z.ltb_spec n (Buffer.len (data frame))); [reflexivity|].
  destruct (Z.eqb_spec n (Buffer.len (data frame))), (Z.ltb_spec (Buffer.len (data frame)) n);
    try lia; reflexivity.
Qed.

(** The comparison of the ASCII loop is the one of the specification,
    for N other than 0. *)
Lemma Ascii_preCheck_number (check : PreCheck) (rest : list PreCheck) (frame : Frame) (n : Z) :
  check frame = CNumber n ->
  AsciiApplicationLayer.run_preCheck (check :: rest) frame
  = if Buffer.len (data frame) <? n then Some (fail "Insufficient data length")
    else if n <? Buffer.len (data frame) then Some (fail "Invalid response")
    else if n =? 0 then Some (fail "Invalid response")
    else AsciiApplicationLayer.run_preCheck rest frame.
Proof.
  intros E. cbn [AsciiApplicationLayer.run_preCheck]. rewrite E. cbn [falsy].
  destruct (Z.ltb_spec (Buffer.len (data frame)) n); [reflexivity|].
  destruct (Z.eqb_spec (Buffer.len (data frame)) n), (Z.ltb_spec n (Buffer.len (data frame)));
    try lia; reflexivity.
Qed.

(** C2, at inputs where the code departs from it: with a pre-check that
    returns 7, the RTU and the MBAP framers report 'Invalid response' for a
    frame with fewer than 7 data bytes and 'Insufficient data length' for a
    frame with more, the reverse of what the claim (and the ASCII framer)
    says. *)
Theorem preCheck_number_reversed :
  let waiting := Some (mkWaiting [fun _ => CNumber 7] (fun _ => StopWaiting)) in
  (* a response cut after its byte count: 0 data bytes where 7 are expected *)
  RtuApplicationLayer.framing waiting [17; 3; 6; 174] = fail "Invalid response"
  (* a response with 9 data bytes where 7 are expected *)
  /\ RtuApplicationLayer.framing waiting [17; 3; 6; 174; 65; 86; 82; 67; 64; 0; 0; 73; 173]
     = fail "Insufficient data length"
  /\ TcpApplicationLayer.framing waiting [0; 1; 0; 0; 0; 3; 17; 3; 6] = fail "Invalid response"
  /\ TcpApplicationLayer.framing waiting [0; 1; 0; 0; 0; 11; 17; 3; 6; 174; 65; 86; 82; 67; 64; 0; 0]
     = fail "Insufficient data length".
Proof. cbv zeta. repeat split; vm_compute; reflexivity. Qed.

(** ** Transaction ids of the MBAP encoder *)

Lemma writeUInt8_Some (v off : Z) (b b' : Buffer.t) :
  Buffer.writeUInt8 v off b = Some b' -> byte v.
Proof.
  unfold Buffer.writeUInt8, byte.
  destruct (Z.leb_spec 0 v), (Z.leb_spec v 255); cbn [andb]; try discriminate; intros; lia.
Qed.

Lemma writeUInt16BE_Some (v off : Z) (b b' : Buffer.t) :
  Buffer.writeUInt16BE v off b = Some b' -> word v.
Proof.
  unfold Buffer.writeUInt16BE, word.
  destruct (Z.leb_spec 0 v), (Z.leb_spec v 65535); cbn [andb]; try discriminate; intros; lia.
Qed.

Lemma write_each_Some (nums : list Z) :
  forall (off : Z) (b b' : Buffer.t),
    Buffer.write_each nums off b = Some b' -> Forall byte nums.
Proof.
  induction nums as [|n nums IH]; intros off b b' H; [constructor|].
  cbn [Buffer.write_each] in H.
  destruct (Buffer.writeUInt8 n off b) as [b1|] eqn:E; [|discriminate].
  cbn [obind] in H. constructor; [eapply writeUInt8_Some; eauto | eapply IH; eauto].
Qed.

(** An [encode] that returns was given an ADU that fits the frame. *)
Lemma Tcp_encode_Some (d : ApplicationDataUnit) (s : TcpApplicationLayer.State) (bytes : Buffer.t) :
  fst (TcpApplicationLayer.encode d s) = Some bytes ->
  well_formed d
  /\ word (match transaction d with Some t => t | None => TcpApplicationLayer._transactionId s end)
  /\ Buffer.len (data d) + 2 <= 65535.
Proof.
  unfold TcpApplicationLayer.encode.
  destruct (Buffer.writeUInt16BE _ 0 _) as [b1|] eqn:E1; [|discriminate]. cbn [obind].
  destruct (Buffer.writeUInt16BE 0 2 b1) as [b2|] eqn:E2; [|discriminate]. cbn [obind].
  destruct (Buffer.writeUInt16BE _ 4 b2) as [b3|] eqn:E3; [|discriminate]. cbn [obind].
  destruct (Buffer.writeUInt8 _ 6 b3) as [b4|] eqn:E4; [|discriminate]. cbn [obind].
  destruct (Buffer.writeUInt8 _ 7 b4) as [b5|] eqn:E5; [|discriminate]. cbn [obind].
  destruct (Buffer.write_each _ 8 b5) as [b6|] eqn:E6; [|discriminate].
  intros _.
  apply writeUInt16BE_Some in E1, E3. apply writeUInt8_Some in E4, E5.
  apply write_each_Some in E6.
  unfold well_formed, word in *. split; [auto|]. split; lia.
Qed.

Lemma next_transactionId_range (id : Z) :
  1 <= id <= 255 -> 1 <= TcpApplicationLayer.next_transactionId id <= 255.
Proof.
  intros H. unfold TcpApplicationLayer.next_transactionId.
  rewrite Z.rem_mod_nonneg by lia.
  pose proof (Z.mod_pos_bound (id + 1) 256).
  destruct (Z.eqb_spec ((id + 1) mod 256) 0); lia.
Qed.

Lemma Tcp_encode_counter (d : ApplicationDataUnit) (s : TcpApplicationLayer.State) :
  1 <= TcpApplicationLayer._transactionId s <= 255 ->
  1 <= TcpApplicationLayer._transactionId (snd (TcpApplicationLayer.encode d s)) <= 255.
Proof.
  intros H. unfold TcpApplicationLayer.encode.
  match goal with |- context [match ?x with Some _ => _ | None => _ end] => destruct x end;
    cbn [snd TcpApplicationLayer._transactionId]; [apply next_transactionId_range|]; assumption.
Qed.

(** [encode] returns exactly for the ADUs that fit the frame. *)
Lemma Tcp_encode_returns (d : ApplicationDataUnit) (s : TcpApplicationLayer.State) :
  1 <= TcpApplicationLayer._transactionId s <= 255 ->
  encodable d <-> exists bytes, fst (TcpApplicationLayer.encode d s) = Some bytes.
Proof.
  intros Hs. split.
  - intros (Hwf & Hid & Hlen). eexists. rewrite Tcp_encode_bytes; [reflexivity | exact Hwf | | lia].
    destruct (transaction d) as [t|]; [now apply Hid | unfold word; lia].
  - intros (bytes & H). apply Tcp_encode_Some in H as (Hwf & Hid & Hlen).
    split; [exact Hwf|]. split; [|lia].
    intros t Ht. now rewrite Ht in Hid.
Qed.

(** An [encode] that throws leaves the layer as it was. *)
Lemma Tcp_encode_throws (d : ApplicationDataUnit) (s : TcpApplicationLayer.State) :
  fst (TcpApplicationLayer.encode d s) = None -> snd (TcpApplicationLayer.encode d s) = s.
Proof.
  unfold TcpApplicationLayer.encode.
  match goal with |- context [match ?x with Some _ => _ | None => _ end] => destruct x end;
    [discriminate | reflexivity].
Qed.

Lemma Tcp_calls_assign (ds : list ApplicationDataUnit) :
  forall s,
    1 <= TcpApplicationLayer._transactionId s <= 255 ->
    Forall assigns (TcpApplicationLayer.calls ds s).
Proof.
  induction ds as [|d ds IH]; intros s Hs; cbn [TcpApplicationLayer.calls]; [constructor|].
  pose proof (Tcp_encode_counter d s Hs) as Hafter.
  pose proof (Tcp_encode_Some d s) as Hsome.
  pose proof (Tcp_encode_returns d s Hs) as Hreturns.
  pose proof (Tcp_encode_throws d s) as Hthrows.
  destruct (TcpApplicationLayer.encode d s) as [r s'] eqn:E. cbn [fst snd] in *.
  constructor; [|apply IH; exact Hafter].
  unfold assigns. cbn [TcpApplicationLayer.before TcpApplicationLayer.after TcpApplicationLayer.returned TcpApplicationLayer.argument].
  split; [exact Hs|]. split; [exact Hafter|]. split; [exact Hreturns|]. split; [exact Hthrows|].
  intros bytes ->. destruct (Hsome bytes eq_refl) as (Hwf & Hid & Hlen).
  rewrite Tcp_encode_bytes in E by assumption.
  injection E as Eb Es. subst bytes s'.
  set (id := match transaction d with Some t => t | None => TcpApplicationLayer._transactionId s end) in *.
  assert (Hread : Buffer.readUInt16BE
                    (header id (Buffer.len (data d)) ++ unit d :: fc d :: data d) 0 = Some id).
  { pose proof (readUInt16BE_at [] (id / 256) (id mod 256)
                  (0 :: 0 :: (Buffer.len (data d) + 2) / 256
                     :: (Buffer.len (data d) + 2) mod 256 :: unit d :: fc d :: data d)) as R.
    rewrite join256_be in R. exact R. }
  split; [exact Hread|]. split.
  - intros Hnone. exists id. split; [exact Hread|].
    unfold id. rewrite Hnone. exact Hs.
  - cbn [TcpApplicationLayer._transactionId]. unfold TcpApplicationLayer.next_transactionId.
    now rewrite Z.rem_mod_nonneg by lia.
Qed.

(** C8, as stated, fails: an [encode] call that throws does not advance
    the counter.  On a new layer, the call for an ADU with the unit 256
    throws ([writeUInt8] refuses 256) and leaves the counter at 1, not at
    2; the next call writes the id 1. *)
Lemma transaction_id_kept_on_throw :
  let bad := mkADU None 256 3 [0; 107; 0; 3] in
  let good := mkADU None 1 3 [0; 107; 0; 3] in
  TcpApplicationLayer.calls [bad; good] TcpApplicationLayer.initial
  = [TcpApplicationLayer.mkCall TcpApplicationLayer.initial bad None TcpApplicationLayer.initial;
     TcpApplicationLayer.mkCall TcpApplicationLayer.initial good
       (Some [0; 1; 0; 0; 0; 6; 1; 3; 0; 107; 0; 3])
       (TcpApplicationLayer.mkState None 2)]
  /\ TcpApplicationLayer._transactionId TcpApplicationLayer.initial = 1
  /\ TcpApplicationLayer.next_transactionId 1 = 2.
Proof. cbv zeta. split; [vm_compute; reflexivity|]. split; reflexivity. Qed.

(** C8 (amended): in every sequence of [encode] calls on a new MBAP
    layer, the counter is in 1..255 before and after every call; a call
    returns exactly when its ADU fits the frame (unit, function code and
    data are bytes, the transaction id, if any, is a 16-bit number, the
    data has at most 65533 bytes), and a call that throws leaves the layer,
    and so the counter, as it was; a call that returns has written the
    transaction id of its ADU, or the counter value when the ADU has none,
    into the first two bytes of the header; such an assigned id is in
    1..255, so never 0; and the call leaves the counter at
    [(counter + 1) mod 256], with 0 replaced by 1. *)
Theorem transaction_id_assignment (ds : list ApplicationDataUnit) :
  Forall assigns (TcpApplicationLayer.calls ds TcpApplicationLayer.initial).
Proof. apply Tcp_calls_assign. cbn. lia. Qed.

(** ** The ASCII scanner after the close event *)

(** The layer with the response-wait mode: after ['close'] the scanner is
    in IDLE with an empty buffer, and the next byte starts a frame only if
    it is a colon. *)
Lemma Ascii_close_idle (s : AsciiApplicationLayer.State) :
  AsciiApplicationLayer._status (AsciiApplicationLayer.handleClose s) = AsciiApplicationLayer.idle
  /\ AsciiApplicationLayer._frame (AsciiApplicationLayer.handleClose s) = []
  /\ forall value,
      AsciiApplicationLayer.step value (AsciiApplicationLayer.handleClose s)
      = (if value =? AsciiApplicationLayer.COLON
         then AsciiApplicationLayer.mkState (AsciiApplicationLayer._waitingResponse s)
                AsciiApplicationLayer.reception []
         else AsciiApplicationLayer.handleClose s,
         []).
Proof.
  split; [reflexivity|]. split; [reflexivity|].
  intros value. unfold AsciiApplicationLayer.step, AsciiApplicationLayer.handleClose.
  cbn [AsciiApplicationLayer._status AsciiApplicationLayer._waitingResponse AsciiApplicationLayer._frame].
  destruct (value =? AsciiApplicationLayer.COLON); reflexivity.
Qed.

(** The layer without the response-wait mode: after ['close'] the scanner
    is in RECEPTION, and a burst that has no colon is taken as a frame. *)
(** C9, at an input where the code departs from it: in the variant of
    the ASCII layer without the response-wait mode, the ['close'] listener
    leaves the scanner in RECEPTION, not in IDLE, so that a following burst
    with no colon is accumulated and emitted as a frame. *)
Theorem close_leaves_reception (s : AsciiApplicationLayerNoWait.State) :
  AsciiApplicationLayerNoWait._status (AsciiApplicationLayerNoWait.handleClose s)
  = AsciiApplicationLayer.reception
  /\ snd (AsciiApplicationLayerNoWait.handleData
            [48; 66; 48; 49; 48; 48; 49; 51; 48; 48; 49; 51; 67; 69; 13; 10]
            (AsciiApplicationLayerNoWait.handleClose s))
     = [mkFrame (mkADU None 11 1 [0; 19; 0; 19])
                [48; 66; 48; 49; 48; 48; 49; 51; 48; 48; 49; 51; 67; 69]].
Proof. split; [reflexivity | vm_compute; reflexivity]. Qed.



(** ** Stores into a buffer *)

Lemma nth_replace (b : list Z) :
  forall (i j : nat) (v : Z),
    (i < List.length b)%nat ->
    nth j (firstn i b ++ v :: skipn (S i) b) 0 = if Nat.eqb i j then v else nth j b 0.
Proof.
  induction b as [|x b IH]; intros i j v Hi; [cbn in Hi; lia|].
  destruct i as [|i], j as [|j]; cbn [firstn skipn app nth Nat.eqb]; try reflexivity.
  apply IH. cbn in Hi. lia.
Qed.

Lemma length_replace (b : list Z) (i : nat) (v : Z) :
  (i < List.length b)%nat ->
  List.length (firstn i b ++ v :: skipn (S i) b) = List.length b.
Proof.
  intros Hi. rewrite length_app. cbn [List.length].
  rewrite length_firstn, length_skipn. lia.
Qed.

Lemma len_put (b : Buffer.t) (i v : Z) : Buffer.len (Buffer.put b i v) = Buffer.len b.
Proof.
  unfold Buffer.put.
  destruct (Z.leb_spec 0 i), (Z.ltb_spec i (Buffer.len b)); cbn [andb]; try reflexivity.
  unfold Buffer.len in *. rewrite length_replace by lia. reflexivity.
Qed.

Lemma get_put (b : Buffer.t) (i v j : Z) :
  0 <= j ->
  Buffer.get (Buffer.put b i v) j
  = if (i =? j) && (j <? Buffer.len b) then v mod 256 else Buffer.get b j.
Proof.
  intros Hj. unfold Buffer.put, Buffer.get.
  destruct (Z.ltb_spec j 0); [lia|].
  destruct (Z.leb_spec 0 i), (Z.ltb_spec i (Buffer.len b)); cbn [andb].
  - unfold Buffer.len in *. rewrite nth_replace by lia.
    destruct (Z.eqb_spec i j).
    + subst. rewrite Nat.eqb_refl.
      destruct (Z.ltb_spec j (Z.of_nat (List.length b))); [reflexivity | lia].
    + destruct (Nat.eqb_spec (Z.to_nat i) (Z.to_nat j)); [lia | reflexivity].
  - destruct (Z.eqb_spec i j), (Z.ltb_spec j (Buffer.len b)); cbn [andb]; try reflexivity. lia.
  - destruct (Z.eqb_spec i j); [lia | reflexivity].
  - destruct (Z.eqb_spec i j); [lia | reflexivity].
Qed.

(** ** Bits *)

Lemma testbit_one (k : Z) : Z.testbit 1 k = (k =? 0).
Proof.
  destruct k as [|p|p]; [reflexivity | | reflexivity].
  cbn. destruct p; reflexivity.
Qed.

Lemma testbit_set (a m k : Z) :
  0 <= m -> 0 <= k < 8 ->
  Z.testbit (Z.lor a (Z.shiftl 1 m) mod 256) k = Z.testbit a k || (k =? m).
Proof.
  intros Hm Hk. change 256 with (2 ^ 8).
  rewrite Z.mod_pow2_bits_low, Z.lor_spec, Z.shiftl_spec, testbit_one by lia.
  f_equal. destruct (Z.eqb_spec (k - m) 0), (Z.eqb_spec k m); try lia; reflexivity.
Qed.

(** ** Packing of the coils *)

Lemma pack_bits_spec (coils : list bool) :
  forall (index : Z) (b : Buffer.t),
    0 <= index ->
    Buffer.len (ModbusSlave.pack_bits coils index b) = Buffer.len b
    /\ forall j k,
        0 <= j < Buffer.len b -> 0 <= k < 8 ->
        Z.testbit (Buffer.get (ModbusSlave.pack_bits coils index b) j) k
        = Z.testbit (Buffer.get b j) k || bit_of coils (8 * j + k - index).
Proof.
  induction coils as [|coil coils IH]; intros index b Hi; cbn [ModbusSlave.pack_bits].
  - split; [reflexivity|]. intros j k Hj Hk. unfold bit_of.
    destruct (8 * j + k - index <? 0); [|destruct (Z.to_nat _)]; now rewrite orb_false_r.
  - set (b1 := if coil then _ else b).
    assert (Hlen : Buffer.len b1 = Buffer.len b)
      by (unfold b1; destruct coil; [apply len_put | reflexivity]).
    assert (Hbit : forall j k, 0 <= j < Buffer.len b -> 0 <= k < 8 ->
                     Z.testbit (Buffer.get b1 j) k
                     = Z.testbit (Buffer.get b j) k || (coil && (8 * j + k =? index))).
    { intros j k Hj Hk. unfold b1. destruct coil; [|now rewrite orb_false_r].
      rewrite get_put by lia. cbn [andb].
      assert (Hdiv : (8 * j + k) / 8 = j).
      { rewrite Z.mul_comm, Z.div_add_l, Z.div_small by lia. lia. }
      assert (Hmod : (8 * j + k) mod 8 = k).
      { rewrite Z.mul_comm, Z.add_comm, Z.mod_add, Z.mod_small by lia. lia. }
      destruct (Z.eqb_spec (8 * j + k) index) as [<- | Hne].
      - rewrite Hdiv, Hmod, Z.eqb_refl.
        destruct (Z.ltb_spec j (Buffer.len b)); [|lia]. cbn [andb].
        rewrite testbit_set, Z.eqb_refl by lia. reflexivity.
      - destruct (Z.eqb_spec (index / 8) j) as [<- | Hj'];
          [|cbn [andb]; now rewrite orb_false_r].
        destruct (Z.ltb_spec (index / 8) (Buffer.len b)); [|lia]. cbn [andb].
        rewrite testbit_set by (try apply Z.mod_pos_bound; lia).
        f_equal. apply Z.eqb_neq. intros ->.
        apply Hne. pose proof (Z.div_mod index 8). lia. }
    destruct (IH (index + 1) b1) as (IHlen & IHbit); [lia|].
    split; [now rewrite IHlen|].
    intros j k Hj Hk. rewrite IHbit, Hbit by (rewrite ?Hlen; lia).
    rewrite <- orb_assoc. f_equal.
    unfold bit_of.
    destruct (Z.eqb_spec (8 * j + k) index) as [E | Hne].
    + replace (8 * j + k - index) with 0 by lia.
      replace (8 * j + k - (index + 1)) with (-1) by lia.
      cbn. now rewrite andb_true_r, orb_false_r.
    + rewrite andb_false_r. cbn [orb].
      destruct (Z.ltb_spec (8 * j + k - (index + 1)) 0),
        (Z.ltb_spec (8 * j + k - index) 0); try lia; try reflexivity.
      replace (Z.to_nat (8 * j + k - index))
        with (Datatypes.S (Z.to_nat (8 * j + k - (index + 1)))) by lia.
      reflexivity.
Qed.

Lemma get_alloc (n j : Z) : Buffer.get (Buffer.alloc n) j = 0.
Proof.
  unfold Buffer.get, Buffer.alloc. destruct (j <? 0); [reflexivity|].
  generalize (Z.to_nat j) as i. generalize (Z.to_nat n) as m.
  induction m as [|m IH]; intros [|i]; cbn; auto.
Qed.

Lemma len_alloc (n : Z) : 0 <= n -> Buffer.len (Buffer.alloc n) = n.
Proof. intros H. unfold Buffer.len, Buffer.alloc. rewrite repeat_length. lia. Qed.

Lemma pack_bits_alloc (coils : list bool) (n : Z) :
  0 <= n ->
  Buffer.len (ModbusSlave.pack_bits coils 0 (Buffer.alloc n)) = n
  /\ forall i,
      0 <= i < 8 * n ->
      Z.testbit (Buffer.get (ModbusSlave.pack_bits coils 0 (Buffer.alloc n)) (i / 8)) (i mod 8)
      = nth (Z.to_nat i) coils false.
Proof.
  intros Hn. destruct (pack_bits_spec coils 0 (Buffer.alloc n)) as (Hlen & Hbit); [lia|].
  rewrite len_alloc in * by lia. split; [exact Hlen|].
  intros i Hi.
  rewrite Hbit.
  - rewrite get_alloc, Z.testbit_0_l. cbn [orb]. unfold bit_of.
    replace (8 * (i / 8) + i mod 8 - 0) with i by (pose proof (Z.div_mod i 8); lia).
    destruct (Z.ltb_spec i 0); [lia | reflexivity].
  - split; [apply Z.div_pos; lia | apply Z.div_lt_upper_bound; lia].
  - apply Z.mod_pos_bound. lia.
Qed.

Lemma len_from (l : list Z) : Buffer.len (Buffer.from l) = Buffer.len l.
Proof. unfold Buffer.len, Buffer.from. now rewrite length_map. Qed.

Lemma readUInt16BE_in_range (b : Buffer.t) (off : Z) :
  0 <= off -> off + 2 <= Buffer.len b ->
  Buffer.readUInt16BE b off = Some (Buffer.get b off * 256 + Buffer.get b (off + 1)).
Proof.
  intros H1 H2. unfold Buffer.readUInt16BE.
  destruct (Z.leb_spec 0 off), (Z.leb_spec (off + 2) (Buffer.len b)); try lia. reflexivity.
Qed.

Lemma ceil8_is_ceiling (n : Z) :
  8 * (ModbusSlave.ceil8 n - 1) < n <= 8 * ModbusSlave.ceil8 n.
Proof.
  unfold ModbusSlave.ceil8. pose proof (Z.div_mod (n + 7) 8).
  pose proof (Z.mod_pos_bound (n + 7) 8). lia.
Qed.




Section ServerFacts.

Variables S L : Type.
Variable encode : ApplicationDataUnit -> L -> option Buffer.t * L.
Variable Number_other : string -> Z.

Lemma quiet_ret (A : Type) (a : A) : quiet (ModbusSlave.ret (S := S) (L := L) a).
Proof. intros w. reflexivity. Qed.

Lemma quiet_throw (A : Type) (e : Error) :
  quiet (ModbusSlave.throw (S := S) (L := L) (A := A) e).
Proof. intros w. reflexivity. Qed.

Lemma quiet_bind (A B : Type) (m : ModbusSlave.M S L A) (k : A -> ModbusSlave.M S L B) :
  quiet m -> (forall a, quiet (k a)) -> quiet (ModbusSlave.bind m k).
Proof.
  intros Hm Hk w. unfold ModbusSlave.bind. specialize (Hm w).
  destruct (m w) as [[a|e] w1]; cbn [snd] in *; [rewrite Hk|]; exact Hm.
Qed.

Lemma quiet_catch (A : Type) (m : ModbusSlave.M S L A) (h : Error -> ModbusSlave.M S L A) :
  quiet m -> (forall e, quiet (h e)) -> quiet (ModbusSlave.catch m h).
Proof.
  intros Hm Hh w. unfold ModbusSlave.catch. specialize (Hm w).
  destruct (m w) as [[a|e] w1]; cbn [snd] in *; [|rewrite Hh]; exact Hm.
Qed.

Lemma quiet_call (A : Type) (c : Async S A) : quiet (ModbusSlave.call (L := L) c).
Proof. intros w. unfold ModbusSlave.call. destruct (c (ModbusSlave.host w)). reflexivity. Qed.

Lemma quiet_node (A : Type) (o : option A) : quiet (ModbusSlave.node (S := S) (L := L) o).
Proof. intros w. destruct o; reflexivity. Qed.

Lemma quiet_addressRange (model : ModbusSlaveModel.t S)
      (field : ModbusSlaveModel.AddressRange -> option Range) :
  quiet (ModbusSlave.addressRange (L := L) model field).
Proof. intros w. reflexivity. Qed.

Lemma quiet_respond (reply : ModbusSlave.Reply S L) (adu : ApplicationDataUnit) :
  (forall bytes, quiet (reply bytes)) -> quiet (ModbusSlave.respond encode reply adu).
Proof.
  intros Hr w. unfold ModbusSlave.respond.
  destruct (encode adu (ModbusSlave.layer w)) as [[bytes|] l']; [|reflexivity].
  now rewrite Hr.
Qed.

Lemma quiet_responseError (frame : ApplicationDataUnit) (reply : ModbusSlave.Reply S L) (e : Error) :
  (forall bytes, quiet (reply bytes)) ->
  quiet (ModbusSlave.responseError encode Number_other frame reply e).
Proof. intros Hr. apply quiet_respond, Hr. Qed.

Lemma quiet_all (A : Type) (single : Z -> A -> Async S Datatypes.unit) (value : list A) :
  forall address, quiet (ModbusSlave.all (L := L) single address value).
Proof.
  induction value as [|v value IH]; intros address w; [reflexivity|].
  cbn [ModbusSlave.all].
  pose proof (quiet_call _ (single address v) w) as Hc.
  destruct (ModbusSlave.call (single address v) w) as [[u|e] w1]; cbn [snd] in *;
    rewrite IH; exact Hc.
Qed.

Ltac quiet_step :=
  lazymatch goal with
  | |- quiet (ModbusSlave.bind _ _) => apply quiet_bind; [|intros ?]
  | |- quiet (ModbusSlave.catch _ _) => apply quiet_catch; [|intros ?]
  | |- quiet (ModbusSlave.ret _) => apply quiet_ret
  | |- quiet (@ModbusSlave.done _ _) => unfold ModbusSlave.done; apply quiet_ret
  | |- quiet (ModbusSlave.call _) => apply quiet_call
  | |- quiet (ModbusSlave.node _) => apply quiet_node
  | |- quiet (ModbusSlave.addressRange _ _) => apply quiet_addressRange
  | |- quiet (ModbusSlave.respond _ _ _) => apply quiet_respond; assumption
  | |- quiet (ModbusSlave.responseError _ _ _ _ _) => apply quiet_responseError; assumption
  | |- quiet (ModbusSlave.respond_registers _ _ _ _ _) => unfold ModbusSlave.respond_registers
  | |- quiet (ModbusSlave.all _ _ _) => apply quiet_all
  | |- quiet (if ?c then _ else _) => destruct c
  | |- quiet (match ?x with _ => _ end) => destruct x
  | |- quiet (let _ := _ in _) => cbv zeta
  end.

Ltac quiet_handler h := intros Hr; unfold h; repeat quiet_step.

Section Handlers.

Variables (model : ModbusSlaveModel.t S) (frame : ApplicationDataUnit) (reply : ModbusSlave.Reply S L).
Hypothesis Hreply : forall bytes, quiet (reply bytes).

Lemma handleFC1_quiet : quiet (ModbusSlave.handleFC1 encode Number_other model frame reply).
Proof. unfold ModbusSlave.handleFC1; repeat quiet_step. Qed.

Lemma handleFC2_quiet : quiet (ModbusSlave.handleFC2 encode Number_other model frame reply).
Proof. unfold ModbusSlave.handleFC2; repeat quiet_step. Qed.

Lemma handleFC3_quiet : quiet (ModbusSlave.handleFC3 encode Number_other model frame reply).
Proof. unfold ModbusSlave.handleFC3; repeat quiet_step. Qed.

Lemma handleFC4_quiet : quiet (ModbusSlave.handleFC4 encode Number_other model frame reply).
Proof. unfold ModbusSlave.handleFC4; repeat quiet_step. Qed.

Lemma handleFC5_quiet : quiet (ModbusSlave.handleFC5 encode Number_other model frame reply).
Proof. unfold ModbusSlave.handleFC5; repeat quiet_step. Qed.

Lemma handleFC6_quiet : quiet (ModbusSlave.handleFC6 encode Number_other model frame reply).
Proof. unfold ModbusSlave.handleFC6; repeat quiet_step. Qed.

Lemma handleFC15_quiet : quiet (ModbusSlave.handleFC15 encode Number_other model frame reply).
Proof. unfold ModbusSlave.handleFC15; repeat quiet_step. Qed.

Lemma handleFC16_quiet : quiet (ModbusSlave.handleFC16 encode Number_other model frame reply).
Proof. unfold ModbusSlave.handleFC16; repeat quiet_step. Qed.

Lemma handleFC17_quiet : quiet (ModbusSlave.handleFC17 encode Number_other model frame reply).
Proof. unfold ModbusSlave.handleFC17; repeat quiet_step. Qed.

Lemma handleFC22_quiet : quiet (ModbusSlave.handleFC22 encode Number_other model frame reply).
Proof. unfold ModbusSlave.handleFC22; repeat quiet_step. Qed.

Lemma handleFC23_quiet : quiet (ModbusSlave.handleFC23 encode Number_other model frame reply).
Proof. unfold ModbusSlave.handleFC23; repeat quiet_step. Qed.

Lemma handleFC43_14_quiet :
  quiet (ModbusSlave.handleFC43_14 encode Number_other model frame reply).
Proof. unfold ModbusSlave.handleFC43_14; repeat quiet_step. Qed.

Lemma handleFC_quiet : quiet (ModbusSlave.handleFC encode Number_other model frame reply).
Proof.
  unfold ModbusSlave.handleFC.
  repeat match goal with
         | |- quiet (if ?c then _ else _) => destruct c
         end;
    auto using handleFC1_quiet, handleFC2_quiet, handleFC3_quiet, handleFC4_quiet,
      handleFC5_quiet, handleFC6_quiet, handleFC15_quiet, handleFC16_quiet,
      handleFC17_quiet, handleFC22_quiet, handleFC23_quiet, handleFC43_14_quiet,
      quiet_responseError.
Qed.

Lemma intercept_quiet : quiet (ModbusSlave.intercept encode Number_other model frame reply).
Proof. unfold ModbusSlave.intercept; repeat quiet_step. Qed.

Lemma serve_quiet : quiet (ModbusSlave.serve encode Number_other model frame reply).
Proof.
  unfold ModbusSlave.serve. apply quiet_bind; [apply intercept_quiet|].
  intros [|]; [apply quiet_ret | apply handleFC_quiet].
Qed.

End Handlers.

Lemma serve_each_quiet (models : list (ModbusSlaveModel.t S)) (frame : ApplicationDataUnit)
      (reply : ModbusSlave.Reply S L) :
  (forall bytes, quiet (reply bytes)) ->
  quiet (ModbusSlave.serve_each encode Number_other models frame reply).
Proof.
  intros Hr. induction models as [|m models IH]; cbn [ModbusSlave.serve_each].
  - apply quiet_ret.
  - apply quiet_bind; [|intros _; exact IH].
    apply quiet_catch; [apply serve_quiet; exact Hr | intros _; apply quiet_ret].
Qed.

(** The reply closure of a broadcast does nothing. *)
Lemma response_broadcast (frame : ApplicationDataUnit) (bytes : Buffer.t)
      (w : ModbusSlave.World S L) :
  unit frame = 0 -> ModbusSlave.response frame bytes w = (Resolved tt, w).
Proof. intros H. unfold ModbusSlave.response. rewrite H. reflexivity. Qed.

Lemma onFraming_broadcast (models : ModbusSlave.Models S) (frame : Frame) (w : ModbusSlave.World S L) :
  unit frame = 0 ->
  ModbusSlave.wire (snd (ModbusSlave.onFraming encode Number_other models frame w))
  = ModbusSlave.wire w.
Proof.
  intros H. unfold ModbusSlave.onFraming.
  destruct (negb _); [reflexivity|].
  apply serve_each_quiet. intros bytes w'. now rewrite response_broadcast.
Qed.

End ServerFacts.


Section ExceptionFacts.

Variables S L : Type.
Variable encode : ApplicationDataUnit -> L -> option Buffer.t * L.
Variable Number_other : string -> Z.





End ExceptionFacts.




(** ** Edge cases of checkRange *)

Lemma some_interval_degenerate (value : Queried) (rs : list (Z * Z)) :
  Forall (fun r => fst r >= snd r) rs -> some_interval value rs = false.
Proof.
  induction 1 as [|[lo hi] rs Hr _ IH]; [reflexivity|].
  cbn [some_interval]. cbn [fst snd] in Hr.
  destruct (Z.ltb_spec lo hi); [lia|]. exact IH.
Qed.

(** C10: for every queried value or list of values, [checkRange] is true
    for a single interval with [lo >= hi], true for the empty list of
    intervals, false for a non-empty list whose intervals all have
    [lo >= hi], and true when no range is given. *)
Theorem checkRange_edge_cases (value : Queried) :
  (forall lo hi, lo >= hi -> checkRange value (Some (Interval lo hi)) = true)
  /\ checkRange value (Some (Intervals [])) = true
  /\ (forall rs, rs <> [] -> Forall (fun r => fst r >= snd r) rs ->
                 checkRange value (Some (Intervals rs)) = false)
  /\ checkRange value None = true.
Proof.
  repeat split.
  - intros lo hi H. cbn [checkRange]. destruct (Z.ltb_spec lo hi); [lia | reflexivity].
  - intros rs Hne Hall. cbn [checkRange].
    destruct rs as [|r rs]; [contradiction|].
    cbn [List.length]. destruct (Z.ltb_spec 0 (Z.of_nat (Datatypes.S (List.length rs)))); [|lia].
    apply some_interval_degenerate. exact Hall.
Qed.

(** A degenerate interval and a list of degenerate intervals. *)
Lemma checkRange_edge_cases_witness :
  checkRange (Several [10; 20]) (Some (Interval 5 5)) = true
  /\ checkRange (One 3) (Some (Intervals [(9, 2); (4, 4)])) = false.
Proof.
  destruct (checkRange_edge_cases (Several [10; 20])) as (H1 & _).
  destruct (checkRange_edge_cases (One 3)) as (_ & _ & H3 & _).
  split.
  - apply H1. lia.
  - apply H3; [discriminate|]. repeat constructor; cbn; lia.
Defined.

(** ** Broadcast requests of the client *)

Section ClientFacts.

Variable A : AbstractApplicationLayer.

Lemma waitResponse_broadcast (bytes : Buffer.t) (checks : list PreCheck) (timeout : Z)
      (c : ModbusMaster.Client A) :
  ModbusMaster.waitResponse bytes true checks timeout (Resolved tt) c
  = (ModbusMaster.mkClient A (ModbusMaster.layer c) (ModbusMaster.written c ++ [bytes])
                     (ModbusMaster.timer c) (ModbusMaster.waits c),
     ModbusMaster.Fulfilled None).
Proof. reflexivity. Qed.

Lemma encoded_broadcast (u f : Z) (pdu : option Buffer.t)
      (k : Buffer.t -> Buffer.t -> ModbusMaster.Client A -> ModbusMaster.Client A * ModbusMaster.Promise)
      (c : ModbusMaster.Client A) :
  (forall bufferTx bytes c0,
      k bufferTx bytes c0
      = (ModbusMaster.mkClient A (ModbusMaster.layer c0) (ModbusMaster.written c0 ++ [bytes])
                         (ModbusMaster.timer c0) (ModbusMaster.waits c0),
         ModbusMaster.Fulfilled None)) ->
  silent_request c (ModbusMaster.encoded u f pdu k c).
Proof.
  intros Hk. unfold ModbusMaster.encoded, silent_request.
  destruct pdu as [d|]; [|cbn; auto 6].
  destruct (layer_encode A _ (ModbusMaster.layer c)) as [[bytes|] l'] eqn:E.
  - rewrite Hk. cbn. split; [reflexivity|]. split; [reflexivity|].
    split; [intros H; now rewrite <- (H (mkADU None u f d) (ModbusMaster.layer c)), E|].
    right. split; [reflexivity|]. now exists bytes.
  - cbn. split; [reflexivity|]. split; [reflexivity|].
    split; [intros H; now rewrite <- (H (mkADU None u f d) (ModbusMaster.layer c)), E|].
    left. split; reflexivity.
Qed.

Lemma issue_broadcast (r : ModbusMaster.Request) (timeout : Z) (c : ModbusMaster.Client A) :
  ModbusMaster.request_unit r = 0 ->
  silent_request c (ModbusMaster.issue r timeout (Resolved tt) c).
Proof.
  intros Hu.
  destruct r; cbn [ModbusMaster.request_unit] in Hu; subst; cbn [ModbusMaster.issue];
    unfold ModbusMaster.readCoils, ModbusMaster.readDiscreteInputs, ModbusMaster.readHoldingRegisters,
      ModbusMaster.readInputRegisters, ModbusMaster.writeFC1Or2, ModbusMaster.writeFC3Or4,
      ModbusMaster.writeSingleCoil, ModbusMaster.writeSingleRegister, ModbusMaster.writeMultipleCoils,
      ModbusMaster.writeMultipleRegisters, ModbusMaster.reportServerId, ModbusMaster.maskWriteRegister,
      ModbusMaster.readAndWriteMultipleRegisters, ModbusMaster.readDeviceIdentification;
    cbv zeta; apply encoded_broadcast; intros; apply waitResponse_broadcast.
Qed.

End ClientFacts.

(** [encode] of the three layers leaves the wait as it is. *)
Lemma layers_keep_wait :
  keeps_wait RtuLayer /\ keeps_wait AsciiLayer /\ keeps_wait TcpLayer.
Proof.
  unfold keeps_wait. repeat split; intros d s; cbn; try reflexivity.
  unfold TcpApplicationLayer.encode.
  match goal with |- context [match ?x with Some _ => _ | None => _ end] => destruct x end;
    reflexivity.
Qed.


(** ** A model that does not implement the function code *)



(** ** The fallback of Mask Write Register *)

(** C6, at an input where the code departs from it: with the register at
    0, andMask 0x0000 and orMask 0x0100, the fallback writes 0 back, where
    [(v AND andMask) OR (orMask AND NOT andMask)] is 0x0100. *)
Theorem mask_write_fallback_truncates :
  let frame := mkADU None 1 22 [0; 4; 0; 0; 1; 0] in
  ModbusSlave.host (snd (ModbusSlave.handleFC22 Example.encode Example.Number_other
                     Example.registers_only frame (ModbusSlave.response frame) Example.world))
  = [(4, 0)]
  /\ mask_write 0 0 256 = 256.
Proof. cbv zeta. split; vm_compute; reflexivity. Qed.

(** What the fallback writes, for every register value and pair of masks:
    the complement of [andMask] is cut to its low 8 bits. *)
Lemma mask_write_fallback
      (S L : Type) (encode : ApplicationDataUnit -> L -> option Buffer.t * L)
      (Number_other : string -> Z)
      (model : ModbusSlaveModel.t S) (frame : ApplicationDataUnit) (reply : ModbusSlave.Reply S L)
      (w : ModbusSlave.World S L)
      (read : Z -> Z -> Async S (list Z)) (write : Z -> Z -> Async S Datatypes.unit)
      (registers : list Z) (s1 : S) :
  Buffer.len (data frame) = 6 ->
  ModbusSlaveModel.maskWriteRegister model = None ->
  ModbusSlaveModel.readHoldingRegisters model = Some read ->
  ModbusSlaveModel.writeSingleRegister model = Some write ->
  exists address andMask orMask,
    Buffer.readUInt16BE (Buffer.from (data frame)) 0 = Some address
    /\ Buffer.readUInt16BE (Buffer.from (data frame)) 2 = Some andMask
    /\ Buffer.readUInt16BE (Buffer.from (data frame)) 4 = Some orMask
    /\ (checkRange (One address) (range_in model ModbusSlaveModel.holdingRegisters w) = true ->
        read address 1 (ModbusSlave.host w) = (Resolved registers, s1) ->
        ModbusSlave.handleFC22 encode Number_other model frame reply w
        = ModbusSlave.catch
            (ModbusSlave.bind
               (ModbusSlave.call
                  (write address
                     (Z.lor (Z.land (ModbusSlave.first_register registers) andMask)
                            (Z.land orMask (Z.land (Z.lnot andMask) 255)))))
               (fun _ => ModbusSlave.respond encode reply frame))
            (fun error => ModbusSlave.responseError encode Number_other frame reply error)
            (ModbusSlave.mkWorld s1 (ModbusSlave.layer w) (ModbusSlave.wire w))).
Proof.
  intros Hlen Hmask Hread Hwrite.
  pose proof (readUInt16BE_in_range (Buffer.from (data frame)) 0) as E0.
  pose proof (readUInt16BE_in_range (Buffer.from (data frame)) 2) as E2.
  pose proof (readUInt16BE_in_range (Buffer.from (data frame)) 4) as E4.
  rewrite len_from, Hlen in E0, E2, E4.
  specialize (E0 ltac:(lia) ltac:(lia)). specialize (E2 ltac:(lia) ltac:(lia)).
  specialize (E4 ltac:(lia) ltac:(lia)).
  eexists. eexists. eexists.
  split; [exact E0|]. split; [exact E2|]. split; [exact E4|].
  intros Hrange Hcall.
  unfold ModbusSlave.handleFC22. rewrite Hlen, Hmask, Hread, Hwrite. cbn [Z.eqb Pos.eqb].
  unfold ModbusSlave.bind at 1. rewrite E0. cbn [ModbusSlave.node ModbusSlave.ret].
  unfold ModbusSlave.bind at 1. rewrite E2. cbn [ModbusSlave.node ModbusSlave.ret].
  unfold ModbusSlave.bind at 1. rewrite E4. cbn [ModbusSlave.node ModbusSlave.ret].
  unfold ModbusSlave.bind at 1, ModbusSlave.addressRange.
  fold (range_in model ModbusSlaveModel.holdingRegisters w). rewrite Hrange.
  unfold ModbusSlave.catch, ModbusSlave.bind, ModbusSlave.call, ModbusSlave.masked.
  rewrite Hcall. cbn [ModbusSlave.host ModbusSlave.layer ModbusSlave.wire]. reflexivity.
Qed.

(** ** The exception code of a rejection *)





(** Four calls: one without a transaction id, one that throws, one with
    the id 513 and one without an id again; for each, the counter before,
    the id in the header and the counter after. *)
Lemma transaction_id_assignment_witness :
  let ds := [mkADU None 1 3 [0; 107; 0; 3]; mkADU None 256 3 []; mkADU (Some 513) 1 3 [0; 0; 0; 1];
             mkADU None 1 3 []] in
  Forall assigns (TcpApplicationLayer.calls ds TcpApplicationLayer.initial)
  /\ map (fun c => (TcpApplicationLayer._transactionId (TcpApplicationLayer.before c),
                    match TcpApplicationLayer.returned c with
                    | Some bytes => Buffer.readUInt16BE bytes 0
                    | None => None
                    end,
                    TcpApplicationLayer._transactionId (TcpApplicationLayer.after c)))
         (TcpApplicationLayer.calls ds TcpApplicationLayer.initial)
     = [(1, Some 1, 2); (2, None, 2); (2, Some 513, 3); (3, Some 3, 4)].
Proof.
  cbv zeta. split; [exact (transaction_id_assignment _)|]. vm_compute. reflexivity.
Defined.

(** ** The scenarios of the specification *)

(** Scenario 1: the RTU request and the response of the server. *)
Example scenario_1_request :
  RtuApplicationLayer.encode (mkADU None 17 3 [0; 107; 0; 3]) = Some [17; 3; 0; 107; 0; 3; 118; 135].
Proof. vm_compute. reflexivity. Qed.

Example scenario_1_response :
  RtuApplicationLayer.framing None [17; 3; 6; 174; 65; 86; 82; 67; 64; 73; 173]
  = Resolved (mkFrame (mkADU None 17 3 [6; 174; 65; 86; 82; 67; 64])
                      [17; 3; 6; 174; 65; 86; 82; 67; 64; 73; 173]).
Proof. vm_compute. reflexivity. Qed.

(** Scenario 2: the ASCII request, which is [:0B0100130013CE] and CR LF. *)
Example scenario_2_request :
  AsciiApplicationLayer.encode (mkADU None 11 1 [0; 19; 0; 19])
  = Some [58; 48; 66; 48; 49; 48; 48; 49; 51; 48; 48; 49; 51; 67; 69; 13; 10].
Proof. vm_compute. reflexivity. Qed.

(** Scenario 3: the MBAP broadcast of Write Multiple Registers. *)
Example scenario_3_request :
  fst (TcpApplicationLayer.encode (mkADU None 0 16 [0; 1; 0; 2; 4; 0; 10; 1; 2]) TcpApplicationLayer.initial)
  = Some [0; 1; 0; 0; 0; 11; 0; 16; 0; 1; 0; 2; 4; 0; 10; 1; 2].
Proof. vm_compute. reflexivity. Qed.

(** Scenario 4: the exception response on the wire. *)
Example scenario_4_response :
  ModbusSlave.wire
    (snd (ModbusSlave.onFraming Example.encode Example.Number_other [(1, Example.coils_only)]
            (mkFrame (mkADU None 1 3 [0; 0; 0; 1]) [1; 3; 0; 0; 0; 1; 132; 10])
            Example.world))
  = [[1; 131; 1; 128; 240]].
Proof. vm_compute. reflexivity. Qed.

(** Scenario 6 does not hold on the code: while the client waits for the
    response of Read Holding Registers, a burst that holds the start of the
    response ends the wait with 'Invalid response', through the reversed
    comparison of the RTU pre-check loop. *)
Example scenario_6_partial_burst :
  snd (RtuApplicationLayer.handleData 0 [17; 3; 6; 174; 65]
         (ModbusMaster.layer
            (fst (ModbusMaster.issue (ModbusMaster.ReadHoldingRegisters 17 107 3) 1000 (Resolved tt)
                    Example.client))))
  = [ToCallback (fail "Invalid response")].
Proof. vm_compute. reflexivity. Qed.

(* ================================================================= *)
(** * Part III: further properties of the code                        *)
(* ================================================================= *)

(** ** The scanner of the ASCII layer *)

Lemma Ascii_framing_checked (b : Buffer.t) (f : Frame) :
  AsciiApplicationLayer.framing None b = Resolved f -> buffer f = b /\ lrc_checked f.
Proof.
  unfold AsciiApplicationLayer.framing, lrc_checked.
  destruct (Z.leb_spec 6 (Buffer.len b)); [|discriminate].
  destruct (Z.rem (Buffer.len b) 2 =? 0); [|discriminate].
  destruct (Z.eqb_spec
              (Buffer.get (AsciiApplicationLayer.unhex b)
                          (Buffer.len (AsciiApplicationLayer.unhex b) - 1))
              (lrc (Buffer.subarray (AsciiApplicationLayer.unhex b) 0
                                    (Buffer.len (AsciiApplicationLayer.unhex b) - 1))));
    [|discriminate].
  intros [= <-]. cbn [buffer frame_adu unit fc data].
  split; [reflexivity|]. split; [assumption|]. split; [assumption|]. auto.
Qed.

Lemma Ascii_step_emits (value : Z) (s : AsciiApplicationLayer.State) :
  AsciiApplicationLayer._waitingResponse s = None ->
  AsciiApplicationLayer._waitingResponse (fst (AsciiApplicationLayer.step value s)) = None
  /\ Forall (fun d => exists f, d = EmitFraming f /\ lrc_checked f)
            (snd (AsciiApplicationLayer.step value s)).
Proof.
  intros Hw. destruct s as [w st fr]. cbn in Hw. subst w.
  unfold AsciiApplicationLayer.step.
  cbn [AsciiApplicationLayer._status AsciiApplicationLayer._waitingResponse
       AsciiApplicationLayer._frame].
  destruct st.
  - destruct (value =? AsciiApplicationLayer.COLON); cbn; auto.
  - destruct (value =? AsciiApplicationLayer.COLON); [cbn; auto|].
    destruct (value =? AsciiApplicationLayer.CR); cbn; auto.
  - destruct (value =? AsciiApplicationLayer.COLON); [cbn; auto|].
    destruct (value =? AsciiApplicationLayer.LF); [|cbn; auto].
    destruct (AsciiApplicationLayer.framing None (Buffer.from fr)) as [f|e] eqn:E;
      cbn [fst snd AsciiApplicationLayer._waitingResponse]; [|auto].
    split; [reflexivity|]. constructor; [|constructor].
    exists f. split; [reflexivity|]. now apply Ascii_framing_checked in E.
Qed.

Lemma Ascii_handleData_no_wait (chunk : Buffer.t) :
  forall s,
    AsciiApplicationLayer._waitingResponse s = None ->
    AsciiApplicationLayer._waitingResponse (fst (AsciiApplicationLayer.handleData chunk s)) = None
    /\ Forall (fun d => exists f, d = EmitFraming f /\ lrc_checked f)
              (snd (AsciiApplicationLayer.handleData chunk s)).
Proof.
  induction chunk as [|value rest IH]; intros s Hw.
  - cbn. auto.
  - cbn [AsciiApplicationLayer.handleData].
    destruct (Ascii_step_emits value s Hw) as [H1 H2].
    destruct (AsciiApplicationLayer.step value s) as [s1 out1]. cbn [fst snd] in *.
    destruct (IH s1 H1) as [H3 H4].
    destruct (AsciiApplicationLayer.handleData rest s1) as [s2 out2]. cbn [fst snd] in *.
    split; [assumption|]. apply Forall_app. auto.
Qed.

(** X1: outside the response-wait mode, whatever the bytes received and
    whatever the state of the scanner, the ['data'] listener of the ASCII
    layer hands nothing to a callback and emits only frames that passed the
    LRC check: the characters of the frame decode to bytes of which the last
    one is the LRC of the others, and the unit, the function code and the
    data of the frame are those bytes. *)
Theorem Ascii_emits_only_checked_frames (chunk : Buffer.t) (s : AsciiApplicationLayer.State) :
  AsciiApplicationLayer._waitingResponse s = None ->
  Forall (fun d => exists f, d = EmitFraming f /\ lrc_checked f)
         (snd (AsciiApplicationLayer.handleData chunk s)).
Proof. intros Hw. now apply Ascii_handleData_no_wait. Qed.

(** Two bytes of noise, then the frame of scenario 2 of the specification. *)
Lemma Ascii_emits_only_checked_frames_witness :
  Forall (fun d => exists f, d = EmitFraming f /\ lrc_checked f)
         (snd (AsciiApplicationLayer.handleData
                 [1; 2; 58; 48; 66; 48; 49; 48; 48; 49; 51; 48; 48; 49; 51; 67; 69; 13; 10]
                 AsciiApplicationLayer.initial)).
Proof.
  apply (Ascii_emits_only_checked_frames
           [1; 2; 58; 48; 66; 48; 49; 48; 48; 49; 51; 48; 48; 49; 51; 67; 69; 13; 10]
           AsciiApplicationLayer.initial).
  reflexivity.
Defined.

Lemma Ascii_handleData_app (c1 c2 : Buffer.t) (s : AsciiApplicationLayer.State) :
  AsciiApplicationLayer.handleData (c1 ++ c2) s
  = (fst (AsciiApplicationLayer.handleData c2 (fst (AsciiApplicationLayer.handleData c1 s))),
     snd (AsciiApplicationLayer.handleData c1 s)
     ++ snd (AsciiApplicationLayer.handleData c2 (fst (AsciiApplicationLayer.handleData c1 s)))).
Proof.
  revert s. induction c1 as [|v c1 IH]; intros s.
  - cbn. now destruct (AsciiApplicationLayer.handleData c2 s).
  - cbn [app AsciiApplicationLayer.handleData].
    destruct (AsciiApplicationLayer.step v s) as [s1 out1].
    rewrite IH.
    destruct (AsciiApplicationLayer.handleData c1 s1) as [s2 out2]. cbn [fst snd].
    now rewrite app_assoc.
Qed.

(** X2: the ASCII layer does not depend on how the bytes are cut into
    bursts: successive ['data'] events leave the layer in the state, and
    hand over the deliveries, of one ['data'] event with the bursts put
    together; in the response-wait mode too. *)
Theorem Ascii_bursts_as_one (bursts : list Buffer.t) (s : AsciiApplicationLayer.State) :
  ascii_feed bursts s = AsciiApplicationLayer.handleData (List.concat bursts) s.
Proof.
  revert s. induction bursts as [|c rest IH]; intros s; [reflexivity|].
  cbn [ascii_feed List.concat]. rewrite Ascii_handleData_app.
  destruct (AsciiApplicationLayer.handleData c s) as [s1 out1]. cbn [fst snd].
  rewrite IH.
  now destruct (AsciiApplicationLayer.handleData (List.concat rest) s1).
Qed.

Lemma Ascii_colon_restarts (s : AsciiApplicationLayer.State) :
  AsciiApplicationLayer.step 58 s
  = (AsciiApplicationLayer.mkState (AsciiApplicationLayer._waitingResponse s)
       AsciiApplicationLayer.reception [], []).
Proof.
  unfold AsciiApplicationLayer.step.
  change (58 =? AsciiApplicationLayer.COLON) with true.
  now destruct (AsciiApplicationLayer._status s).
Qed.

(** X3: the scanner of the ASCII layer resynchronises on a colon: outside
    the response-wait mode, whatever bytes came before and whatever state
    they left the scanner in, the bytes that [encode] returns for an ADU
    whose unit, function code and data are bytes make the ['data'] listener
    emit, after what the earlier bytes made it emit, exactly the frame of
    that ADU. *)
Theorem Ascii_resynchronises (garbage : Buffer.t) (d : ApplicationDataUnit)
        (s : AsciiApplicationLayer.State) :
  well_formed d ->
  AsciiApplicationLayer._waitingResponse s = None ->
  exists bytes body,
    AsciiApplicationLayer.encode d = Some bytes
    /\ bytes = AsciiApplicationLayer.COLON :: body
                 ++ [AsciiApplicationLayer.CR; AsciiApplicationLayer.LF]
    /\ snd (AsciiApplicationLayer.handleData (garbage ++ bytes) s)
       = snd (AsciiApplicationLayer.handleData garbage s)
         ++ [EmitFraming (mkFrame (mkADU None (unit d) (fc d) (data d)) body)].
Proof.
  intros Hwf Hw. pose proof Hwf as (Hu & Hf & Hd).
  eexists. eexists. split; [apply Ascii_encode_bytes; exact Hwf|].
  split; [reflexivity|].
  rewrite Ascii_handleData_app. cbn [snd]. f_equal.
  destruct (Ascii_handleData_no_wait garbage s Hw) as [Hw1 _].
  destruct (AsciiApplicationLayer.handleData garbage s) as [s1 out1]. cbn [fst] in *.
  cbn [AsciiApplicationLayer.handleData]. rewrite Ascii_colon_restarts, Hw1.
  assert (Hb : Forall byte (unit d :: fc d :: data d ++ [lrc (unit d :: fc d :: data d)])).
  { constructor; [assumption|]. constructor; [assumption|].
    apply Forall_app. split; [assumption|].
    constructor; [apply lrc_byte | constructor]. }
  pose proof (Ascii_scan_frame
                (flat_map AsciiApplicationLayer.hex2
                   (unit d :: fc d :: data d ++ [lrc (unit d :: fc d :: data d)]))
                (AsciiApplicationLayer.mkState None AsciiApplicationLayer.idle [])
                (hex2_chars _ Hb) eq_refl eq_refl) as E.
  cbn [AsciiApplicationLayer.handleData] in E. rewrite Ascii_colon_restarts in E.
  cbn [AsciiApplicationLayer._waitingResponse] in E.
  rewrite Ascii_framing_hex in E by assumption.
  unfold AsciiApplicationLayer.CR, AsciiApplicationLayer.LF.
  destruct (AsciiApplicationLayer.handleData _ _) as [s2 out2].
  injection E as _ E. cbn [app snd] in *. exact E.
Qed.

(** The request of scenario 2 of the specification after the start of a
    frame that was never ended. *)
Lemma Ascii_resynchronises_witness :
  exists bytes body,
    AsciiApplicationLayer.encode (mkADU None 11 1 [0; 19; 0; 19]) = Some bytes
    /\ bytes = AsciiApplicationLayer.COLON :: body
                 ++ [AsciiApplicationLayer.CR; AsciiApplicationLayer.LF]
    /\ snd (AsciiApplicationLayer.handleData ([58; 48; 66; 13] ++ bytes)
              AsciiApplicationLayer.initial)
       = snd (AsciiApplicationLayer.handleData [58; 48; 66; 13] AsciiApplicationLayer.initial)
         ++ [EmitFraming (mkFrame (mkADU None 11 1 [0; 19; 0; 19]) body)].
Proof.
  apply (Ascii_resynchronises [58; 48; 66; 13] (mkADU None 11 1 [0; 19; 0; 19])
           AsciiApplicationLayer.initial).
  - unfold well_formed, byte. cbn [unit fc data].
    split; [lia|]. split; [lia|]. repeat constructor; lia.
  - reflexivity.
Defined.

(** ** The pre-check loops *)

Lemma Rtu_preCheck_passes (checks : list PreCheck) (frame : Frame) :
  RtuApplicationLayer.run_preCheck checks frame = None
  <-> forallb (passes frame) checks = true.
Proof.
  induction checks as [|check rest IH]; [cbn; tauto|].
  cbn [RtuApplicationLayer.run_preCheck forallb]. unfold passes at 1.
  destruct (check frame) as [b|n|]; cbn [falsy].
  - destruct b; cbn [negb andb]; [exact IH | split; discriminate].
  - destruct (Z.ltb_spec n (Buffer.len (data frame))).
    + destruct (Z.eqb_spec n (Buffer.len (data frame))); [lia|]. cbn [andb]. split; discriminate.
    + destruct (Z.eqb_spec n (Buffer.len (data frame))); cbn [negb andb]; [|split; discriminate].
      destruct (n =? 0); cbn [negb andb]; [split; discriminate | exact IH].
  - cbn [andb]. split; discriminate.
Qed.

Lemma Tcp_preCheck_passes (checks : list PreCheck) (frame : Frame) :
  TcpApplicationLayer.run_preCheck checks frame = None
  <-> forallb (passes frame) checks = true.
Proof.
  induction checks as [|check rest IH]; [cbn; tauto|].
  cbn [TcpApplicationLayer.run_preCheck forallb]. unfold passes at 1.
  destruct (check frame) as [b|n|]; cbn [falsy].
  - destruct b; cbn [negb andb]; [exact IH | split; discriminate].
  - destruct (Z.ltb_spec n (Buffer.len (data frame))).
    + destruct (Z.eqb_spec n (Buffer.len (data frame))); [lia|]. cbn [andb]. split; discriminate.
    + destruct (Z.eqb_spec n (Buffer.len (data frame))); cbn [negb andb]; [|split; discriminate].
      destruct (n =? 0); cbn [negb andb]; [split; discriminate | exact IH].
  - cbn [andb]. split; discriminate.
Qed.

Lemma Ascii_preCheck_passes (checks : list PreCheck) (frame : Frame) :
  AsciiApplicationLayer.run_preCheck checks frame = None
  <-> forallb (passes frame) checks = true.
Proof.
  induction checks as [|check rest IH]; [cbn; tauto|].
  cbn [AsciiApplicationLayer.run_preCheck forallb]. unfold passes at 1.
  destruct (check frame) as [b|n|]; cbn [falsy].
  - destruct b; cbn [negb andb]; [exact IH | split; discriminate].
  - destruct (Z.ltb_spec (Buffer.len (data frame)) n).
    + destruct (Z.eqb_spec n (Buffer.len (data frame))); [lia|]. cbn [andb]. split; discriminate.
    + destruct (Z.eqb_spec (Buffer.len (data frame)) n), (Z.eqb_spec n (Buffer.len (data frame)));
        try lia; cbn [negb andb]; [|split; discriminate].
      destruct (n =? 0); cbn [negb andb]; [split; discriminate | exact IH].
  - cbn [andb]. split; discriminate.
Qed.

(** X4: the pre-check loops of the three framers let the same frames
    through: each of them reaches the checksum (or, for MBAP, accepts the
    frame) exactly when every pre-check yields true, or yields a number
    that is the data length of the frame and is not 0.  The loops differ
    only in the error that they report. *)
Theorem preCheck_loops_accept_alike (checks : list PreCheck) (frame : Frame) :
  (RtuApplicationLayer.run_preCheck checks frame = None
   <-> forallb (passes frame) checks = true)
  /\ (TcpApplicationLayer.run_preCheck checks frame = None
      <-> forallb (passes frame) checks = true)
  /\ (AsciiApplicationLayer.run_preCheck checks frame = None
      <-> forallb (passes frame) checks = true).
Proof.
  split; [apply Rtu_preCheck_passes|].
  split; [apply Tcp_preCheck_passes | apply Ascii_preCheck_passes].
Qed.

(** ** The LRC *)

Lemma toInt32_mod256 (x : Z) : toInt32 x mod 256 = x mod 256.
Proof.
  unfold toInt32. change (2 ^ 32) with 4294967296. change (2 ^ 31) with 2147483648.
  pose proof (Z.div_mod (x + 2147483648) 4294967296 ltac:(lia)) as E.
  replace ((x + 2147483648) mod 4294967296 - 2147483648)
    with (x + (- (16777216 * ((x + 2147483648) / 4294967296))) * 256) by lia.
  apply Z_mod_plus_full.
Qed.

Lemma lrc_sum (l : Buffer.t) : lrc l = (- fold_left Z.add l 0) mod 256.
Proof.
  unfold lrc. rewrite land255, toInt32_mod256.
  replace (Z.lnot (toInt32 (fold_left Z.add l 0)) + 1) with (- toInt32 (fold_left Z.add l 0))
    by (unfold Z.lnot; lia).
  rewrite <- (Z.sub_0_l (toInt32 _)), Zminus_mod, toInt32_mod256, <- Zminus_mod.
  reflexivity.
Qed.

Lemma fold_add (l : list Z) (a : Z) : fold_left Z.add l a = a + fold_left Z.add l 0.
Proof.
  revert a. induction l as [|x l IH]; intros a; cbn [fold_left]; [lia|].
  rewrite (IH (a + x)), (IH (0 + x)). lia.
Qed.

(** X5: the LRC of a sequence of numbers is the byte that brings their
    sum to 0 modulo 256: the sum of the sequence followed by its LRC is a
    multiple of 256, also where the 32-bit operators of the code wrap
    around. *)
Theorem lrc_zero_sum (l : Buffer.t) :
  (fold_left Z.add (l ++ [lrc l]) 0) mod 256 = 0.
Proof.
  rewrite fold_left_app. cbn [fold_left]. rewrite lrc_sum.
  rewrite Zplus_mod_idemp_r. now replace (_ + - _) with 0 by lia.
Qed.

(** X6: the LRC tells apart two sequences that differ in one byte: two
    sequences that are equal but for one element, which is a byte in both
    and not the same byte, have different LRCs. *)
Theorem lrc_detects_one_byte (pre post : Buffer.t) (x y : Z) :
  byte x -> byte y -> x <> y ->
  (lrc (pre ++ x :: post) =? lrc (pre ++ y :: post)) = false.
Proof.
  unfold byte. intros Hx Hy Hne. apply Z.eqb_neq.
  rewrite !lrc_sum, !fold_left_app. cbn [fold_left].
  rewrite (fold_add post (_ + x)), (fold_add post (_ + y)).
  set (a := fold_left Z.add pre 0). set (b := fold_left Z.add post 0).
  intros E.
  assert (H : (x - y) mod 256 = 0).
  { replace (x - y) with ((- (a + y + b)) - (- (a + x + b))) by lia.
    rewrite Zminus_mod, E, Z.sub_diag. reflexivity. }
  apply Z.mod_divide in H; [|lia]. destruct H as [k Hk].
  assert (k = 0) by lia. lia.
Qed.

(** The request of scenario 2 of the specification with function code 2
    in the place of 1. *)
Lemma lrc_detects_one_byte_witness :
  (lrc ([11] ++ 1 :: [0; 19; 0; 19]) =? lrc ([11] ++ 2 :: [0; 19; 0; 19])) = false.
Proof.
  apply (lrc_detects_one_byte [11] [0; 19; 0; 19] 1 2); unfold byte; lia.
Defined.

(** ** From the bytes back to the bytes *)

Lemma split_last2 (l : Buffer.t) :
  2 <= Buffer.len l -> exists payload lo hi, l = payload ++ [lo; hi].
Proof.
  intros H.
  destruct (exists_last (l := l)) as (l1 & hi & ->).
  { intros ->. cbn in H. lia. }
  rewrite len_app in H. change (Buffer.len [hi]) with 1 in H.
  destruct (exists_last (l := l1)) as (l2 & lo & ->).
  { intros ->. cbn in H. lia. }
  exists l2, lo, hi. now rewrite <- app_assoc.
Qed.

Lemma div256_join (a b : Z) : 0 <= b < 256 -> (a * 256 + b) / 256 = a.
Proof. intros H. symmetry. apply (Z.div_unique _ _ _ b); lia. Qed.

Lemma mod256_join (a b : Z) : 0 <= b < 256 -> (a * 256 + b) mod 256 = b.
Proof. intros H. symmetry. apply (Z.mod_unique _ _ a); lia. Qed.

(** X7: what the RTU framer accepts outside the response-wait mode is
    what the RTU encoder produces: when [framing] decodes a buffer of bytes
    to a frame, the frame keeps the buffer, and [encode] of the frame
    returns that buffer, byte for byte. *)
Theorem Rtu_decoded_frame_reencodes (bytes : Buffer.t) (f : Frame) :
  Forall byte bytes ->
  RtuApplicationLayer.framing None bytes = Resolved f ->
  buffer f = bytes /\ RtuApplicationLayer.encode f = Some bytes.
Proof.
  intros Hb. unfold RtuApplicationLayer.framing.
  destruct (Z.leb_spec 4 (Buffer.len bytes)) as [Hlen|]; [|discriminate].
  destruct bytes as [|u [|fn rest]]; try (cbn in Hlen; lia).
  rewrite !len_cons in Hlen.
  destruct (split_last2 rest) as (payload & lo & hi & ->); [lia|].
  set (b := u :: fn :: payload ++ [lo; hi]) in *.
  assert (Hl : Buffer.len b = Buffer.len payload + 4).
  { unfold b. rewrite !len_cons, len_app, !len_cons. unfold Buffer.len; cbn [List.length]; lia. }
  replace (Buffer.get b 0) with u by reflexivity.
  replace (Buffer.get b 1) with fn by reflexivity.
  replace (Buffer.subarray b 2 (Buffer.len b - 2)) with payload
    by (symmetry; apply (subarray_middle [u; fn] payload [lo; hi]);
        [reflexivity | rewrite Hl; unfold Buffer.len; cbn [List.length]; lia]).
  replace (Buffer.len b - 2) with (Buffer.len (u :: fn :: payload))
    by (rewrite Hl, !len_cons; lia).
  change b with ((u :: fn :: payload) ++ [lo; hi]) at 1.
  rewrite readUInt16LE_at.
  change b with ((u :: fn :: payload) ++ [lo; hi]) at 1.
  rewrite (subarray_middle [] (u :: fn :: payload) [lo; hi]) by reflexivity.
  destruct (Z.eqb_spec (lo + hi * 256) (crc (u :: fn :: payload))) as [Hc|]; [|discriminate].
  intros [= <-]. cbn [buffer frame_adu]. split; [reflexivity|].
  inversion Hb as [|? ? Hu Hb1]; subst. inversion Hb1 as [|? ? Hf Hb2]; subst.
  apply Forall_app in Hb2 as [Hp Hb3].
  inversion Hb3 as [|? ? Hlo Hb4]; subst. inversion Hb4 as [|? ? Hhi _]; subst.
  rewrite Rtu_encode_bytes by (unfold well_formed; cbn [frame_adu unit fc data]; auto).
  cbn [unit fc data]. rewrite <- Hc. unfold byte in Hlo, Hhi.
  rewrite (Z.add_comm lo), div256_join, mod256_join by lia. reflexivity.
Qed.

(** The request of scenario 1 of the specification. *)
Lemma Rtu_decoded_frame_reencodes_witness :
  RtuApplicationLayer.encode (mkADU None 17 3 [0; 107; 0; 3])
  = Some [17; 3; 0; 107; 0; 3; 118; 135].
Proof.
  apply (Rtu_decoded_frame_reencodes [17; 3; 0; 107; 0; 3; 118; 135]
           (mkFrame (mkADU None 17 3 [0; 107; 0; 3]) [17; 3; 0; 107; 0; 3; 118; 135])).
  - repeat constructor; unfold byte; lia.
  - reflexivity.
Defined.

Lemma split_first8 (l : Buffer.t) :
  8 <= Buffer.len l ->
  exists a b c d e f g h rest, l = a :: b :: c :: d :: e :: f :: g :: h :: rest.
Proof.
  intros H.
  do 8 (destruct l as [|? l]; [cbn in H; lia|]).
  repeat eexists.
Qed.

(** X8: what the MBAP framer accepts outside the response-wait mode is
    what the MBAP encoder produces: when [framing] decodes a buffer of
    bytes to a frame, the frame keeps the buffer, and [encode] of the frame,
    whatever the counter of the layer, returns that buffer, byte for byte. *)
Theorem Tcp_decoded_frame_reencodes (bytes : Buffer.t) (f : Frame)
        (s : TcpApplicationLayer.State) :
  Forall byte bytes ->
  TcpApplicationLayer.framing None bytes = Resolved f ->
  buffer f = bytes /\ fst (TcpApplicationLayer.encode f s) = Some bytes.
Proof.
  intros Hb. unfold TcpApplicationLayer.framing.
  destruct (Z.leb_spec 8 (Buffer.len bytes)) as [Hlen|]; [|discriminate].
  destruct (split_first8 bytes Hlen) as (t1 & t2 & p1 & p2 & l1 & l2 & u & fn & payload & ->).
  set (b := t1 :: t2 :: p1 :: p2 :: l1 :: l2 :: u :: fn :: payload) in *.
  assert (Hl : Buffer.len b = Buffer.len payload + 8).
  { unfold b. rewrite !len_cons. lia. }
  replace (Buffer.get b 2) with p1 by reflexivity.
  replace (Buffer.get b 3) with p2 by reflexivity.
  replace (Buffer.get b 6) with u by reflexivity.
  replace (Buffer.get b 7) with fn by reflexivity.
  replace (Buffer.readUInt16BE b 4) with (Some (l1 * 256 + l2))
    by (symmetry; apply (readUInt16BE_at [t1; t2; p1; p2] l1 l2 (u :: fn :: payload))).
  replace (Buffer.readUInt16BE b 0) with (Some (t1 * 256 + t2))
    by (symmetry; apply (readUInt16BE_at [] t1 t2 (p1 :: p2 :: l1 :: l2 :: u :: fn :: payload))).
  replace (Buffer.subarray_from b 8) with payload.
  2:{ symmetry. unfold Buffer.subarray_from.
      pose proof (subarray_middle [t1; t2; p1; p2; l1; l2; u; fn] payload [] 8 (Buffer.len b)) as E.
      rewrite app_nil_r in E. apply E; [reflexivity|].
      rewrite Hl. unfold Buffer.len; cbn [List.length]; lia. }
  destruct (Z.eqb_spec p1 0) as [->|]; [|discriminate].
  destruct (Z.eqb_spec p2 0) as [->|]; [|discriminate].
  destruct (Z.eqb_spec (l1 * 256 + l2) (Buffer.len b - 6)) as [Hn|]; [|discriminate].
  cbn [andb]. intros [= <-]. cbn [buffer frame_adu]. split; [reflexivity|].
  unfold b in Hb.
  repeat match goal with
         | H : Forall byte (_ :: _) |- _ => inversion H; subst; clear H
         end.
  unfold byte in *.
  rewrite Tcp_encode_bytes; cbn [unit fc data transaction fst].
  - unfold header.
    replace (Buffer.len payload + 2) with (l1 * 256 + l2) by lia.
    rewrite !div256_join, !mod256_join by lia. reflexivity.
  - unfold well_formed, byte; cbn [frame_adu unit fc data]; auto.
  - unfold word. lia.
  - lia.
Qed.

(** The MBAP request of the specification, Read Holding Registers with
    transaction id 1. *)
Lemma Tcp_decoded_frame_reencodes_witness :
  fst (TcpApplicationLayer.encode (mkADU (Some 1) 17 3 [0; 107; 0; 3])
         TcpApplicationLayer.initial)
  = Some [0; 1; 0; 0; 0; 6; 17; 3; 0; 107; 0; 3].
Proof.
  apply (Tcp_decoded_frame_reencodes [0; 1; 0; 0; 0; 6; 17; 3; 0; 107; 0; 3]
           (mkFrame (mkADU (Some 1) 17 3 [0; 107; 0; 3])
                    [0; 1; 0; 0; 0; 6; 17; 3; 0; 107; 0; 3])
           TcpApplicationLayer.initial).
  - repeat constructor; unfold byte; lia.
  - reflexivity.
Defined.

(** ** Bursts and frames *)

(** X9: the MBAP framer takes a burst for a frame only when the burst is
    one whole frame: of the bytes that encode an ADU, every burst that
    stops before the last byte is refused with 'Insufficient data length'
    or with 'Invalid data', and the bytes followed by anything more from the
    same burst are refused with 'Invalid data'; in the response-wait mode
    too. *)
Theorem Tcp_framing_does_not_reassemble (w : option WaitingResponse)
        (id u f : Z) (payload : Buffer.t) :
  word id -> Buffer.len payload + 2 <= 65535 ->
  (forall c1 c2,
      header id (Buffer.len payload) ++ u :: f :: payload = c1 ++ c2 -> c2 <> [] ->
      TcpApplicationLayer.framing w c1 = fail "Insufficient data length"
      \/ TcpApplicationLayer.framing w c1 = fail "Invalid data")
  /\ (forall rest,
         rest <> [] ->
         TcpApplicationLayer.framing w ((header id (Buffer.len payload) ++ u :: f :: payload) ++ rest)
         = fail "Invalid data").
Proof.
  intros Hid Hn. pose proof (len_nonneg payload) as Hp. split.
  - intros c1 c2 E Hc2. unfold TcpApplicationLayer.framing.
    destruct (Z.leb_spec 8 (Buffer.len c1)) as [Hlen|]; [right | now left].
    assert (Hl : Buffer.len (c1 ++ c2) = Buffer.len payload + 8).
    { rewrite <- E. unfold header. rewrite len_app, !len_cons.
      unfold Buffer.len; cbn [List.length]; lia. }
    assert (Hc : 0 < Buffer.len c2).
    { destruct c2; [congruence|]. rewrite len_cons. pose proof (len_nonneg c2). lia. }
    rewrite len_app in Hl.
    destruct (split_first8 c1 Hlen) as (a0 & a1 & a2 & a3 & a4 & a5 & a6 & a7 & r & ->).
    unfold header in E. cbn [app] in E. injection E as <- <- <- <- <- <- <- <- E.
    set (b := _ :: _) in *.
    replace (Buffer.get b 2) with 0 by reflexivity.
    replace (Buffer.get b 3) with 0 by reflexivity.
    replace (Buffer.readUInt16BE b 4) with (Some (Buffer.len payload + 2)).
    2:{ symmetry.
        pose proof (readUInt16BE_at [id / 256; id mod 256; 0; 0]
                      ((Buffer.len payload + 2) / 256) ((Buffer.len payload + 2) mod 256)
                      (u :: f :: r)) as E1.
        rewrite join256_be in E1. exact E1. }
    cbn [Z.eqb andb].
    destruct (Z.eqb_spec (Buffer.len payload + 2) (Buffer.len b - 6)); [lia | reflexivity].
  - intros rest Hrest. unfold TcpApplicationLayer.framing, header.
    cbn [app]. set (b := _ :: _).
    assert (Hr : 0 < Buffer.len rest).
    { destruct rest; [congruence|]. rewrite len_cons. pose proof (len_nonneg rest). lia. }
    assert (Hl : Buffer.len b = Buffer.len payload + 8 + Buffer.len rest).
    { unfold b. rewrite !len_cons, len_app. lia. }
    destruct (Z.leb_spec 8 (Buffer.len b)); [|lia].
    replace (Buffer.get b 2) with 0 by reflexivity.
    replace (Buffer.get b 3) with 0 by reflexivity.
    replace (Buffer.readUInt16BE b 4) with (Some (Buffer.len payload + 2)).
    2:{ symmetry.
        pose proof (readUInt16BE_at [id / 256; id mod 256; 0; 0]
                      ((Buffer.len payload + 2) / 256) ((Buffer.len payload + 2) mod 256)
                      (u :: f :: payload ++ rest)) as E1.
        rewrite join256_be in E1. exact E1. }
    cbn [Z.eqb andb].
    destruct (Z.eqb_spec (Buffer.len payload + 2) (Buffer.len b - 6)); [lia | reflexivity].
Qed.

(** The MBAP request of the specification cut after 9 bytes, and the
    same request followed by the first byte of the next one. *)
Lemma Tcp_framing_does_not_reassemble_witness :
  (TcpApplicationLayer.framing None [0; 1; 0; 0; 0; 6; 17; 3; 0]
   = fail "Insufficient data length"
   \/ TcpApplicationLayer.framing None [0; 1; 0; 0; 0; 6; 17; 3; 0] = fail "Invalid data")
  /\ TcpApplicationLayer.framing None
       ((header 1 (Buffer.len [0; 107; 0; 3]) ++ 17 :: 3 :: [0; 107; 0; 3]) ++ [0])
     = fail "Invalid data".
Proof.
  destruct (Tcp_framing_does_not_reassemble None 1 17 3 [0; 107; 0; 3]) as [H1 H2].
  - unfold word. lia.
  - vm_compute. discriminate.
  - split.
    + apply (H1 [0; 1; 0; 0; 0; 6; 17; 3; 0] [107; 0; 3]); [reflexivity | discriminate].
    + apply H2. discriminate.
Defined.

Lemma rtu_feed_accumulates (T : Z) (bursts : list Buffer.t) :
  T <> 0 ->
  forall acc timer,
    rtu_feed T bursts (RtuApplicationLayer.mkState None acc timer)
    = (RtuApplicationLayer.mkState None (acc ++ List.concat bursts)
         (match bursts with [] => timer | _ => true end), []).
Proof.
  intros HT. induction bursts as [|c rest IH]; intros acc timer.
  - cbn. now rewrite app_nil_r.
  - cbn [rtu_feed List.concat]. unfold RtuApplicationLayer.handleData.
    cbn [RtuApplicationLayer._waitingResponse RtuApplicationLayer._bufferRx
         RtuApplicationLayer._timerThreePointFive].
    destruct (Z.eqb_spec T 0); [contradiction|].
    rewrite IH, <- app_assoc. now destruct rest.
Qed.

(** X10: the silent interval delimits the frames of the RTU layer.  When
    the bytes that [encode] returns for an ADU whose unit, function code
    and data are bytes arrive, outside the response-wait mode, in any
    number of bursts: with an interval other than 0 the bursts emit nothing,
    and the timer, when it fires, emits exactly the frame of the ADU and
    leaves the layer as it was at the start; with the interval 0 the bytes,
    arrived in one burst, emit that frame at once. *)
Theorem Rtu_silent_interval_delimits (threePointFiveT : Z) (d : ApplicationDataUnit)
        (bursts : list Buffer.t) :
  well_formed d ->
  RtuApplicationLayer.encode d = Some (List.concat bursts) ->
  let frame := mkFrame (mkADU None (unit d) (fc d) (data d)) (List.concat bursts) in
  (threePointFiveT <> 0 ->
   snd (rtu_feed threePointFiveT bursts RtuApplicationLayer.initial) = []
   /\ RtuApplicationLayer.handleTimer
        (fst (rtu_feed threePointFiveT bursts RtuApplicationLayer.initial))
      = (RtuApplicationLayer.initial, [EmitFraming frame]))
  /\ RtuApplicationLayer.handleData 0 (List.concat bursts) RtuApplicationLayer.initial
     = (RtuApplicationLayer.initial, [EmitFraming frame]).
Proof.
  intros Hwf E frame.
  assert (Hf : RtuApplicationLayer.framing None (List.concat bursts) = Resolved frame).
  { pose proof E as E1. rewrite Rtu_encode_bytes in E1 by assumption. injection E1 as E1.
    unfold frame. rewrite <- E1.
    apply Rtu_framing_encoded; [|reflexivity].
    destruct Hwf as (? & ? & ?). apply crc_word. auto. }
  assert (Hne : bursts <> []).
  { intros ->. cbn in Hf. discriminate. }
  split.
  - intros HT. unfold RtuApplicationLayer.initial.
    rewrite rtu_feed_accumulates by assumption. cbn [fst snd app].
    split; [reflexivity|].
    destruct bursts as [|c rest]; [congruence|].
    unfold RtuApplicationLayer.handleTimer, RtuApplicationLayer.flush.
    cbn [RtuApplicationLayer._waitingResponse RtuApplicationLayer._bufferRx
         RtuApplicationLayer._timerThreePointFive].
    now rewrite Hf.
  - unfold RtuApplicationLayer.handleData, RtuApplicationLayer.flush, RtuApplicationLayer.initial.
    cbn [RtuApplicationLayer._waitingResponse RtuApplicationLayer._bufferRx
         RtuApplicationLayer._timerThreePointFive app Z.eqb].
    now rewrite Hf.
Qed.

(** The request of scenario 1 of the specification in three bursts, with
    an interval of 2 ms. *)
Lemma Rtu_silent_interval_delimits_witness :
  RtuApplicationLayer.handleTimer
    (fst (rtu_feed 2 [[17; 3; 0]; [107; 0; 3; 118]; [135]] RtuApplicationLayer.initial))
  = (RtuApplicationLayer.initial,
     [EmitFraming (mkFrame (mkADU None 17 3 [0; 107; 0; 3]) [17; 3; 0; 107; 0; 3; 118; 135])]).
Proof.
  refine (proj2 (proj1 (Rtu_silent_interval_delimits 2 (mkADU None 17 3 [0; 107; 0; 3])
                          [[17; 3; 0]; [107; 0; 3; 118]; [135]] _ _) _)).
  - unfold well_formed, byte. cbn [unit fc data].
    split; [lia|]. split; [lia|]. repeat constructor; lia.
  - reflexivity.
  - lia.
Defined.

Lemma Rtu_framing_wait (wr : WaitingResponse) (bytes : Buffer.t) (f : Frame) :
  RtuApplicationLayer.framing None bytes = Resolved f ->
  RtuApplicationLayer.run_preCheck (preCheck wr) f = None ->
  RtuApplicationLayer.framing (Some wr) bytes = Resolved f.
Proof.
  unfold RtuApplicationLayer.framing.
  destruct (4 <=? Buffer.len bytes); [|discriminate].
  destruct (match Buffer.readUInt16LE bytes (Buffer.len bytes - 2) with
            | Some v => v =? crc (Buffer.subarray bytes 0 (Buffer.len bytes - 2))
            | None => false
            end); [|discriminate].
  intros [= <-] ->. reflexivity.
Qed.

(** X11: in the response-wait mode the RTU layer waits for more bytes
    when a burst leaves fewer than 4 bytes in its buffer.  When the bytes
    that [encode] returns for an ADU arrive in two bursts, the first of
    fewer than 4 bytes, and the frame of the ADU passes the pre-checks of
    the wait, the first burst calls no callback and is kept, and the second
    burst calls the callback once, with that frame and no error, and leaves
    the buffer empty. *)
Theorem Rtu_wait_short_burst_recovers (threePointFiveT : Z) (wr : WaitingResponse)
        (d : ApplicationDataUnit) (c1 c2 : Buffer.t) (timer : bool) :
  well_formed d ->
  RtuApplicationLayer.encode d = Some (c1 ++ c2) ->
  Buffer.len c1 < 4 ->
  let frame := mkFrame (mkADU None (unit d) (fc d) (data d)) (c1 ++ c2) in
  forallb (passes frame) (preCheck wr) = true ->
  let s := RtuApplicationLayer.mkState (Some wr) [] timer in
  let s1 := RtuApplicationLayer.mkState (Some wr) c1 timer in
  RtuApplicationLayer.handleData threePointFiveT c1 s = (s1, [])
  /\ snd (RtuApplicationLayer.handleData threePointFiveT c2 s1) = [ToCallback (Resolved frame)]
  /\ RtuApplicationLayer._bufferRx
       (fst (RtuApplicationLayer.handleData threePointFiveT c2 s1)) = [].
Proof.
  intros Hwf E Hlen frame Hpass s s1.
  assert (Hf : RtuApplicationLayer.framing (Some wr) (c1 ++ c2) = Resolved frame).
  { apply Rtu_framing_wait; [|now apply Rtu_preCheck_passes].
    pose proof E as E1. rewrite Rtu_encode_bytes in E1 by assumption. injection E1 as E1.
    unfold frame. rewrite <- E1.
    apply Rtu_framing_encoded; [|reflexivity].
    destruct Hwf as (? & ? & ?). apply crc_word. auto. }
  unfold RtuApplicationLayer.handleData, s, s1.
  cbn [RtuApplicationLayer._waitingResponse RtuApplicationLayer._bufferRx
       RtuApplicationLayer._timerThreePointFive app].
  rewrite Hf.
  unfold RtuApplicationLayer.framing at 1.
  destruct (Z.leb_spec 4 (Buffer.len c1)); [lia|].
  split; [reflexivity|]. split; reflexivity.
Qed.

(** The response of scenario 1 of the specification, its first three
    bytes in a burst of their own, under the pre-checks of Read Holding
    Registers for three registers. *)
Lemma Rtu_wait_short_burst_recovers_witness :
  let wr :=
    mkWaiting [ModbusMaster.same_unit_fc 17 3; ModbusMaster.exactly 7; ModbusMaster.first_is 6]
              (fun _ => StopWaiting) in
  let frame := mkFrame (mkADU None 17 3 [6; 174; 65; 86; 82; 67; 64])
                       ([17; 3; 6] ++ [174; 65; 86; 82; 67; 64; 73; 173]) in
  RtuApplicationLayer.handleData 2 [17; 3; 6] (RtuApplicationLayer.mkState (Some wr) [] false)
  = (RtuApplicationLayer.mkState (Some wr) [17; 3; 6] false, [])
  /\ snd (RtuApplicationLayer.handleData 2 [174; 65; 86; 82; 67; 64; 73; 173]
            (RtuApplicationLayer.mkState (Some wr) [17; 3; 6] false))
     = [ToCallback (Resolved frame)]
  /\ RtuApplicationLayer._bufferRx
       (fst (RtuApplicationLayer.handleData 2 [174; 65; 86; 82; 67; 64; 73; 173]
               (RtuApplicationLayer.mkState (Some wr) [17; 3; 6] false))) = [].
Proof.
  cbv zeta.
  apply (Rtu_wait_short_burst_recovers 2
           (mkWaiting [ModbusMaster.same_unit_fc 17 3; ModbusMaster.exactly 7;
                       ModbusMaster.first_is 6]
                      (fun _ => StopWaiting))
           (mkADU None 17 3 [6; 174; 65; 86; 82; 67; 64])
           [17; 3; 6] [174; 65; 86; 82; 67; 64; 73; 173] false).
  - unfold well_formed, byte. cbn [unit fc data].
    split; [lia|]. split; [lia|]. repeat constructor; lia.
  - reflexivity.
  - vm_compute. reflexivity.
  - reflexivity.
Defined.

(** ** What checkRange accepts *)

Lemma within_spec (lo hi : Z) (value : Queried) :
  within lo hi value = true <-> forall n, In n (as_array value) -> lo <= n <= hi.
Proof.
  unfold within. rewrite forallb_forall. split; intros H n Hn; specialize (H n Hn).
  - apply andb_prop in H as [H1 H2]. apply Z.geb_le in H1. apply Z.leb_le in H2. lia.
  - apply andb_true_intro. split; [apply Z.geb_le | apply Z.leb_le]; lia.
Qed.

Lemma some_interval_spec (value : Queried) (rs : list (Z * Z)) :
  some_interval value rs = true
  <-> exists lo hi, In (lo, hi) rs /\ lo < hi /\ forall n, In n (as_array value) -> lo <= n <= hi.
Proof.
  induction rs as [|[lo hi] rs IH]; cbn [some_interval].
  - split; [discriminate | intros (? & ? & [] & _)].
  - destruct (Z.ltb_spec lo hi) as [Hlt|Hge]; cbn [andb].
    + destruct (within lo hi value) eqn:E.
      * split; [intros _ | reflexivity].
        exists lo, hi. split; [now left|]. split; [assumption|]. now apply within_spec.
      * rewrite IH. split.
        -- intros (lo' & hi' & Hin & H). exists lo', hi'. split; [now right | exact H].
        -- intros (lo' & hi' & [Hin|Hin] & Hlt' & H).
           ++ injection Hin as <- <-. apply within_spec in H. congruence.
           ++ eauto.
    + rewrite IH. split.
      * intros (lo' & hi' & Hin & H). exists lo', hi'. split; [now right | exact H].
      * intros (lo' & hi' & [Hin|Hin] & Hlt' & H).
        -- injection Hin as <- <-. lia.
        -- eauto.
Qed.

(** X12: what [checkRange] accepts.  Under one interval it accepts a
    query exactly when the interval has [hi <= lo] or holds every queried
    number, bounds included; under a list of intervals, exactly when the
    list is empty or one interval of the list with [lo < hi] holds every
    queried number: numbers that lie in two different intervals of the
    list are refused. *)
Theorem checkRange_accepts (value : Queried) :
  (forall lo hi,
      checkRange value (Some (Interval lo hi)) = true
      <-> hi <= lo \/ forall n, In n (as_array value) -> lo <= n <= hi)
  /\ (forall rs,
         checkRange value (Some (Intervals rs)) = true
         <-> rs = []
             \/ exists lo hi,
                 In (lo, hi) rs /\ lo < hi
                 /\ forall n, In n (as_array value) -> lo <= n <= hi).
Proof.
  split.
  - intros lo hi. cbn [checkRange]. destruct (Z.ltb_spec lo hi).
    + rewrite within_spec. split; [auto | intros [?|?]; [lia | assumption]].
    + split; [left; lia | reflexivity].
  - intros rs. cbn [checkRange]. destruct rs as [|r rs].
    + cbn. split; auto.
    + cbn [List.length].
      destruct (Z.ltb_spec 0 (Z.of_nat (Datatypes.S (List.length rs)))); [|lia].
      rewrite some_interval_spec. split; [auto | intros [?|?]; [discriminate | assumption]].
Qed.

(** X13: the query [[address, address + count]] of the read and write
    handlers, under one interval with [lo < hi], is accepted exactly when
    [lo <= address] and [address + count <= hi]: the number after the last
    address of the block has to lie in the interval too, so that a block
    that ends on [hi] is refused. *)
Theorem checkRange_of_a_block (address count lo hi : Z) :
  0 <= count -> lo < hi ->
  checkRange (Several [address; address + count]) (Some (Interval lo hi))
  = (lo <=? address) && (address + count <=? hi).
Proof.
  intros Hc Hlt. cbn [checkRange]. destruct (Z.ltb_spec lo hi); [|lia].
  unfold within. cbn [as_array forallb].
  destruct (Z.geb_spec address lo), (Z.leb_spec address hi), (Z.geb_spec (address + count) lo),
    (Z.leb_spec (address + count) hi), (Z.leb_spec lo address); cbn [andb]; try reflexivity; lia.
Qed.

(** The last register of the interval 0..9 is read alone. *)
Lemma checkRange_of_a_block_witness :
  checkRange (Several [9; 9 + 1]) (Some (Interval 0 9)) = (0 <=? 9) && (9 + 1 <=? 9).
Proof. apply (checkRange_of_a_block 9 1 0 9); lia. Defined.

(** ** The models of a server *)

Lemma map_get_set_same (A : Type) (k : Z) (v : A) (m : list (Z * A)) :
  ModbusSlave.map_get k (ModbusSlave.map_set k v m) = Some v.
Proof.
  induction m as [|[k' v'] m IH]; cbn [ModbusSlave.map_set ModbusSlave.map_get].
  - now rewrite Z.eqb_refl.
  - destruct (Z.eqb_spec k' k) as [->|Hne]; cbn [ModbusSlave.map_get].
    + now rewrite Z.eqb_refl.
    + destruct (Z.eqb_spec k' k); [contradiction | exact IH].
Qed.

Lemma map_get_set_other (A : Type) (k k0 : Z) (v : A) (m : list (Z * A)) :
  k0 <> k -> ModbusSlave.map_get k0 (ModbusSlave.map_set k v m) = ModbusSlave.map_get k0 m.
Proof.
  intros Hne. induction m as [|[k' v'] m IH]; cbn [ModbusSlave.map_set ModbusSlave.map_get].
  - destruct (Z.eqb_spec k k0); [congruence | reflexivity].
  - destruct (Z.eqb_spec k' k) as [->|Hne']; cbn [ModbusSlave.map_get].
    + destruct (Z.eqb_spec k k0); [congruence | reflexivity].
    + now rewrite IH.
Qed.

Lemma map_get_delete_same (A : Type) (k : Z) (m : list (Z * A)) :
  ModbusSlave.map_get k (ModbusSlave.map_delete k m) = None.
Proof.
  unfold ModbusSlave.map_delete.
  induction m as [|[k' v'] m IH]; cbn [filter ModbusSlave.map_get fst]; [reflexivity|].
  destruct (Z.eqb_spec k' k) as [->|Hne]; cbn [negb ModbusSlave.map_get]; [exact IH|].
  destruct (Z.eqb_spec k' k); [contradiction | exact IH].
Qed.

Section Registry.

Variables S L : Type.
Variable encode : ApplicationDataUnit -> L -> option Buffer.t * L.
Variable Number_other : string -> Z.

(** X14: the models of a server.  For a frame with a unit other than 0:
    after [add(model)] a frame for the unit of the model (1 when the model
    names none) is served by that model alone, whatever model had that unit
    before, and a frame for another unit is served as before; after
    [remove(unit)] a frame for that unit changes nothing and sends nothing;
    and so does every frame for a unit that has no model. *)
Theorem registered_model_serves (model : ModbusSlaveModel.t S) (models : ModbusSlave.Models S)
        (frame : Frame) (w : ModbusSlave.World S L) :
  unit frame <> 0 ->
  (unit frame = unit_of model ->
   ModbusSlave.onFraming encode Number_other (ModbusSlave.add model models) frame w
   = ModbusSlave.serve_each encode Number_other [model] frame (ModbusSlave.response frame) w)
  /\ (unit frame <> unit_of model ->
      ModbusSlave.onFraming encode Number_other (ModbusSlave.add model models) frame w
      = ModbusSlave.onFraming encode Number_other models frame w)
  /\ ModbusSlave.onFraming encode Number_other (ModbusSlave.remove (unit frame) models) frame w
     = (Resolved tt, w)
  /\ (ModbusSlave.map_has (unit frame) models = false ->
      ModbusSlave.onFraming encode Number_other models frame w = (Resolved tt, w)).
Proof.
  intros Hu. unfold ModbusSlave.onFraming, ModbusSlave.map_has, ModbusSlave.add,
               ModbusSlave.remove.
  fold (unit_of model).
  destruct (Z.eqb_spec (unit frame) 0) as [|_]; [contradiction|]. cbn [orb].
  split; [|split; [|split]].
  - intros ->. now rewrite map_get_set_same.
  - intros Hne. now rewrite map_get_set_other.
  - now rewrite map_get_delete_same.
  - intros H. destruct (ModbusSlave.map_get (unit frame) models); [discriminate | reflexivity].
Qed.

End Registry.

(** A request for unit 1 at a server from which the model of unit 1 was
    removed. *)
Lemma registered_model_serves_witness :
  let frame := mkFrame (mkADU None 1 3 [0; 0; 0; 1]) [1; 3; 0; 0; 0; 1; 132; 10] in
  ModbusSlave.onFraming Example.encode Example.Number_other
    (ModbusSlave.remove 1 [(1, Example.coils_only); (2, Example.registers_only)])
    frame Example.world
  = (Resolved tt, Example.world).
Proof.
  cbv zeta.
  refine (proj1 (proj2 (proj2 (registered_model_serves _ _ Example.encode Example.Number_other
                                 Example.coils_only
                                 [(1, Example.coils_only); (2, Example.registers_only)]
                                 (mkFrame (mkADU None 1 3 [0; 0; 0; 1])
                                          [1; 3; 0; 0; 0; 1; 132; 10])
                                 Example.world _)))).
  cbn. lia.
Defined.

(** ** One response for a request *)

Section OneResponse.

Variables S L : Type.
Variable encode : ApplicationDataUnit -> L -> option Buffer.t * L.
Variable Number_other : string -> Z.
Variable frame : ApplicationDataUnit.

Lemma once_quiet (A : Type) (m : ModbusSlave.M S L A) :
  quiet m -> replies_once (answer encode frame) m.
Proof. intros H w. left. apply H. Qed.

Lemma once_bind (A B : Type) (m : ModbusSlave.M S L A) (k : A -> ModbusSlave.M S L B) :
  quiet m -> (forall a, replies_once (answer encode frame) (k a)) ->
  replies_once (answer encode frame) (ModbusSlave.bind m k).
Proof.
  intros Hm Hk w. unfold ModbusSlave.bind. specialize (Hm w).
  destruct (m w) as [[a|e] w1]; cbn [snd] in *; [|now left].
  rewrite <- Hm. apply Hk.
Qed.

Lemma once_catch (A : Type) (m : ModbusSlave.M S L A) (h : Error -> ModbusSlave.M S L A) :
  replies_once (answer encode frame) m ->
  (forall e, replies_once (answer encode frame) (h e)) ->
  replies_once (answer encode frame) (ModbusSlave.catch m h).
Proof.
  intros Hm Hh w. unfold ModbusSlave.catch. specialize (Hm w).
  destruct (m w) as [[a|e] w1]; cbn [fst snd] in *.
  - destruct Hm as [Hm | (bytes & Hm & HP & _)]; [now left|].
    right. exists bytes. split; [assumption|]. split; [assumption|]. now exists a.
  - destruct Hm as [Hm | (bytes & _ & _ & a & Ha)]; [|discriminate].
    rewrite <- Hm. apply Hh.
Qed.

Section Handlers.

Variables (model : ModbusSlaveModel.t S) (origin : ApplicationDataUnit).

Lemma once_respond (adu : ApplicationDataUnit) :
  mirrors frame adu ->
  replies_once (answer encode frame)
    (ModbusSlave.respond encode (ModbusSlave.response (S := S) origin) adu).
Proof.
  intros Hadu w. unfold ModbusSlave.respond.
  destruct (encode adu (ModbusSlave.layer w)) as [[bytes|] l'] eqn:E; [|now left].
  unfold ModbusSlave.response.
  destruct (unit origin =? 0); [now left|].
  right. exists bytes. cbn. split; [reflexivity|]. split; [|now exists tt].
  exists adu, (ModbusSlave.layer w). now rewrite E.
Qed.

Lemma once_responseError (e : Error) :
  replies_once (answer encode frame)
    (ModbusSlave.responseError encode Number_other frame (ModbusSlave.response (S := S) origin) e).
Proof.
  apply once_respond. unfold mirrors, ModbusSlave.exception. cbn.
  split; [reflexivity|]. split; [reflexivity|]. right. split; [reflexivity|]. eauto.
Qed.

Lemma mirrors_with_data (d : list Z) : mirrors frame (ModbusSlave.with_data frame d).
Proof. unfold mirrors. cbn. auto. Qed.

Lemma mirrors_refl : mirrors frame frame.
Proof. unfold mirrors. auto. Qed.

Ltac silent_step :=
  lazymatch goal with
  | |- quiet (ModbusSlave.bind _ _) => apply quiet_bind; [|intros ?]
  | |- quiet (ModbusSlave.catch _ _) => apply quiet_catch; [|intros ?]
  | |- quiet (ModbusSlave.ret _) => apply quiet_ret
  | |- quiet (@ModbusSlave.done _ _) => unfold ModbusSlave.done; apply quiet_ret
  | |- quiet (ModbusSlave.call _) => apply quiet_call
  | |- quiet (ModbusSlave.node _) => apply quiet_node
  | |- quiet (ModbusSlave.addressRange _ _) => apply quiet_addressRange
  | |- quiet (ModbusSlave.all _ _ _) => apply quiet_all
  | |- quiet (if ?c then _ else _) => destruct c
  | |- quiet (match ?x with _ => _ end) => destruct x
  | |- quiet (let _ := _ in _) => cbv zeta
  end.

Ltac once_step :=
  lazymatch goal with
  | |- replies_once _ (ModbusSlave.bind _ _) =>
      apply once_bind; [solve [repeat silent_step] | intros ?]
  | |- replies_once _ (ModbusSlave.catch _ _) => apply once_catch; [|intros ?]
  | |- replies_once _ (@ModbusSlave.done _ _) =>
      apply once_quiet; unfold ModbusSlave.done; apply quiet_ret
  | |- replies_once _ (ModbusSlave.respond _ _ (ModbusSlave.with_data _ _)) =>
      apply once_respond, mirrors_with_data
  | |- replies_once _ (ModbusSlave.respond _ _ _) => apply once_respond, mirrors_refl
  | |- replies_once _ (ModbusSlave.responseError _ _ _ _ _) => apply once_responseError
  | |- replies_once _ (ModbusSlave.respond_registers _ _ _ _ _) =>
      unfold ModbusSlave.respond_registers
  | |- replies_once _ (if ?c then _ else _) => destruct c
  | |- replies_once _ (match ?x with _ => _ end) => destruct x
  | |- replies_once _ (let _ := _ in _) => cbv zeta
  end.

Lemma handleFC_once :
  replies_once (answer encode frame)
    (ModbusSlave.handleFC encode Number_other model frame (ModbusSlave.response (S := S) origin)).
Proof.
  unfold ModbusSlave.handleFC.
  repeat match goal with
         | |- replies_once _ (if ?c then _ else _) => destruct c
         end.
  - unfold ModbusSlave.handleFC1; repeat once_step.
  - unfold ModbusSlave.handleFC2; repeat once_step.
  - unfold ModbusSlave.handleFC3; repeat once_step.
  - unfold ModbusSlave.handleFC4; repeat once_step.
  - unfold ModbusSlave.handleFC5; repeat once_step.
  - unfold ModbusSlave.handleFC6; repeat once_step.
  - unfold ModbusSlave.handleFC15; repeat once_step.
  - unfold ModbusSlave.handleFC16; repeat once_step.
  - unfold ModbusSlave.handleFC17; repeat once_step.
  - unfold ModbusSlave.handleFC22; repeat once_step.
  - unfold ModbusSlave.handleFC23; repeat once_step.
  - unfold ModbusSlave.handleFC43_14; repeat once_step.
  - apply once_responseError.
Qed.

(** The interceptor: when it does not break, nothing was sent. *)
Lemma intercept_once (w : ModbusSlave.World S L) :
  let r := ModbusSlave.intercept encode Number_other model frame (ModbusSlave.response (S := S) origin) w in
  (fst r = Resolved false /\ ModbusSlave.wire (snd r) = ModbusSlave.wire w)
  \/ (fst r <> Resolved false
      /\ (ModbusSlave.wire (snd r) = ModbusSlave.wire w
          \/ exists bytes, ModbusSlave.wire (snd r) = ModbusSlave.wire w ++ [bytes]
                           /\ answer encode frame bytes)).
Proof.
  cbv zeta.
  unfold ModbusSlave.intercept, ModbusSlave.catch, ModbusSlave.bind, ModbusSlave.call,
    ModbusSlave.ret.
  destruct (ModbusSlaveModel.interceptor model) as [interceptor|]; [|now left].
  destruct (interceptor (fc frame) (data frame) (ModbusSlave.host w)) as [[[payload|]|e] s'].
  - set (w0 := ModbusSlave.mkWorld s' (ModbusSlave.layer w) (ModbusSlave.wire w)).
    pose proof (once_respond (ModbusSlave.with_data frame payload)
                  (mirrors_with_data payload) w0) as H.
    change (ModbusSlave.wire w0) with (ModbusSlave.wire w) in H.
    destruct (ModbusSlave.respond _ _ _ w0) as [[b|e] w1]; cbn [fst snd] in *.
    + right. split; [discriminate|].
      destruct H as [H | (bytes & H & HP & _)]; eauto.
    + pose proof (once_responseError e w1) as H1.
      destruct H as [H | (bytes & _ & _ & a & Ha)]; [|discriminate].
      rewrite H in H1.
      destruct (ModbusSlave.responseError _ _ _ _ _ w1) as [[b|e1] w2]; cbn [fst snd] in *;
        (right; split; [discriminate|]);
        destruct H1 as [H1 | (bytes & H1 & HP & _)]; eauto.
  - left. cbn. auto.
  - set (w0 := ModbusSlave.mkWorld s' (ModbusSlave.layer w) (ModbusSlave.wire w)).
    pose proof (once_responseError e w0) as H1.
    change (ModbusSlave.wire w0) with (ModbusSlave.wire w) in H1.
    destruct (ModbusSlave.responseError _ _ _ _ _ w0) as [[b|e1] w2]; cbn [fst snd] in *;
      (right; split; [discriminate|]);
      destruct H1 as [H1 | (bytes & H1 & HP & _)]; eauto.
Qed.

Lemma serve_once (w : ModbusSlave.World S L) :
  let r := ModbusSlave.serve encode Number_other model frame (ModbusSlave.response (S := S) origin) w in
  ModbusSlave.wire (snd r) = ModbusSlave.wire w
  \/ exists bytes, ModbusSlave.wire (snd r) = ModbusSlave.wire w ++ [bytes]
                   /\ answer encode frame bytes.
Proof.
  cbv zeta. unfold ModbusSlave.serve, ModbusSlave.bind.
  pose proof (intercept_once w) as H. cbv zeta in H.
  destruct (ModbusSlave.intercept _ _ _ _ _ w) as [[[|]|e] w1]; cbn [fst snd] in *.
  - destruct H as [(H & _) | (_ & H)]; [discriminate | exact H].
  - destruct H as [(_ & H) | (H & _)]; [|congruence].
    rewrite <- H.
    destruct (handleFC_once w1) as [H1 | (bytes & H1 & HP & _)]; eauto.
  - destruct H as [(H & _) | (_ & H)]; [discriminate | exact H].
Qed.

Lemma serve_one_once (w : ModbusSlave.World S L) :
  let r := ModbusSlave.serve_each encode Number_other [model] frame
             (ModbusSlave.response (S := S) origin) w in
  ModbusSlave.wire (snd r) = ModbusSlave.wire w
  \/ exists bytes, ModbusSlave.wire (snd r) = ModbusSlave.wire w ++ [bytes]
                   /\ answer encode frame bytes.
Proof.
  cbv zeta. cbn [ModbusSlave.serve_each].
  unfold ModbusSlave.bind, ModbusSlave.catch, ModbusSlave.done, ModbusSlave.ret.
  pose proof (serve_once w) as H. cbv zeta in H.
  destruct (ModbusSlave.serve _ _ _ _ _ w) as [[[]|e] w1]; exact H.
Qed.

End Handlers.

End OneResponse.

(** X15: a request gets at most one response, and the response mirrors
    it.  Whatever the models, the interceptors and the callbacks do, the
    ['framing'] listener of the server hands nothing to the transport, or
    hands it, for a frame with a unit other than 0, exactly one buffer:
    bytes that [encode] returned for an ADU with the transaction and the
    unit of the frame and with its function code, or with its function code
    with bit 7 set and one byte of data. *)
Theorem at_most_one_response
        (S L : Type) (encode : ApplicationDataUnit -> L -> option Buffer.t * L)
        (Number_other : string -> Z)
        (models : ModbusSlave.Models S) (frame : Frame) (w : ModbusSlave.World S L) :
  let w' := snd (ModbusSlave.onFraming encode Number_other models frame w) in
  ModbusSlave.wire w' = ModbusSlave.wire w
  \/ (unit frame <> 0
      /\ exists bytes,
          ModbusSlave.wire w' = ModbusSlave.wire w ++ [bytes] /\ answer encode frame bytes).
Proof.
  cbv zeta. destruct (Z.eq_dec (unit frame) 0) as [E|E].
  - left. now apply onFraming_broadcast.
  - unfold ModbusSlave.onFraming.
    destruct (negb _); [now left|].
    destruct (Z.eqb_spec (unit frame) 0); [contradiction|].
    destruct (ModbusSlave.map_get (unit frame) models) as [model|]; [|now left].
    destruct (serve_one_once _ _ encode Number_other frame model frame w) as [H|H]; auto.
Qed.

(** ** What a request does to the host *)

Section HostEffect.

Variables S L1 L2 : Type.
Variable encode1 : ApplicationDataUnit -> L1 -> option Buffer.t * L1.
Variable encode2 : ApplicationDataUnit -> L2 -> option Buffer.t * L2.
Variable Number_other : string -> Z.

Lemma in_step_node (A : Type) (o : option A) :
  in_step (ModbusSlave.node (S := S) (L := L1) o) (ModbusSlave.node (S := S) (L := L2) o).
Proof. intros w1 w2 H. destruct o; cbn; auto. Qed.

Lemma in_step_ret (A : Type) (a : A) :
  in_step (ModbusSlave.ret (S := S) (L := L1) a) (ModbusSlave.ret (S := S) (L := L2) a).
Proof. intros w1 w2 H. cbn. auto. Qed.

Lemma in_step_call (A : Type) (c : Async S A) :
  in_step (ModbusSlave.call (L := L1) c) (ModbusSlave.call (L := L2) c).
Proof.
  intros w1 w2 H. unfold ModbusSlave.call. rewrite H.
  destruct (c (ModbusSlave.host w2)). cbn. auto.
Qed.

Lemma in_step_addressRange (model : ModbusSlaveModel.t S)
      (field : ModbusSlaveModel.AddressRange -> option Range) :
  in_step (ModbusSlave.addressRange (L := L1) model field)
          (ModbusSlave.addressRange (L := L2) model field).
Proof. intros w1 w2 H. unfold ModbusSlave.addressRange. cbn. rewrite H. auto. Qed.

Lemma in_step_bind (A B : Type)
      (m1 : ModbusSlave.M S L1 A) (m2 : ModbusSlave.M S L2 A)
      (k1 : A -> ModbusSlave.M S L1 B) (k2 : A -> ModbusSlave.M S L2 B) :
  in_step m1 m2 -> (forall a, in_step (k1 a) (k2 a)) ->
  in_step (ModbusSlave.bind m1 k1) (ModbusSlave.bind m2 k2).
Proof.
  intros Hm Hk w1 w2 H. unfold ModbusSlave.bind. destruct (Hm w1 w2 H) as [Hr Hh].
  destruct (m1 w1) as [[a1|e1] w1'], (m2 w2) as [[a2|e2] w2']; cbn [fst snd] in *;
    try discriminate.
  - injection Hr as <-. now apply Hk.
  - injection Hr as ->. auto.
Qed.

Lemma in_step_all (A : Type) (single : Z -> A -> Async S Datatypes.unit) (value : list A) :
  forall address,
    in_step (ModbusSlave.all (L := L1) single address value)
            (ModbusSlave.all (L := L2) single address value).
Proof.
  induction value as [|v value IH]; intros address w1 w2 H; [cbn; auto|].
  cbn [ModbusSlave.all].
  destruct (in_step_call _ (single address v) w1 w2 H) as [Hr Hh].
  destruct (ModbusSlave.call (single address v) w1) as [[a1|e1] w1'],
           (ModbusSlave.call (single address v) w2) as [[a2|e2] w2']; cbn [fst snd] in *;
    try discriminate.
  - now apply IH.
  - destruct (IH (address + 1) w1' w2' Hh) as [_ Hh']. cbn [fst snd]. now split.
Qed.

Lemma same_host_bind (A B : Type)
      (m1 : ModbusSlave.M S L1 A) (m2 : ModbusSlave.M S L2 A)
      (k1 : A -> ModbusSlave.M S L1 B) (k2 : A -> ModbusSlave.M S L2 B) :
  in_step m1 m2 -> (forall a, same_host (k1 a) (k2 a)) ->
  same_host (ModbusSlave.bind m1 k1) (ModbusSlave.bind m2 k2).
Proof.
  intros Hm Hk w1 w2 H. unfold ModbusSlave.bind. destruct (Hm w1 w2 H) as [Hr Hh].
  destruct (m1 w1) as [[a1|e1] w1'], (m2 w2) as [[a2|e2] w2']; cbn [fst snd] in *;
    try discriminate.
  - injection Hr as <-. now apply Hk.
  - auto.
Qed.

Lemma same_host_catch (A : Type)
      (m1 : ModbusSlave.M S L1 A) (m2 : ModbusSlave.M S L2 A)
      (h1 : Error -> ModbusSlave.M S L1 A) (h2 : Error -> ModbusSlave.M S L2 A) :
  same_host m1 m2 -> (forall e, keeps_host (h1 e)) -> (forall e, keeps_host (h2 e)) ->
  same_host (ModbusSlave.catch m1 h1) (ModbusSlave.catch m2 h2).
Proof.
  intros Hm H1 H2 w1 w2 H. unfold ModbusSlave.catch. specialize (Hm w1 w2 H).
  destruct (m1 w1) as [[a1|e1] w1'], (m2 w2) as [[a2|e2] w2']; cbn [fst snd] in *;
    rewrite ?H1, ?H2; exact Hm.
Qed.

Lemma same_host_pure (A : Type) (m1 : ModbusSlave.M S L1 A) (m2 : ModbusSlave.M S L2 A) :
  keeps_host m1 -> keeps_host m2 -> same_host m1 m2.
Proof. intros H1 H2 w1 w2 H. now rewrite H1, H2. Qed.

Lemma response_keeps_host (L : Type) (frame : ApplicationDataUnit) (bytes : Buffer.t) :
  keeps_host (ModbusSlave.response (S := S) (L := L) frame bytes).
Proof. intros w. unfold ModbusSlave.response. destruct (unit frame =? 0); reflexivity. Qed.

Lemma respond_keeps_host (L : Type) (encode : ApplicationDataUnit -> L -> option Buffer.t * L)
      (frame adu : ApplicationDataUnit) :
  keeps_host (ModbusSlave.respond (S := S) encode (ModbusSlave.response frame) adu).
Proof.
  intros w. unfold ModbusSlave.respond.
  destruct (encode adu (ModbusSlave.layer w)) as [[bytes|] l']; [|reflexivity].
  now rewrite response_keeps_host.
Qed.

Lemma responseError_keeps_host (L : Type)
      (encode : ApplicationDataUnit -> L -> option Buffer.t * L)
      (frame origin : ApplicationDataUnit) (e : Error) :
  keeps_host (ModbusSlave.responseError (S := S) encode Number_other frame
                (ModbusSlave.response origin) e).
Proof. apply respond_keeps_host. Qed.

Lemma done_keeps_host (L : Type) : keeps_host (ModbusSlave.done (S := S) (L := L)).
Proof. intros w. reflexivity. Qed.

Ltac in_step_step :=
  lazymatch goal with
  | |- in_step (ModbusSlave.bind _ _) (ModbusSlave.bind _ _) => apply in_step_bind; [|intros ?]
  | |- in_step (ModbusSlave.ret _) _ => apply in_step_ret
  | |- in_step (@ModbusSlave.done _ _) _ => unfold ModbusSlave.done; apply in_step_ret
  | |- in_step (ModbusSlave.call _) _ => apply in_step_call
  | |- in_step (ModbusSlave.node _) _ => apply in_step_node
  | |- in_step (ModbusSlave.addressRange _ _) _ => apply in_step_addressRange
  | |- in_step (ModbusSlave.all _ _ _) _ => apply in_step_all
  | |- in_step (if ?c then _ else _) _ => destruct c
  | |- in_step (match ?x with _ => _ end) _ => destruct x
  end.

Ltac same_host_step :=
  lazymatch goal with
  | |- same_host (ModbusSlave.bind _ _) (ModbusSlave.bind _ _) =>
      apply same_host_bind; [solve [repeat in_step_step] | intros ?]
  | |- same_host (ModbusSlave.catch _ _) (ModbusSlave.catch _ _) =>
      apply same_host_catch;
      [ | intros ?; apply responseError_keeps_host | intros ?; apply responseError_keeps_host]
  | |- same_host (@ModbusSlave.done _ _) _ =>
      apply same_host_pure; apply done_keeps_host
  | |- same_host (ModbusSlave.respond _ _ _) _ =>
      apply same_host_pure; apply respond_keeps_host
  | |- same_host (ModbusSlave.responseError _ _ _ _ _) _ =>
      apply same_host_pure; apply responseError_keeps_host
  | |- same_host (ModbusSlave.respond_registers _ _ _ _ _) _ =>
      unfold ModbusSlave.respond_registers
  | |- same_host (if ?c then _ else _) _ => destruct c
  | |- same_host (match ?x with _ => _ end) _ => destruct x
  | |- same_host (let _ := _ in _) _ => cbv zeta
  end.

Section Handlers.

Variables (model : ModbusSlaveModel.t S) (frame1 frame2 origin1 origin2 : ApplicationDataUnit).
Hypothesis Hfc : fc frame2 = fc frame1.
Hypothesis Hdata : data frame2 = data frame1.

Lemma handleFC_same_host :
  same_host (ModbusSlave.handleFC encode1 Number_other model frame1 (ModbusSlave.response origin1))
            (ModbusSlave.handleFC encode2 Number_other model frame2 (ModbusSlave.response origin2)).
Proof.
  unfold ModbusSlave.handleFC. rewrite Hfc.
  repeat match goal with
         | |- same_host (if ?c then _ else _) _ => destruct c
         end.
  - unfold ModbusSlave.handleFC1; rewrite Hdata; repeat same_host_step.
  - unfold ModbusSlave.handleFC2; rewrite Hdata; repeat same_host_step.
  - unfold ModbusSlave.handleFC3; rewrite Hdata; repeat same_host_step.
  - unfold ModbusSlave.handleFC4; rewrite Hdata; repeat same_host_step.
  - unfold ModbusSlave.handleFC5; rewrite Hdata; repeat same_host_step.
  - unfold ModbusSlave.handleFC6; rewrite Hdata; repeat same_host_step.
  - unfold ModbusSlave.handleFC15; rewrite Hdata; repeat same_host_step.
  - unfold ModbusSlave.handleFC16; rewrite Hdata; repeat same_host_step.
  - unfold ModbusSlave.handleFC17; rewrite Hdata; repeat same_host_step.
  - unfold ModbusSlave.handleFC22; rewrite Hdata; repeat same_host_step.
  - unfold ModbusSlave.handleFC23; rewrite Hdata; repeat same_host_step.
  - unfold ModbusSlave.handleFC43_14; rewrite Hdata; repeat same_host_step.
  - same_host_step.
Qed.

End Handlers.

Lemma then_true (L A : Type) (m : ModbusSlave.M S L A) (w : ModbusSlave.World S L) :
  keeps_host m ->
  let r := ModbusSlave.bind m (fun _ => ModbusSlave.ret true) w in
  ModbusSlave.host (snd r) = ModbusSlave.host w /\ fst r <> Resolved false.
Proof.
  intros Hm. cbv zeta. unfold ModbusSlave.bind, ModbusSlave.ret. specialize (Hm w).
  destruct (m w) as [[a|e] w1]; cbn [fst snd] in *; split; (exact Hm || discriminate).
Qed.

Lemma answered (L : Type) (encode : ApplicationDataUnit -> L -> option Buffer.t * L)
      (frame origin : ApplicationDataUnit) (m : ModbusSlave.M S L Datatypes.unit)
      (w : ModbusSlave.World S L) :
  keeps_host m ->
  let r :=
    ModbusSlave.catch
      (ModbusSlave.bind m (fun _ => ModbusSlave.ret true))
      (fun error =>
         ModbusSlave.bind
           (ModbusSlave.responseError encode Number_other frame (ModbusSlave.response origin) error)
           (fun _ => ModbusSlave.ret true)) w in
  ModbusSlave.host (snd r) = ModbusSlave.host w /\ fst r <> Resolved false.
Proof.
  intros Hm. cbv zeta. unfold ModbusSlave.catch.
  destruct (then_true L _ m w Hm) as [H1 H2].
  destruct (ModbusSlave.bind m _ w) as [[a|e] w1]; cbn [fst snd] in *; [auto|].
  destruct (then_true L _ _ w1 (responseError_keeps_host L encode frame origin e)) as [H3 H4].
  rewrite <- H1. auto.
Qed.

Lemma catch_bind_call (L A B : Type) (c : Async S A) (k : A -> ModbusSlave.M S L B)
      (h : Error -> ModbusSlave.M S L B) (w : ModbusSlave.World S L) :
  ModbusSlave.catch (ModbusSlave.bind (ModbusSlave.call c) k) h w
  = match c (ModbusSlave.host w) with
    | (Resolved a, s') =>
        ModbusSlave.catch (k a) h (ModbusSlave.mkWorld s' (ModbusSlave.layer w) (ModbusSlave.wire w))
    | (Rejected e, s') =>
        h e (ModbusSlave.mkWorld s' (ModbusSlave.layer w) (ModbusSlave.wire w))
    end.
Proof.
  unfold ModbusSlave.catch, ModbusSlave.bind, ModbusSlave.call.
  destruct (c (ModbusSlave.host w)) as [[a|e] s']; reflexivity.
Qed.

Section Serving.

Variables (frame1 frame2 : ApplicationDataUnit).
Hypothesis Hfc : fc frame2 = fc frame1.
Hypothesis Hdata : data frame2 = data frame1.

Lemma intercept_same_host (model : ModbusSlaveModel.t S)
      (w1 : ModbusSlave.World S L1) (w2 : ModbusSlave.World S L2) :
  ModbusSlave.host w1 = ModbusSlave.host w2 ->
  let r1 := ModbusSlave.intercept encode1 Number_other model frame1 (ModbusSlave.response frame1) w1 in
  let r2 := ModbusSlave.intercept encode2 Number_other model frame2 (ModbusSlave.response frame2) w2 in
  ModbusSlave.host (snd r1) = ModbusSlave.host (snd r2)
  /\ (fst r1 = Resolved false <-> fst r2 = Resolved false).
Proof.
  intros H. cbv zeta. unfold ModbusSlave.intercept.
  destruct (ModbusSlaveModel.interceptor model) as [interceptor|]; [|cbn; tauto].
  rewrite !catch_bind_call, Hfc, Hdata, H.
  destruct (interceptor (fc frame1) (data frame1) (ModbusSlave.host w2)) as [[[payload|]|e] s'].
  - destruct (answered L1 encode1 frame1 frame1
                (ModbusSlave.respond encode1 (ModbusSlave.response frame1)
                   (ModbusSlave.with_data frame1 payload))
                (ModbusSlave.mkWorld s' (ModbusSlave.layer w1) (ModbusSlave.wire w1))
                (respond_keeps_host L1 encode1 frame1 _)) as [A1 A2].
    destruct (answered L2 encode2 frame2 frame2
                (ModbusSlave.respond encode2 (ModbusSlave.response frame2)
                   (ModbusSlave.with_data frame2 payload))
                (ModbusSlave.mkWorld s' (ModbusSlave.layer w2) (ModbusSlave.wire w2))
                (respond_keeps_host L2 encode2 frame2 _)) as [B1 B2].
    rewrite A1, B1. split; [reflexivity | tauto].
  - cbn. tauto.
  - destruct (then_true L1 _ _ (ModbusSlave.mkWorld s' (ModbusSlave.layer w1) (ModbusSlave.wire w1))
                (responseError_keeps_host L1 encode1 frame1 frame1 e)) as [A1 A2].
    destruct (then_true L2 _ _ (ModbusSlave.mkWorld s' (ModbusSlave.layer w2) (ModbusSlave.wire w2))
                (responseError_keeps_host L2 encode2 frame2 frame2 e)) as [B1 B2].
    rewrite A1, B1. split; [reflexivity | tauto].
Qed.

Lemma serve_same_host (model : ModbusSlaveModel.t S) :
  same_host (ModbusSlave.serve encode1 Number_other model frame1 (ModbusSlave.response frame1))
            (ModbusSlave.serve encode2 Number_other model frame2 (ModbusSlave.response frame2)).
Proof.
  intros w1 w2 H. unfold ModbusSlave.serve, ModbusSlave.bind.
  destruct (intercept_same_host model w1 w2 H) as [Hh Hr]. cbv zeta in Hh, Hr.
  destruct (ModbusSlave.intercept encode1 _ _ _ _ w1) as [[[|]|e1] w1'],
           (ModbusSlave.intercept encode2 _ _ _ _ w2) as [[[|]|e2] w2']; cbn [fst snd] in *;
    try exact Hh;
    try (exfalso; destruct Hr as [Hr1 Hr2];
         (discriminate (Hr1 eq_refl) || discriminate (Hr2 eq_refl))).
  now apply handleFC_same_host.
Qed.

End Serving.

End HostEffect.

(** X16: what a request does to the host depends on its function code
    and on its data only.  The service of a frame by a model, interceptor
    included, leaves the host in the same state as the service, by the same
    model from the same host, of a frame with that function code and that
    data under any other unit and transaction id, by a server on any other
    application layer, whatever that layer encodes and whatever was sent
    before: so a broadcast, whose reply is dropped, and a reply that cannot
    be encoded act on the host as the unicast request does. *)
Theorem host_effect_ignores_transport
        (S L1 L2 : Type)
        (encode1 : ApplicationDataUnit -> L1 -> option Buffer.t * L1)
        (encode2 : ApplicationDataUnit -> L2 -> option Buffer.t * L2)
        (Number_other : string -> Z)
        (model : ModbusSlaveModel.t S) (frame : ApplicationDataUnit)
        (t : option Z) (u : Z) (w : ModbusSlave.World S L1) (l : L2) (sent : list Buffer.t) :
  let other := mkADU t u (fc frame) (data frame) in
  ModbusSlave.host
    (snd (ModbusSlave.serve encode1 Number_other model frame (ModbusSlave.response frame) w))
  = ModbusSlave.host
      (snd (ModbusSlave.serve encode2 Number_other model other (ModbusSlave.response other)
              (ModbusSlave.mkWorld (ModbusSlave.host w) l sent))).
Proof.
  cbv zeta. apply serve_same_host; reflexivity.
Qed.

(** ** The register reads of the server *)


Lemma write_registers_at (registers : list Z) :
  Forall word registers ->
  forall (pre mid post : Buffer.t) (index : Z),
    Buffer.len pre = index * 2 ->
    Buffer.len mid = 2 * Buffer.len registers ->
    ModbusSlave.write_registers registers index (pre ++ mid ++ post)
    = Some (pre ++ flat_map big_endian registers ++ post).
Proof.
  induction 1 as [|v rest Hv _ IH]; intros pre mid post index Hpre Hmid.
  - destruct mid; [reflexivity|]. exfalso.
    rewrite len_cons in Hmid. change (Buffer.len (@nil Z)) with 0 in Hmid.
    pose proof (len_nonneg mid). lia.
  - rewrite len_cons in Hmid. pose proof (len_nonneg rest) as Hr.
    destruct mid as [|x [|y mid]];
      [exfalso; change (Buffer.len (@nil Z)) with 0 in Hmid; lia
      |exfalso; change (Buffer.len [x]) with 1 in Hmid; lia|].
    rewrite !len_cons in Hmid.
    cbn [ModbusSlave.write_registers flat_map big_endian app].
    rewrite <- Hpre. change ((x :: y :: mid) ++ post) with (x :: y :: mid ++ post).
    rewrite writeUInt16BE_at by exact Hv. cbn [obind].
    replace (pre ++ v / 256 :: v mod 256 :: mid ++ post)
      with ((pre ++ [v / 256; v mod 256]) ++ mid ++ post) by now rewrite <- app_assoc.
    rewrite IH.
    + now rewrite <- app_assoc.
    + rewrite len_app. change (Buffer.len [v / 256; v mod 256]) with 2. lia.
    + lia.
Qed.



Section ReadRegisters.

Variables S L : Type.
Variable encode : ApplicationDataUnit -> L -> option Buffer.t * L.
Variable Number_other : string -> Z.

Lemma handleFC3_resolved
      (model : ModbusSlaveModel.t S) (frame : ApplicationDataUnit) (reply : ModbusSlave.Reply S L)
      (w : ModbusSlave.World S L)
      (read : Z -> Z -> Async S (list Z)) (address count : Z) (registers : list Z) (s1 : S) :
  Buffer.len (data frame) = 4 ->
  ModbusSlaveModel.readHoldingRegisters model = Some read ->
  Buffer.readUInt16BE (Buffer.from (data frame)) 0 = Some address ->
  Buffer.readUInt16BE (Buffer.from (data frame)) 2 = Some count ->
  1 <= count <= 125 ->
  checkRange (Several [address; address + count])
             (range_in model ModbusSlaveModel.holdingRegisters w) = true ->
  read address count (ModbusSlave.host w) = (Resolved registers, s1) ->
  ModbusSlave.handleFC3 encode Number_other model frame reply w
  = ModbusSlave.catch
      (ModbusSlave.respond_registers encode frame reply count registers)
      (fun error => ModbusSlave.responseError encode Number_other frame reply error)
      (ModbusSlave.mkWorld s1 (ModbusSlave.layer w) (ModbusSlave.wire w)).
Proof.
  intros Hlen Hread E0 E2 Hcount Hrange Hcall.
  unfold ModbusSlave.handleFC3. rewrite Hlen, Hread. cbn [Z.eqb Pos.eqb].
  unfold ModbusSlave.bind at 1. rewrite E0. cbn [ModbusSlave.node ModbusSlave.ret].
  unfold ModbusSlave.bind at 1. rewrite E2. cbn [ModbusSlave.node ModbusSlave.ret].
  replace ((count >=? 1) && (count <=? 125)) with true
    by (symmetry; destruct (Z.geb_spec count 1), (Z.leb_spec count 125);
        cbn [andb]; try reflexivity; lia).
  unfold ModbusSlave.bind at 1, ModbusSlave.addressRange.
  fold (range_in model ModbusSlaveModel.holdingRegisters w). rewrite Hrange.
  unfold ModbusSlave.catch, ModbusSlave.bind at 1, ModbusSlave.call. rewrite Hcall. reflexivity.
Qed.


End ReadRegisters.


(** ** Registers, from the client to the callbacks and back *)

Lemma len_big_endian (values : list Z) :
  Buffer.len (flat_map big_endian values) = 2 * Buffer.len values.
Proof.
  induction values as [|v l IH]; [reflexivity|].
  cbn [flat_map big_endian app]. rewrite !len_cons, IH. lia.
Qed.

Lemma big_endian_bytes (values : list Z) :
  Forall word values -> Forall byte (flat_map big_endian values).
Proof.
  induction 1 as [|v l Hv _ IH]; [constructor|].
  cbn [flat_map big_endian app].
  constructor; [now apply div256_byte|]. constructor; [apply mod256_byte | exact IH].
Qed.

Lemma write_values_at (values : list Z) :
  Forall word values ->
  forall (pre mid post : Buffer.t),
    Buffer.len mid = 2 * Buffer.len values ->
    ModbusMaster.write_values values (Buffer.len pre) (pre ++ mid ++ post)
    = Some (pre ++ flat_map big_endian values ++ post).
Proof.
  induction 1 as [|v rest Hv _ IH]; intros pre mid post Hmid.
  - destruct mid; [reflexivity|]. exfalso.
    rewrite len_cons in Hmid. change (Buffer.len (@nil Z)) with 0 in Hmid.
    pose proof (len_nonneg mid). lia.
  - rewrite len_cons in Hmid. pose proof (len_nonneg rest) as Hr.
    destruct mid as [|x [|y mid]];
      [exfalso; change (Buffer.len (@nil Z)) with 0 in Hmid; lia
      |exfalso; change (Buffer.len [x]) with 1 in Hmid; lia|].
    rewrite !len_cons in Hmid.
    cbn [ModbusMaster.write_values flat_map big_endian app].
    change ((x :: y :: mid) ++ post) with (x :: y :: mid ++ post).
    rewrite writeUInt16BE_at by exact Hv. cbn [obind].
    replace (pre ++ v / 256 :: v mod 256 :: mid ++ post)
      with ((pre ++ [v / 256; v mod 256]) ++ mid ++ post) by now rewrite <- app_assoc.
    replace (Buffer.len pre + 2) with (Buffer.len (pre ++ [v / 256; v mod 256]))
      by (rewrite len_app; reflexivity).
    rewrite IH by lia. now rewrite <- app_assoc.
Qed.

Lemma read_registers_at (values : list Z) :
  Forall word values ->
  forall (pre post : Buffer.t),
    ModbusSlave.read_registers (pre ++ flat_map big_endian values ++ post)
      (Buffer.len pre) (List.length values)
    = Some values.
Proof.
  induction 1 as [|v rest Hv _ IH]; intros pre post; [reflexivity|].
  cbn [ModbusSlave.read_registers List.length flat_map big_endian app].
  rewrite readUInt16BE_at, join256_be. cbn [obind].
  replace (pre ++ v / 256 :: v mod 256 :: flat_map big_endian rest ++ post)
    with ((pre ++ [v / 256; v mod 256]) ++ flat_map big_endian rest ++ post)
    by now rewrite <- app_assoc.
  replace (Buffer.len pre + 2) with (Buffer.len (pre ++ [v / 256; v mod 256]))
    by (rewrite len_app; reflexivity).
  now rewrite IH.
Qed.

(** The PDU of Write Multiple Registers. *)
Lemma pdu_write_multiple_registers (address : Z) (values : list Z) :
  word address -> Forall word values -> Buffer.len values * 2 <= 255 ->
  (b1 <- Buffer.writeUInt16BE address 0 (Buffer.alloc (5 + Buffer.len values * 2)) ;;
   b2 <- Buffer.writeUInt16BE (Buffer.len values) 2 b1 ;;
   b3 <- Buffer.writeUInt8 (Buffer.len values * 2) 4 b2 ;;
   ModbusMaster.write_values values 5 b3)
  = Some ([address / 256; address mod 256;
           Buffer.len values / 256; Buffer.len values mod 256;
           Buffer.len values * 2] ++ flat_map big_endian values).
Proof.
  intros Ha Hv Hn. pose proof (len_nonneg values) as H0.
  rewrite alloc_add by lia. change (Buffer.alloc 5) with [0; 0; 0; 0; 0]. cbn [app].
  rewrite_at (writeUInt16BE_at [] 0 0 address
                (0 :: 0 :: 0 :: Buffer.alloc (Buffer.len values * 2)) Ha).
  cbn [obind].
  assert (Hw : word (Buffer.len values)) by (unfold word; lia).
  rewrite_at (writeUInt16BE_at [address / 256; address mod 256] 0 0 (Buffer.len values)
                (0 :: Buffer.alloc (Buffer.len values * 2)) Hw).
  cbn [obind].
  assert (Hb : byte (Buffer.len values * 2)) by (unfold byte; lia).
  rewrite_at (writeUInt8_at [address / 256; address mod 256;
                             Buffer.len values / 256; Buffer.len values mod 256]
                0 (Buffer.len values * 2) (Buffer.alloc (Buffer.len values * 2)) Hb).
  cbn [obind].
  pose proof (write_values_at values Hv
                [address / 256; address mod 256;
                 Buffer.len values / 256; Buffer.len values mod 256; Buffer.len values * 2]
                (Buffer.alloc (Buffer.len values * 2)) []) as E.
  rewrite !app_nil_r in E.
  cbn [app Buffer.len List.length Z.of_nat Pos.of_succ_nat Pos.succ] in E.
  apply E. fold (Buffer.len values).
  change (Z.of_nat (List.length (Buffer.alloc (Buffer.len values * 2))))
    with (Buffer.len (Buffer.alloc (Buffer.len values * 2))).
  rewrite len_alloc; lia.
Qed.

Lemma registers_pdu_bytes (address : Z) (values : list Z) :
  word address -> Forall word values -> Buffer.len values * 2 <= 255 ->
  Forall byte (registers_pdu address values).
Proof.
  intros Ha Hv Hn. pose proof (len_nonneg values) as H0. unfold registers_pdu.
  apply Forall_app. split; [|now apply big_endian_bytes].
  assert (Hw : word (Buffer.len values)) by (unfold word; lia).
  repeat constructor; try (now apply div256_byte); try apply mod256_byte; lia.
Qed.

Section WriteRegisters.

Variables S L : Type.
Variable encode : ApplicationDataUnit -> L -> option Buffer.t * L.
Variable Number_other : string -> Z.

Lemma handleFC16_decodes
      (model : ModbusSlaveModel.t S) (frame : ApplicationDataUnit) (reply : ModbusSlave.Reply S L)
      (w : ModbusSlave.World S L) (address : Z) (values : list Z) :
  word address -> Forall word values -> 1 <= Buffer.len values <= 123 ->
  data frame = registers_pdu address values ->
  present (ModbusSlaveModel.writeMultipleRegisters model)
  || present (ModbusSlaveModel.writeSingleRegister model) = true ->
  checkRange (Several [address; address + Buffer.len values])
             (range_in model ModbusSlaveModel.holdingRegisters w) = true ->
  ModbusSlave.handleFC16 encode Number_other model frame reply w
  = ModbusSlave.catch
      (ModbusSlave.bind
         match ModbusSlaveModel.writeMultipleRegisters model,
               ModbusSlaveModel.writeSingleRegister model with
         | Some multiple, _ => ModbusSlave.call (multiple address values)
         | None, Some single => ModbusSlave.all single address values
         | None, None => @ModbusSlave.done S L
         end
         (fun _ =>
            ModbusSlave.respond encode reply
              (ModbusSlave.with_data frame
                 [address / 256; address mod 256;
                  Buffer.len values / 256; Buffer.len values mod 256])))
      (fun error => ModbusSlave.responseError encode Number_other frame reply error) w.
Proof.
  intros Ha Hv Hn Hdata Hcb Hrange. pose proof (len_nonneg values) as H0.
  assert (Hb : Forall byte (registers_pdu address values)) by (apply registers_pdu_bytes; auto; lia).
  assert (Hlen : Buffer.len (registers_pdu address values) = 5 + Buffer.len values * 2).
  { unfold registers_pdu. rewrite len_app, len_big_endian. change (Buffer.len [_; _; _; _; _]) with 5. lia. }
  assert (Hw : word (Buffer.len values)) by (unfold word; lia).
  unfold ModbusSlave.handleFC16. rewrite Hdata, Hlen, from_bytes by exact Hb.
  replace (Buffer.get (registers_pdu address values) 4) with (Buffer.len values * 2) by reflexivity.
  replace (5 + Buffer.len values * 2 >? 5) with true by (symmetry; apply Z.gtb_lt; lia).
  rewrite Z.eqb_refl. cbn [andb].
  assert (E0 : Buffer.readUInt16BE (registers_pdu address values) 0 = Some address).
  { pose proof (readUInt16BE_at [] (address / 256) (address mod 256)
                  (Buffer.len values / 256 :: Buffer.len values mod 256
                     :: Buffer.len values * 2 :: flat_map big_endian values)) as E.
    rewrite join256_be in E. exact E. }
  assert (E2 : Buffer.readUInt16BE (registers_pdu address values) 2 = Some (Buffer.len values)).
  { pose proof (readUInt16BE_at [address / 256; address mod 256]
                  (Buffer.len values / 256) (Buffer.len values mod 256)
                  (Buffer.len values * 2 :: flat_map big_endian values)) as E.
    rewrite join256_be in E. exact E. }
  assert (Er : ModbusSlave.read_registers (registers_pdu address values) 5
                 (Z.to_nat (Buffer.len values)) = Some values).
  { pose proof (read_registers_at values Hv
                  [address / 256; address mod 256;
                   Buffer.len values / 256; Buffer.len values mod 256; Buffer.len values * 2]
                  []) as E.
    rewrite app_nil_r in E.
    replace (Z.to_nat (Buffer.len values)) with (List.length values)
      by (unfold Buffer.len; now rewrite Nat2Z.id).
    exact E. }
  destruct (ModbusSlaveModel.writeMultipleRegisters model) as [multiple|],
           (ModbusSlaveModel.writeSingleRegister model) as [single|];
    try discriminate Hcb;
    (unfold ModbusSlave.bind at 1; rewrite E0; cbn [ModbusSlave.node ModbusSlave.ret];
     unfold ModbusSlave.bind at 1; rewrite E2; cbn [ModbusSlave.node ModbusSlave.ret];
     replace ((Buffer.len values >=? 1) && (Buffer.len values <=? 123)
              && (Buffer.len values * 2 =? Buffer.len values * 2)) with true
       by (symmetry; rewrite Z.eqb_refl;
           destruct (Z.geb_spec (Buffer.len values) 1), (Z.leb_spec (Buffer.len values) 123);
           cbn [andb]; try reflexivity; lia);
     unfold ModbusSlave.bind at 1, ModbusSlave.addressRange;
     fold (range_in model ModbusSlaveModel.holdingRegisters w); rewrite Hrange;
     unfold ModbusSlave.bind at 1; rewrite Er; reflexivity).
Qed.

End WriteRegisters.

Lemma issue_write_multiple_registers (A : AbstractApplicationLayer) (c : ModbusMaster.Client A)
      (u address timeout : Z) (values : list Z) (bytes : Buffer.t) (l' : layer_state A) :
  word address -> Forall word values -> Buffer.len values * 2 <= 255 -> u <> 0 ->
  layer_encode A (mkADU None u 16 (registers_pdu address values)) (ModbusMaster.layer c) = (Some bytes, l') ->
  ModbusMaster.issue (ModbusMaster.WriteMultipleRegisters u address values) timeout (Resolved tt) c
  = (ModbusMaster.mkClient A
       (layer_startWaitingResponse A
          (mkWaiting [ModbusMaster.same_unit_fc u 16; ModbusMaster.exactly 4;
                      ModbusMaster.echoes (registers_pdu address values)]
                     (fun _ => StopWaiting)) l')
       (ModbusMaster.written c ++ [bytes]) (Some timeout) (Datatypes.S (ModbusMaster.waits c)),
     ModbusMaster.Returned ModbusMaster.Pending).
Proof.
  intros Ha Hv Hn Hu Henc.
  cbn [ModbusMaster.issue]. unfold ModbusMaster.writeMultipleRegisters. cbv zeta.
  rewrite pdu_write_multiple_registers by assumption. fold (registers_pdu address values).
  unfold ModbusMaster.encoded. rewrite Henc. unfold ModbusMaster.waitResponse.
  destruct (Z.eqb_spec u 0); [contradiction|]. reflexivity.
Qed.

Lemma echo_passes (u f a b c d : Z) (rest : list Z) (response : Frame) :
  unit response = u -> fc response = f -> data response = [a; b; c; d] ->
  forallb (passes response)
    [ModbusMaster.same_unit_fc u f; ModbusMaster.exactly 4;
     ModbusMaster.echoes (a :: b :: c :: d :: rest)] = true.
Proof.
  intros Hu Hf Hd. cbn [forallb]. unfold passes, ModbusMaster.same_unit_fc,
    ModbusMaster.exactly, ModbusMaster.echoes.
  rewrite Hu, Hf, Hd, !Z.eqb_refl. cbn [andb negb Z.eqb Buffer.len List.length Z.of_nat
    Pos.of_succ_nat Pos.succ Pos.eqb].
  cbn [ModbusMaster.every_equal ModbusMaster.index_is nth_error]. now rewrite !Z.eqb_refl.
Qed.

(** X18: Write Multiple Registers, from the client to the callback and
    back.  For a 16-bit address and 1 to 123 16-bit values, the request
    method, once [encode] returned, registers its wait and returns a pending
    promise; the server, handed the PDU that the method built, reaches the
    callbacks with exactly that address and those values
    ([writeMultipleRegisters], or else [writeSingleRegister] for each
    value), and then responds with the first four bytes of the PDU; and a
    response with these four bytes passes the pre-checks that the method
    registered. *)
Theorem write_multiple_registers_round_trip
        (A : AbstractApplicationLayer) (c : ModbusMaster.Client A)
        (S L : Type) (encode : ApplicationDataUnit -> L -> option Buffer.t * L)
        (Number_other : string -> Z)
        (model : ModbusSlaveModel.t S) (reply : ModbusSlave.Reply S L) (w : ModbusSlave.World S L)
        (u address timeout : Z) (values : list Z) (bytes : Buffer.t) (l' : layer_state A) :
  word address -> Forall word values -> 1 <= Buffer.len values <= 123 -> u <> 0 ->
  let pdu := [address / 256; address mod 256;
              Buffer.len values / 256; Buffer.len values mod 256;
              Buffer.len values * 2] ++ flat_map big_endian values in
  let echo := [address / 256; address mod 256;
               Buffer.len values / 256; Buffer.len values mod 256] in
  let checks := [ModbusMaster.same_unit_fc u 16; ModbusMaster.exactly 4;
                 ModbusMaster.echoes pdu] in
  layer_encode A (mkADU None u 16 pdu) (ModbusMaster.layer c) = (Some bytes, l') ->
  ModbusMaster.issue (ModbusMaster.WriteMultipleRegisters u address values) timeout (Resolved tt) c
  = (ModbusMaster.mkClient A
       (layer_startWaitingResponse A (mkWaiting checks (fun _ => StopWaiting)) l')
       (ModbusMaster.written c ++ [bytes]) (Some timeout) (Datatypes.S (ModbusMaster.waits c)),
     ModbusMaster.Returned ModbusMaster.Pending)
  /\ (forall frame : ApplicationDataUnit,
         data frame = pdu ->
         present (ModbusSlaveModel.writeMultipleRegisters model)
         || present (ModbusSlaveModel.writeSingleRegister model) = true ->
         checkRange (Several [address; address + Buffer.len values])
                    (range_in model ModbusSlaveModel.holdingRegisters w) = true ->
         ModbusSlave.handleFC16 encode Number_other model frame reply w
         = ModbusSlave.catch
             (ModbusSlave.bind
                match ModbusSlaveModel.writeMultipleRegisters model,
                      ModbusSlaveModel.writeSingleRegister model with
                | Some multiple, _ => ModbusSlave.call (multiple address values)
                | None, Some single => ModbusSlave.all single address values
                | None, None => @ModbusSlave.done S L
                end
                (fun _ => ModbusSlave.respond encode reply (ModbusSlave.with_data frame echo)))
             (fun error => ModbusSlave.responseError encode Number_other frame reply error) w)
  /\ (forall response : Frame,
         unit response = u -> fc response = 16 -> data response = echo ->
         forallb (passes response) checks = true).
Proof.
  intros Ha Hv Hn Hu pdu echo checks Henc.
  split; [apply issue_write_multiple_registers; auto; lia|].
  split.
  - intros frame Hdata Hcb Hrange. now apply handleFC16_decodes.
  - intros response H1 H2 H3. now apply echo_passes.
Qed.

(** Two registers written at address 10 of a model with
    [writeMultipleRegisters]. *)
Lemma write_multiple_registers_round_trip_witness :
  let frame := mkADU None 1 16 [0; 10; 0; 2; 4; 0; 5; 0; 6] in
  ModbusSlave.host
    (snd (ModbusSlave.handleFC16 Example.encode Example.Number_other Example.block_writes
            frame (ModbusSlave.response frame) Example.world))
  = [(10, 5); (10, 6)].
Proof.
  cbv zeta.
  assert (H1 : word 10) by (unfold word; lia).
  assert (H2 : Forall word [5; 6]) by (repeat constructor; unfold word; lia).
  assert (H3 : 1 <= Buffer.len [5; 6] <= 123) by (vm_compute; split; discriminate).
  assert (H4 : 1 <> 0) by lia.
  pose proof (write_multiple_registers_round_trip RtuLayer Example.client
                _ _ Example.encode Example.Number_other Example.block_writes
                (ModbusSlave.response (mkADU None 1 16 [0; 10; 0; 2; 4; 0; 5; 0; 6]))
                Example.world 1 10 1000 [5; 6]
                [1; 16; 0; 10; 0; 2; 4; 0; 5; 0; 6; 227; 211] RtuApplicationLayer.initial
                H1 H2 H3 H4) as H.
  cbv zeta in H. destruct (H eq_refl) as (_ & Hserver & _).
  rewrite (Hserver (mkADU None 1 16 [0; 10; 0; 2; 4; 0; 5; 0; 6]) eq_refl eq_refl eq_refl).
  reflexivity.
Defined.

Lemma pdu_read (address count : Z) :
  word address -> word count ->
  (b1 <- Buffer.writeUInt16BE address 0 (Buffer.alloc 4) ;;
   Buffer.writeUInt16BE count 2 b1)
  = Some [address / 256; address mod 256; count / 256; count mod 256].
Proof.
  intros Ha Hc. change (Buffer.alloc 4) with [0; 0; 0; 0].
  rewrite_at (writeUInt16BE_at [] 0 0 address [0; 0] Ha). cbn [obind].
  rewrite_at (writeUInt16BE_at [address / 256; address mod 256] 0 0 count [] Hc).
  reflexivity.
Qed.

Lemma read_pdu_decodes (address count : Z) :
  word address -> word count ->
  let pdu := [address / 256; address mod 256; count / 256; count mod 256] in
  Buffer.len pdu = 4
  /\ Buffer.from pdu = pdu
  /\ Buffer.readUInt16BE pdu 0 = Some address
  /\ Buffer.readUInt16BE pdu 2 = Some count.
Proof.
  intros Ha Hc pdu. split; [reflexivity|]. split.
  - apply from_bytes. unfold pdu.
    repeat constructor; try (now apply div256_byte); apply mod256_byte.
  - split.
    + pose proof (readUInt16BE_at [] (address / 256) (address mod 256)
                    [count / 256; count mod 256]) as E.
      rewrite join256_be in E. exact E.
    + pose proof (readUInt16BE_at [address / 256; address mod 256]
                    (count / 256) (count mod 256) []) as E.
      rewrite join256_be in E. exact E.
Qed.

Lemma issue_read_holding_registers (A : AbstractApplicationLayer) (c : ModbusMaster.Client A)
      (u address count timeout : Z) (bytes : Buffer.t) (l' : layer_state A) :
  word address -> word count -> u <> 0 ->
  layer_encode A (mkADU None u 3 [address / 256; address mod 256; count / 256; count mod 256])
    (ModbusMaster.layer c) = (Some bytes, l') ->
  ModbusMaster.issue (ModbusMaster.ReadHoldingRegisters u address count) timeout (Resolved tt) c
  = (ModbusMaster.mkClient A
       (layer_startWaitingResponse A
          (mkWaiting [ModbusMaster.same_unit_fc u 3; ModbusMaster.exactly (1 + count * 2);
                      ModbusMaster.first_is (count * 2)]
                     (fun _ => StopWaiting)) l')
       (ModbusMaster.written c ++ [bytes]) (Some timeout) (Datatypes.S (ModbusMaster.waits c)),
     ModbusMaster.Returned ModbusMaster.Pending).
Proof.
  intros Ha Hc Hu Henc.
  cbn [ModbusMaster.issue].
  unfold ModbusMaster.readHoldingRegisters, ModbusMaster.writeFC3Or4. cbv zeta.
  rewrite pdu_read by assumption.
  unfold ModbusMaster.encoded. rewrite Henc. unfold ModbusMaster.waitResponse.
  destruct (Z.eqb_spec u 0); [contradiction|]. reflexivity.
Qed.

(** X19: Read Holding Registers, from the client to the callback and
    back.  For a 16-bit address and 1 <= count <= 125, the request method,
    once [encode] returned, registers its wait and returns a pending
    promise; the server, handed the PDU that the method built, calls
    [readHoldingRegisters] with that address and count and, when the
    callback yields [count] 16-bit registers, responds with their payload;
    and a response with that payload passes the pre-checks that the method
    registered, and the [.then] of the method decodes it to exactly the
    registers that the callback yielded, no read being out of range. *)
Theorem read_holding_registers_round_trip
        (A : AbstractApplicationLayer) (c : ModbusMaster.Client A)
        (S L : Type) (encode : ApplicationDataUnit -> L -> option Buffer.t * L)
        (Number_other : string -> Z)
        (model : ModbusSlaveModel.t S) (reply : ModbusSlave.Reply S L) (w : ModbusSlave.World S L)
        (u address count timeout : Z) (registers : list Z) (bytes : Buffer.t)
        (l' : layer_state A) :
  word address -> 1 <= count <= 125 -> u <> 0 ->
  Forall word registers -> Buffer.len registers = count ->
  let pdu := [address / 256; address mod 256; count / 256; count mod 256] in
  let payload := count * 2 :: flat_map big_endian registers in
  let checks := [ModbusMaster.same_unit_fc u 3; ModbusMaster.exactly (1 + count * 2);
                 ModbusMaster.first_is (count * 2)] in
  layer_encode A (mkADU None u 3 pdu) (ModbusMaster.layer c) = (Some bytes, l') ->
  ModbusMaster.issue (ModbusMaster.ReadHoldingRegisters u address count) timeout (Resolved tt) c
  = (ModbusMaster.mkClient A
       (layer_startWaitingResponse A (mkWaiting checks (fun _ => StopWaiting)) l')
       (ModbusMaster.written c ++ [bytes]) (Some timeout) (Datatypes.S (ModbusMaster.waits c)),
     ModbusMaster.Returned ModbusMaster.Pending)
  /\ (forall (frame : ApplicationDataUnit) (read : Z -> Z -> Async S (list Z)) (s1 : S),
         data frame = pdu ->
         ModbusSlaveModel.readHoldingRegisters model = Some read ->
         checkRange (Several [address; address + count])
                    (range_in model ModbusSlaveModel.holdingRegisters w) = true ->
         read address count (ModbusSlave.host w) = (Resolved registers, s1) ->
         ModbusSlave.handleFC3 encode Number_other model frame reply w
         = ModbusSlave.catch
             (ModbusSlave.respond encode reply (ModbusSlave.with_data frame payload))
             (fun error => ModbusSlave.responseError encode Number_other frame reply error)
             (ModbusSlave.mkWorld s1 (ModbusSlave.layer w) (ModbusSlave.wire w)))
  /\ (forall response : Frame,
         unit response = u -> fc response = 3 -> data response = payload ->
         forallb (passes response) checks = true
         /\ ModbusMaster.registers_of count response = Some registers).
Proof.
  intros Ha Hn Hu Hv Hlen pdu payload checks Henc.
  assert (Hc : word count) by (unfold word; lia).
  destruct (read_pdu_decodes address count Ha Hc) as (P1 & P2 & P3 & P4). fold pdu in P1, P2, P3, P4.
  split; [now apply issue_read_holding_registers|].
  split.
  - intros frame read s1 Hdata Hread Hrange Hcall.
    rewrite (handleFC3_resolved S L encode Number_other model frame reply w read address count
               registers s1);
      rewrite ?Hdata, ?P2; auto.
    unfold ModbusSlave.respond_registers, ModbusSlave.catch, ModbusSlave.bind.
    pose proof (write_registers_at registers Hv [] (Buffer.alloc (count * 2)) [] 0) as E.
    rewrite !app_nil_r in E. cbn [app] in E.
    rewrite E by (try reflexivity; rewrite len_alloc; lia).
    cbn [ModbusSlave.node ModbusSlave.ret]. unfold payload.
    rewrite len_big_endian, Hlen. now replace (2 * count) with (count * 2) by lia.
  - intros response H1 H2 H3. split.
    + unfold checks. cbn [forallb].
      unfold passes, ModbusMaster.same_unit_fc, ModbusMaster.exactly, ModbusMaster.first_is.
      rewrite H1, H2, H3, !Z.eqb_refl. unfold payload.
      rewrite len_cons, len_big_endian, Hlen.
      cbn [ModbusMaster.index_is nth_error andb].
      rewrite Z.eqb_refl.
      replace (1 + count * 2 =? 1 + 2 * count) with true by (symmetry; apply Z.eqb_eq; lia).
      replace (1 + count * 2 =? 0) with false by (symmetry; apply Z.eqb_neq; lia).
      reflexivity.
    + unfold ModbusMaster.registers_of. rewrite H3. unfold payload. cbn [skipn].
      rewrite from_bytes by now apply big_endian_bytes.
      pose proof (read_registers_at registers Hv [] []) as E.
      rewrite app_nil_r in E. cbn [app] in E.
      replace (Z.to_nat count) with (List.length registers)
        by (rewrite <- Hlen; unfold Buffer.len; now rewrite Nat2Z.id).
      exact E.
Qed.

(** Two registers read at address 10: the response that the server
    builds, decoded. *)
Lemma read_holding_registers_round_trip_witness :
  let response := mkFrame (mkADU None 1 3 [4; 0; 1; 0; 2]) [1; 3; 4; 0; 1; 0; 2; 42; 50] in
  forallb (passes response)
    [ModbusMaster.same_unit_fc 1 3; ModbusMaster.exactly (1 + 2 * 2); ModbusMaster.first_is (2 * 2)]
  = true
  /\ ModbusMaster.registers_of 2 response = Some [1; 2].
Proof.
  cbv zeta.
  assert (H1 : word 10) by (unfold word; lia).
  assert (H2 : 1 <= 2 <= 125) by lia.
  assert (H3 : 1 <> 0) by lia.
  assert (H4 : Forall word [1; 2]) by (repeat constructor; unfold word; lia).
  pose proof (read_holding_registers_round_trip RtuLayer Example.client
                _ _ Example.encode Example.Number_other (Example.fixed_registers [1; 2])
                (ModbusSlave.response (mkADU None 1 3 [0; 10; 0; 2]))
                Example.world 1 10 2 1000 [1; 2]
                [1; 3; 0; 10; 0; 2; 228; 9] RtuApplicationLayer.initial
                H1 H2 H3 H4 eq_refl) as H.
  cbv zeta in H. destruct (H eq_refl) as (_ & _ & Hclient).
  exact (Hclient (mkFrame (mkADU None 1 3 [4; 0; 1; 0; 2]) [1; 3; 4; 0; 1; 0; 2; 42; 50])
           eq_refl eq_refl eq_refl).
Defined.

(** ** Coils, from the client to the callbacks and back *)

Lemma testbit_shiftl_one (k j : Z) : 0 <= k -> 0 <= j -> Z.testbit (Z.shiftl 1 k) j = (j =? k).
Proof.
  intros Hk Hj. rewrite Z.shiftl_spec, testbit_one by lia.
  destruct (Z.eqb_spec (j - k) 0), (Z.eqb_spec j k); try lia; reflexivity.
Qed.

Lemma land_bit (x k : Z) : 0 <= k -> (Z.land x (Z.shiftl 1 k) >? 0) = Z.testbit x k.
Proof.
  intros Hk. destruct (Z.testbit x k) eqn:E.
  - replace (Z.land x (Z.shiftl 1 k)) with (Z.shiftl 1 k).
    + apply Z.gtb_lt. rewrite Z.shiftl_1_l. apply Z.pow_pos_nonneg; lia.
    + apply Z.bits_inj'. intros j Hj.
      rewrite Z.land_spec, testbit_shiftl_one by lia.
      destruct (Z.eqb_spec j k) as [->|]; [now rewrite E | now rewrite andb_false_r].
  - replace (Z.land x (Z.shiftl 1 k)) with 0; [reflexivity|].
    apply Z.bits_inj'. intros j Hj.
    rewrite Z.land_spec, testbit_shiftl_one, Z.testbit_0_l by lia.
    destruct (Z.eqb_spec j k) as [->|]; [now rewrite E | now rewrite andb_false_r].
Qed.

Lemma tabulate_ext (A : Type) (n : Z) (f g : Z -> A) :
  (forall i, 0 <= i < n -> f i = g i) -> ModbusSlave.tabulate n f = ModbusSlave.tabulate n g.
Proof.
  intros H. unfold ModbusSlave.tabulate. apply map_ext_in.
  intros i Hi. apply in_seq in Hi. apply H. lia.
Qed.

Lemma tabulate_nth (A : Type) (l : list A) (d : A) :
  ModbusSlave.tabulate (Z.of_nat (List.length l)) (fun i => nth (Z.to_nat i) l d) = l.
Proof.
  unfold ModbusSlave.tabulate. rewrite Nat2Z.id.
  apply nth_ext with (d := d) (d' := d).
  - now rewrite length_map, length_seq.
  - intros n Hn. rewrite length_map, length_seq in Hn.
    rewrite (nth_indep _ d (nth (Z.to_nat (Z.of_nat 0)) l d))
      by now rewrite length_map, length_seq.
    rewrite (map_nth (fun i => nth (Z.to_nat (Z.of_nat i)) l d)), seq_nth by assumption.
    now rewrite Nat2Z.id.
Qed.

Lemma len_tabulate (A : Type) (n : Z) (f : Z -> A) :
  0 <= n -> Z.of_nat (List.length (ModbusSlave.tabulate n f)) = n.
Proof. intros H. unfold ModbusSlave.tabulate. rewrite length_map, length_seq. lia. Qed.

Lemma get_cons (x : Z) (b : Buffer.t) (j : Z) :
  0 <= j -> Buffer.get (x :: b) (1 + j) = Buffer.get b j.
Proof.
  intros Hj. unfold Buffer.get.
  destruct (Z.ltb_spec (1 + j) 0), (Z.ltb_spec j 0); try lia.
  replace (Z.to_nat (1 + j)) with (Datatypes.S (Z.to_nat j)) by lia. reflexivity.
Qed.

Lemma get_app_r (pre b : Buffer.t) (j : Z) :
  0 <= j -> Buffer.get (pre ++ b) (Buffer.len pre + j) = Buffer.get b j.
Proof.
  intros Hj. unfold Buffer.get, Buffer.len.
  destruct (Z.ltb_spec (Z.of_nat (List.length pre) + j) 0), (Z.ltb_spec j 0); try lia.
  rewrite app_nth2 by lia. f_equal. lia.
Qed.

Lemma put_app_r (pre b : Buffer.t) (j v : Z) :
  0 <= j -> Buffer.put (pre ++ b) (Buffer.len pre + j) v = pre ++ Buffer.put b j v.
Proof.
  intros Hj. unfold Buffer.put. rewrite len_app.
  pose proof (len_nonneg pre) as Hp.
  destruct (Z.leb_spec 0 (Buffer.len pre + j)), (Z.leb_spec 0 j); try lia.
  destruct (Z.ltb_spec (Buffer.len pre + j) (Buffer.len pre + Buffer.len b)),
    (Z.ltb_spec j (Buffer.len b)); try lia; cbn [andb]; [|reflexivity].
  unfold Buffer.len in *.
  replace (Z.to_nat (Z.of_nat (List.length pre) + j))
    with (List.length pre + Z.to_nat j)%nat by lia.
  rewrite firstn_app_2, <- app_assoc. f_equal. f_equal. f_equal.
  replace (Datatypes.S (List.length pre + Z.to_nat j))
    with (List.length pre + Datatypes.S (Z.to_nat j))%nat by lia.
  now rewrite skipn_app, skipn_all2, Nat.add_comm, Nat.add_sub by lia.
Qed.

Lemma set_bits_pack (value : list bool) :
  forall (pre region : Buffer.t) (i : Z),
    0 <= i ->
    ModbusMaster.set_bits value (Buffer.len pre) i (pre ++ region)
    = pre ++ ModbusSlave.pack_bits value i region.
Proof.
  induction value as [|v rest IH]; intros pre region i Hi; [reflexivity|].
  cbn [ModbusMaster.set_bits ModbusSlave.pack_bits].
  assert (Hd : 0 <= i / 8) by (apply Z.div_pos; lia).
  destruct v.
  - rewrite get_app_r, put_app_r by assumption. apply IH. lia.
  - apply IH. lia.
Qed.

Lemma Forall_first (P : Z -> Prop) (n : nat) (l : list Z) : Forall P l -> Forall P (firstn n l).
Proof.
  intros H. rewrite <- (firstn_skipn n l) in H. now apply Forall_app in H.
Qed.

Lemma Forall_skip (P : Z -> Prop) (n : nat) (l : list Z) : Forall P l -> Forall P (skipn n l).
Proof.
  intros H. rewrite <- (firstn_skipn n l) in H. now apply Forall_app in H.
Qed.

Lemma put_bytes (b : Buffer.t) (i v : Z) : Forall byte b -> Forall byte (Buffer.put b i v).
Proof.
  intros Hb. unfold Buffer.put.
  destruct ((0 <=? i) && (i <? Buffer.len b)); [|exact Hb].
  apply Forall_app. split; [now apply Forall_first|].
  constructor; [apply mod256_byte | now apply Forall_skip].
Qed.

Lemma pack_bits_bytes (value : list bool) :
  forall (i : Z) (b : Buffer.t), Forall byte b -> Forall byte (ModbusSlave.pack_bits value i b).
Proof.
  induction value as [|v rest IH]; intros i b Hb; [exact Hb|].
  cbn [ModbusSlave.pack_bits]. apply IH. destruct v; [now apply put_bytes | exact Hb].
Qed.

Lemma alloc_bytes (n : Z) : Forall byte (Buffer.alloc n).
Proof. apply Forall_repeat. unfold byte. lia. Qed.

(** The bits of a packed buffer, read as the decoders read them. *)
Lemma unpack_bits (coils : list bool) (count : Z) (pre : Buffer.t) :
  0 <= count ->
  ModbusSlave.tabulate count
    (fun index =>
       Z.land (Buffer.get (pre ++ ModbusSlave.pack_bits coils 0
                                    (Buffer.alloc (ModbusSlave.ceil8 count)))
                          (Buffer.len pre + index / 8))
              (Z.shiftl 1 (index mod 8)) >? 0)
  = ModbusSlave.tabulate count (bit_of coils).
Proof.
  intros Hc. apply tabulate_ext. intros i Hi.
  pose proof (ceil8_is_ceiling count) as Hceil.
  assert (H8 : 0 <= ModbusSlave.ceil8 count) by lia.
  destruct (pack_bits_alloc coils (ModbusSlave.ceil8 count) H8) as [_ Hbits].
  rewrite get_app_r by (apply Z.div_pos; lia).
  rewrite land_bit by (apply Z.mod_pos_bound; lia).
  rewrite Hbits by lia. unfold bit_of.
  destruct (Z.ltb_spec i 0); [lia | reflexivity].
Qed.

Lemma tabulate_bit_of (coils : list bool) :
  ModbusSlave.tabulate (Z.of_nat (List.length coils)) (bit_of coils) = coils.
Proof.
  transitivity (ModbusSlave.tabulate (Z.of_nat (List.length coils))
                  (fun i => nth (Z.to_nat i) coils false)); [|apply tabulate_nth].
  apply tabulate_ext.
  intros i Hi. unfold bit_of. destruct (Z.ltb_spec i 0); [lia | reflexivity].
Qed.

Lemma issue_read_coils (A : AbstractApplicationLayer) (c : ModbusMaster.Client A)
      (u address count timeout : Z) (bytes : Buffer.t) (l' : layer_state A) :
  word address -> word count -> u <> 0 ->
  layer_encode A (mkADU None u 1 [address / 256; address mod 256; count / 256; count mod 256])
    (ModbusMaster.layer c) = (Some bytes, l') ->
  ModbusMaster.issue (ModbusMaster.ReadCoils u address count) timeout (Resolved tt) c
  = (ModbusMaster.mkClient A
       (layer_startWaitingResponse A
          (mkWaiting [ModbusMaster.same_unit_fc u 1;
                      ModbusMaster.exactly (1 + ModbusSlave.ceil8 count);
                      ModbusMaster.first_is (ModbusSlave.ceil8 count)]
                     (fun _ => StopWaiting)) l')
       (ModbusMaster.written c ++ [bytes]) (Some timeout) (Datatypes.S (ModbusMaster.waits c)),
     ModbusMaster.Returned ModbusMaster.Pending).
Proof.
  intros Ha Hc Hu Henc.
  cbn [ModbusMaster.issue].
  unfold ModbusMaster.readCoils, ModbusMaster.writeFC1Or2. cbv zeta.
  rewrite pdu_read by assumption.
  unfold ModbusMaster.encoded. rewrite Henc. unfold ModbusMaster.waitResponse.
  destruct (Z.eqb_spec u 0); [contradiction|]. reflexivity.
Qed.

(** X20: Read Coils, from the client to the callback and back.  For a
    16-bit address and 1 <= count <= 2000, the request method, once [encode]
    returned, registers its wait and returns a pending promise; the server,
    handed the PDU that the method built, calls [readCoils] with that
    address and count and responds with the byte count and the packed
    coils; and a response with that payload passes the pre-checks that the
    method registered, and the [.then] of the method decodes it to [count]
    values: the first [count] coils that the callback yielded, [false] in
    the place of the ones that it did not yield, so exactly the coils of the
    callback when they are [count]. *)
Theorem read_coils_round_trip
        (A : AbstractApplicationLayer) (c : ModbusMaster.Client A)
        (S L : Type) (encode : ApplicationDataUnit -> L -> option Buffer.t * L)
        (Number_other : string -> Z)
        (model : ModbusSlaveModel.t S) (reply : ModbusSlave.Reply S L) (w : ModbusSlave.World S L)
        (u address count timeout : Z) (coils : list bool) (bytes : Buffer.t)
        (l' : layer_state A) :
  word address -> 1 <= count <= 2000 -> u <> 0 ->
  let pdu := [address / 256; address mod 256; count / 256; count mod 256] in
  let payload :=
    ModbusSlave.ceil8 count
    :: ModbusSlave.pack_bits coils 0 (Buffer.alloc (ModbusSlave.ceil8 count)) in
  let checks := [ModbusMaster.same_unit_fc u 1;
                 ModbusMaster.exactly (1 + ModbusSlave.ceil8 count);
                 ModbusMaster.first_is (ModbusSlave.ceil8 count)] in
  layer_encode A (mkADU None u 1 pdu) (ModbusMaster.layer c) = (Some bytes, l') ->
  ModbusMaster.issue (ModbusMaster.ReadCoils u address count) timeout (Resolved tt) c
  = (ModbusMaster.mkClient A
       (layer_startWaitingResponse A (mkWaiting checks (fun _ => StopWaiting)) l')
       (ModbusMaster.written c ++ [bytes]) (Some timeout) (Datatypes.S (ModbusMaster.waits c)),
     ModbusMaster.Returned ModbusMaster.Pending)
  /\ (forall (frame : ApplicationDataUnit) (read : Z -> Z -> Async S (list bool)) (s1 : S),
         data frame = pdu ->
         ModbusSlaveModel.readCoils model = Some read ->
         checkRange (Several [address; address + count])
                    (range_in model ModbusSlaveModel.coils w) = true ->
         read address count (ModbusSlave.host w) = (Resolved coils, s1) ->
         ModbusSlave.handleFC1 encode Number_other model frame reply w
         = ModbusSlave.catch
             (ModbusSlave.respond encode reply (ModbusSlave.with_data frame payload))
             (fun error => ModbusSlave.responseError encode Number_other frame reply error)
             (ModbusSlave.mkWorld s1 (ModbusSlave.layer w) (ModbusSlave.wire w)))
  /\ (forall response : Frame,
         unit response = u -> fc response = 1 -> data response = payload ->
         forallb (passes response) checks = true
         /\ ModbusMaster.coils_of count response = ModbusSlave.tabulate count (bit_of coils)
         /\ (Z.of_nat (List.length coils) = count ->
             ModbusMaster.coils_of count response = coils)).
Proof.
  intros Ha Hn Hu pdu payload checks Henc.
  assert (Hc : word count) by (unfold word; lia).
  pose proof (ceil8_is_ceiling count) as Hceil.
  assert (H8 : 0 <= ModbusSlave.ceil8 count) by lia.
  destruct (pack_bits_alloc coils (ModbusSlave.ceil8 count) H8) as [Hpl _].
  destruct (read_pdu_decodes address count Ha Hc) as (P1 & P2 & P3 & P4). fold pdu in P1, P2, P3, P4.
  split; [now apply issue_read_coils|].
  split.
  - intros frame read s1 Hdata Hread Hrange Hcall.
    unfold ModbusSlave.handleFC1. rewrite Hdata, P1, P2, Hread. cbn [Z.eqb Pos.eqb].
    unfold ModbusSlave.bind at 1. rewrite P3. cbn [ModbusSlave.node ModbusSlave.ret].
    unfold ModbusSlave.bind at 1. rewrite P4. cbn [ModbusSlave.node ModbusSlave.ret].
    replace ((count >=? 1) && (count <=? 2000)) with true
      by (symmetry; destruct (Z.geb_spec count 1), (Z.leb_spec count 2000);
          cbn [andb]; try reflexivity; lia).
    unfold ModbusSlave.bind at 1, ModbusSlave.addressRange.
    fold (range_in model ModbusSlaveModel.coils w). rewrite Hrange.
    unfold ModbusSlave.catch, ModbusSlave.bind, ModbusSlave.call. rewrite Hcall, Hpl.
    reflexivity.
  - intros response H1 H2 H3.
    assert (Hdec : ModbusMaster.coils_of count response
                   = ModbusSlave.tabulate count (bit_of coils)).
    { unfold ModbusMaster.coils_of. rewrite H3. unfold payload.
      change (ModbusSlave.ceil8 count
                :: ModbusSlave.pack_bits coils 0 (Buffer.alloc (ModbusSlave.ceil8 count)))
        with ([ModbusSlave.ceil8 count]
                ++ ModbusSlave.pack_bits coils 0 (Buffer.alloc (ModbusSlave.ceil8 count))).
      change 1 with (Buffer.len [ModbusSlave.ceil8 count]) at 1.
      apply (unpack_bits coils count [ModbusSlave.ceil8 count]). lia. }
    split; [|split; [exact Hdec|]].
    + unfold checks. cbn [forallb].
      unfold passes, ModbusMaster.same_unit_fc, ModbusMaster.exactly, ModbusMaster.first_is.
      rewrite H1, H2, H3, !Z.eqb_refl. unfold payload.
      rewrite len_cons, Hpl.
      cbn [ModbusMaster.index_is nth_error andb].
      rewrite !Z.eqb_refl.
      replace (1 + ModbusSlave.ceil8 count =? 0) with false by (symmetry; apply Z.eqb_neq; lia).
      reflexivity.
    + intros Hlen. rewrite Hdec, <- Hlen. apply tabulate_bit_of.
Qed.

(** Ten coils read at address 19: the response that the server builds,
    decoded. *)
Lemma read_coils_round_trip_witness :
  let coils := [true; false; true; true; false; false; true; true; true; false] in
  let response := mkFrame (mkADU None 1 1 [2; 205; 1]) [1; 1; 2; 205; 1; 109; 252] in
  ModbusMaster.coils_of 10 response = coils.
Proof.
  cbv zeta.
  assert (H1 : word 19) by (unfold word; lia).
  assert (H2 : 1 <= 10 <= 2000) by lia.
  assert (H3 : 1 <> 0) by lia.
  pose proof (read_coils_round_trip RtuLayer Example.client
                _ _ Example.encode Example.Number_other
                (Example.fixed_coils
                   [true; false; true; true; false; false; true; true; true; false])
                (ModbusSlave.response (mkADU None 1 1 [0; 19; 0; 10]))
                Example.world 1 19 10 1000
                [true; false; true; true; false; false; true; true; true; false]
                [1; 1; 0; 19; 0; 10; 77; 200] RtuApplicationLayer.initial
                H1 H2 H3) as H.
  cbv zeta in H. destruct (H eq_refl) as (_ & _ & Hclient).
  destruct (Hclient (mkFrame (mkADU None 1 1 [2; 205; 1]) [1; 1; 2; 205; 1; 109; 252])
              eq_refl eq_refl eq_refl) as (_ & _ & Hcoils).
  exact (Hcoils eq_refl).
Defined.

(** The PDU of Write Multiple Coils. *)
Lemma pdu_write_multiple_coils (address : Z) (value : list bool) :
  word address -> 1 <= Z.of_nat (List.length value) <= 1968 ->
  let n := Z.of_nat (List.length value) in
  (b1 <- Buffer.writeUInt16BE address 0 (Buffer.alloc (5 + ModbusSlave.ceil8 n)) ;;
   b2 <- Buffer.writeUInt16BE n 2 b1 ;;
   b3 <- Buffer.writeUInt8 (ModbusSlave.ceil8 n) 4 b2 ;;
   Some (ModbusMaster.set_bits value 5 0 b3))
  = Some ([address / 256; address mod 256; n / 256; n mod 256; ModbusSlave.ceil8 n]
            ++ ModbusSlave.pack_bits value 0 (Buffer.alloc (ModbusSlave.ceil8 n))).
Proof.
  intros Ha Hn n. fold n in Hn.
  pose proof (ceil8_is_ceiling n) as Hceil.
  rewrite alloc_add by lia. change (Buffer.alloc 5) with [0; 0; 0; 0; 0]. cbn [app].
  rewrite_at (writeUInt16BE_at [] 0 0 address
                (0 :: 0 :: 0 :: Buffer.alloc (ModbusSlave.ceil8 n)) Ha).
  cbn [obind].
  assert (Hw : word n) by (unfold word; lia).
  rewrite_at (writeUInt16BE_at [address / 256; address mod 256] 0 0 n
                (0 :: Buffer.alloc (ModbusSlave.ceil8 n)) Hw).
  cbn [obind].
  assert (Hb : byte (ModbusSlave.ceil8 n)) by (unfold byte; lia).
  rewrite_at (writeUInt8_at [address / 256; address mod 256; n / 256; n mod 256]
                0 (ModbusSlave.ceil8 n) (Buffer.alloc (ModbusSlave.ceil8 n)) Hb).
  cbn [obind]. f_equal.
  apply (set_bits_pack value
           [address / 256; address mod 256; n / 256; n mod 256; ModbusSlave.ceil8 n]
           (Buffer.alloc (ModbusSlave.ceil8 n)) 0). lia.
Qed.

Section WriteCoils.

Variables S L : Type.
Variable encode : ApplicationDataUnit -> L -> option Buffer.t * L.
Variable Number_other : string -> Z.

Lemma handleFC15_decodes
      (model : ModbusSlaveModel.t S) (frame : ApplicationDataUnit) (reply : ModbusSlave.Reply S L)
      (w : ModbusSlave.World S L) (address : Z) (value : list bool) :
  word address -> 1 <= Z.of_nat (List.length value) <= 1968 ->
  let n := Z.of_nat (List.length value) in
  data frame
  = [address / 256; address mod 256; n / 256; n mod 256; ModbusSlave.ceil8 n]
      ++ ModbusSlave.pack_bits value 0 (Buffer.alloc (ModbusSlave.ceil8 n)) ->
  present (ModbusSlaveModel.writeMultipleCoils model)
  || present (ModbusSlaveModel.writeSingleCoil model) = true ->
  checkRange (Several [address; address + n]) (range_in model ModbusSlaveModel.coils w) = true ->
  ModbusSlave.handleFC15 encode Number_other model frame reply w
  = ModbusSlave.catch
      (ModbusSlave.bind
         match ModbusSlaveModel.writeMultipleCoils model,
               ModbusSlaveModel.writeSingleCoil model with
         | Some multiple, _ => ModbusSlave.call (multiple address value)
         | None, Some single => ModbusSlave.all single address value
         | None, None => @ModbusSlave.done S L
         end
         (fun _ =>
            ModbusSlave.respond encode reply
              (ModbusSlave.with_data frame [address / 256; address mod 256; n / 256; n mod 256])))
      (fun error => ModbusSlave.responseError encode Number_other frame reply error) w.
Proof.
  intros Ha Hn n Hdata Hcb Hrange. fold n in Hn.
  pose proof (ceil8_is_ceiling n) as Hceil.
  assert (H8 : 0 <= ModbusSlave.ceil8 n) by lia.
  destruct (pack_bits_alloc value (ModbusSlave.ceil8 n) H8) as [Hpl _].
  assert (Hw : word n) by (unfold word; lia).
  set (packed := ModbusSlave.pack_bits value 0 (Buffer.alloc (ModbusSlave.ceil8 n))) in *.
  set (pdu := [address / 256; address mod 256; n / 256; n mod 256; ModbusSlave.ceil8 n] ++ packed)
    in *.
  assert (Hb : Forall byte pdu).
  { unfold pdu. apply Forall_app. split.
    - repeat constructor; try (now apply div256_byte); try apply mod256_byte; lia.
    - apply pack_bits_bytes, alloc_bytes. }
  assert (Hlen : Buffer.len pdu = 5 + ModbusSlave.ceil8 n).
  { unfold pdu. rewrite len_app, Hpl. reflexivity. }
  assert (E0 : Buffer.readUInt16BE pdu 0 = Some address).
  { pose proof (readUInt16BE_at [] (address / 256) (address mod 256)
                  (n / 256 :: n mod 256 :: ModbusSlave.ceil8 n :: packed)) as E.
    rewrite join256_be in E. exact E. }
  assert (E2 : Buffer.readUInt16BE pdu 2 = Some n).
  { pose proof (readUInt16BE_at [address / 256; address mod 256] (n / 256) (n mod 256)
                  (ModbusSlave.ceil8 n :: packed)) as E.
    rewrite join256_be in E. exact E. }
  assert (Ev : ModbusSlave.tabulate n
                 (fun index =>
                    Z.land (Buffer.get pdu (5 + index / 8)) (Z.shiftl 1 (index mod 8)) >? 0)
               = value).
  { pose proof (unpack_bits value n
                  [address / 256; address mod 256; n / 256; n mod 256; ModbusSlave.ceil8 n]
                  ltac:(lia)) as E.
    change (Buffer.len [address / 256; address mod 256; n / 256; n mod 256; ModbusSlave.ceil8 n])
      with 5 in E.
    fold packed in E. fold pdu in E. rewrite E. apply tabulate_bit_of. }
  unfold ModbusSlave.handleFC15. rewrite Hdata, Hlen, from_bytes by exact Hb.
  replace (Buffer.get pdu 4) with (ModbusSlave.ceil8 n) by reflexivity.
  replace (5 + ModbusSlave.ceil8 n >? 5) with true by (symmetry; apply Z.gtb_lt; lia).
  rewrite Z.eqb_refl. cbn [andb].
  destruct (ModbusSlaveModel.writeMultipleCoils model) as [multiple|],
           (ModbusSlaveModel.writeSingleCoil model) as [single|];
    try discriminate Hcb;
    (unfold ModbusSlave.bind at 1; rewrite E0; cbn [ModbusSlave.node ModbusSlave.ret];
     unfold ModbusSlave.bind at 1; rewrite E2; cbn [ModbusSlave.node ModbusSlave.ret];
     replace ((n >=? 1) && (n <=? 1968) && (ModbusSlave.ceil8 n =? ModbusSlave.ceil8 n)) with true
       by (symmetry; rewrite Z.eqb_refl;
           destruct (Z.geb_spec n 1), (Z.leb_spec n 1968); cbn [andb]; try reflexivity; lia);
     unfold ModbusSlave.bind at 1, ModbusSlave.addressRange;
     fold (range_in model ModbusSlaveModel.coils w); rewrite Hrange;
     rewrite Ev; reflexivity).
Qed.

End WriteCoils.

Lemma issue_write_multiple_coils (A : AbstractApplicationLayer) (c : ModbusMaster.Client A)
      (u address timeout : Z) (value : list bool) (bytes : Buffer.t) (l' : layer_state A) :
  word address -> 1 <= Z.of_nat (List.length value) <= 1968 -> u <> 0 ->
  let n := Z.of_nat (List.length value) in
  let pdu := [address / 256; address mod 256; n / 256; n mod 256; ModbusSlave.ceil8 n]
               ++ ModbusSlave.pack_bits value 0 (Buffer.alloc (ModbusSlave.ceil8 n)) in
  layer_encode A (mkADU None u 15 pdu) (ModbusMaster.layer c) = (Some bytes, l') ->
  ModbusMaster.issue (ModbusMaster.WriteMultipleCoils u address value) timeout (Resolved tt) c
  = (ModbusMaster.mkClient A
       (layer_startWaitingResponse A
          (mkWaiting [ModbusMaster.same_unit_fc u 15; ModbusMaster.exactly 4;
                      ModbusMaster.echoes pdu]
                     (fun _ => StopWaiting)) l')
       (ModbusMaster.written c ++ [bytes]) (Some timeout) (Datatypes.S (ModbusMaster.waits c)),
     ModbusMaster.Returned ModbusMaster.Pending).
Proof.
  intros Ha Hn Hu n pdu Henc.
  cbn [ModbusMaster.issue]. unfold ModbusMaster.writeMultipleCoils. cbv zeta.
  rewrite pdu_write_multiple_coils by assumption. fold n. fold pdu.
  unfold ModbusMaster.encoded. rewrite Henc. unfold ModbusMaster.waitResponse.
  destruct (Z.eqb_spec u 0); [contradiction|]. reflexivity.
Qed.

(** X21: Write Multiple Coils, from the client to the callback and
    back.  For a 16-bit address and 1 to 1968 values, the request method,
    once [encode] returned, registers its wait and returns a pending
    promise; the server, handed the PDU that the method built, reaches the
    callbacks with exactly that address and those values
    ([writeMultipleCoils], or else [writeSingleCoil] for each value), and
    then responds with the first four bytes of the PDU; and a response with
    these four bytes passes the pre-checks that the method registered. *)
Theorem write_multiple_coils_round_trip
        (A : AbstractApplicationLayer) (c : ModbusMaster.Client A)
        (S L : Type) (encode : ApplicationDataUnit -> L -> option Buffer.t * L)
        (Number_other : string -> Z)
        (model : ModbusSlaveModel.t S) (reply : ModbusSlave.Reply S L) (w : ModbusSlave.World S L)
        (u address timeout : Z) (value : list bool) (bytes : Buffer.t) (l' : layer_state A) :
  word address -> 1 <= Z.of_nat (List.length value) <= 1968 -> u <> 0 ->
  let n := Z.of_nat (List.length value) in
  let pdu := [address / 256; address mod 256; n / 256; n mod 256; ModbusSlave.ceil8 n]
               ++ ModbusSlave.pack_bits value 0 (Buffer.alloc (ModbusSlave.ceil8 n)) in
  let echo := [address / 256; address mod 256; n / 256; n mod 256] in
  let checks := [ModbusMaster.same_unit_fc u 15; ModbusMaster.exactly 4;
                 ModbusMaster.echoes pdu] in
  layer_encode A (mkADU None u 15 pdu) (ModbusMaster.layer c) = (Some bytes, l') ->
  ModbusMaster.issue (ModbusMaster.WriteMultipleCoils u address value) timeout (Resolved tt) c
  = (ModbusMaster.mkClient A
       (layer_startWaitingResponse A (mkWaiting checks (fun _ => StopWaiting)) l')
       (ModbusMaster.written c ++ [bytes]) (Some timeout) (Datatypes.S (ModbusMaster.waits c)),
     ModbusMaster.Returned ModbusMaster.Pending)
  /\ (forall frame : ApplicationDataUnit,
         data frame = pdu ->
         present (ModbusSlaveModel.writeMultipleCoils model)
         || present (ModbusSlaveModel.writeSingleCoil model) = true ->
         checkRange (Several [address; address + n])
                    (range_in model ModbusSlaveModel.coils w) = true ->
         ModbusSlave.handleFC15 encode Number_other model frame reply w
         = ModbusSlave.catch
             (ModbusSlave.bind
                match ModbusSlaveModel.writeMultipleCoils model,
                      ModbusSlaveModel.writeSingleCoil model with
                | Some multiple, _ => ModbusSlave.call (multiple address value)
                | None, Some single => ModbusSlave.all single address value
                | None, None => @ModbusSlave.done S L
                end
                (fun _ => ModbusSlave.respond encode reply (ModbusSlave.with_data frame echo)))
             (fun error => ModbusSlave.responseError encode Number_other frame reply error) w)
  /\ (forall response : Frame,
         unit response = u -> fc response = 15 -> data response = echo ->
         forallb (passes response) checks = true).
Proof.
  intros Ha Hn Hu n pdu echo checks Henc.
  split; [now apply issue_write_multiple_coils|].
  split.
  - intros frame Hdata Hcb Hrange. now apply handleFC15_decodes.
  - intros response H1 H2 H3. now apply echo_passes.
Qed.

(** Ten coils written at address 19 of a model with
    [writeMultipleCoils]. *)
Lemma write_multiple_coils_round_trip_witness :
  let frame := mkADU None 1 15 [0; 19; 0; 10; 2; 205; 1] in
  ModbusSlave.host
    (snd (ModbusSlave.handleFC15 Example.encode Example.Number_other Example.block_writes
            frame (ModbusSlave.response frame) Example.world))
  = [(19, 1); (19, 0); (19, 1); (19, 1); (19, 0); (19, 0); (19, 1); (19, 1); (19, 1); (19, 0)].
Proof.
  cbv zeta.
  assert (H1 : word 19) by (unfold word; lia).
  assert (H2 : 1 <= Z.of_nat (List.length
                                [true; false; true; true; false; false; true; true; true; false])
               <= 1968) by (vm_compute; split; discriminate).
  assert (H3 : 1 <> 0) by lia.
  pose proof (write_multiple_coils_round_trip RtuLayer Example.client
                _ _ Example.encode Example.Number_other Example.block_writes
                (ModbusSlave.response (mkADU None 1 15 [0; 19; 0; 10; 2; 205; 1]))
                Example.world 1 19 1000
                [true; false; true; true; false; false; true; true; true; false]
                [1; 15; 0; 19; 0; 10; 2; 205; 1; 114; 203] RtuApplicationLayer.initial
                H1 H2 H3) as H.
  cbv zeta in H. destruct (H eq_refl) as (_ & Hserver & _).
  rewrite (Hserver (mkADU None 1 15 [0; 19; 0; 10; 2; 205; 1]) eq_refl eq_refl eq_refl).
  reflexivity.
Defined.

(** ** The wait of a request *)



Section Waits.

Variable A : AbstractApplicationLayer.
Hypothesis Hstart :
  forall wr s, layer_waiting A (layer_startWaitingResponse A wr s) = Some wr.
Hypothesis Hstop : forall s, layer_waiting A (layer_stopWaitingResponse A s) = None.

Lemma first_check_fails (u f : Z) (rest : list PreCheck) (frame : Frame) :
  unit frame <> u \/ fc frame <> f ->
  invalid_response (ModbusMaster.same_unit_fc u f :: rest) frame.
Proof.
  intros H. unfold invalid_response.
  cbn [RtuApplicationLayer.run_preCheck TcpApplicationLayer.run_preCheck
       AsciiApplicationLayer.run_preCheck].
  unfold ModbusMaster.same_unit_fc.
  replace ((unit frame =? u) && (fc frame =? f)) with false; [cbn; auto|].
  symmetry. destruct (Z.eqb_spec (unit frame) u), (Z.eqb_spec (fc frame) f);
    cbn [andb]; try reflexivity. destruct H; contradiction.
Qed.

Lemma waited (u f timeout : Z) (pdu : option Buffer.t)
      (checks : Buffer.t -> list PreCheck) (c c' : ModbusMaster.Client A)
      (p : ModbusMaster.Promise) :
  u <> 0 ->
  ModbusMaster.encoded u f pdu
    (fun bufferTx bytes =>
       ModbusMaster.waitResponse bytes (u =? 0) (ModbusMaster.same_unit_fc u f :: checks bufferTx)
         timeout (Resolved tt)) c
  = (c', ModbusMaster.Returned p) ->
  p = ModbusMaster.Pending
  /\ ModbusMaster.timer c' = Some timeout
  /\ ModbusMaster.waits c' = Datatypes.S (ModbusMaster.waits c)
  /\ (exists bytes, ModbusMaster.written c' = ModbusMaster.written c ++ [bytes])
  /\ exists wr,
      layer_waiting A (ModbusMaster.layer c') = Some wr
      /\ exists bufferTx, preCheck wr = ModbusMaster.same_unit_fc u f :: checks bufferTx.
Proof.
  intros Hu. unfold ModbusMaster.encoded.
  destruct pdu as [d|]; [|discriminate].
  destruct (layer_encode A _ (ModbusMaster.layer c)) as [[bytes|] l']; [|discriminate].
  unfold ModbusMaster.waitResponse. destruct (Z.eqb_spec u 0); [contradiction|].
  intros [= <- <-]. cbn [ModbusMaster.timer ModbusMaster.waits ModbusMaster.written
                         ModbusMaster.layer].
  split; [reflexivity|]. split; [reflexivity|]. split; [reflexivity|].
  split; [now exists bytes|].
  eexists. split; [apply Hstart|]. cbn [preCheck]. now eexists.
Qed.

Lemma issued (r : ModbusMaster.Request) (timeout : Z) (c c' : ModbusMaster.Client A)
      (p : ModbusMaster.Promise) :
  ModbusMaster.request_unit r <> 0 ->
  ModbusMaster.issue r timeout (Resolved tt) c = (c', ModbusMaster.Returned p) ->
  p = ModbusMaster.Pending
  /\ ModbusMaster.timer c' = Some timeout
  /\ ModbusMaster.waits c' = Datatypes.S (ModbusMaster.waits c)
  /\ (exists bytes, ModbusMaster.written c' = ModbusMaster.written c ++ [bytes])
  /\ exists wr,
      layer_waiting A (ModbusMaster.layer c') = Some wr
      /\ exists rest,
          preCheck wr
          = ModbusMaster.same_unit_fc (ModbusMaster.request_unit r) (request_fc r) :: rest.
Proof.
  intros Hu Hissue.
  destruct r; cbn [ModbusMaster.request_unit request_fc] in *;
    cbn [ModbusMaster.issue] in Hissue;
    unfold ModbusMaster.readCoils, ModbusMaster.readDiscreteInputs,
      ModbusMaster.readHoldingRegisters, ModbusMaster.readInputRegisters,
      ModbusMaster.writeFC1Or2, ModbusMaster.writeFC3Or4,
      ModbusMaster.writeSingleCoil, ModbusMaster.writeSingleRegister,
      ModbusMaster.writeMultipleCoils, ModbusMaster.writeMultipleRegisters,
      ModbusMaster.reportServerId, ModbusMaster.maskWriteRegister,
      ModbusMaster.readAndWriteMultipleRegisters, ModbusMaster.readDeviceIdentification
      in Hissue;
    cbv zeta in Hissue.
  all: match type of Hissue with
       | ModbusMaster.encoded ?u ?f ?pdu
           (fun bufferTx bytes =>
              ModbusMaster.waitResponse bytes _ (_ :: @?rest bufferTx) _ _) _ = _ =>
           destruct (waited u f timeout pdu rest c c' p Hu Hissue)
             as (W1 & W2 & W3 & W4 & wr & W5 & bufferTx & W6);
           repeat (split; [assumption|]); exists wr; split; [assumption|]; eexists; exact W6
       end.
Qed.

Lemma layer_refuses : refuses_other_responses A.
Proof.
  intros r timeout c c' p Hu Hissue.
  assert (Hf : Z.lor (request_fc r) 128 <> request_fc r) by (destruct r; cbn; discriminate).
  destruct (issued r timeout c c' p Hu Hissue) as (_ & _ & _ & _ & wr & H5 & rest & H6).
  exists wr. split; [exact H5|]. intros frame Hframe. rewrite H6.
  apply first_check_fails.
  destruct Hframe as [?|[?|E]]; auto. right. now rewrite E.
Qed.

Lemma layer_waits : waits_for_its_response A.
Proof.
  intros r timeout c c' p Hu Hissue.
  destruct (issued r timeout c c' p Hu Hissue) as (H1 & H2 & H3 & H4 & wr & H5 & _).
  split; [exact H1|]. split; [exact H2|]. split; [exact H3|]. split; [exact H4|].
  split; [now exists wr|].
  split; [intros d; split; [apply Hstop | split; reflexivity]|].
  split; [apply Hstop|]. split; reflexivity.
Qed.

End Waits.

(** X22: the client reports an exception response as 'Invalid
    response'.  On each of the three layers, once any of the twelve request
    methods has returned for a unit other than 0, the layer holds a wait
    whose first pre-check refuses, in the pre-check loop of each of the
    three framers, every frame of another unit or of another function code
    with 'Invalid response'; the exception response to the request has the
    function code of the request with bit 7 set, and is such a frame: its
    exception code never reaches the caller. *)
Theorem exception_responses_are_invalid_responses :
  refuses_other_responses RtuLayer
  /\ refuses_other_responses AsciiLayer
  /\ refuses_other_responses TcpLayer.
Proof.
  split; [|split]; apply layer_refuses; intros; reflexivity.
Qed.

(** X23: a request to one unit leaves one wait, and the response or the
    timeout removes it.  On each of the three layers, once any of the
    twelve request methods has returned for a unit other than 0 and the
    transport has written, the promise is pending, the bytes were written
    once, one wait was registered and the timer runs with the timeout of the
    request; the callback of the wait, whatever it is called with, and the
    timer, when it fires, leave the layer without a wait and the client
    without a timer, and the timer rejects the promise with 'Timeout'. *)
Theorem requests_wait_for_their_response :
  waits_for_its_response RtuLayer
  /\ waits_for_its_response AsciiLayer
  /\ waits_for_its_response TcpLayer.
Proof.
  split; [|split]; apply layer_waits; intros; reflexivity.
Qed.

(** ** The fallback of the block writes, and the interceptor *)



(** X24: the fallback of the block writes, [Promise.all] over
    [value.map] of the single write, calls the single write for every
    element, at the addresses [address], [address + 1], ..., in order, also
    after a call has rejected: it leaves the host that these calls leave one
    after the other, and settles with the error of the first call that
    rejected, if any. *)
Theorem all_calls_every_element
        (S L A : Type) (single : Z -> A -> Async S Datatypes.unit)
        (address : Z) (value : list A) (w : ModbusSlave.World S L) :
  ModbusSlave.all single address value w
  = (match first_rejection single address value (ModbusSlave.host w) with
     | Some e => Rejected e
     | None => Resolved tt
     end,
     ModbusSlave.mkWorld (written_one_by_one single address value (ModbusSlave.host w))
                         (ModbusSlave.layer w) (ModbusSlave.wire w)).
Proof.
  revert address w. induction value as [|v rest IH]; intros address w.
  - destruct w. reflexivity.
  - cbn [ModbusSlave.all written_one_by_one first_rejection]. unfold ModbusSlave.call.
    destruct (single address v (ModbusSlave.host w)) as [[[]|e] s1]; cbn [snd].
    + now rewrite IH.
    + now rewrite IH.
Qed.

Section Interceptor.

Variables S L : Type.
Variable encode : ApplicationDataUnit -> L -> option Buffer.t * L.
Variable Number_other : string -> Z.


End Interceptor.


(** ** Report Server ID, and Read/Write Multiple Registers *)

(** X25: Report Server ID, from the client to the callback and back.
    The request method, once [encode] returned, registers its wait and
    returns a pending promise; the server, for a PDU without data, calls
    [reportServerId] and responds with the byte count, the server id (by
    default the unit of the model, or 1), 0xFF or 0x00 for the run
    indicator (by default 0xFF) and the additional data (by default none);
    and a response with that payload passes the pre-checks that the method
    registered, and the [.then] of the method decodes it to that server id,
    that run indicator and that additional data. *)
Theorem report_server_id_round_trip
        (A : AbstractApplicationLayer) (c : ModbusMaster.Client A)
        (S L : Type) (encode : ApplicationDataUnit -> L -> option Buffer.t * L)
        (Number_other : string -> Z)
        (model : ModbusSlaveModel.t S) (reply : ModbusSlave.Reply S L) (w : ModbusSlave.World S L)
        (u timeout : Z) (id : ServerId) (bytes : Buffer.t) (l' : layer_state A) :
  u <> 0 ->
  let reported := match serverId id with Some v => v | None => unit_of model end in
  let running := match runIndicatorStatus id with Some b => b | None => true end in
  let additional := match additionalData id with Some l => l | None => [] end in
  let payload :=
    [2 + Buffer.len additional; reported; if running then 255 else 0] ++ additional in
  let checks :=
    [ModbusMaster.same_unit_fc u 17;
     fun frame : Frame =>
       if Buffer.len (data frame) >=? 3
       then CNumber (1 + Buffer.get (data frame) 0)
       else CUndefined] in
  layer_encode A (mkADU None u 17 []) (ModbusMaster.layer c) = (Some bytes, l') ->
  ModbusMaster.issue (ModbusMaster.ReportServerId u) timeout (Resolved tt) c
  = (ModbusMaster.mkClient A
       (layer_startWaitingResponse A (mkWaiting checks (fun _ => StopWaiting)) l')
       (ModbusMaster.written c ++ [bytes]) (Some timeout) (Datatypes.S (ModbusMaster.waits c)),
     ModbusMaster.Returned ModbusMaster.Pending)
  /\ (forall (frame : ApplicationDataUnit) (report : Async S ServerId) (s1 : S),
         data frame = [] ->
         ModbusSlaveModel.reportServerId model = Some report ->
         report (ModbusSlave.host w) = (Resolved id, s1) ->
         ModbusSlave.handleFC17 encode Number_other model frame reply w
         = ModbusSlave.catch
             (ModbusSlave.respond encode reply (ModbusSlave.with_data frame payload))
             (fun error => ModbusSlave.responseError encode Number_other frame reply error)
             (ModbusSlave.mkWorld s1 (ModbusSlave.layer w) (ModbusSlave.wire w)))
  /\ (forall response : Frame,
         unit response = u -> fc response = 17 -> data response = payload ->
         forallb (passes response) checks = true
         /\ ModbusMaster.serverId_of response
            = ModbusMaster.mkReportedServerId (Some reported) running additional).
Proof.
  intros Hu reported running additional payload checks Henc.
  split; [|split].
  - cbn [ModbusMaster.issue]. unfold ModbusMaster.reportServerId. cbv zeta.
    unfold ModbusMaster.encoded. rewrite Henc. unfold ModbusMaster.waitResponse.
    destruct (Z.eqb_spec u 0); [contradiction|]. reflexivity.
  - intros frame report s1 Hdata Hreport Hcall.
    unfold ModbusSlave.handleFC17. rewrite Hdata, Hreport.
    change (Buffer.len [] =? 0) with true. cbn iota.
    unfold ModbusSlave.catch, ModbusSlave.bind, ModbusSlave.call. rewrite Hcall.
    reflexivity.
  - intros response H1 H2 H3. pose proof (len_nonneg additional) as H0. split.
    + unfold checks. cbn [forallb]. unfold passes, ModbusMaster.same_unit_fc.
      rewrite H1, H2, H3, !Z.eqb_refl. cbn [andb].
      assert (Hl : Buffer.len payload = 3 + Buffer.len additional).
      { unfold payload. rewrite len_app. reflexivity. }
      rewrite Hl.
      destruct (Z.geb_spec (3 + Buffer.len additional) 3); [|lia].
      replace (Buffer.get payload 0) with (2 + Buffer.len additional) by reflexivity.
      replace (1 + (2 + Buffer.len additional) =? 3 + Buffer.len additional) with true
        by (symmetry; apply Z.eqb_eq; lia).
      replace (1 + (2 + Buffer.len additional) =? 0) with false
        by (symmetry; apply Z.eqb_neq; lia).
      reflexivity.
    + unfold ModbusMaster.serverId_of. rewrite H3. unfold payload.
      cbn [app nth_error skipn ModbusMaster.index_is]. f_equal.
      now destruct running.
Qed.

(** A model of unit 17 that reports two bytes of additional data and
    leaves the server id and the run indicator to their defaults. *)
Lemma report_server_id_round_trip_witness :
  let response := mkFrame (mkADU None 17 17 [4; 17; 255; 7; 8]) [17; 17; 4; 17; 255; 7; 8; 0; 0] in
  ModbusMaster.serverId_of response = ModbusMaster.mkReportedServerId (Some 17) true [7; 8].
Proof.
  cbv zeta.
  assert (H1 : 17 <> 0) by lia.
  pose proof (report_server_id_round_trip RtuLayer Example.client
                _ _ Example.encode Example.Number_other
                (Example.identified (mkServerId None None (Some [7; 8])))
                (ModbusSlave.response (mkADU None 17 17 []))
                Example.world 17 1000 (mkServerId None None (Some [7; 8]))
                [17; 17; 205; 236] RtuApplicationLayer.initial H1) as H.
  cbv zeta in H. destruct (H eq_refl) as (_ & _ & Hclient).
  exact (proj2 (Hclient (mkFrame (mkADU None 17 17 [4; 17; 255; 7; 8])
                                 [17; 17; 4; 17; 255; 7; 8; 0; 0])
                  eq_refl eq_refl eq_refl)).
Defined.

(** X26: the pre-checks of Read/Write Multiple Registers expect as
    many registers as the request writes.  On a layer whose
    [startWaitingResponse] keeps the wait, once the request method has
    returned for a unit other than 0, the response that carries
    [read_length] registers with their byte count, as the server builds it,
    passes the pre-checks of the wait exactly when [read_length] is the
    number of the values written. *)
Theorem read_write_registers_expects_write_length
        (A : AbstractApplicationLayer) (c c' : ModbusMaster.Client A) (p : ModbusMaster.Promise)
        (u read_address read_length write_address timeout : Z) (write_value registers : list Z)
        (response : Frame) :
  (forall wr s, layer_waiting A (layer_startWaitingResponse A wr s) = Some wr) ->
  u <> 0 ->
  ModbusMaster.issue
    (ModbusMaster.ReadAndWriteMultipleRegisters u read_address read_length write_address
       write_value)
    timeout (Resolved tt) c
  = (c', ModbusMaster.Returned p) ->
  1 <= read_length -> Buffer.len registers = read_length ->
  unit response = u -> fc response = 23 ->
  data response = read_length * 2 :: flat_map big_endian registers ->
  exists wr,
    layer_waiting A (ModbusMaster.layer c') = Some wr
    /\ forallb (passes response) (preCheck wr) = (read_length =? Buffer.len write_value).
Proof.
  intros Hstart Hu Hissue Hrl Hlen H1 H2 H3.
  cbn [ModbusMaster.issue] in Hissue.
  unfold ModbusMaster.readAndWriteMultipleRegisters in Hissue. cbv zeta in Hissue.
  destruct (waited A Hstart u 23 timeout _
              (fun _ => [ModbusMaster.exactly (1 + Buffer.len write_value * 2);
                         ModbusMaster.first_is (Buffer.len write_value * 2)])
              c c' p Hu Hissue) as (_ & _ & _ & _ & wr & Hw & bufferTx & Hchecks).
  exists wr. split; [exact Hw|]. rewrite Hchecks. cbn [forallb].
  unfold passes, ModbusMaster.same_unit_fc, ModbusMaster.exactly, ModbusMaster.first_is.
  rewrite H1, H2, H3, !Z.eqb_refl, len_cons, len_big_endian, Hlen.
  cbn [ModbusMaster.index_is nth_error andb].
  pose proof (len_nonneg write_value) as H0.
  destruct (Z.eqb_spec read_length (Buffer.len write_value)) as [E|E].
  - rewrite E, Z.eqb_refl.
    replace (1 + Buffer.len write_value * 2 =? 1 + 2 * Buffer.len write_value) with true
      by (symmetry; apply Z.eqb_eq; lia).
    replace (1 + Buffer.len write_value * 2 =? 0) with false
      by (symmetry; apply Z.eqb_neq; lia).
    reflexivity.
  - replace (1 + Buffer.len write_value * 2 =? 1 + 2 * read_length) with false
      by (symmetry; apply Z.eqb_neq; lia).
    reflexivity.
Qed.

(** Two registers read and three written: the response with the two
    registers does not pass. *)
Lemma read_write_registers_expects_write_length_witness :
  let request := ModbusMaster.ReadAndWriteMultipleRegisters 1 0 2 10 [5; 6; 7] in
  let response := mkFrame (mkADU None 1 23 [4; 0; 1; 0; 2]) [1; 23; 4; 0; 1; 0; 2; 0; 0] in
  exists wr,
    layer_waiting RtuLayer
      (ModbusMaster.layer (fst (ModbusMaster.issue request 1000 (Resolved tt) Example.client)))
    = Some wr
    /\ forallb (passes response) (preCheck wr) = false.
Proof.
  cbv zeta.
  apply (read_write_registers_expects_write_length RtuLayer Example.client
           (fst (ModbusMaster.issue (ModbusMaster.ReadAndWriteMultipleRegisters 1 0 2 10 [5; 6; 7])
                   1000 (Resolved tt) Example.client))
           ModbusMaster.Pending 1 0 2 10 1000 [5; 6; 7] [1; 2]
           (mkFrame (mkADU None 1 23 [4; 0; 1; 0; 2]) [1; 23; 4; 0; 1; 0; 2; 0; 0])).
  - intros wr s. reflexivity.
  - lia.
  - reflexivity.
  - lia.
  - reflexivity.
  - reflexivity.
  - reflexivity.
  - reflexivity.
Defined.

(** ** The single writes *)

Lemma issue_write_single_coil (A : AbstractApplicationLayer) (c : ModbusMaster.Client A)
      (u address timeout : Z) (value : bool) (bytes : Buffer.t) (l' : layer_state A) :
  word address -> u <> 0 ->
  let state := if value then 65280 else 0 in
  let pdu := [address / 256; address mod 256; state / 256; state mod 256] in
  layer_encode A (mkADU None u 5 pdu) (ModbusMaster.layer c) = (Some bytes, l') ->
  ModbusMaster.issue (ModbusMaster.WriteSingleCoil u address value) timeout (Resolved tt) c
  = (ModbusMaster.mkClient A
       (layer_startWaitingResponse A
          (mkWaiting [ModbusMaster.same_unit_fc u 5; ModbusMaster.exactly 4;
                      ModbusMaster.echoes pdu]
                     (fun _ => StopWaiting)) l')
       (ModbusMaster.written c ++ [bytes]) (Some timeout) (Datatypes.S (ModbusMaster.waits c)),
     ModbusMaster.Returned ModbusMaster.Pending).
Proof.
  intros Ha Hu state pdu Henc.
  assert (Hs : word state) by (unfold state, word; destruct value; lia).
  cbn [ModbusMaster.issue]. unfold ModbusMaster.writeSingleCoil. cbv zeta.
  fold state. rewrite pdu_read by assumption. fold pdu.
  unfold ModbusMaster.encoded. rewrite Henc. unfold ModbusMaster.waitResponse.
  destruct (Z.eqb_spec u 0); [contradiction|]. reflexivity.
Qed.

Lemma issue_write_single_register (A : AbstractApplicationLayer) (c : ModbusMaster.Client A)
      (u address value timeout : Z) (bytes : Buffer.t) (l' : layer_state A) :
  word address -> word value -> u <> 0 ->
  let pdu := [address / 256; address mod 256; value / 256; value mod 256] in
  layer_encode A (mkADU None u 6 pdu) (ModbusMaster.layer c) = (Some bytes, l') ->
  ModbusMaster.issue (ModbusMaster.WriteSingleRegister u address value) timeout (Resolved tt) c
  = (ModbusMaster.mkClient A
       (layer_startWaitingResponse A
          (mkWaiting [ModbusMaster.same_unit_fc u 6; ModbusMaster.exactly 4;
                      ModbusMaster.echoes pdu]
                     (fun _ => StopWaiting)) l')
       (ModbusMaster.written c ++ [bytes]) (Some timeout) (Datatypes.S (ModbusMaster.waits c)),
     ModbusMaster.Returned ModbusMaster.Pending).
Proof.
  intros Ha Hv Hu pdu Henc.
  cbn [ModbusMaster.issue]. unfold ModbusMaster.writeSingleRegister. cbv zeta.
  rewrite pdu_read by assumption. fold pdu.
  unfold ModbusSlave.bind, ModbusMaster.encoded. rewrite Henc. unfold ModbusMaster.waitResponse.
  destruct (Z.eqb_spec u 0); [contradiction|]. reflexivity.
Qed.

Section SingleWrites.

Variables S L : Type.
Variable encode : ApplicationDataUnit -> L -> option Buffer.t * L.
Variable Number_other : string -> Z.

(** [handleFC5] on four bytes of data that hold two 16-bit numbers. *)
Lemma handleFC5_decodes
      (model : ModbusSlaveModel.t S) (frame : ApplicationDataUnit) (reply : ModbusSlave.Reply S L)
      (w : ModbusSlave.World S L) (write : Z -> bool -> Async S Datatypes.unit)
      (address state : Z) :
  word address -> word state ->
  data frame = [address / 256; address mod 256; state / 256; state mod 256] ->
  ModbusSlaveModel.writeSingleCoil model = Some write ->
  ModbusSlave.handleFC5 encode Number_other model frame reply w
  = if (state =? 0) || (state =? 65280) then
      if checkRange (One address) (range_in model ModbusSlaveModel.coils w) then
        ModbusSlave.catch
          (ModbusSlave.bind (ModbusSlave.call (write address (state =? 65280)))
             (fun _ => ModbusSlave.respond encode reply frame))
          (fun error => ModbusSlave.responseError encode Number_other frame reply error) w
      else
        ModbusSlave.responseError encode Number_other frame reply
          (ErrorCode.getErrorByCode ErrorCode.ILLEGAL_DATA_ADDRESS) w
    else
      ModbusSlave.responseError encode Number_other frame reply
        (ErrorCode.getErrorByCode ErrorCode.ILLEGAL_DATA_VALUE) w.
Proof.
  intros Ha Hs Hdata Hwrite.
  destruct (read_pdu_decodes address state Ha Hs) as (Hlen & Hfrom & E0 & E2).
  unfold ModbusSlave.handleFC5. rewrite Hdata, Hlen, Hfrom, Hwrite. cbn [Z.eqb Pos.eqb].
  unfold ModbusSlave.bind at 1. rewrite E0. cbn [ModbusSlave.node ModbusSlave.ret].
  unfold ModbusSlave.bind at 1. rewrite E2. cbn [ModbusSlave.node ModbusSlave.ret].
  destruct ((state =? 0) || (state =? 65280)); [|reflexivity].
  unfold ModbusSlave.bind at 1, ModbusSlave.addressRange.
  fold (range_in model ModbusSlaveModel.coils w).
  destruct (checkRange (One address) (range_in model ModbusSlaveModel.coils w)); reflexivity.
Qed.

(** [handleFC6] on four bytes of data that hold two 16-bit numbers. *)
Lemma handleFC6_decodes
      (model : ModbusSlaveModel.t S) (frame : ApplicationDataUnit) (reply : ModbusSlave.Reply S L)
      (w : ModbusSlave.World S L) (write : Z -> Z -> Async S Datatypes.unit)
      (address value : Z) :
  word address -> word value ->
  data frame = [address / 256; address mod 256; value / 256; value mod 256] ->
  ModbusSlaveModel.writeSingleRegister model = Some write ->
  ModbusSlave.handleFC6 encode Number_other model frame reply w
  = if checkRange (One address) (range_in model ModbusSlaveModel.holdingRegisters w) then
      ModbusSlave.catch
        (ModbusSlave.bind (ModbusSlave.call (write address value))
           (fun _ => ModbusSlave.respond encode reply frame))
        (fun error => ModbusSlave.responseError encode Number_other frame reply error) w
    else
      ModbusSlave.responseError encode Number_other frame reply
        (ErrorCode.getErrorByCode ErrorCode.ILLEGAL_DATA_ADDRESS) w.
Proof.
  intros Ha Hv Hdata Hwrite.
  destruct (read_pdu_decodes address value Ha Hv) as (Hlen & Hfrom & E0 & E2).
  unfold ModbusSlave.handleFC6. rewrite Hdata, Hlen, Hfrom, Hwrite. cbn [Z.eqb Pos.eqb].
  unfold ModbusSlave.bind at 1. rewrite E0. cbn [ModbusSlave.node ModbusSlave.ret].
  unfold ModbusSlave.bind at 1. rewrite E2. cbn [ModbusSlave.node ModbusSlave.ret].
  replace ((value >=? 0) && (value <=? 65535)) with true
    by (symmetry; unfold word in Hv;
        destruct (Z.geb_spec value 0), (Z.leb_spec value 65535);
        cbn [andb]; try reflexivity; lia).
  unfold ModbusSlave.bind at 1, ModbusSlave.addressRange.
  fold (range_in model ModbusSlaveModel.holdingRegisters w).
  destruct (checkRange (One address) (range_in model ModbusSlaveModel.holdingRegisters w));
    reflexivity.
Qed.

End SingleWrites.

(** X28: Write Single Coil, from the client to the callback and back.
    For a 16-bit address, the request method writes [true] as 0xFF00 and
    [false] as 0x0000, registers its wait once [encode] returned and
    returns a pending promise; the server, handed the PDU that the method
    built, calls [writeSingleCoil] with that address and that Boolean and
    then responds with the frame of the request; a response with the four
    bytes of the request passes the pre-checks that the method registered;
    and a request whose value is neither 0x0000 nor 0xFF00 is answered
    with the exception ILLEGAL_DATA_VALUE before the address is looked
    at. *)
Theorem write_single_coil_round_trip
        (A : AbstractApplicationLayer) (c : ModbusMaster.Client A)
        (S L : Type) (encode : ApplicationDataUnit -> L -> option Buffer.t * L)
        (Number_other : string -> Z)
        (model : ModbusSlaveModel.t S) (reply : ModbusSlave.Reply S L) (w : ModbusSlave.World S L)
        (write : Z -> bool -> Async S Datatypes.unit)
        (u address timeout : Z) (value : bool) (bytes : Buffer.t) (l' : layer_state A) :
  word address -> u <> 0 ->
  ModbusSlaveModel.writeSingleCoil model = Some write ->
  let state := if value then 65280 else 0 in
  let pdu := [address / 256; address mod 256; state / 256; state mod 256] in
  let checks := [ModbusMaster.same_unit_fc u 5; ModbusMaster.exactly 4;
                 ModbusMaster.echoes pdu] in
  layer_encode A (mkADU None u 5 pdu) (ModbusMaster.layer c) = (Some bytes, l') ->
  ModbusMaster.issue (ModbusMaster.WriteSingleCoil u address value) timeout (Resolved tt) c
  = (ModbusMaster.mkClient A
       (layer_startWaitingResponse A (mkWaiting checks (fun _ => StopWaiting)) l')
       (ModbusMaster.written c ++ [bytes]) (Some timeout) (Datatypes.S (ModbusMaster.waits c)),
     ModbusMaster.Returned ModbusMaster.Pending)
  /\ (forall frame : ApplicationDataUnit,
         data frame = pdu ->
         checkRange (One address) (range_in model ModbusSlaveModel.coils w) = true ->
         ModbusSlave.handleFC5 encode Number_other model frame reply w
         = ModbusSlave.catch
             (ModbusSlave.bind (ModbusSlave.call (write address value))
                (fun _ => ModbusSlave.respond encode reply frame))
             (fun error => ModbusSlave.responseError encode Number_other frame reply error) w)
  /\ (forall response : Frame,
         unit response = u -> fc response = 5 -> data response = pdu ->
         forallb (passes response) checks = true)
  /\ (forall (frame : ApplicationDataUnit) (other : Z),
         word other -> other <> 0 -> other <> 65280 ->
         data frame = [address / 256; address mod 256; other / 256; other mod 256] ->
         ModbusSlave.handleFC5 encode Number_other model frame reply w
         = ModbusSlave.responseError encode Number_other frame reply
             (ErrorCode.getErrorByCode ErrorCode.ILLEGAL_DATA_VALUE) w).
Proof.
  intros Ha Hu Hwrite state pdu checks Henc.
  assert (Hs : word state) by (unfold state, word; destruct value; lia).
  split; [now apply issue_write_single_coil|]. split; [|split].
  - intros frame Hdata Hrange.
    rewrite (handleFC5_decodes _ _ encode Number_other model frame reply w write address state)
      by assumption.
    rewrite Hrange. unfold state. destruct value; reflexivity.
  - intros response H1 H2 H3. now apply echo_passes.
  - intros frame other Ho H0 H1 Hdata.
    rewrite (handleFC5_decodes _ _ encode Number_other model frame reply w write address other)
      by assumption.
    destruct (Z.eqb_spec other 0); [contradiction|].
    destruct (Z.eqb_spec other 65280); [contradiction|]. reflexivity.
Qed.

(** The coil at address 10 of a model with [writeSingleCoil], set. *)
Lemma write_single_coil_round_trip_witness :
  let frame := mkADU None 1 5 [0; 10; 255; 0] in
  ModbusSlave.handleFC5 Example.encode Example.Number_other Example.coil_writes frame
    (ModbusSlave.response frame) Example.world
  = (Resolved tt,
     ModbusSlave.mkWorld [(10, 1)] RtuApplicationLayer.initial [[1; 5; 0; 10; 255; 0; 172; 56]]).
Proof.
  cbv zeta.
  assert (H1 : word 10) by (unfold word; lia).
  assert (H2 : 1 <> 0) by lia.
  pose proof (write_single_coil_round_trip RtuLayer Example.client
                _ _ Example.encode Example.Number_other Example.coil_writes
                (ModbusSlave.response (mkADU None 1 5 [0; 10; 255; 0])) Example.world _
                1 10 1000 true [1; 5; 0; 10; 255; 0; 172; 56] RtuApplicationLayer.initial
                H1 H2 eq_refl) as H.
  cbv zeta in H. destruct (H eq_refl) as (_ & Hserver & _).
  rewrite (Hserver (mkADU None 1 5 [0; 10; 255; 0]) eq_refl eq_refl). reflexivity.
Defined.

(** X29: Write Single Register, from the client to the callback and
    back.  For a 16-bit address and a 16-bit value, the request method,
    once [encode] returned, registers its wait and returns a pending
    promise; the server, handed the PDU that the method built, refuses no
    value: it calls [writeSingleRegister] with that address and that value
    and then responds with the frame of the request when [checkRange]
    accepts the address, and responds with the exception
    ILLEGAL_DATA_ADDRESS when it does not; and a response with the four
    bytes of the request passes the pre-checks that the method
    registered. *)
Theorem write_single_register_round_trip
        (A : AbstractApplicationLayer) (c : ModbusMaster.Client A)
        (S L : Type) (encode : ApplicationDataUnit -> L -> option Buffer.t * L)
        (Number_other : string -> Z)
        (model : ModbusSlaveModel.t S) (reply : ModbusSlave.Reply S L) (w : ModbusSlave.World S L)
        (write : Z -> Z -> Async S Datatypes.unit)
        (u address value timeout : Z) (bytes : Buffer.t) (l' : layer_state A) :
  word address -> word value -> u <> 0 ->
  ModbusSlaveModel.writeSingleRegister model = Some write ->
  let pdu := [address / 256; address mod 256; value / 256; value mod 256] in
  let checks := [ModbusMaster.same_unit_fc u 6; ModbusMaster.exactly 4;
                 ModbusMaster.echoes pdu] in
  layer_encode A (mkADU None u 6 pdu) (ModbusMaster.layer c) = (Some bytes, l') ->
  ModbusMaster.issue (ModbusMaster.WriteSingleRegister u address value) timeout (Resolved tt) c
  = (ModbusMaster.mkClient A
       (layer_startWaitingResponse A (mkWaiting checks (fun _ => StopWaiting)) l')
       (ModbusMaster.written c ++ [bytes]) (Some timeout) (Datatypes.S (ModbusMaster.waits c)),
     ModbusMaster.Returned ModbusMaster.Pending)
  /\ (forall frame : ApplicationDataUnit,
         data frame = pdu ->
         ModbusSlave.handleFC6 encode Number_other model frame reply w
         = if checkRange (One address) (range_in model ModbusSlaveModel.holdingRegisters w) then
             ModbusSlave.catch
               (ModbusSlave.bind (ModbusSlave.call (write address value))
                  (fun _ => ModbusSlave.respond encode reply frame))
               (fun error => ModbusSlave.responseError encode Number_other frame reply error) w
           else
             ModbusSlave.responseError encode Number_other frame reply
               (ErrorCode.getErrorByCode ErrorCode.ILLEGAL_DATA_ADDRESS) w)
  /\ (forall response : Frame,
         unit response = u -> fc response = 6 -> data response = pdu ->
         forallb (passes response) checks = true).
Proof.
  intros Ha Hv Hu Hwrite pdu checks Henc.
  split; [now apply issue_write_single_register|]. split.
  - intros frame Hdata. now apply handleFC6_decodes.
  - intros response H1 H2 H3. now apply echo_passes.
Qed.

(** The register at address 10 of a model with [writeSingleRegister],
    written with 7. *)
Lemma write_single_register_round_trip_witness :
  let frame := mkADU None 1 6 [0; 10; 0; 7] in
  ModbusSlave.handleFC6 Example.encode Example.Number_other (Example.single_writes 99) frame
    (ModbusSlave.response frame) Example.world
  = (Resolved tt,
     ModbusSlave.mkWorld [(10, 7)] RtuApplicationLayer.initial [[1; 6; 0; 10; 0; 7; 232; 10]]).
Proof.
  cbv zeta.
  assert (H1 : word 10) by (unfold word; lia).
  assert (H2 : word 7) by (unfold word; lia).
  assert (H3 : 1 <> 0) by lia.
  pose proof (write_single_register_round_trip RtuLayer Example.client
                _ _ Example.encode Example.Number_other (Example.single_writes 99)
                (ModbusSlave.response (mkADU None 1 6 [0; 10; 0; 7])) Example.world _
                1 10 7 1000 [1; 6; 0; 10; 0; 7; 232; 10] RtuApplicationLayer.initial
                H1 H2 H3 eq_refl) as H.
  cbv zeta in H. destruct (H eq_refl) as (_ & Hserver & _).
  rewrite (Hserver (mkADU None 1 6 [0; 10; 0; 7]) eq_refl). reflexivity.
Defined.

(** ** Read/Write Multiple Registers on the server *)


(** The PDU of Read/Write Multiple Registers. *)
Lemma pdu_read_write (ra rl wa : Z) (values : list Z) :
  word ra -> word rl -> word wa -> Forall word values -> Buffer.len values * 2 <= 255 ->
  (b1 <- Buffer.writeUInt16BE ra 0 (Buffer.alloc (9 + Buffer.len values * 2)) ;;
   b2 <- Buffer.writeUInt16BE rl 2 b1 ;;
   b3 <- Buffer.writeUInt16BE wa 4 b2 ;;
   b4 <- Buffer.writeUInt16BE (Buffer.len values) 6 b3 ;;
   b5 <- Buffer.writeUInt8 (Buffer.len values * 2) 8 b4 ;;
   ModbusMaster.write_values values 9 b5)
  = Some (read_write_pdu ra rl wa values).
Proof.
  intros Hra Hrl Hwa Hv Hn. pose proof (len_nonneg values) as H0.
  rewrite alloc_add by lia. change (Buffer.alloc 9) with [0; 0; 0; 0; 0; 0; 0; 0; 0]. cbn [app].
  set (tail := Buffer.alloc (Buffer.len values * 2)).
  rewrite_at (writeUInt16BE_at [] 0 0 ra (0 :: 0 :: 0 :: 0 :: 0 :: 0 :: 0 :: tail) Hra).
  cbn [obind].
  rewrite_at (writeUInt16BE_at [ra / 256; ra mod 256] 0 0 rl (0 :: 0 :: 0 :: 0 :: 0 :: tail) Hrl).
  cbn [obind].
  rewrite_at (writeUInt16BE_at [ra / 256; ra mod 256; rl / 256; rl mod 256] 0 0 wa
                (0 :: 0 :: 0 :: tail) Hwa).
  cbn [obind].
  assert (Hw : word (Buffer.len values)) by (unfold word; lia).
  rewrite_at (writeUInt16BE_at [ra / 256; ra mod 256; rl / 256; rl mod 256;
                                wa / 256; wa mod 256] 0 0 (Buffer.len values)
                (0 :: tail) Hw).
  cbn [obind].
  assert (Hb : byte (Buffer.len values * 2)) by (unfold byte; lia).
  rewrite_at (writeUInt8_at [ra / 256; ra mod 256; rl / 256; rl mod 256;
                             wa / 256; wa mod 256;
                             Buffer.len values / 256; Buffer.len values mod 256]
                0 (Buffer.len values * 2) tail Hb).
  cbn [obind].
  pose proof (write_values_at values Hv
                [ra / 256; ra mod 256; rl / 256; rl mod 256; wa / 256; wa mod 256;
                 Buffer.len values / 256; Buffer.len values mod 256; Buffer.len values * 2]
                tail []) as E.
  rewrite !app_nil_r in E.
  cbn [app Buffer.len List.length Z.of_nat Pos.of_succ_nat Pos.succ] in E.
  apply E. fold (Buffer.len values).
  change (Z.of_nat (List.length tail)) with (Buffer.len tail).
  unfold tail. rewrite len_alloc; lia.
Qed.

Lemma read_write_pdu_bytes (ra rl wa : Z) (values : list Z) :
  word ra -> word rl -> word wa -> Forall word values -> Buffer.len values * 2 <= 255 ->
  Forall byte (read_write_pdu ra rl wa values).
Proof.
  intros Hra Hrl Hwa Hv Hn. pose proof (len_nonneg values) as H0. unfold read_write_pdu.
  apply Forall_app. split; [|now apply big_endian_bytes].
  assert (Hw : word (Buffer.len values)) by (unfold word; lia).
  repeat constructor; try (now apply div256_byte); try apply mod256_byte; lia.
Qed.

Lemma issue_read_write_registers (A : AbstractApplicationLayer) (c : ModbusMaster.Client A)
      (u ra rl wa timeout : Z) (values : list Z) (bytes : Buffer.t) (l' : layer_state A) :
  word ra -> word rl -> word wa -> Forall word values -> Buffer.len values * 2 <= 255 ->
  u <> 0 ->
  layer_encode A (mkADU None u 23 (read_write_pdu ra rl wa values)) (ModbusMaster.layer c)
  = (Some bytes, l') ->
  ModbusMaster.issue (ModbusMaster.ReadAndWriteMultipleRegisters u ra rl wa values) timeout
    (Resolved tt) c
  = (ModbusMaster.mkClient A
       (layer_startWaitingResponse A
          (mkWaiting [ModbusMaster.same_unit_fc u 23;
                      ModbusMaster.exactly (1 + Buffer.len values * 2);
                      ModbusMaster.first_is (Buffer.len values * 2)]
                     (fun _ => StopWaiting)) l')
       (ModbusMaster.written c ++ [bytes]) (Some timeout) (Datatypes.S (ModbusMaster.waits c)),
     ModbusMaster.Returned ModbusMaster.Pending).
Proof.
  intros Hra Hrl Hwa Hv Hn Hu Henc.
  cbn [ModbusMaster.issue]. unfold ModbusMaster.readAndWriteMultipleRegisters. cbv zeta.
  rewrite pdu_read_write by assumption.
  unfold ModbusMaster.encoded. rewrite Henc. unfold ModbusMaster.waitResponse.
  destruct (Z.eqb_spec u 0); [contradiction|]. reflexivity.
Qed.

Section ReadWriteRegisters.

Variables S L : Type.
Variable encode : ApplicationDataUnit -> L -> option Buffer.t * L.
Variable Number_other : string -> Z.

Lemma handleFC23_decodes
      (model : ModbusSlaveModel.t S) (frame : ApplicationDataUnit) (reply : ModbusSlave.Reply S L)
      (w : ModbusSlave.World S L) (read : Z -> Z -> Async S (list Z))
      (ra rl wa : Z) (values : list Z) :
  word ra -> 1 <= rl <= 125 -> word wa -> Forall word values -> 1 <= Buffer.len values <= 121 ->
  data frame = read_write_pdu ra rl wa values ->
  ModbusSlaveModel.readHoldingRegisters model = Some read ->
  present (ModbusSlaveModel.writeMultipleRegisters model)
  || present (ModbusSlaveModel.writeSingleRegister model) = true ->
  checkRange (Several [ra; ra + rl; wa; wa + Buffer.len values])
             (range_in model ModbusSlaveModel.holdingRegisters w) = true ->
  ModbusSlave.handleFC23 encode Number_other model frame reply w
  = ModbusSlave.catch
      (ModbusSlave.bind
         match ModbusSlaveModel.writeMultipleRegisters model,
               ModbusSlaveModel.writeSingleRegister model with
         | Some multiple, _ => ModbusSlave.call (multiple wa values)
         | None, Some single => ModbusSlave.all single wa values
         | None, None => @ModbusSlave.done S L
         end
         (fun _ =>
            ModbusSlave.bind (ModbusSlave.call (read ra rl))
              (fun registers => ModbusSlave.respond_registers encode frame reply rl registers)))
      (fun error => ModbusSlave.responseError encode Number_other frame reply error) w.
Proof.
  intros Hra Hrl Hwa Hv Hn Hdata Hread Hcb Hrange. pose proof (len_nonneg values) as H0.
  assert (Hrlw : word rl) by (unfold word; lia).
  assert (Hb : Forall byte (read_write_pdu ra rl wa values))
    by (apply read_write_pdu_bytes; auto; lia).
  assert (Hlen : Buffer.len (read_write_pdu ra rl wa values) = 9 + Buffer.len values * 2).
  { unfold read_write_pdu. rewrite len_app, len_big_endian.
    change (Buffer.len [_; _; _; _; _; _; _; _; _]) with 9. lia. }
  assert (Hw : word (Buffer.len values)) by (unfold word; lia).
  set (tail := flat_map big_endian values).
  assert (E0 : Buffer.readUInt16BE (read_write_pdu ra rl wa values) 0 = Some ra).
  { pose proof (readUInt16BE_at [] (ra / 256) (ra mod 256)
                  (rl / 256 :: rl mod 256 :: wa / 256 :: wa mod 256
                     :: Buffer.len values / 256 :: Buffer.len values mod 256
                     :: Buffer.len values * 2 :: tail)) as E.
    rewrite join256_be in E. exact E. }
  assert (E2 : Buffer.readUInt16BE (read_write_pdu ra rl wa values) 2 = Some rl).
  { pose proof (readUInt16BE_at [ra / 256; ra mod 256] (rl / 256) (rl mod 256)
                  (wa / 256 :: wa mod 256
                     :: Buffer.len values / 256 :: Buffer.len values mod 256
                     :: Buffer.len values * 2 :: tail)) as E.
    rewrite join256_be in E. exact E. }
  assert (E4 : Buffer.readUInt16BE (read_write_pdu ra rl wa values) 4 = Some wa).
  { pose proof (readUInt16BE_at [ra / 256; ra mod 256; rl / 256; rl mod 256]
                  (wa / 256) (wa mod 256)
                  (Buffer.len values / 256 :: Buffer.len values mod 256
                     :: Buffer.len values * 2 :: tail)) as E.
    rewrite join256_be in E. exact E. }
  assert (E6 : Buffer.readUInt16BE (read_write_pdu ra rl wa values) 6
               = Some (Buffer.len values)).
  { pose proof (readUInt16BE_at [ra / 256; ra mod 256; rl / 256; rl mod 256;
                                 wa / 256; wa mod 256]
                  (Buffer.len values / 256) (Buffer.len values mod 256)
                  (Buffer.len values * 2 :: tail)) as E.
    rewrite join256_be in E. exact E. }
  assert (Er : ModbusSlave.read_registers (read_write_pdu ra rl wa values) 9
                 (Z.to_nat (Buffer.len values)) = Some values).
  { pose proof (read_registers_at values Hv
                  [ra / 256; ra mod 256; rl / 256; rl mod 256; wa / 256; wa mod 256;
                   Buffer.len values / 256; Buffer.len values mod 256; Buffer.len values * 2]
                  []) as E.
    rewrite app_nil_r in E.
    replace (Z.to_nat (Buffer.len values)) with (List.length values)
      by (unfold Buffer.len; now rewrite Nat2Z.id).
    exact E. }
  unfold ModbusSlave.handleFC23. rewrite Hdata, Hlen, from_bytes by exact Hb.
  replace (Buffer.get (read_write_pdu ra rl wa values) 8) with (Buffer.len values * 2)
    by reflexivity.
  replace (9 + Buffer.len values * 2 >? 9) with true by (symmetry; apply Z.gtb_lt; lia).
  rewrite Z.eqb_refl, Hread. cbn [andb].
  destruct (ModbusSlaveModel.writeMultipleRegisters model) as [multiple|],
           (ModbusSlaveModel.writeSingleRegister model) as [single|];
    try discriminate Hcb;
    (unfold ModbusSlave.bind at 1; rewrite E0; cbn [ModbusSlave.node ModbusSlave.ret];
     unfold ModbusSlave.bind at 1; rewrite E4; cbn [ModbusSlave.node ModbusSlave.ret];
     unfold ModbusSlave.bind at 1; rewrite E2; cbn [ModbusSlave.node ModbusSlave.ret];
     unfold ModbusSlave.bind at 1; rewrite E6; cbn [ModbusSlave.node ModbusSlave.ret];
     replace ((rl >=? 1) && (rl <=? 125)
              && (Buffer.len values >=? 1) && (Buffer.len values <=? 121)
              && (Buffer.len values * 2 =? Buffer.len values * 2)) with true
       by (symmetry; rewrite Z.eqb_refl;
           destruct (Z.geb_spec rl 1), (Z.leb_spec rl 125),
             (Z.geb_spec (Buffer.len values) 1), (Z.leb_spec (Buffer.len values) 121);
           cbn [andb]; try reflexivity; lia);
     unfold ModbusSlave.bind at 1, ModbusSlave.addressRange;
     fold (range_in model ModbusSlaveModel.holdingRegisters w); rewrite Hrange;
     unfold ModbusSlave.bind at 1; rewrite Er; reflexivity).
Qed.

End ReadWriteRegisters.

(** X30: Read/Write Multiple Registers writes before it reads.  For
    16-bit addresses, 1 <= read_length <= 125 and 1 to 121 16-bit values,
    the request method, once [encode] returned, registers its wait and
    returns a pending promise; the server, handed the PDU that the method
    built and accepted by [checkRange], first writes those values at the
    write address ([writeMultipleRegisters], or else [writeSingleRegister]
    for each value): when the write rejects, [readHoldingRegisters] is not
    called and the response is the exception of the error; when the write
    resolves, [readHoldingRegisters] is called with the read address and
    the read length on the host that the write left, and its registers make
    the response. *)
Theorem read_write_registers_writes_first
        (A : AbstractApplicationLayer) (c : ModbusMaster.Client A)
        (S L : Type) (encode : ApplicationDataUnit -> L -> option Buffer.t * L)
        (Number_other : string -> Z)
        (model : ModbusSlaveModel.t S) (reply : ModbusSlave.Reply S L) (w : ModbusSlave.World S L)
        (read : Z -> Z -> Async S (list Z))
        (frame : ApplicationDataUnit)
        (u read_address read_length write_address timeout : Z) (values : list Z)
        (bytes : Buffer.t) (l' : layer_state A) :
  word read_address -> 1 <= read_length <= 125 -> word write_address ->
  Forall word values -> 1 <= Buffer.len values <= 121 -> u <> 0 ->
  let pdu :=
    [read_address / 256; read_address mod 256; read_length / 256; read_length mod 256;
     write_address / 256; write_address mod 256;
     Buffer.len values / 256; Buffer.len values mod 256;
     Buffer.len values * 2] ++ flat_map big_endian values in
  let write : ModbusSlave.M S L Datatypes.unit :=
    match ModbusSlaveModel.writeMultipleRegisters model,
          ModbusSlaveModel.writeSingleRegister model with
    | Some multiple, _ => ModbusSlave.call (multiple write_address values)
    | None, Some single => ModbusSlave.all single write_address values
    | None, None => @ModbusSlave.done S L
    end in
  layer_encode A (mkADU None u 23 pdu) (ModbusMaster.layer c) = (Some bytes, l') ->
  data frame = pdu ->
  ModbusSlaveModel.readHoldingRegisters model = Some read ->
  present (ModbusSlaveModel.writeMultipleRegisters model)
  || present (ModbusSlaveModel.writeSingleRegister model) = true ->
  checkRange (Several [read_address; read_address + read_length;
                       write_address; write_address + Buffer.len values])
             (range_in model ModbusSlaveModel.holdingRegisters w) = true ->
  ModbusMaster.issue
    (ModbusMaster.ReadAndWriteMultipleRegisters u read_address read_length write_address values)
    timeout (Resolved tt) c
  = (ModbusMaster.mkClient A
       (layer_startWaitingResponse A
          (mkWaiting [ModbusMaster.same_unit_fc u 23;
                      ModbusMaster.exactly (1 + Buffer.len values * 2);
                      ModbusMaster.first_is (Buffer.len values * 2)]
                     (fun _ => StopWaiting)) l')
       (ModbusMaster.written c ++ [bytes]) (Some timeout) (Datatypes.S (ModbusMaster.waits c)),
     ModbusMaster.Returned ModbusMaster.Pending)
  /\ (forall (e : Error) (w1 : ModbusSlave.World S L),
         write w = (Rejected e, w1) ->
         ModbusSlave.handleFC23 encode Number_other model frame reply w
         = ModbusSlave.responseError encode Number_other frame reply e w1)
  /\ (forall (w1 : ModbusSlave.World S L) (outcome : Result (list Z)) (s2 : S),
         write w = (Resolved tt, w1) ->
         read read_address read_length (ModbusSlave.host w1) = (outcome, s2) ->
         let w2 := ModbusSlave.mkWorld s2 (ModbusSlave.layer w1) (ModbusSlave.wire w1) in
         ModbusSlave.handleFC23 encode Number_other model frame reply w
         = match outcome with
           | Resolved registers =>
               ModbusSlave.catch
                 (ModbusSlave.respond_registers encode frame reply read_length registers)
                 (fun error => ModbusSlave.responseError encode Number_other frame reply error)
                 w2
           | Rejected e => ModbusSlave.responseError encode Number_other frame reply e w2
           end).
Proof.
  intros Hra Hrl Hwa Hv Hn Hu pdu write Henc Hdata Hread Hcb Hrange.
  assert (Hrlw : word read_length) by (unfold word; lia).
  split; [apply issue_read_write_registers; auto; lia|].
  pose proof (handleFC23_decodes _ _ encode Number_other model frame reply w read
                read_address read_length write_address values
                Hra Hrl Hwa Hv Hn Hdata Hread Hcb Hrange) as E.
  fold write in E. split.
  - intros e w1 Hw. rewrite E. unfold ModbusSlave.catch, ModbusSlave.bind at 1.
    rewrite Hw. reflexivity.
  - intros w1 outcome s2 Hw Hr w2. rewrite E.
    unfold ModbusSlave.catch, ModbusSlave.bind at 1. rewrite Hw.
    unfold ModbusSlave.bind at 1, ModbusSlave.call. rewrite Hr. fold w2.
    destruct outcome as [registers|e]; reflexivity.
Qed.

(** Two registers written at address 10 of a model whose read yields
    what was written, and two registers read. *)
Lemma read_write_registers_writes_first_witness :
  let frame := mkADU None 1 23 [0; 0; 0; 2; 0; 10; 0; 2; 4; 0; 5; 0; 6] in
  ModbusSlave.handleFC23 Example.encode Example.Number_other Example.write_then_read frame
    (ModbusSlave.response frame) Example.world
  = (Resolved tt,
     ModbusSlave.mkWorld [(10, 5); (10, 6)] RtuApplicationLayer.initial
       [[1; 23; 4; 0; 5; 0; 6; 105; 36]]).
Proof.
  cbv zeta.
  assert (H1 : word 0) by (unfold word; lia).
  assert (H2 : 1 <= 2 <= 125) by lia.
  assert (H3 : word 10) by (unfold word; lia).
  assert (H4 : Forall word [5; 6]) by (repeat constructor; unfold word; lia).
  assert (H5 : 1 <= Buffer.len [5; 6] <= 121) by (vm_compute; split; discriminate).
  assert (H6 : 1 <> 0) by lia.
  pose proof (read_write_registers_writes_first RtuLayer Example.client
                _ _ Example.encode Example.Number_other Example.write_then_read
                (ModbusSlave.response
                   (mkADU None 1 23 [0; 0; 0; 2; 0; 10; 0; 2; 4; 0; 5; 0; 6]))
                Example.world
                (fun (address length : Z) (s : Example.Host) => (Resolved (map snd s), s))
                (mkADU None 1 23 [0; 0; 0; 2; 0; 10; 0; 2; 4; 0; 5; 0; 6])
                1 0 2 10 1000 [5; 6]
                [1; 23; 0; 0; 0; 2; 0; 10; 0; 2; 4; 0; 5; 0; 6; 215; 60]
                RtuApplicationLayer.initial H1 H2 H3 H4 H5 H6) as H.
  cbv zeta in H.
  destruct (H eq_refl eq_refl eq_refl eq_refl eq_refl) as (_ & _ & Hread).
  pose proof (Hread (ModbusSlave.mkWorld [(10, 5); (10, 6)] RtuApplicationLayer.initial [])
                (Resolved [5; 6]) [(10, 5); (10, 6)] eq_refl eq_refl) as E.
  cbv zeta in E. rewrite E. reflexivity.
Defined.

(* ================================================================= *)
(** * Part IV: Read Coils, broadcast and rejections                   *)
(* ================================================================= *)

(** ** What checkRange refuses *)





Section ReadCoils.

Variables S L : Type.
Variable encode : ApplicationDataUnit -> L -> option Buffer.t * L.
Variable Number_other : string -> Z.


End ReadCoils.


(** ** Broadcast suppression *)

(** The PDU of Mask Write Register. *)
Lemma pdu_mask_write (address andMask orMask : Z) :
  word address -> word andMask -> word orMask ->
  (b1 <- Buffer.writeUInt16BE address 0 (Buffer.alloc 6) ;;
   b2 <- Buffer.writeUInt16BE andMask 2 b1 ;;
   Buffer.writeUInt16BE orMask 4 b2)
  = Some (big_endian address ++ big_endian andMask ++ big_endian orMask).
Proof.
  intros Ha Hm Ho. change (Buffer.alloc 6) with [0; 0; 0; 0; 0; 0].
  rewrite_at (writeUInt16BE_at [] 0 0 address [0; 0; 0; 0] Ha). cbn [obind].
  rewrite_at (writeUInt16BE_at [address / 256; address mod 256] 0 0 andMask [0; 0] Hm).
  cbn [obind].
  rewrite_at (writeUInt16BE_at [address / 256; address mod 256; andMask / 256; andMask mod 256]
                0 0 orMask [] Ho).
  reflexivity.
Qed.

(** The PDU of Write Multiple Coils, whenever its byte count is a byte. *)
Lemma pdu_coils (address : Z) (value : list bool) :
  word address -> byte (ModbusSlave.ceil8 (Z.of_nat (List.length value))) ->
  let n := Z.of_nat (List.length value) in
  (b1 <- Buffer.writeUInt16BE address 0 (Buffer.alloc (5 + ModbusSlave.ceil8 n)) ;;
   b2 <- Buffer.writeUInt16BE n 2 b1 ;;
   b3 <- Buffer.writeUInt8 (ModbusSlave.ceil8 n) 4 b2 ;;
   Some (ModbusMaster.set_bits value 5 0 b3))
  = Some ([address / 256; address mod 256; n / 256; n mod 256; ModbusSlave.ceil8 n]
            ++ ModbusSlave.pack_bits value 0 (Buffer.alloc (ModbusSlave.ceil8 n))).
Proof.
  intros Ha Hb n. fold n in Hb. unfold byte in Hb.
  pose proof (ceil8_is_ceiling n) as Hceil.
  assert (H0 : 0 <= n) by (unfold n; lia).
  rewrite alloc_add by lia. change (Buffer.alloc 5) with [0; 0; 0; 0; 0]. cbn [app].
  rewrite_at (writeUInt16BE_at [] 0 0 address
                (0 :: 0 :: 0 :: Buffer.alloc (ModbusSlave.ceil8 n)) Ha).
  cbn [obind].
  assert (Hw : word n) by (unfold word; lia).
  rewrite_at (writeUInt16BE_at [address / 256; address mod 256] 0 0 n
                (0 :: Buffer.alloc (ModbusSlave.ceil8 n)) Hw).
  cbn [obind].
  rewrite_at (writeUInt8_at [address / 256; address mod 256; n / 256; n mod 256]
                0 (ModbusSlave.ceil8 n) (Buffer.alloc (ModbusSlave.ceil8 n)) Hb).
  cbn [obind]. f_equal.
  apply (set_bits_pack value
           [address / 256; address mod 256; n / 256; n mod 256; ModbusSlave.ceil8 n]
           (Buffer.alloc (ModbusSlave.ceil8 n)) 0). lia.
Qed.

Lemma two_words_bytes (a b : Z) : word a -> word b -> Forall byte (big_endian a ++ big_endian b).
Proof.
  intros Ha Hb. unfold big_endian. cbn [app].
  repeat constructor; try (now apply div256_byte); apply mod256_byte.
Qed.

(** The PDU of a request that fits is made of bytes, and is short. *)
Lemma request_pdu_bytes (r : ModbusMaster.Request) :
  fits r ->
  byte (request_fc r) /\ Forall byte (request_pdu r) /\ Buffer.len (request_pdu r) <= 264.
Proof.
  intros H. split; [destruct r; cbn [request_fc]; unfold byte; lia|].
  destruct r; cbn [fits request_pdu] in *.
  1-4: (destruct H as (Ha & Hl); split; [now apply two_words_bytes | cbn; lia]).
  - assert (Hs : word (if value then 65280 else 0)) by (unfold word; destruct value; lia).
    split; [now apply two_words_bytes | cbn; lia].
  - destruct H as (Ha & Hv). split; [now apply two_words_bytes | cbn; lia].
  - destruct H as (Ha & Hb). set (n := Z.of_nat (List.length value)) in *.
    pose proof (ceil8_is_ceiling n) as Hceil. unfold byte in Hb.
    assert (Hw : word n) by (unfold word, n; lia).
    split.
    + apply Forall_app. split; [repeat constructor; try (now apply div256_byte); apply mod256_byte|].
      apply Forall_app. split; [repeat constructor; try (now apply div256_byte); apply mod256_byte|].
      constructor; [exact Hb|]. apply pack_bits_bytes, alloc_bytes.
    + rewrite !len_app, len_cons.
      destruct (pack_bits_alloc value (ModbusSlave.ceil8 n)) as (Hl & _); [lia|].
      rewrite Hl. change (Buffer.len (big_endian address)) with 2.
      change (Buffer.len (big_endian n)) with 2. lia.
  - destruct H as (Ha & Hv & Hb). unfold byte in Hb. split.
    + apply registers_pdu_bytes; auto; lia.
    + unfold registers_pdu. rewrite len_app, len_big_endian.
      change (Buffer.len [_; _; _; _; _]) with 5. lia.
  - split; [constructor | cbn; lia].
  - destruct H as (Ha & Hm & Ho). split.
    + apply Forall_app. split; [repeat constructor; try (now apply div256_byte); apply mod256_byte|].
      now apply two_words_bytes.
    + cbn. lia.
  - destruct H as (Hra & Hrl & Hwa & Hv & Hb). unfold byte in Hb. split.
    + apply read_write_pdu_bytes; auto; lia.
    + unfold read_write_pdu. rewrite len_app, len_big_endian.
      change (Buffer.len [_; _; _; _; _; _; _; _; _]) with 9. lia.
  - destruct H as (Hc & Hi). split; [|change (Buffer.len [_; _; _]) with 3; lia].
    constructor; [unfold byte; lia|]. constructor; [exact Hc|].
    constructor; [exact Hi | constructor].
Qed.

Section BroadcastRequests.

Variable A : AbstractApplicationLayer.

(** A broadcast request whose arguments fit, once [encode] returned and
    the transport has written. *)
Lemma issue_broadcast_fits (r : ModbusMaster.Request) (timeout : Z) (c : ModbusMaster.Client A)
      (bytes : Buffer.t) (l' : layer_state A) :
  ModbusMaster.request_unit r = 0 -> fits r ->
  layer_encode A (mkADU None 0 (request_fc r) (request_pdu r)) (ModbusMaster.layer c)
  = (Some bytes, l') ->
  ModbusMaster.issue r timeout (Resolved tt) c
  = (ModbusMaster.mkClient A l' (ModbusMaster.written c ++ [bytes]) (ModbusMaster.timer c)
       (ModbusMaster.waits c),
     ModbusMaster.Returned (ModbusMaster.Fulfilled None)).
Proof.
  intros Hu Hfits Henc.
  destruct r; cbn [ModbusMaster.request_unit] in Hu; subst;
    cbn [fits request_pdu request_fc] in *; cbn [ModbusMaster.issue];
    unfold ModbusMaster.readCoils, ModbusMaster.readDiscreteInputs,
      ModbusMaster.readHoldingRegisters, ModbusMaster.readInputRegisters,
      ModbusMaster.writeFC1Or2, ModbusMaster.writeFC3Or4,
      ModbusMaster.writeSingleCoil, ModbusMaster.writeSingleRegister,
      ModbusMaster.writeMultipleCoils, ModbusMaster.writeMultipleRegisters,
      ModbusMaster.reportServerId, ModbusMaster.maskWriteRegister,
      ModbusMaster.readAndWriteMultipleRegisters, ModbusMaster.readDeviceIdentification;
    cbv zeta.
  1-4: (destruct Hfits as (Ha & Hl); rewrite pdu_read by assumption).
  5: (rewrite pdu_read by (try assumption; unfold word; destruct value; lia)).
  6: (destruct Hfits as (Ha & Hv); rewrite pdu_read by assumption).
  7: (destruct Hfits as (Ha & Hb); rewrite pdu_coils by assumption).
  8: (destruct Hfits as (Ha & Hv & Hb); unfold byte in Hb;
      rewrite pdu_write_multiple_registers by (auto; lia)).
  10: (destruct Hfits as (Ha & Hm & Ho); rewrite pdu_mask_write by assumption).
  11: (destruct Hfits as (Hra & Hrl & Hwa & Hv & Hb); unfold byte in Hb;
       rewrite pdu_read_write by (auto; lia)).
  all: unfold ModbusMaster.encoded;
    match type of Henc with
    | ?lhs = _ =>
        match goal with
        | |- context [layer_encode A ?d ?s] => change (layer_encode A d s) with lhs
        end
    end;
    rewrite Henc; reflexivity.
Qed.

End BroadcastRequests.

(** The three layers encode every broadcast request that fits. *)
Lemma layers_encode_requests (r : ModbusMaster.Request) :
  fits r ->
  let d := mkADU None 0 (request_fc r) (request_pdu r) in
  (exists bytes, RtuApplicationLayer.encode d = Some bytes)
  /\ (exists bytes, AsciiApplicationLayer.encode d = Some bytes)
  /\ (forall s, word (TcpApplicationLayer._transactionId s) ->
                exists bytes, fst (TcpApplicationLayer.encode d s) = Some bytes).
Proof.
  intros H d. destruct (request_pdu_bytes r H) as (Hfc & Hb & Hlen).
  assert (Hwf : well_formed d).
  { unfold well_formed, d. cbn [unit fc data]. split; [unfold byte; lia | auto]. }
  split; [eexists; now apply Rtu_encode_bytes|].
  split; [eexists; now apply Ascii_encode_bytes|].
  intros s Hs. eexists. rewrite Tcp_encode_bytes; [reflexivity | exact Hwf | exact Hs |].
  unfold d. cbn [data]. lia.
Qed.

(** A PDU whose registers were written holds 16-bit registers. *)
Lemma write_values_Some (values : list Z) :
  forall (off : Z) (b b' : Buffer.t),
    ModbusMaster.write_values values off b = Some b' -> Forall word values.
Proof.
  induction values as [|v rest IH]; intros off b b' H; [constructor|].
  cbn [ModbusMaster.write_values] in H.
  destruct (Buffer.writeUInt16BE v off b) as [b1|] eqn:E; [|discriminate].
  cbn [obind] in H. constructor; [eapply writeUInt16BE_Some; eauto | eapply IH; eauto].
Qed.

(** An [encode] of the RTU layer that returns was given bytes. *)
Lemma Rtu_encode_Some (d : ApplicationDataUnit) (bytes : Buffer.t) :
  RtuApplicationLayer.encode d = Some bytes -> well_formed d.
Proof.
  unfold RtuApplicationLayer.encode.
  destruct (Buffer.writeUInt8 _ 0 _) as [b1|] eqn:E1; [|discriminate]. cbn [obind].
  destruct (Buffer.writeUInt8 _ 1 b1) as [b2|] eqn:E2; [|discriminate]. cbn [obind].
  destruct (Buffer.write_each _ 2 b2) as [b3|] eqn:E3; [|discriminate]. cbn [obind].
  intros _. apply writeUInt8_Some in E1, E2. apply write_each_Some in E3.
  unfold well_formed. auto.
Qed.

(** An [encode] of the ASCII layer that returns was given bytes. *)
Lemma Ascii_encode_Some (d : ApplicationDataUnit) (bytes : Buffer.t) :
  AsciiApplicationLayer.encode d = Some bytes -> well_formed d.
Proof.
  unfold AsciiApplicationLayer.encode.
  destruct (Buffer.writeUInt8 _ 0 _) as [b1|] eqn:E1; [|discriminate]. cbn [obind].
  destruct (Buffer.writeUInt8 _ 1 b1) as [b2|] eqn:E2; [|discriminate]. cbn [obind].
  destruct (Buffer.write_each _ 2 b2) as [b3|] eqn:E3; [|discriminate]. cbn [obind].
  intros _. apply writeUInt8_Some in E1, E2. apply write_each_Some in E3.
  unfold well_formed. auto.
Qed.

Section ReturnedRequests.

Variable A : AbstractApplicationLayer.

(** The layer encodes bytes only. *)
Hypothesis encodes_bytes :
  forall d s bytes, fst (layer_encode A d s) = Some bytes -> Forall byte (data d).

(** A request method that returns was given arguments that fit. *)
Lemma returned_fits (r : ModbusMaster.Request) (timeout : Z) (flushed : Result Datatypes.unit)
      (c : ModbusMaster.Client A) (p : ModbusMaster.Promise) :
  snd (ModbusMaster.issue r timeout flushed c) = ModbusMaster.Returned p -> fits r.
Proof.
  destruct r; cbn [ModbusMaster.issue fits];
    unfold ModbusMaster.readCoils, ModbusMaster.readDiscreteInputs,
      ModbusMaster.readHoldingRegisters, ModbusMaster.readInputRegisters,
      ModbusMaster.writeFC1Or2, ModbusMaster.writeFC3Or4,
      ModbusMaster.writeSingleCoil, ModbusMaster.writeSingleRegister,
      ModbusMaster.writeMultipleCoils, ModbusMaster.writeMultipleRegisters,
      ModbusMaster.reportServerId, ModbusMaster.maskWriteRegister,
      ModbusMaster.readAndWriteMultipleRegisters, ModbusMaster.readDeviceIdentification;
    cbv zeta; unfold ModbusMaster.encoded.
  12: { destruct (layer_encode A _ (ModbusMaster.layer c)) as [[bytes|] l'] eqn:E;
          [|discriminate].
        intros _. pose proof (encodes_bytes _ _ bytes (f_equal fst E)) as Hb.
        cbn [data fst] in Hb. inversion Hb as [|? ? _ Hb1]. inversion Hb1 as [|? ? Hc Hb2].
        inversion Hb2 as [|? ? Hi _]. split; assumption. }
  9: { intros _. exact I. }
  all: repeat match goal with
         | |- context [obind (Buffer.writeUInt16BE ?v ?o ?b) _] =>
             let E := fresh "E" in
             destruct (Buffer.writeUInt16BE v o b) eqn:E; cbn [obind];
             [apply writeUInt16BE_Some in E | discriminate]
         | |- context [obind (Buffer.writeUInt8 ?v ?o ?b) _] =>
             let E := fresh "E" in
             destruct (Buffer.writeUInt8 v o b) eqn:E; cbn [obind];
             [apply writeUInt8_Some in E | discriminate]
         | |- context [match Buffer.writeUInt16BE ?v ?o ?b with _ => _ end] =>
             let E := fresh "E" in
             destruct (Buffer.writeUInt16BE v o b) eqn:E;
             [apply writeUInt16BE_Some in E | discriminate]
         | |- context [match ModbusMaster.write_values ?v ?o ?b with _ => _ end] =>
             let E := fresh "E" in
             destruct (ModbusMaster.write_values v o b) eqn:E;
             [apply write_values_Some in E | discriminate]
         end;
    intros _; auto.
Qed.

End ReturnedRequests.

(** C3, as stated, fails: Write Single Register to unit 0 with the
    value 65536 returns no operation that could resolve: [writeUInt16BE]
    throws, the request method throws with it, and nothing is written. *)
Lemma broadcast_request_throws :
  ModbusMaster.issue (ModbusMaster.WriteSingleRegister 0 4 65536) 1000 (Resolved tt) Example.client
  = (Example.client, ModbusMaster.Threw).
Proof. reflexivity. Qed.

(** C3 (amended): for a frame with unit 0 the reply closure that the
    server builds does nothing, and serving the frame, whatever the models,
    the function code and the callbacks do, hands nothing to the transport;
    and a client request with unit 0, once the transport write has
    completed, has registered no wait and no timer and left the wait of the
    layer as it was: either the request method threw before writing
    anything, or it wrote once and returned a promise that is resolved with
    no frame.  When the arguments of the request fit the fields of its PDU
    it is the latter, given that [encode] returns for that PDU: the method
    writes the bytes of [encode] once and returns the resolved promise.
    On the RTU layer, on the ASCII layer and on the MBAP layer (with a
    16-bit counter), the method returns the resolved promise exactly when
    the arguments fit; when they do not, it throws. *)
Theorem broadcast_suppression
        (S L : Type) (encode : ApplicationDataUnit -> L -> option Buffer.t * L)
        (Number_other : string -> Z)
        (models : ModbusSlave.Models S) (frame : Frame) (w : ModbusSlave.World S L)
        (A : AbstractApplicationLayer) (r : ModbusMaster.Request) (timeout : Z)
        (c : ModbusMaster.Client A) :
  unit frame = 0 ->
  ModbusMaster.request_unit r = 0 ->
  (forall bytes (w' : ModbusSlave.World S L),
      ModbusSlave.response frame bytes w' = (Resolved tt, w'))
  /\ ModbusSlave.wire (snd (ModbusSlave.onFraming encode Number_other models frame w))
     = ModbusSlave.wire w
  /\ silent_request c (ModbusMaster.issue r timeout (Resolved tt) c)
  /\ (fits r ->
      forall bytes l',
        layer_encode A (mkADU None 0 (request_fc r) (request_pdu r)) (ModbusMaster.layer c)
        = (Some bytes, l') ->
        ModbusMaster.issue r timeout (Resolved tt) c
        = (ModbusMaster.mkClient A l' (ModbusMaster.written c ++ [bytes])
             (ModbusMaster.timer c) (ModbusMaster.waits c),
           ModbusMaster.Returned (ModbusMaster.Fulfilled None)))
  /\ (forall c0 : ModbusMaster.Client RtuLayer,
         snd (ModbusMaster.issue r timeout (Resolved tt) c0)
         = ModbusMaster.Returned (ModbusMaster.Fulfilled None)
         <-> fits r)
  /\ (forall c0 : ModbusMaster.Client AsciiLayer,
         snd (ModbusMaster.issue r timeout (Resolved tt) c0)
         = ModbusMaster.Returned (ModbusMaster.Fulfilled None)
         <-> fits r)
  /\ (forall c0 : ModbusMaster.Client TcpLayer,
         word (TcpApplicationLayer._transactionId (ModbusMaster.layer c0)) ->
         snd (ModbusMaster.issue r timeout (Resolved tt) c0)
         = ModbusMaster.Returned (ModbusMaster.Fulfilled None)
         <-> fits r).
Proof.
  intros Hframe Hrequest.
  split; [intros bytes w'; apply response_broadcast; exact Hframe|].
  split; [apply onFraming_broadcast; exact Hframe|].
  split; [apply issue_broadcast; exact Hrequest|].
  split; [intros Hfits bytes l'; now apply issue_broadcast_fits|].
  split; [|split].
  - intros c0. split.
    + apply returned_fits. intros d s bytes H. cbn [layer_encode RtuLayer fst] in H.
      now apply Rtu_encode_Some in H as (_ & _ & Hd).
    + intros Hfits. destruct (layers_encode_requests r Hfits) as ((b1 & E1) & _).
      rewrite (issue_broadcast_fits RtuLayer r timeout c0 b1 (ModbusMaster.layer c0)
                 Hrequest Hfits); [reflexivity|].
      cbn [layer_encode RtuLayer]. now rewrite E1.
  - intros c0. split.
    + apply returned_fits. intros d s bytes H. cbn [layer_encode AsciiLayer fst] in H.
      now apply Ascii_encode_Some in H as (_ & _ & Hd).
    + intros Hfits. destruct (layers_encode_requests r Hfits) as (_ & (b2 & E2) & _).
      rewrite (issue_broadcast_fits AsciiLayer r timeout c0 b2 (ModbusMaster.layer c0)
                 Hrequest Hfits); [reflexivity|].
      cbn [layer_encode AsciiLayer]. now rewrite E2.
  - intros c0 Hs. split.
    + apply returned_fits. intros d s bytes H. cbn [layer_encode TcpLayer] in H.
      now apply Tcp_encode_Some in H as ((_ & _ & Hd) & _).
    + intros Hfits. destruct (layers_encode_requests r Hfits) as (_ & _ & E3).
      destruct (E3 (ModbusMaster.layer c0) Hs) as (b3 & E).
      destruct (TcpApplicationLayer.encode (mkADU None 0 (request_fc r) (request_pdu r))
                  (ModbusMaster.layer c0)) as [o l'] eqn:Eenc.
      cbn [fst] in E. subst o.
      now rewrite (issue_broadcast_fits TcpLayer r timeout c0 b3 l' Hrequest Hfits Eenc).
Qed.

(** A broadcast Read Coils at a server with two models, and a broadcast
    Write Single Register of a client on the RTU layer. *)
Lemma broadcast_suppression_witness :
  let frame := mkFrame (mkADU None 0 1 [0; 19; 0; 19]) [0; 1; 0; 19; 0; 19; 141; 211] in
  ModbusSlave.wire (snd (ModbusSlave.onFraming Example.encode Example.Number_other
                     [(1, Example.coils_only); (2, Example.registers_only)]
                     frame Example.world)) = []
  /\ ModbusMaster.issue (ModbusMaster.WriteSingleRegister 0 4 7) 1000 (Resolved tt) Example.client
     = (ModbusMaster.mkClient RtuLayer RtuApplicationLayer.initial [[0; 6; 0; 4; 0; 7; 136; 24]]
          None 0,
        ModbusMaster.Returned (ModbusMaster.Fulfilled None)).
Proof.
  cbv zeta.
  destruct (broadcast_suppression _ _ Example.encode Example.Number_other
              [(1, Example.coils_only); (2, Example.registers_only)]
              (mkFrame (mkADU None 0 1 [0; 19; 0; 19]) [0; 1; 0; 19; 0; 19; 141; 211])
              Example.world RtuLayer (ModbusMaster.WriteSingleRegister 0 4 7) 1000 Example.client
              eq_refl eq_refl) as (_ & Hwire & _ & Hissue & _).
  split; [exact Hwire|].
  assert (H : fits (ModbusMaster.WriteSingleRegister 0 4 7)) by (cbn; unfold word; lia).
  apply (Hissue H [0; 6; 0; 4; 0; 7; 136; 24] RtuApplicationLayer.initial).
  vm_compute. reflexivity.
Defined.

(** ** The exception code of a rejection, for every callback *)

(** *** Strings with a prefix *)






Section Rejections.

Variables S L : Type.
Variable encode : ApplicationDataUnit -> L -> option Buffer.t * L.
Variable Number_other : string -> Z.











End Rejections.


